(** * netdumpd: a shallow embedding of the session handling of netdumpd.c

    The daemon is single threaded.  Its state is the set of global
    variables of netdumpd.c together with the heap-allocated
    [struct netdump_client] objects that hang off the intrusive list
    [g_clients].  Every interaction with the outside (system calls, the
    casper channels, the log hook, the clock) goes through one primitive,
    [sys], which asks an environment for the reply and records the call
    and its reply in a trace.  All statements below are quantified over
    the environment, so they hold for every behaviour of the kernel, the
    donors and the helpers. *)

From Stdlib Require Import ZArith List String Ascii Bool Lia DecimalString.
From Stdlib Require DecimalNat DecimalFacts.
Import ListNotations.
Local Open Scope Z_scope.

(** ** Machine integers *)

Definition wrap64 (x : Z) : Z := x mod 2 ^ 64.            (* uint64_t, size_t *)
Definition wrap32 (x : Z) : Z := x mod 2 ^ 32.            (* uint32_t *)
Definition signed32 (x : Z) : Z :=                        (* int *)
  let u := wrap32 x in if u <? 2 ^ 31 then u else u - 2 ^ 32.
Definition signed64 (x : Z) : Z :=                        (* off_t, ssize_t, time_t *)
  let u := wrap64 x in if u <? 2 ^ 63 then u else u - 2 ^ 64.

(** A byte is kept as its value, 0..255. *)
Definition uint8 := Z.

(** htonl: the four bytes of a 32-bit value as they go on the wire. *)
Definition htonl (x : Z) : list uint8 :=
  [ (x / 2 ^ 24) mod 256; (x / 2 ^ 16) mod 256; (x / 2 ^ 8) mod 256; x mod 256 ].

Definition ntohl (bs : list uint8) : Z :=
  match bs with
  | [b3; b2; b1; b0] => b3 * 2 ^ 24 + b2 * 2 ^ 16 + b1 * 2 ^ 8 + b0
  | _ => 0
  end.

(** ** Constants of netdumpd.c and of the system headers it names *)

Definition MAX_DUMPS : nat := 256.
Definition CLIENT_TIMEOUT : Z := 600.
Definition CLIENT_TPASS : Z := 10.
Definition VMCORE_BUFSZ : Z := 128 * 1024.

Definition MAXPATHLEN : nat := 1024.                      (* sys/param.h *)
Definition ENOENT : Z := 2.                               (* sys/errno.h *)
Definition EINTR : Z := 4.
Definition EEXIST : Z := 17.
Definition EAGAIN : Z := 35.

Inductive kfilter := EVFILT_READ | EVFILT_SIGNAL | EVFILT_other (n : Z).

Inductive oflag := O_WRONLY | O_RDWR | O_CREAT | O_EXCL | O_CLOEXEC.

Inductive loglevel := LOG_ERR | LOG_WARNING | LOG_INFO.

(** ** Data *)

(** Address of a [struct netdump_client]. *)
Definition ptr := positive.

(** struct netdump_pkt, header fields in host order (after ndtoh). *)
Record netdump_pkt := mkPkt {
  mh_type : Z;
  mh_seqno : Z;
  mh_offset : Z;
  mh_len : Z;
  data : list uint8
}.

(** struct netdump_client.  [infofile] is the FILE pointer (None is NULL,
    Some fd the stream fdopen made over fd); [vmcorebuf] is the whole
    array of VMCORE_BUFSZ bytes. *)
Record netdump_client := mkClient {
  path : string;
  infofilename : string;
  corefilename : string;
  hostname : string;
  last_msg : Z;
  ip : Z;
  infofile : option Z;
  corefd : Z;
  sock : Z;
  any_data_rcvd : bool;
  vmcorebufoff : Z;
  vmcoreoff : Z;
  vmcorebuf : list uint8
}.

Definition set_infofilename (s : string) (c : netdump_client) :=
  mkClient (path c) s (corefilename c) (hostname c) (last_msg c) (ip c)
    (infofile c) (corefd c) (sock c) (any_data_rcvd c) (vmcorebufoff c)
    (vmcoreoff c) (vmcorebuf c).
Definition set_corefilename (s : string) (c : netdump_client) :=
  mkClient (path c) (infofilename c) s (hostname c) (last_msg c) (ip c)
    (infofile c) (corefd c) (sock c) (any_data_rcvd c) (vmcorebufoff c)
    (vmcoreoff c) (vmcorebuf c).
Definition set_path (s : string) (c : netdump_client) :=
  mkClient s (infofilename c) (corefilename c) (hostname c) (last_msg c) (ip c)
    (infofile c) (corefd c) (sock c) (any_data_rcvd c) (vmcorebufoff c)
    (vmcoreoff c) (vmcorebuf c).
Definition set_hostname (s : string) (c : netdump_client) :=
  mkClient (path c) (infofilename c) (corefilename c) s (last_msg c) (ip c)
    (infofile c) (corefd c) (sock c) (any_data_rcvd c) (vmcorebufoff c)
    (vmcoreoff c) (vmcorebuf c).
Definition set_ip (a : Z) (c : netdump_client) :=
  mkClient (path c) (infofilename c) (corefilename c) (hostname c) (last_msg c)
    a (infofile c) (corefd c) (sock c) (any_data_rcvd c) (vmcorebufoff c)
    (vmcoreoff c) (vmcorebuf c).
Definition set_sock (sd : Z) (c : netdump_client) :=
  mkClient (path c) (infofilename c) (corefilename c) (hostname c) (last_msg c)
    (ip c) (infofile c) (corefd c) sd (any_data_rcvd c) (vmcorebufoff c)
    (vmcoreoff c) (vmcorebuf c).
Definition set_last_msg (t : Z) (c : netdump_client) :=
  mkClient (path c) (infofilename c) (corefilename c) (hostname c) t (ip c)
    (infofile c) (corefd c) (sock c) (any_data_rcvd c) (vmcorebufoff c)
    (vmcoreoff c) (vmcorebuf c).
Definition set_infofile (f : option Z) (c : netdump_client) :=
  mkClient (path c) (infofilename c) (corefilename c) (hostname c) (last_msg c)
    (ip c) f (corefd c) (sock c) (any_data_rcvd c) (vmcorebufoff c)
    (vmcoreoff c) (vmcorebuf c).
Definition set_corefd (fd : Z) (c : netdump_client) :=
  mkClient (path c) (infofilename c) (corefilename c) (hostname c) (last_msg c)
    (ip c) (infofile c) fd (sock c) (any_data_rcvd c) (vmcorebufoff c)
    (vmcoreoff c) (vmcorebuf c).
Definition set_any_data_rcvd (b : bool) (c : netdump_client) :=
  mkClient (path c) (infofilename c) (corefilename c) (hostname c) (last_msg c)
    (ip c) (infofile c) (corefd c) (sock c) b (vmcorebufoff c)
    (vmcoreoff c) (vmcorebuf c).
Definition set_vmcorebufoff (n : Z) (c : netdump_client) :=
  mkClient (path c) (infofilename c) (corefilename c) (hostname c) (last_msg c)
    (ip c) (infofile c) (corefd c) (sock c) (any_data_rcvd c) n
    (vmcoreoff c) (vmcorebuf c).
Definition set_vmcoreoff (n : Z) (c : netdump_client) :=
  mkClient (path c) (infofilename c) (corefilename c) (hostname c) (last_msg c)
    (ip c) (infofile c) (corefd c) (sock c) (any_data_rcvd c) (vmcorebufoff c)
    n (vmcorebuf c).
Definition set_vmcorebuf (b : list uint8) (c : netdump_client) :=
  mkClient (path c) (infofilename c) (corefilename c) (hostname c) (last_msg c)
    (ip c) (infofile c) (corefd c) (sock c) (any_data_rcvd c) (vmcorebufoff c)
    (vmcoreoff c) b.

(** ** Calls to the outside and their replies *)

(** An argument of a printf-style format; the formatting itself is left
    to the callee.  [AKdh f h] is field [f] of the kernel dump header
    that the bytes [h] hold. *)
Inductive arg :=
| AStr (s : string)
| AInt (z : Z)
| AIp (a : Z)                       (* inet_ntoa *)
| AErr (e : Z)                      (* strerror, gai_strerror *)
| AKdh (field : string) (h : list uint8).

Inductive nvvalue := NvStr (s : string) | NvIp (a : Z).

(** What netdump_cap_herald hands back. *)
Record herald_reply := mkHerald {
  h_error : Z; h_sd : Z; h_saddr : Z; h_seqno : Z; h_path : string
}.

(** What recv leaves behind: its return value, errno, and the buffer. *)
Record recv_reply := mkRecv { r_len : Z; r_errno : Z; r_pkt : netdump_pkt }.

Record kevent_t := mkKev { filter : kfilter; ident : Z; udata : ptr }.

Record kevent_reply := mkKq { k_rc : Z; k_errno : Z; k_events : list kevent_t }.

(** A reply [(rv, e)] is the return value and, when the call failed, the
    value it left in errno.  cap_xfer_nvlist replies [inl e] for NULL with
    errno [e], and [inr n] for an nvlist whose number "error", if it has
    one, is [n].  openat, unlinkat and symlinkat name the directory
    descriptor from which the path is looked up; unlink names none, its
    path is looked up from the working directory. *)
Inductive call : Type -> Type :=
| Calloc : call bool
| Clock_time : call Z
| Log (lvl : loglevel) (fmt : string) (args : list arg) : call unit
| Fprintf (stream : Z) (fmt : string) (args : list arg) : call unit
| Fflush (stream : Z) : call unit
| Fdopen (fd : Z) : call (bool * Z)
| Fclose (stream : Z) : call unit
| Close (fd : Z) : call unit
| Openat (dirfd : Z) (name : string) (flags : list oflag) : call (Z * Z)
| Unlink (name : string) : call (Z * Z)
| Unlinkat (dirfd : Z) (name : string) : call (Z * Z)
| Symlinkat (target : string) (dirfd : Z) (linkname : string) : call (Z * Z)
| Pwrite (fd : Z) (buf : list uint8) (off : Z) : call (Z * Z)
| Fsync (fd : Z) : call unit
| Send (sd : Z) (dgram : list uint8) : call (Z * Z)
| Recv (sd : Z) : call recv_reply
| Setsockopt_rcvbuf (sd : Z) (bufsz : Z) : call (Z * Z)
| Kevent_add (sd : Z) (udata : ptr) : call (Z * Z)
| Kevent_delete (sd : Z) : call (Z * Z)
| Kevent_wait (nevents : Z) (timeout_sec : Z) : call kevent_reply
| Cap_getnameinfo (addr : Z) (namereqd : bool) : call (Z * string)
| Cap_herald : call herald_reply
| Cap_xfer_nvlist (nvl : list (string * nvvalue)) : call (Z + option Z).

Inductive event := Ev : forall X, call X -> X -> event.
Arguments Ev {X} _ _.

(** ** The state of the daemon *)

(** [g_clients] is the list in list order; an address is that of a live
    client exactly when it is on the list.  [brk] is the address the next
    calloc hands out.  [trace] is every call made so far with its reply,
    oldest first. *)
Record world := mkWorld {
  g_clients : list (ptr * netdump_client);
  g_caphandler : bool;
  g_sock : Z;
  g_now : Z;
  g_last_timeout_check : Z;
  errno : Z;
  brk : ptr;
  trace : list event
}.

Definition set_clients (l : list (ptr * netdump_client)) (w : world) :=
  mkWorld l (g_caphandler w) (g_sock w) (g_now w) (g_last_timeout_check w)
    (errno w) (brk w) (trace w).
Definition set_now (t : Z) (w : world) :=
  mkWorld (g_clients w) (g_caphandler w) (g_sock w) t (g_last_timeout_check w)
    (errno w) (brk w) (trace w).
Definition set_last_timeout_check (t : Z) (w : world) :=
  mkWorld (g_clients w) (g_caphandler w) (g_sock w) (g_now w) t
    (errno w) (brk w) (trace w).
Definition set_errno (e : Z) (w : world) :=
  mkWorld (g_clients w) (g_caphandler w) (g_sock w) (g_now w)
    (g_last_timeout_check w) e (brk w) (trace w).
Definition set_brk (p : ptr) (w : world) :=
  mkWorld (g_clients w) (g_caphandler w) (g_sock w) (g_now w)
    (g_last_timeout_check w) (errno w) p (trace w).
Definition log_event (e : event) (w : world) :=
  mkWorld (g_clients w) (g_caphandler w) (g_sock w) (g_now w)
    (g_last_timeout_check w) (errno w) (brk w) (trace w ++ [e]).

(** ** The monad: state, and undefined behaviour as a crash *)

Inductive fault :=
| UseAfterFree (p : ptr)        (* access through a freed client pointer *)
| NullStream                    (* stdio call on a NULL FILE pointer *)
| BufferOverrun (p : ptr).      (* memcpy past the end of vmcorebuf *)

Inductive outcome (A : Type) := Done (a : A) | Crash (f : fault).
Arguments Done {A} a.
Arguments Crash {A} f.

Definition M (A : Type) := world -> outcome A * world.

Definition ret {A} (a : A) : M A := fun w => (Done a, w).
Definition bind {A B} (m : M A) (k : A -> M B) : M B :=
  fun w => match m w with
           | (Done a, w') => k a w'
           | (Crash f, w') => (Crash f, w')
           end.
Definition crash {A} (f : fault) : M A := fun w => (Crash f, w).
Definition gets {A} (f : world -> A) : M A := fun w => (Done (f w), w).
Definition modify (f : world -> world) : M unit := fun w => (Done tt, f w).

Declare Scope m_scope.
Delimit Scope m_scope with m.
Notation "x <- m ;; k" := (bind m (fun x => k))
  (at level 100, m at next level, right associativity) : m_scope.
Notation "m ;;; k" := (bind m (fun _ => k))
  (at level 100, right associativity) : m_scope.
Local Open Scope m_scope.

(** The list as a store of clients. *)
Fixpoint lookup (p : ptr) (l : list (ptr * netdump_client)) : option netdump_client :=
  match l with
  | [] => None
  | (q, c) :: l' => if Pos.eqb p q then Some c else lookup p l'
  end.

Fixpoint update (p : ptr) (f : netdump_client -> netdump_client)
    (l : list (ptr * netdump_client)) : list (ptr * netdump_client) :=
  match l with
  | [] => []
  | (q, c) :: l' => if Pos.eqb p q then (q, f c) :: l' else (q, c) :: update p f l'
  end.

Fixpoint remove (p : ptr) (l : list (ptr * netdump_client)) : list (ptr * netdump_client) :=
  match l with
  | [] => []
  | (q, c) :: l' => if Pos.eqb p q then l' else (q, c) :: remove p l'
  end.

(** Reading and writing through a client pointer. *)
Definition deref (p : ptr) : M netdump_client :=
  fun w => match lookup p (g_clients w) with
           | Some c => (Done c, w)
           | None => (Crash (UseAfterFree p), w)
           end.

Definition assign (p : ptr) (f : netdump_client -> netdump_client) : M unit :=
  c <- deref p ;; modify (fun w => set_clients (update p f (g_clients w)) w).

(** ** String helpers *)

(** snprintf into a buffer of [size] bytes keeps at most [size - 1]
    characters. *)
Definition snprintf (size : nat) (s : string) : string :=
  substring 0 (size - 1) s.

Definition decimal (n : nat) : string := NilZero.string_of_uint (Nat.to_uint n).

(** Cut a host name at its first dot (strchr and a NUL store). *)
Fixpoint strip_domain (s : string) : string :=
  match s with
  | EmptyString => EmptyString
  | String a s' => if Ascii.eqb a "."%char then EmptyString else String a (strip_domain s')
  end.

Definition info_name (dir host : string) (i : nat) : string :=
  snprintf MAXPATHLEN (dir ++ "/info." ++ host ++ "." ++ decimal i)%string.
Definition core_name (dir host : string) (i : nat) : string :=
  snprintf MAXPATHLEN (dir ++ "/vmcore." ++ host ++ "." ++ decimal i)%string.
Definition info_last (dir host : string) : string :=
  snprintf MAXPATHLEN (dir ++ "/info." ++ host ++ ".last")%string.
Definition core_last (dir host : string) : string :=
  snprintf MAXPATHLEN (dir ++ "/vmcore." ++ host ++ ".last")%string.

(** memcpy(buf + off, src, len) on an array kept as a list. *)
Definition memcpy_at (buf : list uint8) (off : Z) (src : list uint8) (len : Z) : list uint8 :=
  firstn (Z.to_nat off) buf ++ firstn (Z.to_nat len) src
    ++ skipn (Z.to_nat (off + len)) buf.

(** What calloc returns: every field zero. *)
Definition zero_buf : list uint8 := repeat 0 (Z.to_nat VMCORE_BUFSZ).
Global Opaque zero_buf.
Definition zero_client : netdump_client :=
  mkClient EmptyString EmptyString EmptyString EmptyString 0 0 None 0 0 false
    0 0 zero_buf.

(** * A scripted environment

    To run the program on a concrete input the environment is played
    from a script: the heralds the herald worker hands over, the
    datagrams recv returns, the readings of the clock and the replies of
    kevent, each taken in turn, and the positions in the trace at which a
    call fails, with the errno it leaves.  Every other call succeeds. *)

Definition count_ev (f : event -> bool) (h : list event) : nat :=
  List.length (List.filter f h).

Definition is_recv (e : event) : bool :=
  match e with Ev (Recv _) _ => true | _ => false end.
Definition is_herald (e : event) : bool :=
  match e with Ev Cap_herald _ => true | _ => false end.
Definition is_clock (e : event) : bool :=
  match e with Ev Clock_time _ => true | _ => false end.
Definition is_wait (e : event) : bool :=
  match e with Ev (Kevent_wait _ _) _ => true | _ => false end.

Fixpoint failing (n : nat) (fails : list (nat * Z)) : option Z :=
  match fails with
  | [] => None
  | (k, e) :: rest => if Nat.eqb k n then Some e else failing n rest
  end.

Record script := mkScript {
  sc_heralds : list herald_reply;
  sc_packets : list recv_reply;
  sc_clock : list Z;
  sc_wakes : list kevent_reply;
  sc_fails : list (nat * Z)
}.

Definition no_pkt : netdump_pkt := mkPkt 0 0 0 0 [].

Definition play (s : script) : forall X, list event -> call X -> X :=
  fun X h c =>
    let bad := failing (List.length h) (sc_fails s) in
    let rv (ok : Z) : Z * Z :=
      match bad with Some e => (-1, e) | None => (ok, 0) end in
    match c in call X return X with
    | Calloc => match bad with Some _ => false | None => true end
    | Clock_time => nth (count_ev is_clock h) (sc_clock s) 0
    | Log _ _ _ => tt
    | Fprintf _ _ _ => tt
    | Fflush _ => tt
    | Fdopen _ => match bad with Some e => (false, e) | None => (true, 0) end
    | Fclose _ => tt
    | Close _ => tt
    | Openat _ _ _ => rv (100 + Z.of_nat (List.length h))
    | Unlink _ => rv 0
    | Unlinkat _ _ => rv 0
    | Symlinkat _ _ _ => rv 0
    | Pwrite _ buf _ => rv (Z.of_nat (List.length buf))
    | Fsync _ => tt
    | Send _ dgram => rv (Z.of_nat (List.length dgram))
    | Recv _ => nth (count_ev is_recv h) (sc_packets s) (mkRecv (-1) EAGAIN no_pkt)
    | Setsockopt_rcvbuf _ _ => rv 0
    | Kevent_add _ _ => rv 0
    | Kevent_delete _ => rv 0
    | Kevent_wait _ _ => nth (count_ev is_wait h) (sc_wakes s) (mkKq 0 0 [])
    | Cap_getnameinfo _ _ =>
      match bad with Some e => (e, EmptyString) | None => (0, "donor.example.org"%string) end
    | Cap_herald => nth (count_ev is_herald h) (sc_heralds s) (mkHerald 5 0 0 0 EmptyString)
    | Cap_xfer_nvlist _ => match bad with Some e => inl e | None => inr None end
    end.

(** A script in which nothing arrives and nothing fails. *)
Definition quiet : script := mkScript [] [] [] [] [].

Definition ECAPMODE : Z := 94.                            (* sys/errno.h *)

(** Sample values for the constants of netdump.h and kerneldump.h, and
    for the descriptor of the dump directory. *)
Module Sample.
Definition NETDUMP_DATASIZE : Z := 4096.
Definition NETDUMP_FINISHED : Z := 2.
Definition NETDUMP_VMCORE : Z := 3.
Definition NETDUMP_KDH : Z := 4.
Definition sizeof_netdump_msg_hdr : Z := 24.
Definition sizeof_kerneldumpheader : Z := 512.
Definition g_dumpdir_fd : Z := 5.
End Sample.

(** A session of the donor 10.0.0.1 at address 1, last heard of at [t],
    with [fill] bytes staged for offset [base]. *)
Definition donor (t : Z) (flag : bool) (fill base : Z) : netdump_client :=
  mkClient "/var/crash" "/var/crash/info.donor.0" "/var/crash/vmcore.donor.0"
    "donor" t 167772161 (Some 11) 12 13 flag fill base zero_buf.

(** The daemon with the clients [cl], at time [now], last swept at [last]. *)
Definition daemon (cl : list (ptr * netdump_client)) (now last : Z) : world :=
  mkWorld cl true 3 now last 0 2%positive [].

(** The daemon when eventloop is entered. *)
Definition w0 : world := mkWorld [] true 3 0 0 0 1%positive [].

(** * The handler service (cap_handler.c)

    The service netdumpd.handler runs in a process of its own, started
    by Casper, which hands handler_command the command of a request, the
    limits set on the service (NULL when none were set) and the request.
    An nvlist is the list of its elements in order.  The nvlist_get
    functions of libnv look for the first element of the given name and
    type and abort the process when there is none. *)

Definition EINVAL : Z := 22.                               (* sys/errno.h *)
Definition ENOTCAPABLE : Z := 93.

Inductive nvitem :=
| NvString (s : nvvalue)
| NvDescriptor (fd : Z)
| NvNumber (n : Z)
| NvOther (nvtype : Z).

Definition nvlist := list (string * nvitem).

Definition is_nv_descriptor (v : nvitem) : bool :=
  match v with NvDescriptor _ => true | _ => false end.
Definition is_nv_string (v : nvitem) : bool :=
  match v with NvString _ => true | _ => false end.

Fixpoint nvlist_get_string (l : nvlist) (name : string) : option nvvalue :=
  match l with
  | [] => None
  | (k, NvString s) :: rest =>
    if String.eqb k name then Some s else nvlist_get_string rest name
  | _ :: rest => nvlist_get_string rest name
  end.

Fixpoint nvlist_get_descriptor (l : nvlist) (name : string) : option Z :=
  match l with
  | [] => None
  | (k, NvDescriptor fd) :: rest =>
    if String.eqb k name then Some fd else nvlist_get_descriptor rest name
  | _ :: rest => nvlist_get_descriptor rest name
  end.

(** The request of netdump_cap_handler as the service receives it: every
    element is a string. *)
Definition as_nvlist (l : list (string * nvvalue)) : nvlist :=
  map (fun kv => (fst kv, NvString (snd kv))) l.

(** The while loop of handler_limits over the elements of newlimits. *)
Fixpoint handler_limits_loop (l : nvlist) (hasfd hasscript : bool) : Z :=
  match l with
  | [] => if negb hasfd || negb hasscript then EINVAL else 0
  | (name, v) :: rest =>
    if is_nv_descriptor v && String.eqb name "handlerfd" then
      handler_limits_loop rest true hasscript
    else if is_nv_string v && String.eqb name "handler_script" then
      handler_limits_loop rest hasfd true
    else EINVAL
  end.

Definition handler_limits (oldlimits : option nvlist) (newlimits : nvlist) : Z :=
  (* Only allow limits to be set once. *)
  match oldlimits with
  | Some _ => ENOTCAPABLE
  | None => handler_limits_loop newlimits false false
  end.

(** The calls of handler_command.  lseek and fork reply with their return
    value and the errno they leave; fexecve replies whether it replaced
    the image of the process. *)
Inductive wcall : Type -> Type :=
| Lseek (fd offset : Z) : wcall (Z * Z)
| Fork : wcall (Z * Z)
| Fexecve (fd : Z) (argv : list nvvalue) : wcall bool.

Inductive wevent := WEv : forall X, wcall X -> X -> wevent.
Arguments WEv {X} _ _.

(** How handler_command ends in the process that runs it. *)
Inductive service_end :=
| Returned (rc : Z)                           (* back in the service loop *)
| Replaced (fd : Z) (argv : list nvvalue)     (* the child runs the script *)
| Exited (status : Z)                         (* _exit *)
| Aborted.                                    (* libnv: no such element *)

Definition handler_command (wenv : forall X, list wevent -> wcall X -> X)
    (cmd : string) (limits : option nvlist) (nvlin : nvlist) :
    service_end * list wevent :=
  if negb (String.eqb cmd "exec_handler") then (Returned EINVAL, [])
  else
    match match limits with
          | Some l => nvlist_get_descriptor l "handlerfd"
          | None => None
          end with
    | None => (Aborted, [])
    | Some fd =>
      let r := wenv _ [] (Lseek fd 0) in
      let t1 := [WEv (Lseek fd 0) r] in
      if negb (fst r =? 0) then (Returned (snd r), t1)
      else
        let pid := wenv _ t1 Fork in
        let t2 := t1 ++ [WEv Fork pid] in
        if fst pid <? 0 then (Returned (snd pid), t2)
        else if fst pid =? 0 then
          match match limits with
                | Some l => nvlist_get_string l "handler_script"
                | None => None
                end,
                nvlist_get_string nvlin "reason", nvlist_get_string nvlin "ip",
                nvlist_get_string nvlin "hostname",
                nvlist_get_string nvlin "infofile",
                nvlist_get_string nvlin "corefile" with
          | Some a0, Some a1, Some a2, Some a3, Some a4, Some a5 =>
            let argv := [a0; a1; a2; a3; a4; a5] in
            let x := wenv _ t2 (Fexecve fd argv) in
            (if x then Replaced fd argv else Exited 1,
             t2 ++ [WEv (Fexecve fd argv) x])
          | _, _, _, _, _, _ => (Aborted, t2)
          end
        else (Returned 0, t2)
    end.

(** The replies seen by the child of a fork that goes well: lseek and
    fork return 0 and fexecve replaces the image. *)
Definition in_child : forall X, list wevent -> wcall X -> X :=
  fun X _ c =>
    match c in wcall X return X with
    | Lseek _ _ => (0, 0)
    | Fork => (0, 0)
    | Fexecve _ _ => true
    end.

(** * Start-up: main and the functions it calls

    Before the event loop the daemon parses its options, opens the pid
    file and the dump directory, detaches, makes its socket and its
    kqueue and enters capability mode.  These functions run once, on the
    globals of netdumpd.c, and talk to the outside through libc, libutil
    and libcasper; every such call is an [icall], answered by an
    environment and recorded in a trace.  err(3) and errx(3) end the
    process, which is the outcome [Exit]. *)

Module Startup.

Definition INADDR_ANY : Z := 0.                            (* netinet/in.h *)
Definition AF_INET : Z := 2.                               (* sys/socket.h *)
Definition SIGINT : Z := 2.                                (* sys/signal.h *)
Definition SIGTERM : Z := 15.

Inductive phook := Phook_printf | Syslog.

Inductive icall : Type -> Type :=
| Openlog : icall unit
| Warnx (fmt : string) (args : list arg) : icall unit
| Warn (fmt : string) (args : list arg) : icall unit
| Fprintf_stderr (s : string) : icall unit
| Logerr_perror (m : string) : icall unit
| Inet_aton (s : string) : icall (Z * Z)
| Strdup (s : string) : icall bool
| Access (path : string) (mode : list string) : icall Z
| Free (s : option string) : icall unit
| Pidfile_open (path : option string) : icall (bool * Z)
| Pidfile_write : icall Z
| Pidfile_remove : icall unit
| Stat (path : string) : icall (Z * bool)
| Open (path : string) (flags : list string) : icall Z
| Daemon : icall Z
| Close (fd : Z) : icall unit
| Socket : icall Z
| Setsockopt_recvdstaddr (sd : Z) : icall Z
| Bind (sd addr port : Z) : icall Z
| Fcntl_nonblock (sd : Z) : icall Z
| Kqueue : icall Z
| Kevent_add_read (kq sd : Z) : icall Z
| Sigprocmask_block_all : icall Z
| Kevent_add_signals (kq : Z) (sigs : list Z) : icall Z
| Caph_cache_catpages : icall unit
| Cap_init : icall bool
| Cap_enter : icall Z
| Cap_rights_limit (fd : Z) (rights : list string) : icall Z
| Cap_service_open (name : string) : icall bool
| Cap_limit_set (service : string) (limits : nvlist) : icall Z
| Cap_close (chan : string) : icall unit
| Eventloop (sock : Z) (caphandler : bool) : icall Z.

Inductive ievent := IEv : forall X, icall X -> X -> ievent.
Arguments IEv {X} _ _.

(** The globals of netdumpd.c that start-up sets, and the trace. *)
Record globals := mkGlobals {
  g_bindip : Z;
  g_debug : bool;
  g_dumpdir : string;
  g_dumpdir_fd : Z;
  g_handler_script : option string;
  g_handler_fd : Z;
  g_pfh : bool;                         (* g_pfh != NULL *)
  g_phook : option phook;                (* NULL until main sets it *)
  g_sock : Z;
  g_kq : Z;
  g_capdns : bool;                      (* g_capdns != NULL *)
  g_capherald : bool;
  g_caphandler : bool;
  trace : list ievent
}.

(** The globals as the loader leaves them. *)
Definition at_start : globals :=
  mkGlobals 0 false EmptyString (-1) None (-1) false None (-1) 0 false false false [].

Definition set_bindip (x : Z) (g : globals) : globals :=
  mkGlobals x (g_debug g) (g_dumpdir g) (g_dumpdir_fd g) (g_handler_script g)
    (g_handler_fd g) (g_pfh g) (g_phook g) (g_sock g) (g_kq g) (g_capdns g)
    (g_capherald g) (g_caphandler g) (trace g).
Definition set_debug (x : bool) (g : globals) : globals :=
  mkGlobals (g_bindip g) x (g_dumpdir g) (g_dumpdir_fd g) (g_handler_script g)
    (g_handler_fd g) (g_pfh g) (g_phook g) (g_sock g) (g_kq g) (g_capdns g)
    (g_capherald g) (g_caphandler g) (trace g).
Definition set_dumpdir (x : string) (g : globals) : globals :=
  mkGlobals (g_bindip g) (g_debug g) x (g_dumpdir_fd g) (g_handler_script g)
    (g_handler_fd g) (g_pfh g) (g_phook g) (g_sock g) (g_kq g) (g_capdns g)
    (g_capherald g) (g_caphandler g) (trace g).
Definition set_dumpdir_fd (x : Z) (g : globals) : globals :=
  mkGlobals (g_bindip g) (g_debug g) (g_dumpdir g) x (g_handler_script g)
    (g_handler_fd g) (g_pfh g) (g_phook g) (g_sock g) (g_kq g) (g_capdns g)
    (g_capherald g) (g_caphandler g) (trace g).
Definition set_handler_script (x : option string) (g : globals) : globals :=
  mkGlobals (g_bindip g) (g_debug g) (g_dumpdir g) (g_dumpdir_fd g) x
    (g_handler_fd g) (g_pfh g) (g_phook g) (g_sock g) (g_kq g) (g_capdns g)
    (g_capherald g) (g_caphandler g) (trace g).
Definition set_handler_fd (x : Z) (g : globals) : globals :=
  mkGlobals (g_bindip g) (g_debug g) (g_dumpdir g) (g_dumpdir_fd g) (g_handler_script g)
    x (g_pfh g) (g_phook g) (g_sock g) (g_kq g) (g_capdns g)
    (g_capherald g) (g_caphandler g) (trace g).
Definition set_pfh (x : bool) (g : globals) : globals :=
  mkGlobals (g_bindip g) (g_debug g) (g_dumpdir g) (g_dumpdir_fd g) (g_handler_script g)
    (g_handler_fd g) x (g_phook g) (g_sock g) (g_kq g) (g_capdns g)
    (g_capherald g) (g_caphandler g) (trace g).
Definition set_phook (x : option phook) (g : globals) : globals :=
  mkGlobals (g_bindip g) (g_debug g) (g_dumpdir g) (g_dumpdir_fd g) (g_handler_script g)
    (g_handler_fd g) (g_pfh g) x (g_sock g) (g_kq g) (g_capdns g)
    (g_capherald g) (g_caphandler g) (trace g).
Definition set_sock (x : Z) (g : globals) : globals :=
  mkGlobals (g_bindip g) (g_debug g) (g_dumpdir g) (g_dumpdir_fd g) (g_handler_script g)
    (g_handler_fd g) (g_pfh g) (g_phook g) x (g_kq g) (g_capdns g)
    (g_capherald g) (g_caphandler g) (trace g).
Definition set_kq (x : Z) (g : globals) : globals :=
  mkGlobals (g_bindip g) (g_debug g) (g_dumpdir g) (g_dumpdir_fd g) (g_handler_script g)
    (g_handler_fd g) (g_pfh g) (g_phook g) (g_sock g) x (g_capdns g)
    (g_capherald g) (g_caphandler g) (trace g).
Definition set_capdns (x : bool) (g : globals) : globals :=
  mkGlobals (g_bindip g) (g_debug g) (g_dumpdir g) (g_dumpdir_fd g) (g_handler_script g)
    (g_handler_fd g) (g_pfh g) (g_phook g) (g_sock g) (g_kq g) x
    (g_capherald g) (g_caphandler g) (trace g).
Definition set_capherald (x : bool) (g : globals) : globals :=
  mkGlobals (g_bindip g) (g_debug g) (g_dumpdir g) (g_dumpdir_fd g) (g_handler_script g)
    (g_handler_fd g) (g_pfh g) (g_phook g) (g_sock g) (g_kq g) (g_capdns g)
    x (g_caphandler g) (trace g).
Definition set_caphandler (x : bool) (g : globals) : globals :=
  mkGlobals (g_bindip g) (g_debug g) (g_dumpdir g) (g_dumpdir_fd g) (g_handler_script g)
    (g_handler_fd g) (g_pfh g) (g_phook g) (g_sock g) (g_kq g) (g_capdns g)
    (g_capherald g) x (trace g).
Definition record (e : ievent) (g : globals) : globals :=
  mkGlobals (g_bindip g) (g_debug g) (g_dumpdir g) (g_dumpdir_fd g) (g_handler_script g)
    (g_handler_fd g) (g_pfh g) (g_phook g) (g_sock g) (g_kq g) (g_capdns g)
    (g_capherald g) (g_caphandler g) (trace g ++ [e]).

(** ** The monad: the globals, and exit *)

Inductive result (A : Type) := Ret (a : A) | Exit (status : Z).
Arguments Ret {A} a.
Arguments Exit {A} status.

Definition I (A : Type) := globals -> result A * globals.

Definition ret {A} (a : A) : I A := fun g => (Ret a, g).
Definition bind {A B} (m : I A) (k : A -> I B) : I B :=
  fun g => match m g with
           | (Ret a, g') => k a g'
           | (Exit s, g') => (Exit s, g')
           end.
Definition exit {A} (status : Z) : I A := fun g => (Exit status, g).
Definition gets {A} (f : globals -> A) : I A := fun g => (Ret (f g), g).
Definition modify (f : globals -> globals) : I unit := fun g => (Ret tt, f g).

Declare Scope i_scope.
Notation "x <- m ;; k" := (bind m (fun x => k))
  (at level 100, m at next level, right associativity) : i_scope.
Notation "m ;;; k" := (bind m (fun _ => k))
  (at level 100, right associativity) : i_scope.
Local Open Scope i_scope.

Section Run.

Variable env : forall X, list ievent -> icall X -> X.

(** netinet/netdump/netdump.h *)
Variable NETDUMP_PORT : Z.

Definition sys {X} (c : icall X) : I X :=
  fun g => let x := env X (trace g) c in (Ret x, record (IEv c x) g).

(** err(3) and errx(3): the message, then exit. *)
Definition err {A} (status : Z) (fmt : string) : I A :=
  sys (Warn fmt []) ;;; exit status.
Definition errx {A} (status : Z) (fmt : string) : I A :=
  sys (Warnx fmt []) ;;; exit status.

Definition LOGERR_PERROR (m : string) : I unit := sys (Logerr_perror m).

Definition usage (cmd : string) : I unit :=
  sys (Warnx "usage: %s [-D] [-a bind_addr] [-d dumpdir] [-i script] [-b script] [-P pidfile]"
         [AStr cmd]).

Definition get_script_option (optarg : string) : I (option string) :=
  script <- sys (Strdup optarg) ;;
  if negb script then err 1 "strdup()"
  else
    rc <- sys (Access optarg ["F_OK"; "X_OK"]%string) ;;
    if negb (rc =? 0) then
      sys (Warn "cannot access %s" [AStr optarg]) ;;;
      sys (Free (Some optarg)) ;;;
      ret None
    else ret (Some optarg).

Definition init_cap_mode : I Z :=
  sys Caph_cache_catpages ;;;
  capcasper <- sys Cap_init ;;
  if negb capcasper then LOGERR_PERROR "cap_init()" ;;; ret 1
  else
    (* Other capabilities are closed by main(). *)
    let err_ : I Z := sys (Cap_close "casper") ;;; ret 1 in
    rc <- sys Cap_enter ;;
    if negb (rc =? 0) then LOGERR_PERROR "cap_enter()" ;;; err_
    else
      (* CAP_FCNTL is needed by fdopen(3). *)
      fd <- gets g_dumpdir_fd ;;
      rc <- sys (Cap_rights_limit fd
                   ["CAP_CREATE"; "CAP_FCNTL"; "CAP_PWRITE"; "CAP_READ";
                    "CAP_SYMLINKAT"; "CAP_UNLINKAT"]%string) ;;
      (if negb (rc =? 0) then LOGERR_PERROR "cap_rights_limit()" else ret tt) ;;;
      dns <- sys (Cap_service_open "system.dns") ;;
      modify (set_capdns dns) ;;;
      if negb dns then LOGERR_PERROR "cap_service_open(system.dns)" ;;; err_
      else
        rc <- sys (Cap_limit_set "system.dns"
                     [("type", NvString (NvStr "NAME")); ("family", NvNumber AF_INET)]%string) ;;
        if negb (rc =? 0) then LOGERR_PERROR "cap_limit_set(system.dns)" ;;; err_
        else
          herald <- sys (Cap_service_open "netdumpd.herald") ;;
          modify (set_capherald herald) ;;;
          if negb herald then LOGERR_PERROR "cap_service_open(netdumpd.herald)" ;;; err_
          else
            sd <- gets g_sock ;;
            rc <- sys (Cap_limit_set "netdumpd.herald" [("socket", NvDescriptor sd)]%string) ;;
            if negb (rc =? 0) then LOGERR_PERROR "cap_limit_set(netdump.herald)" ;;; err_
            else
              script <- gets g_handler_script ;;
              match script with
              | Some s =>
                handler <- sys (Cap_service_open "netdumpd.handler") ;;
                modify (set_caphandler handler) ;;;
                if negb handler then
                  LOGERR_PERROR "cap_service_open(netdumpd.handler)" ;;; err_
                else
                  hfd <- gets g_handler_fd ;;
                  rc <- sys (Cap_limit_set "netdumpd.handler"
                               [("handlerfd", NvDescriptor hfd);
                                ("handler_script", NvString (NvStr s))]%string) ;;
                  if negb (rc =? 0) then
                    LOGERR_PERROR "cap_limit_set(netdump.handler)" ;;; err_
                  else sys (Cap_close "casper") ;;; ret 0
              | None => sys (Cap_close "casper") ;;; ret 0
              end.

Definition init_kqueue : I Z :=
  kq <- sys Kqueue ;;
  modify (set_kq kq) ;;;
  if kq <? 0 then LOGERR_PERROR "kqueue()" ;;; ret 1
  else
    sd <- gets g_sock ;;
    rc <- sys (Kevent_add_read kq sd) ;;
    if negb (rc =? 0) then LOGERR_PERROR "kevent(socket)" ;;; ret 1
    else
      (* Mask all signals. We watch for SIGINT and SIGTERM only. *)
      rc <- sys Sigprocmask_block_all ;;
      if negb (rc =? 0) then LOGERR_PERROR "sigprocmask()" ;;; ret 1
      else
        rc <- sys (Kevent_add_signals kq [SIGINT; SIGTERM]) ;;
        if negb (rc =? 0) then LOGERR_PERROR "kevent(signals)" ;;; ret 1
        else ret 0.

Definition init_server_socket : I Z :=
  ip <- gets g_bindip ;;
  (if ip =? INADDR_ANY then sys (Warnx "default: listening on all interfaces" [])
   else ret tt) ;;;
  sd <- sys Socket ;;
  modify (set_sock sd) ;;;
  if sd =? -1 then LOGERR_PERROR "socket()" ;;; ret 1
  else
    rc <- sys (Setsockopt_recvdstaddr sd) ;;
    if negb (rc =? 0) then LOGERR_PERROR "setsockopt()" ;;; ret 1
    else
      rc <- sys (Bind sd ip NETDUMP_PORT) ;;
      if negb (rc =? 0) then LOGERR_PERROR "bind()" ;;; ret 1
      else
        rc <- sys (Fcntl_nonblock sd) ;;
        if rc =? -1 then LOGERR_PERROR "fcntl()" ;;; ret 1
        else ret 0.

(** The while loop of main over what getopt returns, option by option:
    the option character and optarg.  [None] is a goto cleanup, with
    exit_code 1; [Some pidfile] is the end of the options. *)
Fixpoint parse_options (argv0 : string) (opts : list (ascii * string))
    (pidfile : string) : I (option string) :=
  match opts with
  | [] => ret (Some pidfile)
  | (ch, optarg) :: rest =>
    if Ascii.eqb ch "a" then
      r <- sys (Inet_aton optarg) ;;
      if fst r =? 0 then sys (Warnx "invalid bind IP specified" []) ;;; ret None
      else
        modify (set_bindip (snd r)) ;;;
        sys (Warnx "listening on IP %s" [AStr optarg]) ;;;
        parse_options argv0 rest pidfile
    else if Ascii.eqb ch "D" then
      modify (set_debug true) ;;; parse_options argv0 rest pidfile
    else if Ascii.eqb ch "d" then
      modify (set_dumpdir (snprintf MAXPATHLEN optarg)) ;;;        (* strlcpy *)
      if (MAXPATHLEN <=? String.length optarg)%nat then
        sys (Warnx "dumpdir '%s' is too long" [AStr optarg]) ;;; ret None
      else parse_options argv0 rest pidfile
    else if Ascii.eqb ch "i" then
      script <- get_script_option optarg ;;
      modify (set_handler_script script) ;;;
      match script with
      | None => ret None
      | Some _ => parse_options argv0 rest pidfile
      end
    else if Ascii.eqb ch "P" then
      if (MAXPATHLEN <=? String.length optarg)%nat then
        sys (Warnx "pidfile '%s' is too long" [AStr optarg]) ;;; ret None
      else parse_options argv0 rest (snprintf MAXPATHLEN optarg)   (* strlcpy *)
    else
      usage argv0 ;;; ret None
  end.

(** main from the call of pidfile_open to the label cleanup: the value
    is exit_code. *)
Definition main_body (pidfile : string) : I Z :=
  pfh <- sys (Pidfile_open (if String.eqb pidfile "" then None else Some pidfile)) ;;
  modify (set_pfh (fst pfh)) ;;;
  if negb (fst pfh) then
    if snd pfh =? EEXIST then errx 1 "netdumpd is already running"
    else err 1 "pidfile_open"
  else
    dir <- gets g_dumpdir ;;
    (if String.eqb dir "" then
       modify (set_dumpdir "/var/crash") ;;;
       sys (Warnx "default: dumping to /var/crash/" [])
     else ret tt) ;;;
    debug <- gets g_debug ;;
    modify (set_phook (Some (if debug then Phook_printf else Syslog))) ;;;
    (* Further sanity checks on dump location. *)
    dir <- gets g_dumpdir ;;
    st <- sys (Stat dir) ;;
    if negb (fst st =? 0) then
      sys (Warnx "invalid dump location specified" []) ;;; ret 1
    else if negb (snd st) then
      sys (Fprintf_stderr "Dump location is not a directory") ;;; ret 1
    else
      rc <- sys (Access dir ["F_OK"; "W_OK"]%string) ;;
      (if negb (rc =? 0) then
         sys (Warn "warning: may be unable to write into dump location" [])
       else ret tt) ;;;
      fd <- sys (Open dir ["O_DIRECTORY"; "O_RDONLY"; "O_CLOEXEC"]%string) ;;
      modify (set_dumpdir_fd fd) ;;;
      if fd <? 0 then sys (Warn "open(%s)" [AStr dir]) ;;; ret 1
      else
        detached <- (if negb debug then rc <- sys Daemon ;; ret (negb (rc =? -1))
                     else ret true) ;;
        if negb detached then sys (Warn "daemon()" []) ;;; ret 1
        else
          rc <- sys Pidfile_write ;;
          if negb (rc =? 0) then sys (Warn "pidfile_write()" []) ;;; ret 1
          else
            script <- gets g_handler_script ;;
            opened <- (match script with
                       | Some s =>
                         fd <- sys (Open s ["O_RDONLY"]%string) ;;
                         modify (set_handler_fd fd) ;;;
                         if fd <? 0 then sys (Warn "open(%s)" [AStr s]) ;;; ret false
                         else ret true
                       | None => ret true
                       end) ;;
            if negb opened then ret 1
            else
              rc <- init_server_socket ;;
              if negb (rc =? 0) then ret 1
              else
                rc <- init_kqueue ;;
                if negb (rc =? 0) then ret 1
                else
                  rc <- init_cap_mode ;;
                  if negb (rc =? 0) then ret 1
                  else
                    sd <- gets g_sock ;;
                    h <- gets g_caphandler ;;
                    sys (Eventloop sd h).

(** What follows the label cleanup. *)
Definition cleanup : I unit :=
  pfh <- gets g_pfh ;;
  (if pfh then sys Pidfile_remove else ret tt) ;;;
  fd <- gets g_dumpdir_fd ;;
  sys (Close fd) ;;;
  fd <- gets g_handler_fd ;;
  sys (Close fd) ;;;
  script <- gets g_handler_script ;;
  sys (Free script) ;;;
  sd <- gets g_sock ;;
  (if negb (sd =? -1) then sys (Close sd) else ret tt) ;;;
  herald <- gets g_capherald ;;
  (if herald then sys (Cap_close "netdumpd.herald") else ret tt) ;;;
  dns <- gets g_capdns ;;
  (if dns then sys (Cap_close "system.dns") else ret tt).

Definition main (argv0 : string) (opts : list (ascii * string)) : I Z :=
  sys Openlog ;;;
  modify (set_bindip INADDR_ANY) ;;;
  r <- parse_options argv0 opts EmptyString ;;
  exit_code <- (match r with
                | None => ret 1
                | Some pidfile => main_body pidfile
                end) ;;
  cleanup ;;;
  ret exit_code.

End Run.

(** An environment in which every call succeeds; the event loop ends
    with 0. *)
Definition all_well : forall X, list ievent -> icall X -> X :=
  fun X _ c =>
    match c in icall X return X with
    | Openlog => tt
    | Warnx _ _ => tt
    | Warn _ _ => tt
    | Fprintf_stderr _ => tt
    | Logerr_perror _ => tt
    | Inet_aton _ => (1, 167772161)
    | Strdup _ => true
    | Access _ _ => 0
    | Free _ => tt
    | Pidfile_open _ => (true, 0)
    | Pidfile_write => 0
    | Pidfile_remove => tt
    | Stat _ => (0, true)
    | Open path _ => if String.eqb path "/var/crash" then 5 else 6
    | Daemon => 0
    | Close _ => tt
    | Socket => 3
    | Setsockopt_recvdstaddr _ => 0
    | Bind _ _ _ => 0
    | Fcntl_nonblock _ => 0
    | Kqueue => 4
    | Kevent_add_read _ _ => 0
    | Sigprocmask_block_all => 0
    | Kevent_add_signals _ _ => 0
    | Caph_cache_catpages => tt
    | Cap_init => true
    | Cap_enter => 0
    | Cap_rights_limit _ _ => 0
    | Cap_service_open _ => true
    | Cap_limit_set _ _ => 0
    | Cap_close _ => tt
    | Eventloop _ _ => 0
    end.

End Startup.

(** * The program *)

Section Netdumpd.

(** The environment: what happened so far and a call give the reply. *)
Variable env : forall X, list event -> call X -> X.

(** The descriptor of the dump directory.  main opens it before it
    enters eventloop, and nothing writes it after that. *)
Variable g_dumpdir_fd : Z.

(** Constants of netinet/netdump/netdump.h and sys/kerneldump.h, which
    netdumpd.c includes and which are not part of the repository. *)
Variable NETDUMP_DATASIZE : Z.
Variable NETDUMP_KDH : Z.
Variable NETDUMP_VMCORE : Z.
Variable NETDUMP_FINISHED : Z.
Variable sizeof_netdump_msg_hdr : Z.
Variable sizeof_kerneldumpheader : Z.

Definition sys {X} (c : call X) : M X :=
  fun w => let x := env X (trace w) c in (Done x, log_event (Ev c x) w).

(** A call that reports failure by a negative value and errno. *)
Definition sys_e (c : call (Z * Z)) : M Z :=
  r <- sys c ;;
  (if fst r <? 0 then modify (set_errno (snd r)) else ret tt) ;;;
  ret (fst r).

Definition LOGERR (fmt : string) (args : list arg) : M unit :=
  sys (Log LOG_ERR fmt args).
Definition LOGINFO (fmt : string) (args : list arg) : M unit :=
  sys (Log LOG_INFO fmt args).
Definition LOGWARN (fmt : string) (args : list arg) : M unit :=
  sys (Log LOG_WARNING fmt args).
Definition LOGERR_PERROR (m : string) : M unit :=
  e <- gets errno ;; sys (Log LOG_ERR "%s: %s\n" [AStr m; AErr e]).

Definition client_pinfo (p : ptr) (fmt : string) (args : list arg) : M unit :=
  c <- deref p ;;
  match infofile c with
  | Some f => sys (Fprintf f fmt args)
  | None => crash NullStream
  end.

Definition fclose (f : option Z) : M unit :=
  match f with
  | Some s => sys (Fclose s)
  | None => crash NullStream
  end.

(** cap_handler.c *)
Definition netdump_cap_handler (reason : string) (ipaddr : Z)
    (host infofilen corefilen : string) : M Z :=
  nvl <- sys (Cap_xfer_nvlist
                [ ("cmd", NvStr "exec_handler"); ("reason", NvStr reason);
                  ("ip", NvIp ipaddr); ("hostname", NvStr host);
                  ("infofile", NvStr infofilen); ("corefile", NvStr corefilen) ]%string) ;;
  match nvl with
  | inl e => modify (set_errno e) ;;; ret e
  | inr (Some n) => ret (signed32 n)
  | inr None => ret 0
  end.

Definition exec_handler (p : ptr) (reason : string) : M unit :=
  h <- gets g_caphandler ;;
  if negb h then ret tt
  else
    c <- deref p ;;
    error <- netdump_cap_handler reason (ip c) (hostname c)
               (infofilename c) (corefilename c) ;;
    if negb (error =? 0) then LOGERR "netdump_cap_handler(): %s" [AErr error]
    else ret tt.

Definition free_client (p : ptr) : M unit :=
  c <- deref p ;;
  rc <- sys_e (Kevent_delete (sock c)) ;;
  (if negb (rc =? 0) then LOGERR_PERROR "kevent(EV_DELETE)" else ret tt) ;;;
  modify (fun w => set_clients (remove p (g_clients w)) w) ;;;
  fclose (infofile c) ;;;
  sys (Close (corefd c)) ;;;
  sys (Close (sock c)).

Definition handle_timeout (p : ptr) : M unit :=
  c <- deref p ;;
  LOGINFO "Client %s timed out\n" [AIp (ip c)] ;;;
  client_pinfo p "Dump incomplete: client timed out\n" [] ;;;
  exec_handler p "timeout" ;;;
  free_client p.

Definition vmcore_flush (p : ptr) : M Z :=
  c <- deref p ;;
  n <- sys_e (Pwrite (corefd c)
                (firstn (Z.to_nat (vmcorebufoff c)) (vmcorebuf c)) (vmcoreoff c)) ;;
  if negb (n =? signed64 (vmcorebufoff c)) then
    e <- gets errno ;;
    LOGERR "pwrite (for client %s [%s]): %s\n"
      [AStr (hostname c); AIp (ip c); AErr e] ;;;
    client_pinfo p "Dump unsuccessful: write error @ offset %08jx: %s\n"
      [AInt (wrap64 (vmcoreoff c)); AErr e] ;;;
    exec_handler p "error" ;;;
    free_client p ;;;
    ret 1
  else
    assign p (set_vmcorebufoff 0) ;;;
    ret 0.

(** The acknowledgement is one 32-bit sequence number in network order. *)
Definition send_ack (p : ptr) (seqno : Z) : M unit :=
  c <- deref p ;;
  n <- sys_e (Send (sock c) (htonl seqno)) ;;
  if n =? -1 then LOGERR_PERROR "send()" else ret tt.

Definition fflush_info (p : ptr) : M unit :=
  c <- deref p ;;
  match infofile c with
  | Some f => sys (Fflush f)
  | None => crash NullStream
  end.

Definition handle_kdh (p : ptr) (pkt : netdump_pkt) : M unit :=
  assign p (set_any_data_rcvd true) ;;;
  c <- deref p ;;
  let h := data pkt in
  if mh_len pkt <? sizeof_kerneldumpheader then
    LOGERR "Bad KDH from %s [%s]: packet too small\n"
      [AStr (hostname c); AIp (ip c)] ;;;
    client_pinfo p "Bad KDH: packet too small\n" [] ;;;
    fflush_info p
  else
    client_pinfo p "  Architecture: %s\n" [AKdh "architecture" h] ;;;
    client_pinfo p "  Architecture version: %d\n" [AKdh "architectureversion" h] ;;;
    client_pinfo p "  Dump length: %lldB (%lld MB)\n"
      [AKdh "dumplength" h; AKdh "dumplength >> 20" h] ;;;
    client_pinfo p "  blocksize: %d\n" [AKdh "blocksize" h] ;;;
    client_pinfo p "  Dumptime: %s" [AKdh "dumptime" h] ;;;
    client_pinfo p "  Hostname: %s\n" [AKdh "hostname" h] ;;;
    client_pinfo p "  Versionstring: %s" [AKdh "versionstring" h] ;;;
    client_pinfo p "  Panicstring: %s\n" [AKdh "panicstring" h] ;;;
    client_pinfo p "  Header parity check: %s\n" [AKdh "parity" h] ;;;
    fflush_info p ;;;
    LOGINFO "(KDH from %s [%s])" [AStr (hostname c); AIp (ip c)] ;;;
    send_ack p (mh_seqno pkt).

Definition handle_vmcore (p : ptr) (pkt : netdump_pkt) : M unit :=
  assign p (set_any_data_rcvd true) ;;;
  (if mh_seqno pkt mod (16 * 1024 * 1024 / 1456) =? 0 then LOGINFO "." []
   else ret tt) ;;;
  c <- deref p ;;
  rc <- (if (wrap64 (vmcorebufoff c + NETDUMP_DATASIZE) >? VMCORE_BUFSZ)
            || ((vmcorebufoff c >? 0)
                && negb (wrap64 (vmcoreoff c + vmcorebufoff c) =? mh_offset pkt))
         then vmcore_flush p
         else ret 0) ;;
  if negb (rc =? 0) then ret tt
  else
    c <- deref p ;;
    (if vmcorebufoff c + mh_len pkt >? VMCORE_BUFSZ then crash (BufferOverrun p)
     else assign p (set_vmcorebuf
                      (memcpy_at (vmcorebuf c) (vmcorebufoff c) (data pkt) (mh_len pkt)))) ;;;
    (if vmcorebufoff c =? 0 then assign p (set_vmcoreoff (signed64 (mh_offset pkt)))
     else ret tt) ;;;
    assign p (set_vmcorebufoff (wrap64 (vmcorebufoff c + mh_len pkt))) ;;;
    send_ack p (mh_seqno pkt).

Definition handle_finish (p : ptr) (pkt : netdump_pkt) : M unit :=
  rc <- vmcore_flush p ;;
  if negb (rc =? 0) then ret tt
  else
    c <- deref p ;;
    sys (Fsync (corefd c)) ;;;
    let symlinkpath := core_last (path c) (hostname c) in
    r <- sys_e (Unlinkat g_dumpdir_fd symlinkpath) ;;
    e <- gets errno ;;
    if negb (r =? 0) && negb (e =? ENOENT) then LOGERR_PERROR "unlink()"
    else
      r <- sys_e (Symlinkat (corefilename c) g_dumpdir_fd symlinkpath) ;;
      if negb (r =? 0) then LOGERR_PERROR "symlink()"
      else
        let symlinkpath := info_last (path c) (hostname c) in
        r <- sys_e (Unlinkat g_dumpdir_fd symlinkpath) ;;
        e <- gets errno ;;
        if negb (r =? 0) && negb (e =? ENOENT) then LOGERR_PERROR "unlink()"
        else
          r <- sys_e (Symlinkat (infofilename c) g_dumpdir_fd symlinkpath) ;;
          if negb (r =? 0) then LOGERR_PERROR "symlink()"
          else
            LOGINFO "\nCompleted dump from client %s [%s]\n"
              [AStr (hostname c); AIp (ip c)] ;;;
            client_pinfo p "Dump complete\n" [] ;;;
            send_ack p (mh_seqno pkt) ;;;
            exec_handler p "success" ;;;
            free_client p.

Definition dq : string := String (ascii_of_nat 34) EmptyString.
Definition openat_fmt : string := ("openat(" ++ dq ++ "%s" ++ dq ++ "): %s\n")%string.

Definition excl_wronly : list oflag := [O_WRONLY; O_CREAT; O_EXCL; O_CLOEXEC].
Definition excl_rdwr : list oflag := [O_RDWR; O_CREAT; O_EXCL; O_CLOEXEC].

(** The for loop of alloc_client over the indices still to try; the
    client under construction is a local of alloc_client, not yet on the
    list. *)
Fixpoint alloc_files (idx : list nat) (c : netdump_client) : M netdump_client :=
  match idx with
  | [] => ret c
  | i :: rest =>
    let c := set_infofilename (info_name (path c) (hostname c) i) c in
    let c := set_corefilename (core_name (path c) (hostname c) i) c in
    (* Try the info file first. *)
    fd <- sys_e (Openat g_dumpdir_fd (infofilename c) excl_wronly) ;;
    if fd =? -1 then
      e <- gets errno ;;
      (if negb (e =? EEXIST) then LOGERR openat_fmt [AStr (infofilename c); AErr e]
       else ret tt) ;;;
      alloc_files rest c
    else
      f <- sys (Fdopen fd) ;;
      if negb (fst f) then
        modify (set_errno (snd f)) ;;;
        let c := set_infofile None c in
        LOGERR_PERROR "fdopen()" ;;;
        sys (Close fd) ;;;
        sys_e (Unlink (infofilename c)) ;;;
        alloc_files rest c
      else
        let c := set_infofile (Some fd) c in
        (* Next make the core file. *)
        fd <- sys_e (Openat g_dumpdir_fd (corefilename c) excl_rdwr) ;;
        if fd =? -1 then
          (* Failed. Keep the numbers in sync. *)
          fclose (infofile c) ;;;
          sys_e (Unlink (infofilename c)) ;;;
          let c := set_infofile None c in
          e <- gets errno ;;
          (if negb (e =? EEXIST) then LOGERR openat_fmt [AStr (corefilename c); AErr e]
           else ret tt) ;;;
          alloc_files rest c
        else
          ret (set_corefd fd c)
  end.

(** The label error_out of alloc_client, for a client that calloc made. *)
Definition error_out (c : netdump_client) : M (option ptr) :=
  (match infofile c with Some f => sys (Fclose f) | None => ret tt end) ;;;
  (if negb (corefd c =? -1) then sys (Close (corefd c)) else ret tt) ;;;
  (if negb (sock c =? -1) then sys (Close (sock c)) else ret tt) ;;;
  ret None.

Definition alloc_client (sd : Z) (saddr : Z) (dir : string) : M (option ptr) :=
  ok <- sys Calloc ;;
  if negb ok then LOGERR_PERROR "calloc()" ;;; ret None
  else
    p <- gets brk ;;
    modify (set_brk (Pos.succ p)) ;;;
    now <- gets g_now ;;
    let c := set_ip saddr (set_last_msg now (set_sock sd (set_corefd (-1) zero_client))) in
    r <- sys (Cap_getnameinfo saddr true) ;;
    host <- (if negb (fst r =? 0) then
               (* Can't resolve, try with a numeric IP. *)
               r <- sys (Cap_getnameinfo saddr false) ;;
               if negb (fst r =? 0) then
                 LOGERR "cap_getnameinfo(): %s\n" [AErr (fst r)] ;;; ret None
               else ret (Some (snd r))
             else
               (* Strip off the domain name *)
               ret (Some (strip_domain (snd r)))) ;;
    match host with
    | None => error_out c
    | Some h =>
      let c := set_hostname h c in
      rc <- sys_e (Setsockopt_rcvbuf (sock c) 131072) ;;
      (if negb (rc =? 0) then
         LOGERR_PERROR "setsockopt()" ;;;
         LOGWARN "May drop packets from %s due to small receive buffer\n"
           [AStr (hostname c)]
       else ret tt) ;;;
      (* Try info.host.0 through info.host.255 in sequence. *)
      let c := set_path (snprintf MAXPATHLEN dir) c in       (* strlcpy *)
      c <- alloc_files (seq 0 MAX_DUMPS) c ;;
      if match infofile c with None => true | Some _ => false end || (corefd c =? -1) then
        LOGERR "Can't create output files for new client %s [%s]\n"
          [AStr (hostname c); AIp (ip c)] ;;;
        error_out c
      else
        rc <- sys_e (Kevent_add (sock c) p) ;;
        if negb (rc =? 0) then LOGERR_PERROR "kevent(EV_ADD)" ;;; error_out c
        else
          modify (fun w => set_clients ((p, c) :: g_clients w) w) ;;;
          ret (Some p)
    end.

(** LIST_FOREACH with the break of server_event. *)
Definition find_client (a : Z) (l : list (ptr * netdump_client)) : option ptr :=
  match find (fun qc => ip (snd qc) =? a) l with
  | Some (q, _) => Some q
  | None => None
  end.

(** Handle a read event on the server socket. *)
Definition server_event : M Z :=
  h <- sys Cap_herald ;;
  if negb (h_error h =? 0) then
    LOGERR "netdump_cap_herald(): %s\n" [AErr (h_error h)] ;;; ret 0
  else
    found <- gets (fun w => find_client (h_saddr h) (g_clients w)) ;;
    r <- match found with
         | None =>
           a <- alloc_client (h_sd h) (h_saddr h) (h_path h) ;;
           match a with
           | None =>
             LOGERR "server_event(): new client allocation failure\n" [] ;;; ret None
           | Some p => ret (Some p)
           end
         | Some p =>
           c <- deref p ;;
           if negb (any_data_rcvd c) then
             (* retransmit of the herald packet *)
             send_ack p (h_seqno h) ;;; ret None
           else
             handle_timeout p ;;; ret (Some p)
         end ;;
    match r with
    | None => ret 0
    | Some p =>
      c <- deref p ;;
      client_pinfo p "Dump from %s [%s]\n" [AStr (hostname c); AIp (ip c)] ;;;
      LOGINFO "New dump from client %s [%s] (to %s)\n"
        [AStr (hostname c); AIp (ip c); AStr (corefilename c)] ;;;
      send_ack p (h_seqno h) ;;;
      ret 0
    end.

(** Handle a read event on a client socket. *)
Definition client_event (p : ptr) : M unit :=
  c <- deref p ;;
  r <- sys (Recv (sock c)) ;;
  if r_len r <? 0 then
    modify (set_errno (r_errno r)) ;;;
    if negb (r_errno r =? EAGAIN) && negb (r_errno r =? EINTR) then
      LOGERR_PERROR "recv()" ;;; handle_timeout p
    else ret tt
  else if r_len r <? sizeof_netdump_msg_hdr then
    LOGERR "Ignoring runt packet from %s (got %zu)\n" [AIp (ip c); AInt (r_len r)]
  else
    let pkt := r_pkt r in
    if negb (r_len r - sizeof_netdump_msg_hdr =? mh_len pkt) then
      LOGERR "Bad packet size from %s\n" [AIp (ip c)]
    else
      t <- sys Clock_time ;;
      assign p (set_last_msg t) ;;;
      if mh_type pkt =? NETDUMP_KDH then handle_kdh p pkt
      else if mh_type pkt =? NETDUMP_VMCORE then handle_vmcore p pkt
      else if mh_type pkt =? NETDUMP_FINISHED then handle_finish p pkt
      else
        LOGERR "Received unexpected message type %d from %s\n"
          [AInt (mh_type pkt); AIp (ip c)].

(** LIST_FOREACH_SAFE: the successor is read before the body runs, so the
    body may free the client it is given. *)
Fixpoint foreach_safe (l : list ptr) (body : ptr -> M unit) : M unit :=
  match l with
  | [] => ret tt
  | p :: l' => body p ;;; foreach_safe l' body
  end.

(** g_now, g_last_timeout_check and last_msg are of type time_t, 64 bits
    and signed: their sums and differences wrap. *)
Definition timeout_clients : M unit :=
  now <- gets g_now ;;
  last <- gets g_last_timeout_check ;;
  (* Only time out clients every 10 seconds. *)
  if signed64 (now - last) <? CLIENT_TPASS then ret tt
  else
    modify (set_last_timeout_check now) ;;;
    (* Traverse the list looking for stale clients. *)
    l <- gets (fun w => map fst (g_clients w)) ;;
    foreach_safe l (fun p =>
      c <- deref p ;;
      now <- gets g_now ;;
      if signed64 (last_msg c + CLIENT_TIMEOUT) <? now then
        LOGINFO "Timingout with such values: %jd + %jd < %jd\n"
          [AInt (last_msg c); AInt CLIENT_TIMEOUT; AInt now] ;;;
        handle_timeout p
      else ret tt).

(** How one pass over the body of for (;;) in eventloop ends. *)
Inductive loop_exit := Again | Return_ (rc : Z) | Goto_out.

(** The inner for loop over the events kevent returned. *)
Fixpoint dispatch (evs : list kevent_t) : M loop_exit :=
  match evs with
  | [] => ret Again
  | ev :: rest =>
    match filter ev with
    | EVFILT_SIGNAL => ret Goto_out
    | EVFILT_READ =>
      gs <- gets g_sock ;;
      if signed32 (ident ev) =? gs then
        rc <- server_event ;;
        if negb (rc =? 0) then ret (Return_ 1) else dispatch rest
      else
        client_event (udata ev) ;;; dispatch rest
    | EVFILT_other n =>
      LOGERR "unexpected event %d" [AInt n] ;;; ret Again
    end
  end.

(** One pass over the body of for (;;): one wake of kevent. *)
Definition eventloop_wake : M loop_exit :=
  k <- sys (Kevent_wait 8 CLIENT_TPASS) ;;
  if k_rc k <? 0 then
    modify (set_errno (k_errno k)) ;;;
    if k_errno k =? EINTR then ret Again
    else LOGERR_PERROR "kevent()" ;;; ret (Return_ 1)
  else
    t <- sys Clock_time ;;
    modify (set_now t) ;;;
    r <- dispatch (firstn (Z.to_nat (k_rc k)) (k_events k)) ;;
    match r with
    | Again => timeout_clients ;;; ret Again
    | _ => ret r
    end.

(** while (!LIST_EMPTY(&g_clients)) handle_timeout(LIST_FIRST(&g_clients)),
    run for at most [n] clients. *)
Fixpoint shutdown (n : nat) : M unit :=
  match n with
  | O => ret tt
  | S n' =>
    l <- gets g_clients ;;
    match l with
    | [] => ret tt
    | (p, _) :: _ => handle_timeout p ;;; shutdown n'
    end
  end.

(** for (;;) for at most [n] wakes; None when the wakes ran out first. *)
Fixpoint eventloop_from (n : nat) : M (option Z) :=
  match n with
  | O => ret None
  | S n' =>
    r <- eventloop_wake ;;
    match r with
    | Again => eventloop_from n'
    | Return_ rc => ret (Some rc)
    | Goto_out =>
      LOGINFO "Shutting down..." [] ;;;
      l <- gets g_clients ;;
      shutdown (List.length l) ;;;
      ret (Some 0)
    end
  end.

Definition eventloop (n : nat) : M (option Z) :=
  LOGINFO "Waiting for clients.\n" [] ;;; eventloop_from n.


(** * The vocabulary of the run specifications *)

(** [wp m w Q]: running [m] from [w] ends in an outcome and a world that
    satisfy [Q]. *)
Definition wp {A} (m : M A) (w : world) (Q : outcome A -> world -> Prop) : Prop :=
  Q (fst (m w)) (snd (m w)).

(** The errno a failed call leaves. *)
Definition note_errno (r : Z * Z) (e : Z) : Z := if fst r <? 0 then snd r else e.

Definition is_log (e : event) : bool :=
  match e with Ev (Log _ _ _) _ => true | _ => false end.

(** The request exec_handler sends to the handler worker. *)
Definition handler_request (reason : string) (c : netdump_client) : list (string * nvvalue) :=
  [ ("cmd", NvStr "exec_handler"); ("reason", NvStr reason);
    ("ip", NvIp (ip c)); ("hostname", NvStr (hostname c));
    ("infofile", NvStr (infofilename c)); ("corefile", NvStr (corefilename c)) ]%string.

(** What exec_handler does: nothing without a handler, else one request
    and perhaps a log line. *)
Definition handler_trace (ch : bool) (reason : string) (c : netdump_client)
    (evs : list event) : Prop :=
  if ch then
    exists r logs, evs = Ev (Cap_xfer_nvlist (handler_request reason c)) r :: logs
                   /\ forallb is_log logs = true
  else evs = [].

(** What free_client does. *)
Definition free_trace (c : netdump_client) (evs : list event) : Prop :=
  exists r logs f,
    infofile c = Some f /\ forallb is_log logs = true /\
    evs = Ev (Kevent_delete (sock c)) r :: logs
          ++ [Ev (Fclose f) tt; Ev (Close (corefd c)) tt; Ev (Close (sock c)) tt].

(** The timeout path: handle_timeout. *)
Definition timeout_trace (ch : bool) (c : netdump_client) (evs : list event) : Prop :=
  exists f hevs fevs,
    infofile c = Some f /\ handler_trace ch "timeout" c hevs /\ free_trace c fevs /\
    evs = Ev (Log LOG_INFO "Client %s timed out\n" [AIp (ip c)]) tt
          :: Ev (Fprintf f "Dump incomplete: client timed out\n" []) tt
          :: hevs ++ fevs.

(** What vmcore_flush does after a short or failed write. *)
Definition flush_fail_trace (ch : bool) (c : netdump_client) (evs : list event) : Prop :=
  exists f e hevs fevs,
    infofile c = Some f /\ handler_trace ch "error" c hevs /\ free_trace c fevs /\
    evs = Ev (Log LOG_ERR "pwrite (for client %s [%s]): %s\n"
                [AStr (hostname c); AIp (ip c); AErr e]) tt
          :: Ev (Fprintf f "Dump unsuccessful: write error @ offset %08jx: %s\n"
                   [AInt (wrap64 (vmcoreoff c)); AErr e]) tt
          :: hevs ++ fevs.

(** The positional write of everything the buffer holds. *)
Definition flush_call (c : netdump_client) : call (Z * Z) :=
  Pwrite (corefd c) (firstn (Z.to_nat (vmcorebufoff c)) (vmcorebuf c)) (vmcoreoff c).

(** The test that guards the flush in handle_vmcore. *)
Definition need_flush (c : netdump_client) (pkt : netdump_pkt) : bool :=
  (wrap64 (vmcorebufoff c + NETDUMP_DATASIZE) >? VMCORE_BUFSZ)
  || ((vmcorebufoff c >? 0)
      && negb (wrap64 (vmcoreoff c + vmcorebufoff c) =? mh_offset pkt)).

(** The client after memcpy and the two assignments that follow it. *)
Definition stage (c : netdump_client) (pkt : netdump_pkt) : netdump_client :=
  set_vmcorebufoff (wrap64 (vmcorebufoff c + mh_len pkt))
    ((if vmcorebufoff c =? 0 then set_vmcoreoff (signed64 (mh_offset pkt))
      else fun c' => c')
       (set_vmcorebuf
          (memcpy_at (vmcorebuf c) (vmcorebufoff c) (data pkt) (mh_len pkt)) c)).

(** The dot logged about every 16MB. *)
Definition progress_dot (pkt : netdump_pkt) : list event :=
  if mh_seqno pkt mod (16 * 1024 * 1024 / 1456) =? 0
  then [Ev (Log LOG_INFO "." []) tt] else [].

Definition ack_event (c : netdump_client) (seqno : Z) (r : Z * Z) : event :=
  Ev (Send (sock c) (htonl seqno)) r.

(** Every way handle_vmcore can run for client [c] at address [p]: the
    calls it makes, how it ends, and the list it leaves.  [c1] is the
    client once any_data_rcvd is set. *)
Inductive vmcore_run (ch : bool) (p : ptr) (c : netdump_client)
    (cl : list (ptr * netdump_client)) (pkt : netdump_pkt) :
    list event -> outcome unit -> list (ptr * netdump_client) -> Prop :=
| vmcore_append r logs :
    let c1 := set_any_data_rcvd true c in
    need_flush c1 pkt = false ->
    vmcorebufoff c + mh_len pkt <= VMCORE_BUFSZ ->
    forallb is_log logs = true ->
    vmcore_run ch p c cl pkt
      (progress_dot pkt ++ ack_event c (mh_seqno pkt) r :: logs)
      (Done tt) (update p (fun _ => stage c1 pkt) cl)
| vmcore_append_overrun :
    let c1 := set_any_data_rcvd true c in
    need_flush c1 pkt = false ->
    vmcorebufoff c + mh_len pkt > VMCORE_BUFSZ ->
    vmcore_run ch p c cl pkt (progress_dot pkt)
      (Crash (BufferOverrun p)) (update p (fun _ => c1) cl)
| vmcore_flushed rw r logs :
    let c1 := set_any_data_rcvd true c in
    need_flush c1 pkt = true ->
    fst rw = signed64 (vmcorebufoff c) ->
    mh_len pkt <= VMCORE_BUFSZ ->
    forallb is_log logs = true ->
    vmcore_run ch p c cl pkt
      (progress_dot pkt ++ Ev (flush_call c) rw :: ack_event c (mh_seqno pkt) r :: logs)
      (Done tt) (update p (fun _ => stage (set_vmcorebufoff 0 c1) pkt) cl)
| vmcore_flushed_overrun rw :
    let c1 := set_any_data_rcvd true c in
    need_flush c1 pkt = true ->
    fst rw = signed64 (vmcorebufoff c) ->
    mh_len pkt > VMCORE_BUFSZ ->
    vmcore_run ch p c cl pkt
      (progress_dot pkt ++ [Ev (flush_call c) rw])
      (Crash (BufferOverrun p)) (update p (fun _ => set_vmcorebufoff 0 c1) cl)
| vmcore_flush_failed rw evs :
    let c1 := set_any_data_rcvd true c in
    need_flush c1 pkt = true ->
    fst rw <> signed64 (vmcorebufoff c) ->
    flush_fail_trace ch c1 evs ->
    vmcore_run ch p c cl pkt
      (progress_dot pkt ++ Ev (flush_call c) rw :: evs)
      (Done tt) (remove p cl).

(** Globals that no handler of a client event touches. *)
Definition same_globals (w w' : world) : Prop :=
  g_caphandler w' = g_caphandler w /\ g_sock w' = g_sock w /\
  g_now w' = g_now w /\ g_last_timeout_check w' = g_last_timeout_check w /\
  brk w' = brk w.

Definition is_pwrite (e : event) : bool :=
  match e with Ev (Pwrite _ _ _) _ => true | _ => false end.

Definition is_send (e : event) : bool :=
  match e with Ev (Send _ _) _ => true | _ => false end.

(** A predicate on events that holds of none of the calls free_client
    makes, nor of a log line. *)
Definition blind_to_teardown (g : event -> bool) : Prop :=
  (forall lvl fmt args r, g (Ev (Log lvl fmt args) r) = false) /\
  (forall sd r, g (Ev (Kevent_delete sd) r) = false) /\
  (forall s r, g (Ev (Fclose s) r) = false) /\
  (forall fd r, g (Ev (Close fd) r) = false).

(** The bytes a client holds staged, and the bytes a packet carries. *)
Definition buffered (c : netdump_client) : list uint8 :=
  firstn (Z.to_nat (vmcorebufoff c)) (vmcorebuf c).

Definition payload (pkt : netdump_pkt) : list uint8 :=
  firstn (Z.to_nat (mh_len pkt)) (data pkt).

(** Staged as into an empty buffer; staged behind what [c] held. *)
Definition staged_fresh (pkt : netdump_pkt) (c' : netdump_client) : Prop :=
  vmcoreoff c' = signed64 (mh_offset pkt) /\ vmcorebufoff c' = mh_len pkt /\
  buffered c' = payload pkt.

Definition staged_behind (c : netdump_client) (pkt : netdump_pkt) (c' : netdump_client) : Prop :=
  vmcoreoff c' = vmcoreoff c /\ vmcorebufoff c' = vmcorebufoff c + mh_len pkt /\
  buffered c' = buffered c ++ payload pkt.

(** The test after unlinkat: it failed, and errno is not ENOENT. *)
Definition unlink_stops (r : Z * Z) (en : Z) : bool :=
  negb (fst r =? 0) && negb (note_errno r en =? ENOENT).

Definition perror_event (m : string) (en : Z) : event :=
  Ev (Log LOG_ERR "%s: %s\n" [AStr m; AErr en]) tt.

(** Every way handle_finish can run for client [c] at address [p], from
    errno [en]: the calls it makes and the list it leaves. *)
Inductive finish_run (ch : bool) (p : ptr) (c : netdump_client)
    (cl : list (ptr * netdump_client)) (pkt : netdump_pkt) (en : Z) :
    list event -> list (ptr * netdump_client) -> Prop :=
| finish_flush_failed rw evs :
    fst rw <> signed64 (vmcorebufoff c) ->
    flush_fail_trace ch c evs ->
    finish_run ch p c cl pkt en (Ev (flush_call c) rw :: evs) (remove p cl)
| finish_unlink_core_failed rw r1 :
    let e0 := note_errno rw en in
    fst rw = signed64 (vmcorebufoff c) ->
    unlink_stops r1 e0 = true ->
    finish_run ch p c cl pkt en
      [ Ev (flush_call c) rw; Ev (Fsync (corefd c)) tt;
        Ev (Unlinkat g_dumpdir_fd (core_last (path c) (hostname c))) r1;
        perror_event "unlink()" (note_errno r1 e0) ]
      (update p (fun _ => set_vmcorebufoff 0 c) cl)
| finish_symlink_core_failed rw r1 r2 :
    let e0 := note_errno rw en in
    let e1 := note_errno r1 e0 in
    fst rw = signed64 (vmcorebufoff c) ->
    unlink_stops r1 e0 = false ->
    fst r2 <> 0 ->
    finish_run ch p c cl pkt en
      [ Ev (flush_call c) rw; Ev (Fsync (corefd c)) tt;
        Ev (Unlinkat g_dumpdir_fd (core_last (path c) (hostname c))) r1;
        Ev (Symlinkat (corefilename c) g_dumpdir_fd (core_last (path c) (hostname c))) r2;
        perror_event "symlink()" (note_errno r2 e1) ]
      (update p (fun _ => set_vmcorebufoff 0 c) cl)
| finish_unlink_info_failed rw r1 r2 r3 :
    let e0 := note_errno rw en in
    let e1 := note_errno r1 e0 in
    let e2 := note_errno r2 e1 in
    fst rw = signed64 (vmcorebufoff c) ->
    unlink_stops r1 e0 = false ->
    fst r2 = 0 ->
    unlink_stops r3 e2 = true ->
    finish_run ch p c cl pkt en
      [ Ev (flush_call c) rw; Ev (Fsync (corefd c)) tt;
        Ev (Unlinkat g_dumpdir_fd (core_last (path c) (hostname c))) r1;
        Ev (Symlinkat (corefilename c) g_dumpdir_fd (core_last (path c) (hostname c))) r2;
        Ev (Unlinkat g_dumpdir_fd (info_last (path c) (hostname c))) r3;
        perror_event "unlink()" (note_errno r3 e2) ]
      (update p (fun _ => set_vmcorebufoff 0 c) cl)
| finish_symlink_info_failed rw r1 r2 r3 r4 :
    let e0 := note_errno rw en in
    let e1 := note_errno r1 e0 in
    let e2 := note_errno r2 e1 in
    let e3 := note_errno r3 e2 in
    fst rw = signed64 (vmcorebufoff c) ->
    unlink_stops r1 e0 = false ->
    fst r2 = 0 ->
    unlink_stops r3 e2 = false ->
    fst r4 <> 0 ->
    finish_run ch p c cl pkt en
      [ Ev (flush_call c) rw; Ev (Fsync (corefd c)) tt;
        Ev (Unlinkat g_dumpdir_fd (core_last (path c) (hostname c))) r1;
        Ev (Symlinkat (corefilename c) g_dumpdir_fd (core_last (path c) (hostname c))) r2;
        Ev (Unlinkat g_dumpdir_fd (info_last (path c) (hostname c))) r3;
        Ev (Symlinkat (infofilename c) g_dumpdir_fd (info_last (path c) (hostname c))) r4;
        perror_event "symlink()" (note_errno r4 e3) ]
      (update p (fun _ => set_vmcorebufoff 0 c) cl)
| finish_done rw r1 r2 r3 r4 f ra logs hevs fevs :
    let e0 := note_errno rw en in
    let e1 := note_errno r1 e0 in
    let e2 := note_errno r2 e1 in
    fst rw = signed64 (vmcorebufoff c) ->
    unlink_stops r1 e0 = false ->
    fst r2 = 0 ->
    unlink_stops r3 e2 = false ->
    fst r4 = 0 ->
    infofile c = Some f ->
    forallb is_log logs = true ->
    handler_trace ch "success" c hevs ->
    free_trace c fevs ->
    finish_run ch p c cl pkt en
      ([ Ev (flush_call c) rw; Ev (Fsync (corefd c)) tt;
         Ev (Unlinkat g_dumpdir_fd (core_last (path c) (hostname c))) r1;
         Ev (Symlinkat (corefilename c) g_dumpdir_fd (core_last (path c) (hostname c))) r2;
         Ev (Unlinkat g_dumpdir_fd (info_last (path c) (hostname c))) r3;
         Ev (Symlinkat (infofilename c) g_dumpdir_fd (info_last (path c) (hostname c))) r4;
         Ev (Log LOG_INFO "\nCompleted dump from client %s [%s]\n"
               [AStr (hostname c); AIp (ip c)]) tt;
         Ev (Fprintf f "Dump complete\n" []) tt;
         ack_event c (mh_seqno pkt) ra ]
       ++ logs ++ hevs ++ fevs)
      (remove p cl).

(** [precedes p q evs]: every event of [evs] that satisfies [q] has an
    event that satisfies [p] before it. *)
Definition precedes (p q : event -> bool) (evs : list event) : Prop :=
  forall pre e post, evs = pre ++ e :: post -> q e = true -> existsb p pre = true.



Definition is_handler_request (e : event) : bool :=
  match e with Ev (Cap_xfer_nvlist _) _ => true | _ => false end.



(** An unlinkat that failed with an errno other than ENOENT, or a
    symlinkat that failed. *)
Definition link_failure (e : event) : bool :=
  match e with
  | Ev k r =>
    match k in call X return X -> bool with
    | Unlinkat _ _ => fun r => (fst r <? 0) && negb (snd r =? ENOENT)
    | Symlinkat _ _ _ => fun r => negb (fst r =? 0)
    | _ => fun _ => false
    end r
  end.

Definition is_dump_complete (e : event) : bool :=
  match e with
  | Ev (Fprintf _ fmt _) _ => String.eqb fmt "Dump complete\n"
  | _ => false
  end.

(** The calls by which free_client lets go of a client. *)
Definition is_release (e : event) : bool :=
  match e with
  | Ev (Kevent_delete _) _ | Ev (Fclose _) _ | Ev (Close _) _ => true
  | _ => false
  end.

Definition kdh_lines (f : Z) (h : list uint8) : list event :=
  [ Ev (Fprintf f "  Architecture: %s\n" [AKdh "architecture" h]) tt;
    Ev (Fprintf f "  Architecture version: %d\n" [AKdh "architectureversion" h]) tt;
    Ev (Fprintf f "  Dump length: %lldB (%lld MB)\n"
          [AKdh "dumplength" h; AKdh "dumplength >> 20" h]) tt;
    Ev (Fprintf f "  blocksize: %d\n" [AKdh "blocksize" h]) tt;
    Ev (Fprintf f "  Dumptime: %s" [AKdh "dumptime" h]) tt;
    Ev (Fprintf f "  Hostname: %s\n" [AKdh "hostname" h]) tt;
    Ev (Fprintf f "  Versionstring: %s" [AKdh "versionstring" h]) tt;
    Ev (Fprintf f "  Panicstring: %s\n" [AKdh "panicstring" h]) tt;
    Ev (Fprintf f "  Header parity check: %s\n" [AKdh "parity" h]) tt ].

(** The two ways handle_kdh can run. *)
Inductive kdh_run (c : netdump_client) (pkt : netdump_pkt) : list event -> Prop :=
| kdh_too_small f :
    infofile c = Some f ->
    mh_len pkt < sizeof_kerneldumpheader ->
    kdh_run c pkt
      [ Ev (Log LOG_ERR "Bad KDH from %s [%s]: packet too small\n"
              [AStr (hostname c); AIp (ip c)]) tt;
        Ev (Fprintf f "Bad KDH: packet too small\n" []) tt;
        Ev (Fflush f) tt ]
| kdh_written f ra logs :
    infofile c = Some f ->
    sizeof_kerneldumpheader <= mh_len pkt ->
    forallb is_log logs = true ->
    kdh_run c pkt
      (kdh_lines f (data pkt)
       ++ [ Ev (Fflush f) tt;
            Ev (Log LOG_INFO "(KDH from %s [%s])" [AStr (hostname c); AIp (ip c)]) tt;
            ack_event c (mh_seqno pkt) ra ]
       ++ logs).

(** The datagram passed both size checks of client_event. *)
Definition accepted (rr : recv_reply) : Prop :=
  sizeof_netdump_msg_hdr <= r_len rr /\ 0 <= r_len rr /\
  r_len rr - sizeof_netdump_msg_hdr = mh_len (r_pkt rr).

Definition transient (e : Z) : bool := (e =? EAGAIN) || (e =? EINTR).

(** Every way client_event can run for client [c] at address [p], after
    recv replied [rr]: the calls that follow, how it ends, and the list it
    leaves.  [ct] is the client with the time of the packet in last_msg. *)
Inductive client_run (ch : bool) (p : ptr) (c : netdump_client)
    (cl : list (ptr * netdump_client)) (en : Z) (rr : recv_reply) :
    list event -> outcome unit -> list (ptr * netdump_client) -> Prop :=
| client_recv_again :
    r_len rr < 0 -> transient (r_errno rr) = true ->
    client_run ch p c cl en rr [] (Done tt) cl
| client_recv_failed tevs :
    r_len rr < 0 -> transient (r_errno rr) = false ->
    timeout_trace ch c tevs ->
    client_run ch p c cl en rr (perror_event "recv()" (r_errno rr) :: tevs)
      (Done tt) (remove p cl)
| client_runt :
    0 <= r_len rr < sizeof_netdump_msg_hdr ->
    client_run ch p c cl en rr
      [Ev (Log LOG_ERR "Ignoring runt packet from %s (got %zu)\n"
             [AIp (ip c); AInt (r_len rr)]) tt]
      (Done tt) cl
| client_bad_size :
    0 <= r_len rr -> sizeof_netdump_msg_hdr <= r_len rr ->
    r_len rr - sizeof_netdump_msg_hdr <> mh_len (r_pkt rr) ->
    client_run ch p c cl en rr
      [Ev (Log LOG_ERR "Bad packet size from %s\n" [AIp (ip c)]) tt]
      (Done tt) cl
| client_kdh t evs :
    let ct := set_last_msg t c in
    accepted rr -> mh_type (r_pkt rr) = NETDUMP_KDH ->
    kdh_run ct (r_pkt rr) evs ->
    client_run ch p c cl en rr (Ev Clock_time t :: evs) (Done tt)
      (update p (fun _ => set_any_data_rcvd true ct) cl)
| client_vmcore t evs o cl' :
    let ct := set_last_msg t c in
    accepted rr -> mh_type (r_pkt rr) <> NETDUMP_KDH ->
    mh_type (r_pkt rr) = NETDUMP_VMCORE ->
    vmcore_run ch p ct (update p (fun _ => ct) cl) (r_pkt rr) evs o cl' ->
    client_run ch p c cl en rr (Ev Clock_time t :: evs) o cl'
| client_finish t evs cl' :
    let ct := set_last_msg t c in
    accepted rr -> mh_type (r_pkt rr) <> NETDUMP_KDH ->
    mh_type (r_pkt rr) <> NETDUMP_VMCORE ->
    mh_type (r_pkt rr) = NETDUMP_FINISHED ->
    finish_run ch p ct (update p (fun _ => ct) cl) (r_pkt rr) en evs cl' ->
    client_run ch p c cl en rr (Ev Clock_time t :: evs) (Done tt) cl'
| client_unexpected t :
    let ct := set_last_msg t c in
    accepted rr -> mh_type (r_pkt rr) <> NETDUMP_KDH ->
    mh_type (r_pkt rr) <> NETDUMP_VMCORE ->
    mh_type (r_pkt rr) <> NETDUMP_FINISHED ->
    client_run ch p c cl en rr
      [ Ev Clock_time t;
        Ev (Log LOG_ERR "Received unexpected message type %d from %s\n"
              [AInt (mh_type (r_pkt rr)); AIp (ip c)]) tt ]
      (Done tt) (update p (fun _ => ct) cl).

Definition acks (evs : list event) : list event := List.filter is_send evs.

(** A pwrite that did not return the count it was given (the test of
    vmcore_flush). *)
Definition pwrite_short (c : netdump_client) (e : event) : bool :=
  match e with
  | Ev k r =>
    match k in call X return X -> bool with
    | Pwrite _ _ _ => fun r => negb (fst r =? signed64 (vmcorebufoff c))
    | _ => fun _ => false
    end r
  end.

(** An unlinkat that succeeded or found nothing to unlink; a symlinkat
    that succeeded; any other call. *)
Definition links_ok (e : event) : bool :=
  match e with
  | Ev k r =>
    match k in call X return X -> bool with
    | Unlinkat _ _ => fun r => (fst r =? 0) || ((fst r <? 0) && (snd r =? ENOENT))
    | Symlinkat _ _ _ => fun r => fst r =? 0
    | _ => fun _ => true
    end r
  end.

(** How a handler stands with respect to the acknowledgement of [pkt]:
    none was sent and [why] holds, or exactly one was sent, on the
    client's socket and with the packet's sequence number, and no write
    was short and no link failed. *)
Definition ack_or (why : Prop) (c : netdump_client) (pkt : netdump_pkt)
    (evs : list event) : Prop :=
  (acks evs = [] /\ why) \/
  (exists ra, acks evs = [ack_event c (mh_seqno pkt) ra] /\
              existsb (pwrite_short c) evs = false /\
              existsb link_failure evs = false).

(** What makes a handler give up before the acknowledgement, and what
    lets it run through to it. *)
Definition gave_up (c : netdump_client) (pkt : netdump_pkt) (evs : list event) : Prop :=
  (mh_type pkt = NETDUMP_KDH /\ mh_len pkt < sizeof_kerneldumpheader)
  \/ existsb (pwrite_short c) evs = true
  \/ existsb link_failure evs = true.

Definition ran_through (c : netdump_client) (pkt : netdump_pkt) (evs : list event) : Prop :=
  (mh_type pkt = NETDUMP_KDH -> sizeof_kerneldumpheader <= mh_len pkt)
  /\ existsb (pwrite_short c) evs = false
  /\ forallb links_ok evs = true.

Definition is_openat (e : event) : bool :=
  match e with Ev (Openat _ _ _) _ => true | _ => false end.

(** The scan of alloc_client for a free pair of file names, call by
    call: the indices are tried in the order given; at each the info
    file is created first in the dump directory, write-only, create-new
    and exclusive; only when that succeeds (and a stream can be made over
    it) is the core file attempted, in the same way; when the stream or
    the core file cannot be made the info file is closed, unlink is
    called on its name, and the next index is tried.  That unlink names
    no directory and its reply [ru] is not looked at.  The result is the
    index found with the two file descriptors, or nothing. *)
Inductive scan_spec (dir host : string) :
    list nat -> list event -> option (nat * Z * Z) -> Prop :=
| scan_exhausted :
    scan_spec dir host [] [] None
| scan_info_taken i rest r logs evs res :
    fst r = -1 -> forallb is_log logs = true ->
    scan_spec dir host rest evs res ->
    scan_spec dir host (i :: rest)
      (Ev (Openat g_dumpdir_fd (info_name dir host i) excl_wronly) r :: logs ++ evs) res
| scan_no_stream i rest r fr ru log evs res :
    fst r <> -1 -> fst fr = false -> is_log log = true ->
    scan_spec dir host rest evs res ->
    scan_spec dir host (i :: rest)
      (Ev (Openat g_dumpdir_fd (info_name dir host i) excl_wronly) r
       :: Ev (Fdopen (fst r)) fr :: log :: Ev (Close (fst r)) tt
       :: Ev (Unlink (info_name dir host i)) ru :: evs) res
| scan_core_taken i rest r fr r2 ru logs evs res :
    fst r <> -1 -> fst fr = true -> fst r2 = -1 ->
    forallb is_log logs = true ->
    scan_spec dir host rest evs res ->
    scan_spec dir host (i :: rest)
      (Ev (Openat g_dumpdir_fd (info_name dir host i) excl_wronly) r
       :: Ev (Fdopen (fst r)) fr
       :: Ev (Openat g_dumpdir_fd (core_name dir host i) excl_rdwr) r2
       :: Ev (Fclose (fst r)) tt
       :: Ev (Unlink (info_name dir host i)) ru :: logs ++ evs) res
| scan_found i rest r fr r2 :
    fst r <> -1 -> fst fr = true -> fst r2 <> -1 ->
    scan_spec dir host (i :: rest)
      [ Ev (Openat g_dumpdir_fd (info_name dir host i) excl_wronly) r;
        Ev (Fdopen (fst r)) fr;
        Ev (Openat g_dumpdir_fd (core_name dir host i) excl_rdwr) r2 ]
      (Some (i, fst r, fst r2)).

(** The client alloc_files leaves, given what the scan found. *)
Definition with_files (dir host : string) (res : option (nat * Z * Z))
    (c' : netdump_client) : Prop :=
  match res with
  | Some (i, fd, fd2) =>
    infofilename c' = info_name dir host i /\ corefilename c' = core_name dir host i /\
    infofile c' = Some fd /\ corefd c' = fd2 /\ fd2 <> -1
  | None => infofile c' = None
  end.

(** Fields the scan does not touch. *)
Definition same_session (c c' : netdump_client) : Prop :=
  path c' = path c /\ hostname c' = hostname c /\ last_msg c' = last_msg c /\
  ip c' = ip c /\ sock c' = sock c /\ any_data_rcvd c' = any_data_rcvd c /\
  vmcorebufoff c' = vmcorebufoff c /\ vmcoreoff c' = vmcoreoff c /\
  vmcorebuf c' = vmcorebuf c.

(** A client as alloc_client registers it for a herald from [saddr] on
    socket [sd], at time [now], with the files the scan found. *)
Definition fresh_client (sd saddr now : Z) (dir host : string)
    (i : nat) (fd fd2 : Z) (c : netdump_client) : Prop :=
  sock c = sd /\ ip c = saddr /\ last_msg c = now /\
  path c = dir /\ hostname c = host /\
  infofilename c = info_name dir host i /\ corefilename c = core_name dir host i /\
  infofile c = Some fd /\ corefd c = fd2 /\
  any_data_rcvd c = false /\ vmcorebufoff c = 0 /\
  vmcorebuf c = zero_buf.

(** Every way alloc_client can run: the calls it makes, what it returns
    and the list it leaves. *)
Inductive alloc_run (sd saddr : Z) (dir : string) (now : Z) (p : ptr)
    (cl : list (ptr * netdump_client)) :
    list event -> option ptr -> list (ptr * netdump_client) -> Prop :=
| alloc_no_memory evs :
    existsb is_openat evs = false ->
    alloc_run sd saddr dir now p cl (Ev Calloc false :: evs) None cl
| alloc_no_name evs :
    existsb is_openat evs = false ->
    alloc_run sd saddr dir now p cl (Ev Calloc true :: evs) None cl
| alloc_no_files host pre scan post :
    existsb is_openat pre = false -> existsb is_openat post = false ->
    scan_spec (snprintf MAXPATHLEN dir) host (seq 0 MAX_DUMPS) scan None ->
    alloc_run sd saddr dir now p cl (Ev Calloc true :: pre ++ scan ++ post) None cl
| alloc_not_watched host pre scan post i fd fd2 :
    existsb is_openat pre = false -> existsb is_openat post = false ->
    scan_spec (snprintf MAXPATHLEN dir) host (seq 0 MAX_DUMPS) scan (Some (i, fd, fd2)) ->
    alloc_run sd saddr dir now p cl (Ev Calloc true :: pre ++ scan ++ post) None cl
| alloc_done host pre scan rk i fd fd2 c :
    existsb is_openat pre = false ->
    scan_spec (snprintf MAXPATHLEN dir) host (seq 0 MAX_DUMPS) scan (Some (i, fd, fd2)) ->
    fresh_client sd saddr now (snprintf MAXPATHLEN dir) host i fd fd2 c ->
    fst rk = 0 ->
    alloc_run sd saddr dir now p cl
      (Ev Calloc true :: pre ++ scan ++ [Ev (Kevent_add sd p) rk])
      (Some p) ((p, c) :: cl).

Definition alloc_globals (w w' : world) : Prop :=
  g_caphandler w' = g_caphandler w /\ g_sock w' = g_sock w /\
  g_now w' = g_now w /\ g_last_timeout_check w' = g_last_timeout_check w.

(** The two lookups of the donor's name: what they reply and the name
    the client gets, if any. *)
Inductive name_lookup (saddr : Z) : list event -> option string -> Prop :=
| name_resolved r :
    fst r = 0 ->
    name_lookup saddr [Ev (Cap_getnameinfo saddr true) r] (Some (strip_domain (snd r)))
| name_numeric r r2 :
    fst r <> 0 -> fst r2 = 0 ->
    name_lookup saddr
      [Ev (Cap_getnameinfo saddr true) r; Ev (Cap_getnameinfo saddr false) r2]
      (Some (snd r2))
| name_unknown r r2 :
    fst r <> 0 -> fst r2 <> 0 ->
    name_lookup saddr
      [Ev (Cap_getnameinfo saddr true) r; Ev (Cap_getnameinfo saddr false) r2;
       Ev (Log LOG_ERR "cap_getnameinfo(): %s\n" [AErr (fst r2)]) tt]
      None.

(** What error_out closes. *)
Definition release_trace (c : netdump_client) : list event :=
  (match infofile c with Some f => [Ev (Fclose f) tt] | None => [] end)
  ++ (if corefd c =? -1 then [] else [Ev (Close (corefd c)) tt])
  ++ (if sock c =? -1 then [] else [Ev (Close (sock c)) tt]).

Definition close_sock (sd : Z) : list event :=
  if sd =? -1 then [] else [Ev (Close sd) tt].

(** Every way alloc_client can run, with every call it makes. *)
Inductive alloc_exact (sd saddr : Z) (dir : string) (now : Z) (p : ptr)
    (cl : list (ptr * netdump_client)) :
    list event -> option ptr -> list (ptr * netdump_client) -> Prop :=
| exact_no_memory line :
    is_log line = true ->
    alloc_exact sd saddr dir now p cl [Ev Calloc false; line] None cl
| exact_no_name names :
    name_lookup saddr names None ->
    alloc_exact sd saddr dir now p cl (Ev Calloc true :: names ++ close_sock sd) None cl
| exact_no_files names host rs logs scan line :
    name_lookup saddr names (Some host) ->
    forallb is_log logs = true -> is_log line = true ->
    scan_spec (snprintf MAXPATHLEN dir) host (seq 0 MAX_DUMPS) scan None ->
    alloc_exact sd saddr dir now p cl
      (Ev Calloc true :: names ++ Ev (Setsockopt_rcvbuf sd 131072) rs :: logs
       ++ scan ++ line :: close_sock sd)
      None cl
| exact_not_watched names host rs logs scan i fd fd2 rk line :
    name_lookup saddr names (Some host) ->
    forallb is_log logs = true -> is_log line = true ->
    scan_spec (snprintf MAXPATHLEN dir) host (seq 0 MAX_DUMPS) scan (Some (i, fd, fd2)) ->
    fd2 <> -1 -> fst rk <> 0 ->
    alloc_exact sd saddr dir now p cl
      (Ev Calloc true :: names ++ Ev (Setsockopt_rcvbuf sd 131072) rs :: logs
       ++ scan ++ Ev (Kevent_add sd p) rk :: line
       :: Ev (Fclose fd) tt :: Ev (Close fd2) tt :: close_sock sd)
      None cl
| exact_done names host rs logs scan i fd fd2 rk c :
    name_lookup saddr names (Some host) ->
    forallb is_log logs = true ->
    scan_spec (snprintf MAXPATHLEN dir) host (seq 0 MAX_DUMPS) scan (Some (i, fd, fd2)) ->
    fd2 <> -1 -> fst rk = 0 ->
    fresh_client sd saddr now (snprintf MAXPATHLEN dir) host i fd fd2 c ->
    alloc_exact sd saddr dir now p cl
      (Ev Calloc true :: names ++ Ev (Setsockopt_rcvbuf sd 131072) rs :: logs
       ++ scan ++ [Ev (Kevent_add sd p) rk])
      (Some p) ((p, c) :: cl).

(** The names of the info files a trace tries to create, in order. *)
Definition info_opens (evs : list event) : list string :=
  flat_map (fun e => match e with
                     | Ev (Openat _ name (O_WRONLY :: _)) _ => [name]
                     | _ => []
                     end) evs.

Definition is_unlinkat (e : event) : bool :=
  match e with Ev (Unlinkat _ _) _ => true | _ => false end.

(** The calls that take a file name. *)
Definition names_a_file (e : event) : bool :=
  match e with
  | Ev (Openat _ _ _) _ | Ev (Unlink _) _ | Ev (Unlinkat _ _) _ => true
  | _ => false
  end.

(** An unlink that took nothing away: it failed. *)
Definition unlink_refused (e : event) : bool :=
  match e with Ev (Unlink _) r => negb (fst r =? 0) | _ => true end.

Definition drop_name (name : string) (files : list string) : list string :=
  List.filter (fun n => negb (String.eqb n name)) files.

(** The names a trace leaves in the dump directory, on top of [files],
    going by the calls and their replies: an openat on g_dumpdir_fd that
    succeeded puts its name there (alloc_client opens with O_CREAT and
    O_EXCL only), an unlinkat on g_dumpdir_fd that succeeded takes its
    name out.  unlink looks its path up from the working directory; it is
    counted as if that were the dump directory, so that it takes the
    name out whenever it succeeds. *)
Fixpoint dump_files (evs : list event) (files : list string) : list string :=
  match evs with
  | [] => files
  | e :: rest =>
    dump_files rest
      match e with
      | Ev (Openat d name _) r =>
        if (d =? g_dumpdir_fd) && negb (fst r =? -1) then name :: files else files
      | Ev (Unlinkat d name) r =>
        if (d =? g_dumpdir_fd) && (fst r =? 0) then drop_name name files else files
      | Ev (Unlink name) r =>
        if fst r =? 0 then drop_name name files else files
      | _ => files
      end
  end.

(** [steady w w']: from [w] to [w'] the globals g_caphandler, g_sock,
    g_now and g_last_timeout_check are the same, and the trace only grew. *)
Definition steady (w w' : world) : Prop :=
  g_caphandler w' = g_caphandler w /\ g_sock w' = g_sock w /\
  g_now w' = g_now w /\ g_last_timeout_check w' = g_last_timeout_check w /\
  exists evs, trace w' = trace w ++ evs.

Definition keeps {A} (m : M A) : Prop := forall w, steady w (snd (m w)).

(** The list of clients as the program keeps it: no address twice, and
    every client with its info stream open. *)
Definition clients_ok (cl : list (ptr * netdump_client)) : Prop :=
  NoDup (map fst cl) /\ forall p c, In (p, c) cl -> infofile c <> None.

(** The lines server_event writes for a client it goes on with, and the
    acknowledgement of the herald. *)
Definition welcome (c : netdump_client) (f : Z) (seqno : Z) (r : Z * Z) : list event :=
  [ Ev (Fprintf f "Dump from %s [%s]\n" [AStr (hostname c); AIp (ip c)]) tt;
    Ev (Log LOG_INFO "New dump from client %s [%s] (to %s)\n"
          [AStr (hostname c); AIp (ip c); AStr (corefilename c)]) tt;
    Ev (Send (sock c) (htonl seqno)) r ].

(** Every way server_event can run after the herald worker replied [h]:
    the calls that follow, how it ends, and the list it leaves. *)
Inductive herald_run (ch : bool) (now : Z) (bk : ptr)
    (cl : list (ptr * netdump_client)) (h : herald_reply) :
    list event -> outcome Z -> list (ptr * netdump_client) -> Prop :=
| herald_failed :
    h_error h <> 0 ->
    herald_run ch now bk cl h
      [Ev (Log LOG_ERR "netdump_cap_herald(): %s\n" [AErr (h_error h)]) tt]
      (Done 0) cl
| herald_no_session evs cl' :
    h_error h = 0 -> find_client (h_saddr h) cl = None ->
    alloc_run (h_sd h) (h_saddr h) (h_path h) now bk cl evs None cl' ->
    herald_run ch now bk cl h
      (evs ++ [Ev (Log LOG_ERR "server_event(): new client allocation failure\n" []) tt])
      (Done 0) cl'
| herald_session evs p c f r logs cl' :
    h_error h = 0 -> find_client (h_saddr h) cl = None ->
    alloc_run (h_sd h) (h_saddr h) (h_path h) now bk cl evs (Some p) cl' ->
    lookup p cl' = Some c -> infofile c = Some f ->
    forallb is_log logs = true ->
    herald_run ch now bk cl h
      (evs ++ welcome c f (h_seqno h) r ++ logs) (Done 0) cl'
| herald_retransmit p c r logs :
    h_error h = 0 -> find_client (h_saddr h) cl = Some p ->
    lookup p cl = Some c -> any_data_rcvd c = false ->
    forallb is_log logs = true ->
    herald_run ch now bk cl h
      (Ev (Send (sock c) (htonl (h_seqno h))) r :: logs) (Done 0) cl
| herald_supersedes p c evs :
    h_error h = 0 -> find_client (h_saddr h) cl = Some p ->
    lookup p cl = Some c -> any_data_rcvd c = true ->
    timeout_trace ch c evs ->
    herald_run ch now bk cl h evs (Crash (UseAfterFree p)) (remove p cl).

Definition is_calloc (e : event) : bool :=
  match e with Ev Calloc _ => true | _ => false end.

(** The test of the sweep. *)
Definition stale (now : Z) (c : netdump_client) : bool :=
  signed64 (last_msg c + CLIENT_TIMEOUT) <? now.

(** One pass of timeout_clients at time [now] over the clients still to
    visit: the calls it makes and the clients it keeps. *)
Inductive sweep_run (ch : bool) (now : Z) :
    list (ptr * netdump_client) -> list event -> list (ptr * netdump_client) -> Prop :=
| sweep_end : sweep_run ch now [] [] []
| sweep_keeps p c rest evs kept :
    stale now c = false -> sweep_run ch now rest evs kept ->
    sweep_run ch now ((p, c) :: rest) evs ((p, c) :: kept)
| sweep_times_out p c rest tevs evs kept :
    stale now c = true -> timeout_trace ch c tevs ->
    sweep_run ch now rest evs kept ->
    sweep_run ch now ((p, c) :: rest)
      (Ev (Log LOG_INFO "Timingout with such values: %jd + %jd < %jd\n"
             [AInt (last_msg c); AInt CLIENT_TIMEOUT; AInt now]) tt :: tevs ++ evs)
      kept.

(** The values of time_t. *)
Definition time_t_range (x : Z) : Prop := - 2 ^ 63 <= x < 2 ^ 63.

(** [returns R m]: whenever [m] returns a value, the value satisfies [R]. *)
Definition returns {A} (R : A -> Prop) (m : M A) : Prop :=
  forall w a, fst (m w) = Done a -> R a.

(** What the loop at the label out does to the clients, first to last. *)
Inductive shutdown_trace (ch : bool) : list (ptr * netdump_client) -> list event -> Prop :=
| shutdown_none : shutdown_trace ch [] []
| shutdown_next p c l tevs evs :
    timeout_trace ch c tevs -> shutdown_trace ch l evs ->
    shutdown_trace ch ((p, c) :: l) (tevs ++ evs).

(** The shapes of the calls that occur in the text of the functions
    eventloop reaches: files are created exclusively, openat, unlinkat
    and symlinkat name the dump directory, the names removed are
    candidates of the scan or the two links, what is sent is one sequence
    number, and so on. *)
Definition made_call {X} (c : call X) : Prop :=
  match c with
  | Openat dirfd n fl => dirfd = g_dumpdir_fd /\ (fl = excl_wronly \/ fl = excl_rdwr)
  | Unlink n => exists d h i, n = info_name d h i
  | Unlinkat dirfd n =>
    dirfd = g_dumpdir_fd /\ exists d h, n = core_last d h \/ n = info_last d h
  | Symlinkat t dirfd l =>
    dirfd = g_dumpdir_fd /\ exists d h, l = core_last d h \/ l = info_last d h
  | Send sd dgram => exists s, dgram = htonl s
  | Kevent_wait n t => n = 8 /\ t = CLIENT_TPASS
  | Setsockopt_rcvbuf _ sz => sz = 131072
  | _ => True
  end.

Definition made (e : event) : Prop :=
  match e with Ev c _ => made_call c end.

Definition is_xfer {X} (c : call X) : bool :=
  match c with Cap_xfer_nvlist _ => true | _ => false end.

Definition is_send_call {X} (c : call X) : bool :=
  match c with Send _ _ => true | _ => false end.

(** [m] frames [R]: from any state, the state [m] leaves is related to it. *)
Definition frames (R : world -> world -> Prop) {A} (m : M A) : Prop :=
  forall w, R w (snd (m w)).

(** Every call of a run of eventloop has one of the shapes above. *)
Definition only_made (w w' : world) : Prop :=
  exists evs, trace w' = trace w ++ evs /\ Forall made evs.

(** Started without a handler, the daemon stays without one and asks
    the handler service for nothing. *)
Definition no_handler (w w' : world) : Prop :=
  g_caphandler w = false ->
  g_caphandler w' = false /\
  exists evs, trace w' = trace w ++ evs /\ existsb is_handler_request evs = false.

(** No address twice, every client with its info stream, no two clients
    of one donor, and every address below the next one calloc gives. *)
Definition sessions_ok (bk : ptr) (cl : list (ptr * netdump_client)) : Prop :=
  clients_ok cl /\
  NoDup (map (fun qc => ip (snd qc)) cl) /\
  (forall p c, In (p, c) cl -> (p < bk)%positive).

Definition daemon_ok (w : world) : Prop := sessions_ok (brk w) (g_clients w).

Definition is_fflush (f : Z) (e : event) : bool :=
  match e with Ev (Fflush s) _ => s =? f | _ => false end.

Definition is_info_line (e : event) : bool :=
  match e with Ev (Fprintf _ _ _) _ => true | _ => false end.

Definition sends_nothing (w w' : world) : Prop :=
  exists evs, trace w' = trace w ++ evs /\ existsb is_send evs = false.

(** Every client's fill level is within its buffer. *)
Definition buf_ok (cl : list (ptr * netdump_client)) : Prop :=
  forall p c, In (p, c) cl -> 0 <= vmcorebufoff c <= VMCORE_BUFSZ.

(** The one fault a run may end in is the access to a freed client. *)
Definition no_overrun {A} (r : outcome A) : Prop :=
  forall f, r = Crash f -> exists p, f = UseAfterFree p.

(** What a run leaves when it starts from buffers within bounds. *)
Definition tidy {A} (m : M A) (w : world) : Prop :=
  buf_ok (g_clients (snd (m w))) /\ no_overrun (fst (m w)).

(** The elements handler_limits lets through. *)
Definition limit_allowed (e : string * nvitem) : Prop :=
  (fst e = "handlerfd"%string /\ exists fd, snd e = NvDescriptor fd) \/
  (fst e = "handler_script"%string /\ exists s, snd e = NvString s).

Definition is_fork (e : wevent) : bool :=
  match e with WEv Fork _ => true | _ => false end.

Definition is_fexecve (e : wevent) : bool :=
  match e with WEv (Fexecve _ _) _ => true | _ => false end.

Fixpoint remove_one (x : Z) (l : list Z) : list Z :=
  match l with
  | [] => []
  | y :: rest => if x =? y then rest else y :: remove_one x rest
  end.

(** The descriptors open after a call, from those open before it: openat
    adds the one it returns, close and fclose take theirs away.  The
    stream of fdopen goes by its descriptor. *)
Definition still_open (open : list Z) (e : event) : list Z :=
  match e with
  | Ev (Openat _ _ _) r => if fst r =? -1 then open else fst r :: open
  | Ev (Close fd) _ => remove_one fd open
  | Ev (Fclose f) _ => remove_one f open
  | _ => open
  end.

Definition ledger (evs : list event) (open : list Z) : list Z :=
  fold_left still_open evs open.

Definition has_dot (s : string) : bool :=
  existsb (Ascii.eqb ".") (list_ascii_of_string s).

(** The contents of a file as a partial map from offsets to bytes:
    [write_at img off bytes] is [img] with [bytes] laid down at [off]. *)
Definition write_at (img : Z -> option uint8) (off : Z) (bytes : list uint8) :
    Z -> option uint8 :=
  fun o => if (off <=? o) && (o <? off + Z.of_nat (List.length bytes))
           then nth_error bytes (Z.to_nat (o - off)) else img o.

(** The file behind descriptor [fd] after a call: a pwrite that wrote all
    it was given lays its bytes down, every other call leaves the file. *)
Definition written (fd : Z) (img : Z -> option uint8) (e : event) : Z -> option uint8 :=
  match e with
  | Ev (Pwrite fd' bytes off) r =>
    if (fd' =? fd) && (fst r =? Z.of_nat (List.length bytes))
    then write_at img off bytes else img
  | _ => img
  end.

Definition image (fd : Z) (evs : list event) (img : Z -> option uint8) :
    Z -> option uint8 :=
  fold_left (written fd) evs img.

(** The file once the bytes the client has staged are written too. *)
Definition pending (c : netdump_client) (img : Z -> option uint8) : Z -> option uint8 :=
  write_at img (vmcoreoff c) (buffered c).

Definition is_symlink (e : event) : bool :=
  match e with Ev (Symlinkat _ _ _) _ => true | _ => false end.

Definition iwp {A} (m : Startup.I A) (g : Startup.globals)
    (Q : Startup.result A -> Startup.globals -> Prop) : Prop :=
  Q (fst (m g)) (snd (m g)).

Definition is_casper_close (e : Startup.ievent) : bool :=
  match e with
  | Startup.IEv (Startup.Cap_close chan) _ => String.eqb chan "casper"
  | _ => false
  end.

Definition is_cap_init (e : Startup.ievent) : bool :=
  match e with Startup.IEv Startup.Cap_init _ => true | _ => false end.

Definition is_dns_open (e : Startup.ievent) : bool :=
  match e with
  | Startup.IEv (Startup.Cap_service_open name) _ => String.eqb name "system.dns"
  | _ => false
  end.

Definition is_rights_limit (e : Startup.ievent) : bool :=
  match e with Startup.IEv (Startup.Cap_rights_limit _ _) _ => true | _ => false end.

(** A reply of Casper or of cap_enter that init_cap_mode takes for a
    failure.  cap_rights_limit is not among them. *)
Definition cap_failure (e : Startup.ievent) : bool :=
  match e with
  | Startup.IEv k r =>
    match k in Startup.icall X return X -> bool with
    | Startup.Cap_init => fun r => negb r
    | Startup.Cap_enter => fun r => negb (r =? 0)
    | Startup.Cap_service_open _ => fun r => negb r
    | Startup.Cap_limit_set _ _ => fun r => negb (r =? 0)
    | _ => fun _ => false
    end r
  end.

(** The limits init_cap_mode asked for the handler service, if it did. *)
Fixpoint handler_limits_asked (t : list Startup.ievent) : option nvlist :=
  match t with
  | [] => None
  | Startup.IEv (Startup.Cap_limit_set service lim) _ :: rest =>
    if String.eqb service "netdumpd.handler" then Some lim else handler_limits_asked rest
  | _ :: rest => handler_limits_asked rest
  end.

Definition is_eventloop (e : Startup.ievent) : bool :=
  match e with Startup.IEv (Startup.Eventloop _ _) _ => true | _ => false end.

(** What the event loop returned, if it was entered. *)
Fixpoint loop_code (t : list Startup.ievent) : option Z :=
  match t with
  | [] => None
  | Startup.IEv (Startup.Eventloop _ _) rc :: _ => Some rc
  | _ :: rest => loop_code rest
  end.

Definition has_flag (f : string) (l : list string) : bool := existsb (String.eqb f) l.

(** The place of a call in main: the options, the pid file, the checks
    of the dump directory, its descriptor, daemon, the pid, the script,
    the socket, the kqueue, capability mode and Casper, the event loop,
    the cleanup.  Messages and free have no place of their own. *)
Definition stage_of (e : Startup.ievent) : option nat :=
  match e with
  | Startup.IEv Startup.Openlog _ => Some 0
  | Startup.IEv (Startup.Inet_aton _) _ | Startup.IEv (Startup.Strdup _) _ => Some 1
  | Startup.IEv (Startup.Access _ mode) _ => if has_flag "X_OK" mode then Some 1 else Some 4
  | Startup.IEv (Startup.Pidfile_open _) _ => Some 2
  | Startup.IEv (Startup.Stat _) _ => Some 3
  | Startup.IEv (Startup.Open _ flags) _ =>
    if has_flag "O_DIRECTORY" flags then Some 5 else Some 8
  | Startup.IEv Startup.Daemon _ => Some 6
  | Startup.IEv Startup.Pidfile_write _ => Some 7
  | Startup.IEv Startup.Socket _ | Startup.IEv (Startup.Setsockopt_recvdstaddr _) _
  | Startup.IEv (Startup.Bind _ _ _) _ | Startup.IEv (Startup.Fcntl_nonblock _) _ => Some 9
  | Startup.IEv Startup.Kqueue _ | Startup.IEv (Startup.Kevent_add_read _ _) _
  | Startup.IEv Startup.Sigprocmask_block_all _
  | Startup.IEv (Startup.Kevent_add_signals _ _) _ => Some 10
  | Startup.IEv Startup.Caph_cache_catpages _ | Startup.IEv Startup.Cap_init _
  | Startup.IEv Startup.Cap_enter _ | Startup.IEv (Startup.Cap_rights_limit _ _) _
  | Startup.IEv (Startup.Cap_service_open _) _
  | Startup.IEv (Startup.Cap_limit_set _ _) _ => Some 11
  | Startup.IEv (Startup.Cap_close chan) _ =>
    if String.eqb chan "casper" then Some 11 else Some 13
  | Startup.IEv (Startup.Eventloop _ _) _ => Some 12
  | Startup.IEv Startup.Pidfile_remove _ | Startup.IEv (Startup.Close _) _ => Some 13
  | Startup.IEv (Startup.Warnx _ _) _ | Startup.IEv (Startup.Warn _ _) _
  | Startup.IEv (Startup.Fprintf_stderr _) _ | Startup.IEv (Startup.Logerr_perror _) _
  | Startup.IEv (Startup.Free _) _ => None
  end%nat.

(** No call comes before a call of an earlier place. *)
Fixpoint in_order (cur : nat) (t : list Startup.ievent) : bool :=
  match t with
  | [] => true
  | e :: rest =>
    match stage_of e with
    | Some n => (cur <=? n)%nat && in_order n rest
    | None => in_order cur rest
    end
  end.

Definition in_stage (k : nat) (e : Startup.ievent) : bool :=
  match stage_of e with Some n => Nat.eqb n k | None => true end.

(** The calls of the loop over the options. *)
Definition option_call (e : Startup.ievent) : bool := in_stage 1 e.

Definition pidfile_opened (e : Startup.ievent) : bool :=
  match e with Startup.IEv (Startup.Pidfile_open _) r => fst r | _ => false end.

Definition is_pidfile_remove (e : Startup.ievent) : bool :=
  match e with Startup.IEv Startup.Pidfile_remove _ => true | _ => false end.

Definition dumpdir_opened (e : Startup.ievent) : bool :=
  match e with
  | Startup.IEv (Startup.Open _ flags) fd => has_flag "O_DIRECTORY" flags && negb (fd <? 0)
  | _ => false
  end.

Definition script_opened (e : Startup.ievent) : bool :=
  match e with
  | Startup.IEv (Startup.Open _ flags) fd => negb (has_flag "O_DIRECTORY" flags) && negb (fd <? 0)
  | _ => false
  end.

Definition pidfile_written (e : Startup.ievent) : bool :=
  match e with Startup.IEv Startup.Pidfile_write rc => rc =? 0 | _ => false end.

Definition detached (e : Startup.ievent) : bool :=
  match e with Startup.IEv Startup.Daemon rc => negb (rc =? -1) | _ => false end.

Definition bound (e : Startup.ievent) : bool :=
  match e with Startup.IEv (Startup.Bind _ _ _) rc => rc =? 0 | _ => false end.

Definition bound_to (sd ip port : Z) (e : Startup.ievent) : bool :=
  match e with
  | Startup.IEv (Startup.Bind sd' ip' port') rc =>
    (sd' =? sd) && (ip' =? ip) && (port' =? port) && (rc =? 0)
  | _ => false
  end.

Definition nonblocking (e : Startup.ievent) : bool :=
  match e with Startup.IEv (Startup.Fcntl_nonblock _) rc => negb (rc =? -1) | _ => false end.

Definition socket_watched (e : Startup.ievent) : bool :=
  match e with Startup.IEv (Startup.Kevent_add_read _ _) rc => rc =? 0 | _ => false end.

Definition signals_blocked (e : Startup.ievent) : bool :=
  match e with Startup.IEv Startup.Sigprocmask_block_all rc => rc =? 0 | _ => false end.

Definition signals_watched (e : Startup.ievent) : bool :=
  match e with Startup.IEv (Startup.Kevent_add_signals _ _) rc => rc =? 0 | _ => false end.

Definition cap_entered (e : Startup.ievent) : bool :=
  match e with Startup.IEv Startup.Cap_enter rc => rc =? 0 | _ => false end.

Definition service_limited (name : string) (e : Startup.ievent) : bool :=
  match e with
  | Startup.IEv (Startup.Cap_limit_set service _) rc => String.eqb service name && (rc =? 0)
  | _ => false
  end.

(** What has to have gone well before the event loop is entered. *)
Definition needed (debug : bool) (script : option string) :
    list (Startup.ievent -> bool) :=
  [pidfile_opened; dumpdir_opened; pidfile_written; bound; nonblocking;
   socket_watched; signals_blocked; signals_watched; cap_entered;
   service_limited "system.dns"; service_limited "netdumpd.herald"]
  ++ (if debug then [] else [detached])
  ++ (match script with
      | Some _ => [script_opened; service_limited "netdumpd.handler"]
      | None => []
      end).

(** The arguments the event loop was entered with: g_sock, and whether
    g_caphandler is set. *)
Fixpoint loop_args (t : list Startup.ievent) : option (Z * bool) :=
  match t with
  | [] => None
  | Startup.IEv (Startup.Eventloop sd h) _ :: _ => Some (sd, h)
  | _ :: rest => loop_args rest
  end.

Definition add_events (evs : list Startup.ievent) (g : Startup.globals) : Startup.globals :=
  Startup.mkGlobals (Startup.g_bindip g) (Startup.g_debug g) (Startup.g_dumpdir g)
    (Startup.g_dumpdir_fd g) (Startup.g_handler_script g) (Startup.g_handler_fd g)
    (Startup.g_pfh g) (Startup.g_phook g) (Startup.g_sock g) (Startup.g_kq g)
    (Startup.g_capdns g) (Startup.g_capherald g) (Startup.g_caphandler g)
    (Startup.trace g ++ evs).

(** The calls before the event loop is entered. *)
Fixpoint before_loop (t : list Startup.ievent) : list Startup.ievent :=
  match t with
  | [] => []
  | Startup.IEv (Startup.Eventloop _ _) _ :: _ => []
  | e :: rest => e :: before_loop rest
  end.

(** What a run of main from the call of pidfile_open to the label
    cleanup comes to. *)
Definition body_post (port : Z) (g : Startup.globals) (r : Startup.result Z)
    (g' : Startup.globals) (evs : list Startup.ievent) : Prop :=
  Startup.trace g' = Startup.trace g ++ evs /\
  Startup.g_debug g' = Startup.g_debug g /\
  Startup.g_handler_script g' = Startup.g_handler_script g /\
  Startup.g_bindip g' = Startup.g_bindip g /\
  Startup.g_pfh g' = existsb pidfile_opened evs /\
  existsb is_pidfile_remove evs = false /\
  in_order 2 evs = true /\
  ((existsb is_eventloop evs = false /\
    (r = Startup.Ret 1 \/ (r = Startup.Exit 1 /\ Startup.g_pfh g' = false))) \/
   (exists rc,
      loop_code evs = Some rc /\ r = Startup.Ret rc /\
      loop_args evs = Some (Startup.g_sock g', Startup.g_caphandler g') /\
      forallb (fun ok => existsb ok (before_loop evs))
        (needed (Startup.g_debug g) (Startup.g_handler_script g)) = true /\
      existsb (bound_to (Startup.g_sock g') (Startup.g_bindip g) port)
        (before_loop evs) = true /\
      (Startup.g_caphandler g = false ->
       Startup.g_caphandler g' = match Startup.g_handler_script g with
                                 | Some _ => true
                                 | None => false
                                 end))).

(** The option -D is among the options. *)
Definition debug_option (opts : list (ascii * string)) : bool :=
  existsb (fun o => Ascii.eqb (fst o) "D") opts.

(** The script of the last option -i, [cur] when there is none. *)
Fixpoint script_option (opts : list (ascii * string)) (cur : option string) :
    option string :=
  match opts with
  | [] => cur
  | (ch, optarg) :: rest =>
    script_option rest (if Ascii.eqb ch "i" then Some optarg else cur)
  end.

(** What a run of main on the options [opts] comes to. *)
Definition main_post (port : Z) (opts : list (ascii * string))
    (r : Startup.result Z) (g' : Startup.globals) : Prop :=
  let t := Startup.trace g' in
  match loop_code t with
  | Some rc => r = Startup.Ret rc
  | None => r = Startup.Ret 1 \/ r = Startup.Exit 1
  end /\
  List.filter is_pidfile_remove t
  = (if existsb pidfile_opened t then [Startup.IEv Startup.Pidfile_remove tt] else []) /\
  in_order 0 t = true /\
  (forall sd h, loop_args t = Some (sd, h) ->
   forallb (fun ok => existsb ok (before_loop t))
     (needed (debug_option opts) (script_option opts None)) = true /\
   existsb (bound_to sd (Startup.g_bindip g') port) (before_loop t) = true /\
   h = match script_option opts None with Some _ => true | None => false end).

(** Globals the loop over the options leaves alone. *)
Definition options_keep (g g' : Startup.globals) : Prop :=
  Startup.g_dumpdir_fd g' = Startup.g_dumpdir_fd g /\
  Startup.g_handler_fd g' = Startup.g_handler_fd g /\
  Startup.g_pfh g' = Startup.g_pfh g /\
  Startup.g_sock g' = Startup.g_sock g /\
  Startup.g_kq g' = Startup.g_kq g /\
  Startup.g_capdns g' = Startup.g_capdns g /\
  Startup.g_capherald g' = Startup.g_capherald g /\
  Startup.g_caphandler g' = Startup.g_caphandler g.

(** * Reasoning about runs *)

Lemma wp_run {A} (m : M A) w Q r w' : wp m w Q -> m w = (r, w') -> Q r w'.
Proof. unfold wp. intros H E. rewrite E in H. exact H. Qed.

Lemma wp_ret {A} (a : A) w Q : Q (Done a) w -> wp (ret a) w Q.
Proof. exact (fun H => H). Qed.

Lemma wp_crash {A} f w (Q : outcome A -> world -> Prop) :
  Q (Crash f) w -> wp (crash f) w Q.
Proof. exact (fun H => H). Qed.

Lemma wp_bind {A B} (m : M A) (k : A -> M B) w Q :
  wp m w (fun r w1 => match r with
                       | Done a => wp (k a) w1 Q
                       | Crash f => Q (Crash f) w1
                       end) ->
  wp (bind m k) w Q.
Proof.
  unfold wp, bind. destruct (m w) as [[a|f] w1]; cbn; auto.
Qed.

Lemma wp_gets {A} (f : world -> A) w Q : Q (Done (f w)) w -> wp (gets f) w Q.
Proof. exact (fun H => H). Qed.

Lemma wp_modify f w Q : Q (Done tt) (f w) -> wp (modify f) w Q.
Proof. exact (fun H => H). Qed.

Lemma wp_sys {X} (c : call X) cl ch gs now lc en bk tr Q :
  (forall x, Q (Done x) (mkWorld cl ch gs now lc en bk (tr ++ [Ev c x]))) ->
  wp (sys c) (mkWorld cl ch gs now lc en bk tr) Q.
Proof. intros H. apply H. Qed.

Lemma wp_sys_unit (c : call unit) cl ch gs now lc en bk tr Q :
  Q (Done tt) (mkWorld cl ch gs now lc en bk (tr ++ [Ev c tt])) ->
  wp (sys c) (mkWorld cl ch gs now lc en bk tr) Q.
Proof. intros H. apply wp_sys. intros []. exact H. Qed.

Lemma wp_deref p w c Q :
  lookup p (g_clients w) = Some c -> Q (Done c) w -> wp (deref p) w Q.
Proof. unfold wp, deref. intros ->. auto. Qed.

Lemma wp_deref_freed p w Q :
  lookup p (g_clients w) = None -> Q (Crash (UseAfterFree p)) w -> wp (deref p) w Q.
Proof. unfold wp, deref. intros ->. auto. Qed.

Lemma wp_if {A} (b : bool) (m1 m2 : M A) w Q :
  (b = true -> wp m1 w Q) -> (b = false -> wp m2 w Q) ->
  wp (if b then m1 else m2) w Q.
Proof. destruct b; auto. Qed.

Lemma wp_conseq {A} (m : M A) w (Q Q' : outcome A -> world -> Prop) :
  wp m w Q -> (forall r w', Q r w' -> Q' r w') -> wp m w Q'.
Proof. unfold wp. auto. Qed.

Lemma wp_sys_e (c : call (Z * Z)) cl ch gs now lc en bk tr Q :
  (forall r, Q (Done (fst r))
               (mkWorld cl ch gs now lc (note_errno r en) bk (tr ++ [Ev c r]))) ->
  wp (sys_e c) (mkWorld cl ch gs now lc en bk tr) Q.
Proof.
  intros H. unfold sys_e. apply wp_bind, wp_sys. intros r.
  apply wp_bind. specialize (H r). unfold note_errno in H.
  destruct (fst r <? 0); cbn; exact H.
Qed.

Ltac wsimpl :=
  cbn beta iota zeta delta
      [g_clients g_caphandler g_sock g_now g_last_timeout_check errno brk trace
       set_clients set_now set_last_timeout_check set_errno set_brk log_event].

Tactic Notation "wsimpl_in" hyp(H) :=
  cbn beta iota zeta delta
      [g_clients g_caphandler g_sock g_now g_last_timeout_check errno brk trace
       set_clients set_now set_last_timeout_check set_errno set_brk log_event
       fst snd] in H.

Ltac tr_norm := repeat (progress (repeat rewrite <- app_assoc; cbn [app])).

Lemma wp_perror m cl ch gs now lc en bk tr Q :
  Q (Done tt) (mkWorld cl ch gs now lc en bk
                 (tr ++ [Ev (Log LOG_ERR "%s: %s\n" [AStr m; AErr en]) tt])) ->
  wp (LOGERR_PERROR m) (mkWorld cl ch gs now lc en bk tr) Q.
Proof. intros H. unfold LOGERR_PERROR. apply wp_bind, wp_gets, wp_sys_unit. exact H. Qed.

Lemma wp_client_pinfo p fmt args c f cl ch gs now lc en bk tr Q :
  lookup p cl = Some c -> infofile c = Some f ->
  Q (Done tt) (mkWorld cl ch gs now lc en bk (tr ++ [Ev (Fprintf f fmt args) tt])) ->
  wp (client_pinfo p fmt args) (mkWorld cl ch gs now lc en bk tr) Q.
Proof.
  intros Hp Hf H. unfold client_pinfo. apply wp_bind.
  eapply wp_deref; [exact Hp|]. rewrite Hf. apply wp_sys_unit. exact H.
Qed.

(** One step of a run: the rule for the command at the head, then the
    world and the trace brought back to normal form. *)
Ltac wstep :=
  lazymatch goal with
  | |- wp (bind _ _) _ _ => apply wp_bind
  | |- wp (ret _) _ _ => apply wp_ret
  | |- wp (gets _) _ _ => apply wp_gets
  | |- wp (modify _) _ _ => apply wp_modify
  | |- wp (crash _) _ _ => apply wp_crash
  | |- wp (LOGERR_PERROR _) _ _ => apply wp_perror
  | |- wp (LOGERR _ _) _ _ => unfold LOGERR; apply wp_sys_unit
  | |- wp (LOGINFO _ _) _ _ => unfold LOGINFO; apply wp_sys_unit
  | |- wp (LOGWARN _ _) _ _ => unfold LOGWARN; apply wp_sys_unit
  | |- wp (fclose (Some _)) _ _ => unfold fclose; apply wp_sys_unit
  | |- wp (sys_e _) _ _ => apply wp_sys_e
  | |- wp (@sys unit _) _ _ => apply wp_sys_unit
  | |- wp (sys _) _ _ => apply wp_sys
  end;
  wsimpl; tr_norm.

Lemma wp_send_ack p seqno c cl ch gs now lc en bk tr Q :
  lookup p cl = Some c ->
  (forall r logs en', forallb is_log logs = true ->
     Q (Done tt) (mkWorld cl ch gs now lc en' bk
                    (tr ++ Ev (Send (sock c) (htonl seqno)) r :: logs))) ->
  wp (send_ack p seqno) (mkWorld cl ch gs now lc en bk tr) Q.
Proof.
  intros Hp H. unfold send_ack. wstep.
  eapply wp_deref; [exact Hp|]. do 2 wstep. intros r.
  apply wp_if; intros _; wstep; apply H; reflexivity.
Qed.

Lemma wp_exec_handler p reason c cl ch gs now lc en bk tr Q :
  lookup p cl = Some c ->
  (forall hevs en', handler_trace ch reason c hevs ->
     Q (Done tt) (mkWorld cl ch gs now lc en' bk (tr ++ hevs))) ->
  wp (exec_handler p reason) (mkWorld cl ch gs now lc en bk tr) Q.
Proof.
  intros Hp H. unfold exec_handler. do 2 wstep.
  unfold handler_trace in H. destruct ch; cbn [negb].
  - wstep. eapply wp_deref; [exact Hp|].
    wstep. unfold netdump_cap_handler. do 2 wstep.
    intros x. destruct x as [e|[n|]]; repeat wstep;
      (apply wp_if; intros _; repeat wstep; apply H; eexists _, _; split; reflexivity).
  - wstep. specialize (H [] en eq_refl). rewrite app_nil_r in H. exact H.
Qed.

Lemma wp_free_client p c f cl ch gs now lc en bk tr Q :
  lookup p cl = Some c -> infofile c = Some f ->
  (forall fevs en', free_trace c fevs ->
     Q (Done tt) (mkWorld (remove p cl) ch gs now lc en' bk (tr ++ fevs))) ->
  wp (free_client p) (mkWorld cl ch gs now lc en bk tr) Q.
Proof.
  intros Hp Hf H. unfold free_client. wstep.
  eapply wp_deref; [exact Hp|]. wstep. apply wp_sys_e; intros x. wstep.
  assert (K : forall logs en', forallb is_log logs = true ->
            wp (modify (fun w => set_clients (remove p (g_clients w)) w) ;;;
                fclose (infofile c) ;;; sys (Close (corefd c)) ;;; sys (Close (sock c)))
               (mkWorld cl ch gs now lc en' bk
                  (tr ++ Ev (Kevent_delete (sock c)) x :: logs)) Q).
  { intros logs en' Hl. rewrite Hf. unfold fclose. repeat wstep.
    apply (H (_ :: logs ++ [_; _; _])). exists x, logs, f. auto. }
  apply wp_if; intros _; wstep.
  - apply (K [_]). reflexivity.
  - apply (K []). reflexivity.
Qed.

Lemma wp_handle_timeout p c f cl ch gs now lc en bk tr Q :
  lookup p cl = Some c -> infofile c = Some f ->
  (forall evs en', timeout_trace ch c evs ->
     Q (Done tt) (mkWorld (remove p cl) ch gs now lc en' bk (tr ++ evs))) ->
  wp (handle_timeout p) (mkWorld cl ch gs now lc en bk tr) Q.
Proof.
  intros Hp Hf H. unfold handle_timeout. wstep.
  eapply wp_deref; [exact Hp|]. do 3 wstep.
  eapply wp_client_pinfo; [exact Hp|exact Hf|]. tr_norm. wstep.
  eapply wp_exec_handler; [exact Hp|]. intros hevs en1 Hh. tr_norm.
  eapply wp_free_client; [exact Hp|exact Hf|]. intros fevs en2 Hfr. tr_norm.
  apply (H (_ :: _ :: hevs ++ fevs)). exists f, hevs, fevs. auto.
Qed.

Lemma lookup_update_same p f l :
  lookup p (update p f l) = option_map f (lookup p l).
Proof.
  induction l as [|[q c] l IH]; cbn; [reflexivity|].
  destruct (Pos.eqb p q) eqn:E; cbn; rewrite E; auto.
Qed.

Lemma lookup_update_other p q f l :
  p <> q -> lookup q (update p f l) = lookup q l.
Proof.
  intros Hne. induction l as [|[r c] l IH]; cbn; [reflexivity|].
  destruct (Pos.eqb p r) eqn:E; cbn.
  - apply Pos.eqb_eq in E. subst r.
    destruct (Pos.eqb q p) eqn:E'; [apply Pos.eqb_eq in E'; congruence | reflexivity].
  - destruct (Pos.eqb q r); auto.
Qed.

Lemma update_update p f g l :
  update p g (update p f l) = update p (fun c => g (f c)) l.
Proof.
  induction l as [|[q c] l IH]; cbn; [reflexivity|].
  destruct (Pos.eqb p q) eqn:E; cbn; rewrite E; [reflexivity | now rewrite IH].
Qed.

Lemma update_const p f c l :
  lookup p l = Some c -> update p f l = update p (fun _ => f c) l.
Proof.
  induction l as [|[q d] l IH]; cbn; [reflexivity|].
  destruct (Pos.eqb p q) eqn:E; intros H.
  - now inversion H.
  - now rewrite IH.
Qed.

Lemma map_fst_update p f l : map fst (update p f l) = map fst l.
Proof.
  induction l as [|[q c] l IH]; cbn; [reflexivity|].
  destruct (Pos.eqb p q); cbn; [reflexivity | now rewrite IH].
Qed.

Lemma lookup_remove_other p q l :
  p <> q -> lookup q (remove p l) = lookup q l.
Proof.
  intros Hne. induction l as [|[r c] l IH]; cbn; [reflexivity|].
  destruct (Pos.eqb p r) eqn:E; cbn.
  - apply Pos.eqb_eq in E. subst r.
    destruct (Pos.eqb q p) eqn:E'; [apply Pos.eqb_eq in E'; congruence | reflexivity].
  - destruct (Pos.eqb q r); auto.
Qed.

Lemma remove_update p f l : remove p (update p f l) = remove p l.
Proof.
  induction l as [|[q c] l IH]; cbn; [reflexivity|].
  destruct (Pos.eqb p q) eqn:E; cbn; rewrite E; [reflexivity | now rewrite IH].
Qed.

Lemma lookup_none_notin p l : ~ In p (map fst l) -> lookup p l = None.
Proof.
  induction l as [|[q c] l IH]; cbn; [reflexivity|]. intros H.
  destruct (Pos.eqb p q) eqn:E.
  - apply Pos.eqb_eq in E. subst. tauto.
  - apply IH. tauto.
Qed.

Lemma lookup_some_in p l c : lookup p l = Some c -> In (p, c) l.
Proof.
  induction l as [|[q d] l IH]; cbn; [discriminate|].
  destruct (Pos.eqb p q) eqn:E; intros H.
  - apply Pos.eqb_eq in E. inversion H. subst. now left.
  - right. auto.
Qed.

Lemma lookup_remove_same p l :
  NoDup (map fst l) -> lookup p (remove p l) = None.
Proof.
  induction l as [|[q c] l IH]; cbn; [reflexivity|]. intros H.
  inversion H as [|? ? Hn Hd]; subst.
  destruct (Pos.eqb p q) eqn:E; cbn.
  - apply Pos.eqb_eq in E. subst. now apply lookup_none_notin.
  - rewrite E. auto.
Qed.

Lemma wp_assign p f c cl ch gs now lc en bk tr Q :
  lookup p cl = Some c ->
  Q (Done tt) (mkWorld (update p f cl) ch gs now lc en bk tr) ->
  wp (assign p f) (mkWorld cl ch gs now lc en bk tr) Q.
Proof.
  intros Hp H. unfold assign. wstep. eapply wp_deref; [exact Hp|]. wstep. exact H.
Qed.

Lemma wp_vmcore_flush p c f cl ch gs now lc en bk tr Q :
  lookup p cl = Some c -> infofile c = Some f ->
  (forall r, fst r = signed64 (vmcorebufoff c) ->
     Q (Done 0) (mkWorld (update p (set_vmcorebufoff 0) cl) ch gs now lc
                   (note_errno r en) bk (tr ++ [Ev (flush_call c) r]))) ->
  (forall r evs en', fst r <> signed64 (vmcorebufoff c) -> flush_fail_trace ch c evs ->
     Q (Done 1) (mkWorld (remove p cl) ch gs now lc en' bk
                   (tr ++ Ev (flush_call c) r :: evs))) ->
  wp (vmcore_flush p) (mkWorld cl ch gs now lc en bk tr) Q.
Proof.
  intros Hp Hf Hok Hfail. unfold vmcore_flush. wstep.
  eapply wp_deref; [exact Hp|]. wstep. apply wp_sys_e; intros r.
  fold (flush_call c). apply wp_if; intros Hn.
  - apply negb_true_iff, Z.eqb_neq in Hn. repeat wstep.
    eapply wp_client_pinfo; [exact Hp|exact Hf|]. tr_norm. wstep.
    eapply wp_exec_handler; [exact Hp|]. intros hevs en1 Hh. tr_norm. wstep.
    eapply wp_free_client; [exact Hp|exact Hf|]. intros fevs en2 Hfr. tr_norm. wstep.
    apply (Hfail r (_ :: _ :: hevs ++ fevs)); [exact Hn|].
    exists f, (note_errno r en), hevs, fevs. auto.
  - apply negb_false_iff, Z.eqb_eq in Hn. wstep.
    eapply wp_assign; [exact Hp|]. wstep. apply Hok. exact Hn.
Qed.

(** ** handle_vmcore *)

Lemma lookup_update_const p c c' l :
  lookup p l = Some c -> lookup p (update p (fun _ => c') l) = Some c'.
Proof. intros H. now rewrite lookup_update_same, H. Qed.

Lemma update_update_const p c' g l :
  update p g (update p (fun _ => c') l) = update p (fun _ => g c') l.
Proof. apply update_update. Qed.

Lemma handle_vmcore_run p pkt w c f r w' :
  lookup p (g_clients w) = Some c -> infofile c = Some f ->
  handle_vmcore p pkt w = (r, w') ->
  exists evs,
    trace w' = trace w ++ evs /\ same_globals w w' /\
    vmcore_run (g_caphandler w) p c (g_clients w) pkt evs r (g_clients w').
Proof.
  intros Hp Hf E. pattern r, w'. eapply wp_run; [|exact E]. clear E r w'.
  destruct w as [cl ch gs now lc en bk tr]. cbn [g_clients g_caphandler trace] in *.
  set (c1 := set_any_data_rcvd true c).
  assert (Hp1 : lookup p (update p (fun _ => c1) cl) = Some c1)
    by (eapply lookup_update_const; eauto).
  unfold handle_vmcore. wstep.
  eapply wp_assign; [exact Hp|]. rewrite (update_const p _ c cl Hp). fold c1. wstep.
  assert (K : forall en' tr',
    tr' = tr ++ progress_dot pkt ->
    wp (c <- deref p ;;
        rc <- (if need_flush c pkt then vmcore_flush p else ret 0) ;;
        if negb (rc =? 0) then ret tt
        else
          c <- deref p ;;
          (if vmcorebufoff c + mh_len pkt >? VMCORE_BUFSZ then crash (BufferOverrun p)
           else assign p (set_vmcorebuf
                  (memcpy_at (vmcorebuf c) (vmcorebufoff c) (data pkt) (mh_len pkt)))) ;;;
          (if vmcorebufoff c =? 0 then assign p (set_vmcoreoff (signed64 (mh_offset pkt)))
           else ret tt) ;;;
          assign p (set_vmcorebufoff (wrap64 (vmcorebufoff c + mh_len pkt))) ;;;
          send_ack p (mh_seqno pkt))
       (mkWorld (update p (fun _ => c1) cl) ch gs now lc en' bk tr')
       (fun r w' => exists evs,
          trace w' = tr ++ evs /\
          same_globals (mkWorld cl ch gs now lc en bk tr) w' /\
          vmcore_run ch p c cl pkt evs r (g_clients w'))).
  { intros en' tr' ->. wstep. eapply wp_deref; [exact Hp1|]. wstep.
    (* the tail after the flush, from a client c2 *)
    assert (T : forall c2 en2 pre,
      (forall r logs, forallb is_log logs = true ->
         vmcorebufoff c2 + mh_len pkt <= VMCORE_BUFSZ ->
         vmcore_run ch p c cl pkt (pre ++ ack_event c (mh_seqno pkt) r :: logs)
           (Done tt) (update p (fun _ => stage c2 pkt) cl)) ->
      (vmcorebufoff c2 + mh_len pkt > VMCORE_BUFSZ ->
         vmcore_run ch p c cl pkt pre (Crash (BufferOverrun p))
           (update p (fun _ => c2) cl)) ->
      sock c2 = sock c ->
      wp (c <- deref p ;;
          (if vmcorebufoff c + mh_len pkt >? VMCORE_BUFSZ then crash (BufferOverrun p)
           else assign p (set_vmcorebuf
                  (memcpy_at (vmcorebuf c) (vmcorebufoff c) (data pkt) (mh_len pkt)))) ;;;
          (if vmcorebufoff c =? 0 then assign p (set_vmcoreoff (signed64 (mh_offset pkt)))
           else ret tt) ;;;
          assign p (set_vmcorebufoff (wrap64 (vmcorebufoff c + mh_len pkt))) ;;;
          send_ack p (mh_seqno pkt))
         (mkWorld (update p (fun _ => c2) cl) ch gs now lc en2 bk (tr ++ pre))
         (fun r w' => exists evs,
            trace w' = tr ++ evs /\
            same_globals (mkWorld cl ch gs now lc en bk tr) w' /\
            vmcore_run ch p c cl pkt evs r (g_clients w'))).
    { intros c2 en2 pre Hstage Hover Hsock.
      assert (Hp2 : lookup p (update p (fun _ => c2) cl) = Some c2)
        by (eapply lookup_update_const; eauto).
      wstep. eapply wp_deref; [exact Hp2|]. wstep.
      apply wp_if; intros Hb.
      - wstep. exists pre. repeat split. apply Hover. apply Z.gtb_lt in Hb. lia.
      - rewrite Z.gtb_ltb in Hb. apply Z.ltb_ge in Hb.
        eapply wp_assign; [exact Hp2|]. rewrite update_update_const. wstep.
        set (c3 := set_vmcorebuf _ c2).
        assert (Hp3 : lookup p (update p (fun _ => c3) cl) = Some c3)
          by (eapply lookup_update_const; eauto).
        assert (S : forall c4 en4,
          c4 = (if vmcorebufoff c2 =? 0 then set_vmcoreoff (signed64 (mh_offset pkt))
                else fun c' => c') c3 ->
          wp (assign p (set_vmcorebufoff (wrap64 (vmcorebufoff c2 + mh_len pkt))) ;;;
              send_ack p (mh_seqno pkt))
             (mkWorld (update p (fun _ => c4) cl) ch gs now lc en4 bk (tr ++ pre))
             (fun r w' => exists evs,
                trace w' = tr ++ evs /\
                same_globals (mkWorld cl ch gs now lc en bk tr) w' /\
                vmcore_run ch p c cl pkt evs r (g_clients w'))).
        { intros c4 en4 E4.
          assert (Hp4 : lookup p (update p (fun _ => c4) cl) = Some c4)
            by (eapply lookup_update_const; eauto).
          wstep. eapply wp_assign; [exact Hp4|]. rewrite update_update_const.
          eapply wp_send_ack; [eapply lookup_update_const; eauto|].
          intros r logs en5 Hl. eexists.
          split; [cbn [trace]; rewrite <- app_assoc; reflexivity|].
          split; [repeat split|].
          cbn [g_clients].
          replace (sock _) with (sock c)
            by (subst c4 c3; destruct (vmcorebufoff c2 =? 0); cbn; congruence).
          subst c4. apply Hstage; [exact Hl|lia]. }
        apply wp_if; intros E0.
        + eapply wp_assign; [exact Hp3|]. rewrite update_update_const.
          apply S. now rewrite E0.
        + wstep. apply S. now rewrite E0. }
    fold (need_flush c1 pkt). destruct (need_flush c1 pkt) eqn:Enf.
    - eapply wp_vmcore_flush; [exact Hp1|exact Hf|..].
      + intros rw Hrw. cbn [negb Z.eqb]. rewrite update_update_const.
        rewrite <- app_assoc.
        apply (T _ _ (progress_dot pkt ++ [Ev (flush_call c) rw])).
        * intros r logs Hl Hfit. rewrite <- app_assoc. cbn [app].
          apply vmcore_flushed; auto.
        * intros Hov. apply vmcore_flushed_overrun; auto.
        * reflexivity.
      + intros rw evs en1 Hrw Hft. cbn [negb Z.eqb]. wstep.
        rewrite remove_update. change (flush_call c1) with (flush_call c).
        eexists. split; [reflexivity|]. split; [repeat split|].
        cbn [g_clients]. apply vmcore_flush_failed; auto.
    - wstep. cbn [negb Z.eqb]. apply T.
      + intros r logs Hl Hfit. apply vmcore_append; auto.
      + intros Hov. apply vmcore_append_overrun; auto.
      + reflexivity. }
  unfold progress_dot in K.
  apply wp_if; intros Hd; rewrite Hd in K; wstep; apply K.
  - reflexivity.
  - now rewrite app_nil_r.
Qed.

Lemma wrap64_small x : 0 <= x < 2 ^ 64 -> wrap64 x = x.
Proof. intros H. unfold wrap64. now apply Z.mod_small. Qed.

Lemma signed64_small x : 0 <= x < 2 ^ 63 -> signed64 x = x.
Proof.
  intros H. unfold signed64. rewrite wrap64_small by lia.
  destruct (Z.ltb_spec x (2 ^ 63)); lia.
Qed.

Lemma need_flush_false c pkt :
  0 <= vmcorebufoff c <= VMCORE_BUFSZ -> 0 <= NETDUMP_DATASIZE <= VMCORE_BUFSZ ->
  need_flush c pkt = false ->
  vmcorebufoff c + NETDUMP_DATASIZE <= VMCORE_BUFSZ /\
  (vmcorebufoff c = 0 \/ wrap64 (vmcoreoff c + vmcorebufoff c) = mh_offset pkt).
Proof.
  unfold need_flush, VMCORE_BUFSZ. intros Hc Hd H.
  apply orb_false_iff in H. destruct H as [H1 H2].
  rewrite wrap64_small in H1 by lia. rewrite Z.gtb_ltb in H1. apply Z.ltb_ge in H1.
  split; [lia|]. apply andb_false_iff in H2. destruct H2 as [H2|H2].
  - rewrite Z.gtb_ltb in H2. apply Z.ltb_ge in H2. lia.
  - apply negb_false_iff, Z.eqb_eq in H2. auto.
Qed.

Lemma need_flush_true c pkt :
  0 <= vmcorebufoff c <= VMCORE_BUFSZ -> 0 <= NETDUMP_DATASIZE <= VMCORE_BUFSZ ->
  need_flush c pkt = true ->
  vmcorebufoff c + NETDUMP_DATASIZE > VMCORE_BUFSZ \/
  (0 < vmcorebufoff c /\ wrap64 (vmcoreoff c + vmcorebufoff c) <> mh_offset pkt).
Proof.
  unfold need_flush, VMCORE_BUFSZ. intros Hc Hd H.
  apply orb_true_iff in H. destruct H as [H|H].
  - rewrite wrap64_small in H by lia. rewrite Z.gtb_ltb in H. apply Z.ltb_lt in H. lia.
  - apply andb_true_iff in H. destruct H as [H1 H2]. right.
    rewrite Z.gtb_ltb in H1. apply Z.ltb_lt in H1.
    apply negb_true_iff, Z.eqb_neq in H2. auto.
Qed.

(** C10.  A VMCORE packet whose payload length is at most NETDUMP_DATASIZE
    never makes handle_vmcore copy past the end of the staging buffer:
    after the conditional flush the fill plus the payload length is within
    VMCORE_BUFSZ, so the run ends normally (the model's memcpy would end it
    with BufferOverrun otherwise); and what a stage or a flush leaves is
    either no client (a failed write destroyed it) or a client whose fill
    is again between 0 and VMCORE_BUFSZ.  NETDUMP_DATASIZE itself must not
    exceed the buffer. *)
Theorem handle_vmcore_within_buffer p pkt w c f :
  lookup p (g_clients w) = Some c -> infofile c = Some f ->
  0 <= vmcorebufoff c <= VMCORE_BUFSZ ->
  0 <= mh_len pkt <= NETDUMP_DATASIZE ->
  NETDUMP_DATASIZE <= VMCORE_BUFSZ ->
  (forall r w', handle_vmcore p pkt w = (r, w') ->
     r = Done tt /\
     (g_clients w' = remove p (g_clients w) \/
      exists c', g_clients w' = update p (fun _ => c') (g_clients w) /\
                 0 <= vmcorebufoff c' <= VMCORE_BUFSZ)) /\
  (forall r w', vmcore_flush p w = (r, w') ->
     g_clients w' = remove p (g_clients w) \/
     g_clients w' = update p (set_vmcorebufoff 0) (g_clients w)).
Proof.
  intros Hp Hf Hfill Hlen HD. split.
  - intros r w' E.
    destruct (handle_vmcore_run _ _ _ _ _ _ _ Hp Hf E) as (evs & _ & _ & R).
    assert (Hc1 : 0 <= vmcorebufoff (set_any_data_rcvd true c) <= VMCORE_BUFSZ) by exact Hfill.
    inversion R as [ra logs c1 Hnf Hfit Hl | c1 Hnf Hov | rw ra logs c1 Hnf Hrw Hfit Hl
                     | rw c1 Hnf Hrw Hov | rw evs' c1 Hnf Hrw Hft ]; subst; clear R;
      subst c1.
    + split; [reflexivity|]. right. eexists. split; [reflexivity|].
      cbn [stage vmcorebufoff set_vmcorebufoff]. cbn [vmcorebufoff set_any_data_rcvd].
      unfold VMCORE_BUFSZ in *. rewrite wrap64_small; lia.
    + exfalso. apply need_flush_false in Hnf; [|exact Hc1|lia].
      cbn [vmcorebufoff set_any_data_rcvd] in Hnf. lia.
    + split; [reflexivity|]. right. eexists. split; [reflexivity|].
      cbn [stage vmcorebufoff set_vmcorebufoff].
      unfold VMCORE_BUFSZ in *. rewrite wrap64_small; lia.
    + exfalso. lia.
    + split; [reflexivity|]. now left.
  - intros r w' E. pattern r, w'. eapply wp_run; [|exact E]. clear E r w'.
    destruct w as [cl ch gs now lc en bk tr]. cbn [g_clients] in *.
    eapply wp_vmcore_flush; [exact Hp|exact Hf|..]; intros; cbn [g_clients]; auto.
Qed.

Lemma logs_blind g logs :
  (forall lvl fmt args r, g (Ev (Log lvl fmt args) r) = false) ->
  forallb is_log logs = true -> existsb g logs = false.
Proof.
  intros Hg. induction logs as [|e l IH]; cbn; [reflexivity|].
  intros H. apply andb_true_iff in H. destruct H as [He Hl].
  rewrite (IH Hl), orb_false_r. destruct e as [X k r]. destruct k; try discriminate.
  apply Hg.
Qed.

Lemma handler_trace_blind g ch reason c evs :
  blind_to_teardown g ->
  (forall r, g (Ev (Cap_xfer_nvlist (handler_request reason c)) r) = false) ->
  handler_trace ch reason c evs -> existsb g evs = false.
Proof.
  intros (Hl & _) Hx H. unfold handler_trace in H. destruct ch.
  - destruct H as (r & logs & -> & Hlogs). cbn. now rewrite Hx, logs_blind.
  - now subst.
Qed.

Lemma free_trace_blind g c evs :
  blind_to_teardown g -> free_trace c evs -> existsb g evs = false.
Proof.
  intros (Hl & Hk & Hf & Hc) (r & logs & f & _ & Hlogs & ->).
  cbn. rewrite existsb_app. cbn.
  now rewrite Hk, (logs_blind _ _ Hl Hlogs), Hf, !Hc.
Qed.

Lemma flush_fail_blind g ch c evs :
  blind_to_teardown g ->
  (forall r, g (Ev (Cap_xfer_nvlist (handler_request "error" c)) r) = false) ->
  (forall s fmt args r, g (Ev (Fprintf s fmt args) r) = false) ->
  flush_fail_trace ch c evs -> existsb g evs = false.
Proof.
  intros Hg Hx Hp (f & e & hevs & fevs & _ & Hh & Hf & ->).
  cbn. rewrite existsb_app, (handler_trace_blind _ _ _ _ _ Hg Hx Hh),
    (free_trace_blind _ _ _ Hg Hf).
  destruct Hg as (Hl & _). now rewrite Hl, Hp.
Qed.

Lemma is_send_blind : blind_to_teardown is_send.
Proof. repeat split. Qed.

Lemma is_pwrite_blind : blind_to_teardown is_pwrite.
Proof. repeat split. Qed.

Lemma progress_dot_logs pkt : forallb is_log (progress_dot pkt) = true.
Proof. unfold progress_dot. now destruct (_ =? 0). Qed.

Lemma buffered_memcpy buf off src len :
  0 <= off -> 0 <= len -> off <= Z.of_nat (List.length buf) ->
  len <= Z.of_nat (List.length src) ->
  firstn (Z.to_nat (off + len)) (memcpy_at buf off src len)
  = firstn (Z.to_nat off) buf ++ firstn (Z.to_nat len) src.
Proof.
  intros Ho Hl Hb Hs. unfold memcpy_at.
  assert (L1 : List.length (firstn (Z.to_nat off) buf) = Z.to_nat off)
    by (rewrite firstn_length_le; lia).
  assert (L2 : List.length (firstn (Z.to_nat len) src) = Z.to_nat len)
    by (rewrite firstn_length_le; lia).
  rewrite Z2Nat.inj_add by lia.
  set (F1 := firstn (Z.to_nat off) buf) in *.
  set (F2 := firstn (Z.to_nat len) src) in *.
  rewrite firstn_app, L1.
  rewrite (firstn_all2 F1) by lia.
  replace (Z.to_nat off + Z.to_nat len - Z.to_nat off)%nat with (Z.to_nat len) by lia.
  rewrite firstn_app, L2, Nat.sub_diag. cbn [firstn].
  rewrite (firstn_all2 F2) by lia. now rewrite app_nil_r.
Qed.

Lemma stage_fresh c pkt :
  vmcorebufoff c = 0 -> 0 <= mh_len pkt <= VMCORE_BUFSZ ->
  mh_len pkt <= Z.of_nat (List.length (data pkt)) ->
  staged_fresh pkt (stage c pkt).
Proof.
  intros H0 Hl Hd. unfold staged_fresh, stage, buffered, payload. rewrite H0, Z.eqb_refl.
  cbn [vmcoreoff vmcorebufoff vmcorebuf set_vmcorebufoff set_vmcoreoff set_vmcorebuf].
  unfold VMCORE_BUFSZ in Hl. rewrite wrap64_small by lia.
  repeat split. apply (buffered_memcpy (vmcorebuf c) 0); lia.
Qed.

Lemma stage_behind c pkt :
  0 < vmcorebufoff c -> vmcorebufoff c + mh_len pkt <= VMCORE_BUFSZ ->
  Z.of_nat (List.length (vmcorebuf c)) = VMCORE_BUFSZ ->
  0 <= mh_len pkt <= Z.of_nat (List.length (data pkt)) ->
  staged_behind c pkt (stage c pkt).
Proof.
  intros H0 Hfit Hb Hd. unfold staged_behind, stage, buffered, payload.
  destruct (Z.eqb_spec (vmcorebufoff c) 0) as [E|_]; [lia|].
  cbn [vmcoreoff vmcorebufoff vmcorebuf set_vmcorebufoff set_vmcoreoff set_vmcorebuf].
  unfold VMCORE_BUFSZ in *. rewrite wrap64_small by lia.
  repeat split. apply buffered_memcpy; lia.
Qed.

(** C2, as the code has it.  With an empty buffer the packet is staged
    with base := offset and no flush.  With a non-empty buffer, an offset
    equal to base + fill (in the 64-bit unsigned arithmetic of the
    comparison) and room left for a payload of the maximal size
    NETDUMP_DATASIZE, the payload is appended with no flush.  In every
    other case the buffer is flushed first, by one pwrite of the buffered
    bytes at base; when that writes them all the packet is staged as into
    an empty buffer, and when it does not the client is destroyed, nothing
    is staged and no acknowledgement is sent. *)
Theorem handle_vmcore_staging p pkt w c f r w' :
  lookup p (g_clients w) = Some c -> infofile c = Some f ->
  0 <= vmcorebufoff c <= VMCORE_BUFSZ ->
  Z.of_nat (List.length (vmcorebuf c)) = VMCORE_BUFSZ ->
  0 <= mh_len pkt <= NETDUMP_DATASIZE ->
  mh_len pkt <= Z.of_nat (List.length (data pkt)) ->
  NETDUMP_DATASIZE <= VMCORE_BUFSZ ->
  handle_vmcore p pkt w = (r, w') ->
  exists evs, trace w' = trace w ++ evs /\
    (vmcorebufoff c = 0 ->
       existsb is_pwrite evs = false /\
       exists c', lookup p (g_clients w') = Some c' /\ staged_fresh pkt c') /\
    (0 < vmcorebufoff c ->
     wrap64 (vmcoreoff c + vmcorebufoff c) = mh_offset pkt ->
     vmcorebufoff c + NETDUMP_DATASIZE <= VMCORE_BUFSZ ->
       existsb is_pwrite evs = false /\
       exists c', lookup p (g_clients w') = Some c' /\ staged_behind c pkt c') /\
    (0 < vmcorebufoff c ->
     wrap64 (vmcoreoff c + vmcorebufoff c) <> mh_offset pkt
     \/ vmcorebufoff c + NETDUMP_DATASIZE > VMCORE_BUFSZ ->
       exists rw rest,
         evs = progress_dot pkt ++ Ev (flush_call c) rw :: rest /\
         (fst rw = vmcorebufoff c ->
            existsb is_pwrite rest = false /\
            exists c', lookup p (g_clients w') = Some c' /\ staged_fresh pkt c') /\
         (fst rw <> vmcorebufoff c ->
            g_clients w' = remove p (g_clients w) /\ existsb is_send rest = false)).
Proof.
  intros Hp Hf Hfill Hbuf Hlen Hdata HD E.
  destruct (handle_vmcore_run _ _ _ _ _ _ _ Hp Hf E) as (evs & Etr & _ & R).
  exists evs. split; [exact Etr|].
  assert (Hs : signed64 (vmcorebufoff c) = vmcorebufoff c)
    by (apply signed64_small; unfold VMCORE_BUFSZ in *; lia).
  assert (Hfl : forall c0, vmcorebufoff c0 = vmcorebufoff c ->
                0 <= vmcorebufoff c0 <= VMCORE_BUFSZ) by (intros ? ->; exact Hfill).
  inversion R as [ra logs c1 Hnf Hfit Hl | c1 Hnf Hov | rw ra logs c1 Hnf Hrw Hfit Hl
                   | rw c1 Hnf Hrw Hov | rw evs' c1 Hnf Hrw Hft ]; subst; clear R;
    subst c1.
  - (* appended, no flush *)
    apply need_flush_false in Hnf; [|apply Hfl; reflexivity|lia].
    cbn [vmcorebufoff vmcoreoff set_any_data_rcvd] in Hnf. destruct Hnf as [Hroom Hcont].
    assert (Hno : existsb is_pwrite
                    (progress_dot pkt ++ ack_event c (mh_seqno pkt) ra :: logs) = false).
    { rewrite existsb_app. cbn.
      rewrite (logs_blind is_pwrite _ (fun _ _ _ _ => eq_refl) (progress_dot_logs pkt)).
      now rewrite (logs_blind is_pwrite _ (fun _ _ _ _ => eq_refl) Hl). }
    split; [|split].
    + intros H0. split; [exact Hno|]. eexists. split.
      * eapply lookup_update_const; eauto.
      * apply stage_fresh; [exact H0|unfold VMCORE_BUFSZ in *; lia|exact Hdata].
    + intros Hpos _ _. split; [exact Hno|]. eexists. split.
      * eapply lookup_update_const; eauto.
      * apply (stage_behind (set_any_data_rcvd true c)); auto; lia.
    + intros Hpos [Hnc|Hfull]; [|lia]. destruct Hcont; [lia|contradiction].
  - exfalso. apply need_flush_false in Hnf; [|apply Hfl; reflexivity|lia].
    cbn [vmcorebufoff set_any_data_rcvd] in Hnf. lia.
  - (* flushed, then staged *)
    apply need_flush_true in Hnf; [|apply Hfl; reflexivity|lia].
    cbn [vmcorebufoff vmcoreoff set_any_data_rcvd] in Hnf.
    split; [|split].
    + intros H0. exfalso. unfold VMCORE_BUFSZ in *. lia.
    + intros Hpos Hc Hroom. exfalso. lia.
    + intros Hpos _. exists rw, (ack_event c (mh_seqno pkt) ra :: logs).
      split; [reflexivity|]. split.
      * intros _. split.
        -- cbn. apply (logs_blind is_pwrite _ (fun _ _ _ _ => eq_refl) Hl).
        -- eexists. split; [eapply lookup_update_const; eauto|].
           apply stage_fresh; [reflexivity|unfold VMCORE_BUFSZ in *; lia|exact Hdata].
      * intros Hne. exfalso. lia.
  - exfalso. lia.
  - (* the flush failed *)
    apply need_flush_true in Hnf; [|apply Hfl; reflexivity|lia].
    cbn [vmcorebufoff vmcoreoff set_any_data_rcvd] in Hnf.
    split; [|split].
    + intros H0. exfalso. unfold VMCORE_BUFSZ in *. lia.
    + intros Hpos Hc Hroom. exfalso. lia.
    + intros Hpos _. exists rw, evs'. split; [reflexivity|]. split.
      * intros Heq. exfalso. lia.
      * intros _. split; [reflexivity|].
        apply (flush_fail_blind is_send _ _ _ is_send_blind (fun _ => eq_refl)
                 (fun _ _ _ _ => eq_refl) Hft).
Qed.

(** ** handle_finish *)

Lemma handler_trace_ext ch reason c c' evs :
  ip c' = ip c -> hostname c' = hostname c -> infofilename c' = infofilename c ->
  corefilename c' = corefilename c ->
  handler_trace ch reason c' evs -> handler_trace ch reason c evs.
Proof.
  unfold handler_trace, handler_request. now intros -> -> -> ->.
Qed.

Lemma free_trace_ext c c' evs :
  infofile c' = infofile c -> sock c' = sock c -> corefd c' = corefd c ->
  free_trace c' evs -> free_trace c evs.
Proof.
  unfold free_trace. now intros -> -> ->.
Qed.

Ltac cproj :=
  cbn [path infofilename corefilename hostname last_msg ip infofile corefd sock
       any_data_rcvd vmcorebufoff vmcoreoff vmcorebuf
       set_infofilename set_corefilename set_path set_hostname set_ip set_sock
       set_last_msg set_infofile set_corefd set_any_data_rcvd set_vmcorebufoff
       set_vmcoreoff set_vmcorebuf] in *.

Lemma handle_finish_run p pkt w c f r w' :
  lookup p (g_clients w) = Some c -> infofile c = Some f ->
  handle_finish p pkt w = (r, w') ->
  r = Done tt /\
  exists evs,
    trace w' = trace w ++ evs /\ same_globals w w' /\
    finish_run (g_caphandler w) p c (g_clients w) pkt (errno w) evs (g_clients w').
Proof.
  intros Hp Hf E. pattern r, w'. eapply wp_run; [|exact E]. clear E r w'.
  destruct w as [cl ch gs now lc en bk tr]. cbn [g_clients g_caphandler trace errno] in *.
  unfold handle_finish. wstep.
  eapply wp_vmcore_flush; [exact Hp|exact Hf|..].
  - intros rw Hrw. cbn [negb Z.eqb].
    rewrite (update_const p _ c cl Hp).
    set (c0 := set_vmcorebufoff 0 c).
    assert (Hp0 : lookup p (update p (fun _ => c0) cl) = Some c0)
      by (eapply lookup_update_const; eauto).
    assert (Hf0 : infofile c0 = Some f) by exact Hf.
    wstep. eapply wp_deref; [exact Hp0|]. repeat wstep.
    intros r1. repeat wstep.
    fold (unlink_stops r1 (note_errno rw en)).
    apply wp_if; intros S1.
    { wstep. split; [reflexivity|]. eexists. split; [reflexivity|].
      split; [repeat split|]. cbn [g_clients].
      subst c0; cproj. now apply finish_unlink_core_failed. }
    repeat wstep. intros r2. tr_norm.
    apply wp_if; intros S2.
    { apply negb_true_iff, Z.eqb_neq in S2.
      wstep. split; [reflexivity|]. eexists. split; [reflexivity|].
      split; [repeat split|]. cbn [g_clients].
      subst c0; cproj. now apply finish_symlink_core_failed. }
    apply negb_false_iff, Z.eqb_eq in S2.
    repeat wstep. intros r3. repeat wstep.
    fold (unlink_stops r3 (note_errno r2 (note_errno r1 (note_errno rw en)))).
    apply wp_if; intros S3.
    { wstep. split; [reflexivity|]. eexists. split; [reflexivity|].
      split; [repeat split|]. cbn [g_clients].
      subst c0; cproj. now apply finish_unlink_info_failed. }
    repeat wstep. intros r4. tr_norm.
    apply wp_if; intros S4.
    { apply negb_true_iff, Z.eqb_neq in S4.
      wstep. split; [reflexivity|]. eexists. split; [reflexivity|].
      split; [repeat split|]. cbn [g_clients].
      subst c0; cproj. now apply finish_symlink_info_failed. }
    apply negb_false_iff, Z.eqb_eq in S4.
    repeat wstep.
    eapply wp_client_pinfo; [exact Hp0|exact Hf0|]. tr_norm. wstep.
    eapply wp_send_ack; [exact Hp0|]. intros ra logs en2 Hl. tr_norm. wstep.
    eapply wp_exec_handler; [exact Hp0|]. intros hevs en3 Hh. tr_norm.
    eapply wp_free_client; [exact Hp0|exact Hf0|]. intros fevs en4 Hfr. tr_norm.
    split; [reflexivity|]. eexists. split; [reflexivity|].
    split; [repeat split|]. cbn [g_clients]. rewrite remove_update.
    subst c0; cproj.
    apply (finish_done ch p c cl pkt en rw r1 r2 r3 r4 f ra logs hevs fevs); auto.
  - intros rw evs en1 Hrw Hft. cbn [negb Z.eqb]. wstep.
    split; [reflexivity|]. eexists. split; [reflexivity|].
    split; [repeat split|]. cbn [g_clients]. now apply finish_flush_failed.
Qed.

Lemma precedes_head p q x l :
  p x = true -> q x = false -> precedes p q (x :: l).
Proof.
  intros Hp Hq [|y pre] e post E He; cbn in E; inversion E; subst.
  - congruence.
  - cbn. now rewrite Hp.
Qed.

Lemma precedes_cons p q x l :
  q x = false -> precedes p q l -> precedes p q (x :: l).
Proof.
  intros Hq H [|y pre] e post E He; cbn in E; inversion E; subst.
  - congruence.
  - cbn. rewrite (H _ _ _ eq_refl He). apply orb_true_r.
Qed.

Lemma precedes_none p q l : existsb q l = false -> precedes p q l.
Proof.
  intros H pre e post -> He. rewrite existsb_app in H. cbn in H.
  rewrite He in H. cbn in H. now rewrite orb_true_r in H.
Qed.




Lemma link_failure_blind : blind_to_teardown link_failure.
Proof. repeat split. Qed.

Lemma unlink_passes d name r en :
  unlink_stops r en = false -> link_failure (Ev (Unlinkat d name) r) = false.
Proof.
  unfold unlink_stops, note_errno. cbn. intros H.
  destruct (Z.ltb_spec (fst r) 0) as [Hlt|Hge]; [|reflexivity]. cbn.
  destruct (Z.eqb_spec (fst r) 0) as [E|_]; [lia|]. exact H.
Qed.

Lemma symlink_passes t d name r :
  fst r = 0 -> link_failure (Ev (Symlinkat t d name) r) = false.
Proof. cbn. now intros ->. Qed.

(** C9.  When, in a run of handle_finish, an unlinkat fails with an errno
    other than ENOENT or a symlinkat fails, the run stops there: the
    failed call is followed by one error line in the log and nothing else;
    no acknowledgement is sent, no request goes to the handler, the line
    Dump complete is not written, nothing of the client is released, and
    the client stays on the list (its buffer now empty), where only later
    events, the timeout sweep among them, can reach it. *)
Theorem handle_finish_link_failure p pkt w c f r w' :
  lookup p (g_clients w) = Some c -> infofile c = Some f ->
  handle_finish p pkt w = (r, w') ->
  exists evs, trace w' = trace w ++ evs /\
    (existsb link_failure evs = true ->
       r = Done tt /\
       (exists pre e m en, evs = pre ++ [e; perror_event m en]
                           /\ link_failure e = true) /\
       existsb is_send evs = false /\
       existsb is_handler_request evs = false /\
       existsb is_dump_complete evs = false /\
       existsb is_release evs = false /\
       g_clients w' = update p (fun _ => set_vmcorebufoff 0 c) (g_clients w) /\
       lookup p (g_clients w') = Some (set_vmcorebufoff 0 c)).
Proof.
  intros Hp Hf E.
  destruct (handle_finish_run _ _ _ _ _ _ _ Hp Hf E) as (Hr & evs & Etr & _ & R).
  exists evs. split; [exact Etr|]. intros HL.
  assert (Hlk : lookup p (update p (fun _ => set_vmcorebufoff 0 c) (g_clients w))
                = Some (set_vmcorebufoff 0 c))
    by (eapply lookup_update_const; eauto).
  inversion R as [ rw evs' Hrw Hft
                 | rw r1 e0 Hrw S1
                 | rw r1 r2 e0 e1 Hrw S1 S2
                 | rw r1 r2 r3 e0 e1 e2 Hrw S1 S2 S3
                 | rw r1 r2 r3 r4 e0 e1 e2 e3 Hrw S1 S2 S3 S4
                 | rw r1 r2 r3 r4 f' ra logs hevs fevs e0 e1 e2 Hrw S1 S2 S3 S4 Hf' Hl Hh Hfr ];
    subst; clear R.
  - exfalso. cbn in HL.
    rewrite (flush_fail_blind link_failure _ _ _ link_failure_blind
               (fun _ => eq_refl) (fun _ _ _ _ => eq_refl) Hft) in HL.
    discriminate.
  - split; [reflexivity|]. split.
    + eexists [_; _]. do 3 eexists.
      split; [reflexivity|]. cbn in HL. now rewrite orb_false_r in HL.
    + repeat split; auto.
  - split; [reflexivity|]. split.
    + eexists [_; _; _]. do 3 eexists.
      split; [reflexivity|]. cbn. now apply negb_true_iff, Z.eqb_neq.
    + repeat split; auto.
  - split; [reflexivity|]. split.
    + eexists [_; _; _; _]. do 3 eexists.
      split; [reflexivity|]. cbn [existsb] in HL.
      rewrite (unlink_passes g_dumpdir_fd (core_last (path c) (hostname c)) r1 e0 S1),
        (symlink_passes (corefilename c) g_dumpdir_fd (core_last (path c) (hostname c)) r2 S2) in HL.
      cbn in HL. now rewrite orb_false_r in HL.
    + repeat split; auto.
  - split; [reflexivity|]. split.
    + eexists [_; _; _; _; _]. do 3 eexists.
      split; [reflexivity|]. cbn. now apply negb_true_iff, Z.eqb_neq.
    + repeat split; auto.
  - exfalso. cbn [existsb app] in HL.
    rewrite (unlink_passes g_dumpdir_fd (core_last (path c) (hostname c)) r1 e0 S1),
      (symlink_passes (corefilename c) g_dumpdir_fd (core_last (path c) (hostname c)) r2 S2),
      (unlink_passes g_dumpdir_fd (info_last (path c) (hostname c)) r3 e2 S3),
      (symlink_passes (infofilename c) g_dumpdir_fd (info_last (path c) (hostname c)) r4 S4) in HL.
    rewrite !existsb_app in HL.
    rewrite (logs_blind link_failure _ (fun _ _ _ _ => eq_refl) Hl) in HL.
    rewrite (handler_trace_blind link_failure _ _ _ _ link_failure_blind
               (fun _ => eq_refl) Hh) in HL.
    rewrite (free_trace_blind link_failure _ _ link_failure_blind Hfr) in HL.
    discriminate.
Qed.

(** ** handle_kdh *)

Lemma wp_fflush_info p c f cl ch gs now lc en bk tr Q :
  lookup p cl = Some c -> infofile c = Some f ->
  Q (Done tt) (mkWorld cl ch gs now lc en bk (tr ++ [Ev (Fflush f) tt])) ->
  wp (fflush_info p) (mkWorld cl ch gs now lc en bk tr) Q.
Proof.
  intros Hp Hf H. unfold fflush_info. wstep.
  eapply wp_deref; [exact Hp|]. rewrite Hf. now wstep.
Qed.

Lemma handle_kdh_run p pkt w c f r w' :
  lookup p (g_clients w) = Some c -> infofile c = Some f ->
  handle_kdh p pkt w = (r, w') ->
  r = Done tt /\
  exists evs,
    trace w' = trace w ++ evs /\ same_globals w w' /\
    g_clients w' = update p (fun _ => set_any_data_rcvd true c) (g_clients w) /\
    kdh_run c pkt evs.
Proof.
  intros Hp Hf E. pattern r, w'. eapply wp_run; [|exact E]. clear E r w'.
  destruct w as [cl ch gs now lc en bk tr]. cbn [g_clients g_caphandler trace errno] in *.
  unfold handle_kdh. wstep.
  eapply wp_assign; [exact Hp|]. rewrite (update_const p _ c cl Hp).
  set (c1 := set_any_data_rcvd true c).
  assert (Hp1 : lookup p (update p (fun _ => c1) cl) = Some c1)
    by (eapply lookup_update_const; eauto).
  assert (Hf1 : infofile c1 = Some f) by exact Hf.
  wstep. eapply wp_deref; [exact Hp1|]. wsimpl.
  apply wp_if; intros Hs.
  - apply Z.ltb_lt in Hs. repeat wstep.
    eapply wp_client_pinfo; [exact Hp1|exact Hf1|]. tr_norm.
    eapply wp_fflush_info; [exact Hp1|exact Hf1|]. tr_norm.
    split; [reflexivity|]. eexists. split; [reflexivity|].
    split; [repeat split|]. split; [reflexivity|].
    subst c1; cproj. now apply kdh_too_small.
  - apply Z.ltb_ge in Hs.
    do 9 (wstep; eapply wp_client_pinfo; [exact Hp1|exact Hf1|]; tr_norm).
    wstep. eapply wp_fflush_info; [exact Hp1|exact Hf1|]. tr_norm. repeat wstep.
    eapply wp_send_ack; [exact Hp1|]. intros ra logs en' Hl. tr_norm.
    split; [reflexivity|]. eexists. split; [reflexivity|].
    split; [repeat split|]. split; [reflexivity|].
    subst c1; cproj. now apply (kdh_written c pkt f ra logs).
Qed.

(** ** client_event *)

Lemma wp_of_run {A} (m : M A) w (Q : outcome A -> world -> Prop) :
  (forall r w', m w = (r, w') -> Q r w') -> wp m w Q.
Proof. intros H. unfold wp. apply H. now destruct (m w). Qed.

Lemma client_event_run p w c f r w' :
  lookup p (g_clients w) = Some c -> infofile c = Some f ->
  client_event p w = (r, w') ->
  exists rr evs,
    trace w' = trace w ++ Ev (Recv (sock c)) rr :: evs /\ same_globals w w' /\
    client_run (g_caphandler w) p c (g_clients w) (errno w) rr evs r (g_clients w').
Proof.
  intros Hp Hf E. pattern r, w'. eapply wp_run; [|exact E]. clear E r w'.
  destruct w as [cl ch gs now lc en bk tr]. cbn [g_clients g_caphandler trace errno] in *.
  unfold client_event. wstep. eapply wp_deref; [exact Hp|]. repeat wstep.
  intros rr.
  apply wp_conseq with
    (Q := fun r w' => exists evs,
            trace w' = tr ++ Ev (Recv (sock c)) rr :: evs /\
            same_globals (mkWorld cl ch gs now lc en bk tr) w' /\
            client_run ch p c cl en rr evs r (g_clients w'));
    [|intros r w' (evs & H); now exists rr, evs].
  apply wp_if; intros H0.
  { apply Z.ltb_lt in H0. repeat wstep.
    fold (transient (r_errno rr)).
    assert (Ht : negb (r_errno rr =? EAGAIN) && negb (r_errno rr =? EINTR)
                 = negb (transient (r_errno rr)))
      by (unfold transient; now rewrite negb_orb).
    rewrite Ht. destruct (transient (r_errno rr)) eqn:Etr; cbn [negb].
    - wstep. eexists. split; [reflexivity|]. split; [repeat split|].
      now apply client_recv_again.
    - repeat wstep.
      eapply wp_handle_timeout; [exact Hp|exact Hf|]. intros tevs en' Hto. tr_norm.
      eexists. split; [reflexivity|]. split; [repeat split|].
      cbn [g_clients]. now apply client_recv_failed. }
  apply Z.ltb_ge in H0.
  apply wp_if; intros H1.
  { apply Z.ltb_lt in H1. repeat wstep.
    eexists. split; [reflexivity|]. split; [repeat split|].
    apply client_runt. lia. }
  apply Z.ltb_ge in H1. wsimpl.
  apply wp_if; intros H2.
  { apply negb_true_iff, Z.eqb_neq in H2. repeat wstep.
    eexists. split; [reflexivity|]. split; [repeat split|].
    now apply client_bad_size. }
  apply negb_false_iff, Z.eqb_eq in H2.
  assert (Hacc : accepted rr) by (repeat split; assumption).
  repeat wstep. intros t. wstep.
  eapply wp_assign; [exact Hp|]. rewrite (update_const p _ c cl Hp).
  set (ct := set_last_msg t c).
  assert (Hpt : lookup p (update p (fun _ => ct) cl) = Some ct)
    by (eapply lookup_update_const; eauto).
  assert (Hft : infofile ct = Some f) by exact Hf.
  apply wp_if; intros T1.
  { apply Z.eqb_eq in T1. apply wp_of_run. intros r w' E.
    match type of E with _ ?w0 = _ =>
      pose proof (handle_kdh_run p _ w0 ct f r w' Hpt Hft E) as HR end.
    destruct HR as (-> & evs & Etr & G & Ecl & R).
    cbn [trace g_clients] in *. rewrite Etr, Ecl, update_update_const. tr_norm.
    eexists. split; [reflexivity|]. split; [exact G|].
    now apply client_kdh. }
  apply Z.eqb_neq in T1.
  apply wp_if; intros T2.
  { apply Z.eqb_eq in T2. apply wp_of_run. intros r w' E.
    match type of E with _ ?w0 = _ =>
      pose proof (handle_vmcore_run p _ w0 ct f r w' Hpt Hft E) as HR end.
    destruct HR as (evs & Etr & G & R).
    cbn [trace g_clients g_caphandler] in *. rewrite Etr. tr_norm.
    eexists. split; [reflexivity|]. split; [exact G|].
    now apply client_vmcore with (t := t). }
  apply Z.eqb_neq in T2.
  apply wp_if; intros T3.
  { apply Z.eqb_eq in T3. apply wp_of_run. intros r w' E.
    match type of E with _ ?w0 = _ =>
      pose proof (handle_finish_run p _ w0 ct f r w' Hpt Hft E) as HR end.
    destruct HR as (-> & evs & Etr & G & R).
    cbn [trace g_clients g_caphandler errno] in *. rewrite Etr. tr_norm.
    eexists. split; [reflexivity|]. split; [exact G|].
    now apply client_finish with (t := t). }
  apply Z.eqb_neq in T3. repeat wstep.
  eexists. split; [reflexivity|]. split; [repeat split|].
  now apply client_unexpected.
Qed.

(** ** Acknowledgements *)

Lemma filter_none (g : event -> bool) l : existsb g l = false -> List.filter g l = [].
Proof.
  induction l as [|e l IH]; cbn; [reflexivity|]. intros H.
  apply orb_false_iff in H. destruct H as [-> H]. auto.
Qed.

Lemma pwrite_short_blind c : blind_to_teardown (pwrite_short c).
Proof. repeat split. Qed.

Lemma unlink_stops_not_ok d name r en :
  unlink_stops r en = true -> links_ok (Ev (Unlinkat d name) r) = false.
Proof.
  unfold unlink_stops, note_errno. cbn. intros H.
  apply andb_true_iff in H. destruct H as [H1 H2].
  apply negb_true_iff in H1. rewrite H1. cbn.
  destruct (fst r <? 0); [|reflexivity]. apply negb_true_iff in H2. now rewrite H2.
Qed.

Lemma acks_app l1 l2 : acks (l1 ++ l2) = acks l1 ++ acks l2.
Proof. apply filter_app. Qed.

Lemma acks_none l : existsb is_send l = false -> acks l = [].
Proof. apply filter_none. Qed.

Lemma acks_cons_other e l : is_send e = false -> acks (e :: l) = acks l.
Proof. unfold acks. cbn. now intros ->. Qed.

Lemma acks_logs logs : forallb is_log logs = true -> acks logs = [].
Proof. intros H. apply filter_none. now apply logs_blind. Qed.

Lemma kdh_acks c pkt evs :
  kdh_run c pkt evs ->
  ack_or (mh_len pkt < sizeof_kerneldumpheader) c pkt evs /\
  (acks evs <> [] -> sizeof_kerneldumpheader <= mh_len pkt).
Proof.
  intros R. unfold ack_or, acks.
  inversion R as [f Hf Hs | f ra logs Hf Hs Hl]; subst; clear R.
  - split; [left; split; [reflexivity|exact Hs] | intros H; now elim H].
  - assert (A : List.filter is_send (kdh_lines f (data pkt)
                      ++ [Ev (Fflush f) tt;
                          Ev (Log LOG_INFO "(KDH from %s [%s])"
                                [AStr (hostname c); AIp (ip c)]) tt;
                          ack_event c (mh_seqno pkt) ra] ++ logs)
                = [ack_event c (mh_seqno pkt) ra]).
    { rewrite !filter_app, (filter_none _ _ (logs_blind is_send _ (fun _ _ _ _ => eq_refl) Hl)). reflexivity. }
    split; [|intros _; exact Hs].
    right. exists ra. split; [exact A|].
    rewrite !existsb_app.
    rewrite (logs_blind (pwrite_short c) _ (fun _ _ _ _ => eq_refl) Hl).
    rewrite (logs_blind link_failure _ (fun _ _ _ _ => eq_refl) Hl).
    split; reflexivity.
Qed.

Lemma progress_dot_blind g pkt :
  (forall lvl fmt args r, g (Ev (Log lvl fmt args) r) = false) ->
  existsb g (progress_dot pkt) = false.
Proof. intros H. apply logs_blind; [exact H|apply progress_dot_logs]. Qed.

Lemma vmcore_acks ch p c cl pkt evs cl' :
  vmcore_run ch p c cl pkt evs (Done tt) cl' ->
  ack_or (existsb (pwrite_short c) evs = true) c pkt evs.
Proof.
  intros R. unfold ack_or, acks.
  inversion R as [ra logs c1 Hnf Hfit Hl | | rw ra logs c1 Hnf Hrw Hfit Hl
                   | | rw evs' c1 Hnf Hrw Hft ]; subst; clear R.
  - right. exists ra. rewrite filter_app, !existsb_app.
    rewrite (filter_none _ _ (progress_dot_blind is_send pkt (fun _ _ _ _ => eq_refl))).
    rewrite !progress_dot_blind by reflexivity.
    cbn. rewrite (filter_none _ _ (logs_blind is_send _ (fun _ _ _ _ => eq_refl) Hl)).
    rewrite (logs_blind (pwrite_short c) _ (fun _ _ _ _ => eq_refl) Hl).
    rewrite (logs_blind link_failure _ (fun _ _ _ _ => eq_refl) Hl).
    repeat split.
  - right. exists ra. rewrite filter_app, !existsb_app.
    rewrite (filter_none _ _ (progress_dot_blind is_send pkt (fun _ _ _ _ => eq_refl))).
    rewrite !progress_dot_blind by reflexivity.
    cbn. rewrite (filter_none _ _ (logs_blind is_send _ (fun _ _ _ _ => eq_refl) Hl)).
    rewrite (logs_blind (pwrite_short c) _ (fun _ _ _ _ => eq_refl) Hl).
    rewrite (logs_blind link_failure _ (fun _ _ _ _ => eq_refl) Hl).
    rewrite Hrw, Z.eqb_refl. repeat split.
  - left. rewrite filter_app, !existsb_app.
    rewrite (filter_none _ _ (progress_dot_blind is_send pkt (fun _ _ _ _ => eq_refl))).
    cbn.
    rewrite (filter_none _ _ (flush_fail_blind is_send _ _ _ is_send_blind
                                (fun _ => eq_refl) (fun _ _ _ _ => eq_refl) Hft)).
    split; [reflexivity|].
    apply Z.eqb_neq in Hrw. rewrite Hrw. cbn. apply orb_true_r.
Qed.

Lemma finish_acks ch p c cl pkt en evs cl' :
  finish_run ch p c cl pkt en evs cl' ->
  ack_or (existsb (pwrite_short c) evs = true \/ forallb links_ok evs = false) c pkt evs.
Proof.
  intros R. unfold ack_or, acks.
  inversion R as [ rw evs' Hrw Hft
                 | rw r1 e0 Hrw S1
                 | rw r1 r2 e0 e1 Hrw S1 S2
                 | rw r1 r2 r3 e0 e1 e2 Hrw S1 S2 S3
                 | rw r1 r2 r3 r4 e0 e1 e2 e3 Hrw S1 S2 S3 S4
                 | rw r1 r2 r3 r4 f' ra logs hevs fevs e0 e1 e2 Hrw S1 S2 S3 S4 Hf' Hl Hh Hfr ];
    subst; clear R.
  - left. cbn.
    rewrite (filter_none _ _ (flush_fail_blind is_send _ _ _ is_send_blind
                                (fun _ => eq_refl) (fun _ _ _ _ => eq_refl) Hft)).
    split; [reflexivity|]. left. apply Z.eqb_neq in Hrw. now rewrite Hrw.
  - left. split; [reflexivity|]. right. cbn [forallb].
    rewrite (unlink_stops_not_ok _ _ _ _ S1). cbn. now rewrite ?andb_false_r.
  - left. split; [reflexivity|]. right. cbn [forallb].
    apply Z.eqb_neq in S2. cbn. rewrite S2. cbn. now rewrite ?andb_false_r.
  - left. split; [reflexivity|]. right. cbn [forallb].
    rewrite (unlink_stops_not_ok _ _ _ _ S3). cbn. now rewrite ?andb_false_r.
  - left. split; [reflexivity|]. right. cbn [forallb].
    apply Z.eqb_neq in S4. cbn. rewrite S4. cbn. now rewrite ?andb_false_r.
  - right. exists ra.
    assert (NS : forall g, blind_to_teardown g ->
              (forall r, g (Ev (Cap_xfer_nvlist (handler_request "success" c)) r) = false) ->
              existsb g (logs ++ hevs ++ fevs) = false).
    { intros g Hg Hx. rewrite !existsb_app.
      destruct Hg as (Hlog & Hrest).
      rewrite (logs_blind g _ Hlog Hl).
      rewrite (handler_trace_blind g _ _ _ _ (conj Hlog Hrest) Hx Hh).
      now rewrite (free_trace_blind g _ _ (conj Hlog Hrest) Hfr). }
    split; [|split].
    + rewrite filter_app.
      rewrite (filter_none _ _ (NS is_send is_send_blind (fun _ => eq_refl))).
      reflexivity.
    + rewrite existsb_app, (NS _ (pwrite_short_blind c) (fun _ => eq_refl)).
      cbn. rewrite Hrw, Z.eqb_refl. reflexivity.
    + rewrite existsb_app, (NS _ link_failure_blind (fun _ => eq_refl)).
      cbn [existsb].
      rewrite (unlink_passes g_dumpdir_fd (core_last (path c) (hostname c)) r1 e0 S1),
        (symlink_passes (corefilename c) g_dumpdir_fd (core_last (path c) (hostname c)) r2 S2),
        (unlink_passes g_dumpdir_fd (info_last (path c) (hostname c)) r3 e2 S3),
        (symlink_passes (infofilename c) g_dumpdir_fd (info_last (path c) (hostname c)) r4 S4).
      reflexivity.
Qed.

Lemma vmcore_run_ends ch p c cl pkt evs o cl' :
  0 <= vmcorebufoff c <= VMCORE_BUFSZ -> 0 <= mh_len pkt <= NETDUMP_DATASIZE ->
  NETDUMP_DATASIZE <= VMCORE_BUFSZ ->
  vmcore_run ch p c cl pkt evs o cl' -> o = Done tt.
Proof.
  intros Hfill Hlen HD R.
  assert (Hc1 : 0 <= vmcorebufoff (set_any_data_rcvd true c) <= VMCORE_BUFSZ) by exact Hfill.
  inversion R as [ | c1 Hnf Hov | | rw c1 Hnf Hrw Hov | ]; subst; try reflexivity; exfalso;
    subst c1.
  - apply need_flush_false in Hnf; [|exact Hc1|lia].
    cbn [vmcorebufoff set_any_data_rcvd] in Hnf. lia.
  - lia.
Qed.

Lemma ntohl_htonl x : 0 <= x < 2 ^ 32 -> ntohl (htonl x) = x.
Proof.
  intros H. unfold ntohl, htonl.
  change (2 ^ 32) with 4294967296 in H.
  change (2 ^ 24) with 16777216. change (2 ^ 16) with 65536. change (2 ^ 8) with 256.
  pose proof (Z.div_mod x 256 ltac:(lia)).
  pose proof (Z.div_mod (x / 256) 256 ltac:(lia)).
  pose proof (Z.div_mod (x / 256 / 256) 256 ltac:(lia)).
  pose proof (Z.mod_pos_bound x 256 ltac:(lia)).
  pose proof (Z.mod_pos_bound (x / 256) 256 ltac:(lia)).
  pose proof (Z.mod_pos_bound (x / 256 / 256) 256 ltac:(lia)).
  replace (x / 65536) with (x / 256 / 256) by (rewrite Z.div_div by lia; reflexivity).
  replace (x / 16777216) with (x / 256 / 256 / 256)
    by (rewrite !Z.div_div by lia; reflexivity).
  assert (0 <= x / 256 / 256 / 256 < 256) by lia.
  rewrite (Z.mod_small (x / 256 / 256 / 256)) by lia. lia.
Qed.

(** C3, as the code has it.  For a datagram that passes the two size
    checks of client_event and goes to handle_kdh, handle_vmcore or
    handle_finish: at most one acknowledgement is sent, on the client's
    socket, and it holds the packet's sequence number in network order.
    None is sent when the handler gives up: a KDH payload shorter than the
    kernel dump header, a flush whose pwrite is short or fails, an
    unlinkat that fails other than with ENOENT, a symlinkat that fails.
    Exactly one is sent when none of that happens. *)
Theorem client_event_acks p w c f r w' :
  lookup p (g_clients w) = Some c -> infofile c = Some f ->
  0 <= vmcorebufoff c <= VMCORE_BUFSZ ->
  NETDUMP_DATASIZE <= VMCORE_BUFSZ ->
  client_event p w = (r, w') ->
  exists rr evs, trace w' = trace w ++ Ev (Recv (sock c)) rr :: evs /\
    let pkt := r_pkt rr in
    (accepted rr -> r_len rr <= sizeof_netdump_msg_hdr + NETDUMP_DATASIZE ->
     mh_type pkt = NETDUMP_KDH \/ mh_type pkt = NETDUMP_VMCORE
     \/ mh_type pkt = NETDUMP_FINISHED ->
       r = Done tt /\
       (acks evs = [] \/
        exists ra, acks evs = [Ev (Send (sock c) (htonl (mh_seqno pkt))) ra]) /\
       (gave_up c pkt evs -> acks evs = []) /\
       (ran_through c pkt evs ->
        exists ra, acks evs = [Ev (Send (sock c) (htonl (mh_seqno pkt))) ra]) /\
       (0 <= mh_seqno pkt < 2 ^ 32 -> ntohl (htonl (mh_seqno pkt)) = mh_seqno pkt)).
Proof.
  intros Hp Hf Hfill HD E.
  destruct (client_event_run _ _ _ _ _ _ Hp Hf E) as (rr & evs & Etr & _ & R).
  exists rr, evs. split; [exact Etr|]. intros pkt Hacc Hmax Hty.
  assert (Hlen : 0 <= mh_len pkt <= NETDUMP_DATASIZE).
  { destruct Hacc as (H1 & H2 & H3). subst pkt. lia. }
  (* what is left to show, once the handler's standing is known *)
  assert (K : forall (why : Prop) evs0,
            evs = Ev Clock_time (match evs with Ev Clock_time t :: _ => t | _ => 0 end) :: evs0 ->
            ack_or why c pkt evs0 ->
            (why -> ~ ran_through c pkt evs) ->
            (gave_up c pkt evs -> acks evs0 <> [] -> False) ->
            (acks evs = [] \/
             exists ra, acks evs = [Ev (Send (sock c) (htonl (mh_seqno pkt))) ra]) /\
            (gave_up c pkt evs -> acks evs = []) /\
            (ran_through c pkt evs ->
             exists ra, acks evs = [Ev (Send (sock c) (htonl (mh_seqno pkt))) ra]) /\
            (0 <= mh_seqno pkt < 2 ^ 32 -> ntohl (htonl (mh_seqno pkt)) = mh_seqno pkt)).
  { intros why evs0 -> A Hwhy Hgu.
    assert (EA : forall l t, acks (Ev Clock_time t :: l) = acks l) by reflexivity.
    rewrite !EA in *.
    split; [|split; [|split; [|apply ntohl_htonl]]].
    - destruct A as [[A _]|(ra & A & _)]; [now left|right; now exists ra].
    - intros G. destruct A as [[A _]|(ra & A & _)]; [exact A|].
      exfalso. apply (Hgu G). rewrite A. discriminate.
    - intros RT. destruct A as [[A W]|(ra & A & _)]; [|now exists ra].
      exfalso. exact (Hwhy W RT). }
  subst pkt.
  inversion R; subst;
    try (exfalso; destruct Hacc as (H1' & H2' & H3'); lia).
  - (* handle_kdh *)
    split; [reflexivity|].
    match goal with Rk : kdh_run _ _ _ |- _ =>
      destruct (kdh_acks _ _ _ Rk) as [A Hsz] end.
    apply (K (mh_len (r_pkt rr) < sizeof_kerneldumpheader) evs0); [reflexivity|exact A| |].
    + intros Hsmall (RT & _).
      match goal with Hk : mh_type _ = NETDUMP_KDH |- _ => specialize (RT Hk) end. lia.
    + intros [[_ G]|[G|G]] Hne.
      * specialize (Hsz Hne). lia.
      * destruct A as [[A _]|(ra & _ & A & _)]; [contradiction|].
        cbn in G. change (pwrite_short c) with (pwrite_short ct) in G. congruence.
      * destruct A as [[A _]|(ra & _ & _ & A)]; [contradiction|].
        cbn in G. congruence.
  - (* handle_vmcore *)
    match goal with Rv : vmcore_run _ _ _ _ _ _ _ _ |- _ =>
      assert (r = Done tt) by (eapply vmcore_run_ends; [| |exact HD|exact Rv]; assumption);
      subst r; pose proof (vmcore_acks _ _ _ _ _ _ _ Rv) as A end.
    split; [reflexivity|].
    apply (K (existsb (pwrite_short ct) evs0 = true) evs0); [reflexivity|exact A| |].
    + intros Hshort (_ & RT & _). cbn in RT.
      change (pwrite_short c) with (pwrite_short ct) in RT. congruence.
    + intros [[G _]|[G|G]] Hne.
      * contradiction.
      * destruct A as [[A _]|(ra & _ & A & _)]; [contradiction|].
        cbn in G. change (pwrite_short c) with (pwrite_short ct) in G. congruence.
      * destruct A as [[A _]|(ra & _ & _ & A)]; [contradiction|].
        cbn in G. congruence.
  - (* handle_finish *)
    split; [reflexivity|].
    match goal with Rf : finish_run _ _ _ _ _ _ _ _ |- _ =>
      pose proof (finish_acks _ _ _ _ _ _ _ _ Rf) as A end.
    apply (K (existsb (pwrite_short ct) evs0 = true \/ forallb links_ok evs0 = false) evs0);
      [reflexivity|exact A| |].
    + intros [Hshort|Hlinks] (_ & RT1 & RT2); cbn in RT1, RT2.
      * change (pwrite_short c) with (pwrite_short ct) in RT1. congruence.
      * congruence.
    + intros [[G _]|[G|G]] Hne.
      * contradiction.
      * destruct A as [[A _]|(ra & _ & A & _)]; [contradiction|].
        cbn in G. change (pwrite_short c) with (pwrite_short ct) in G. congruence.
      * destruct A as [[A _]|(ra & _ & _ & A)]; [contradiction|].
        cbn in G. congruence.
Qed.

(** ** alloc_client *)

Lemma alloc_files_run idx : forall c w r w',
  infofile c = None ->
  alloc_files idx c w = (r, w') ->
  exists c' evs res,
    r = Done c' /\ trace w' = trace w ++ evs /\
    g_clients w' = g_clients w /\ same_globals w w' /\
    scan_spec (path c) (hostname c) idx evs res /\
    with_files (path c) (hostname c) res c' /\ same_session c c' /\
    (res = None -> corefd c' = corefd c).
Proof.
  induction idx as [|i rest IH]; intros c w r w' Hnull E.
  - cbn in E. inversion E; subst. exists c, [], None.
    rewrite app_nil_r. repeat split; auto. constructor.
  - pattern r, w'. eapply wp_run; [|exact E]. clear E r w'.
    destruct w as [cl ch gs now lc en bk tr].
    cbn [g_clients g_caphandler trace errno] in *.
    cbn [alloc_files]. cproj.
    set (c1 := set_corefilename (core_name (path c) (hostname c) i)
                 (set_infofilename (info_name (path c) (hostname c) i) c)).
    assert (Hs1 : same_session c c1) by (repeat split).
    (* what every failed index comes to: the scan of the rest *)
    assert (K : forall (c2 : netdump_client) en2 pre,
      infofile c2 = None -> same_session c c2 -> corefd c2 = corefd c ->
      (forall evs res, scan_spec (path c) (hostname c) rest evs res ->
                       scan_spec (path c) (hostname c) (i :: rest) (pre ++ evs) res) ->
      wp (alloc_files rest c2)
         (mkWorld cl ch gs now lc en2 bk (tr ++ pre))
         (fun r w' => exists c' evs res,
            r = Done c' /\ trace w' = tr ++ evs /\ g_clients w' = cl /\
            same_globals (mkWorld cl ch gs now lc en bk tr) w' /\
            scan_spec (path c) (hostname c) (i :: rest) evs res /\
            with_files (path c) (hostname c) res c' /\ same_session c c' /\
            (res = None -> corefd c' = corefd c))).
    { intros c2 en2 pre Hn2 Hs2 Hfd2 Hscan. apply wp_of_run. intros r w' E.
      destruct (IH _ _ _ _ Hn2 E) as (c' & evs & res & -> & Etr & Ecl & G & S & W & Hs & Hfd).
      destruct Hs2 as (P1 & P2 & P3 & P4 & P5 & P6 & P7 & P8 & P9).
      rewrite P1, P2 in S, W. cbn [trace g_clients] in *.
      exists c', (pre ++ evs), res. rewrite Etr, app_assoc.
      repeat split; auto; try apply G.
      all: try (destruct Hs as (Q1 & Q2 & Q3 & Q4 & Q5 & Q6 & Q7 & Q8 & Q9); congruence).
      intros Hres. rewrite (Hfd Hres). exact Hfd2. }
    wstep. wstep. intros r1. apply wp_if; intros O1.
    { apply Z.eqb_eq in O1. wstep. wstep.
      apply wp_bind, wp_if; intros L1; wstep.
      - apply (K c1 _ [_; _]); auto.
        intros evs res S. apply (scan_info_taken _ _ i rest r1 [_] evs res); auto.
      - apply (K c1 _ [_]); auto.
        intros evs res S. apply (scan_info_taken _ _ i rest r1 [] evs res); auto. }
    apply Z.eqb_neq in O1. wstep. wstep. intros fr. apply wp_if; intros O2.
    { apply negb_true_iff in O2. repeat wstep. intros ru. tr_norm.
      apply (K (set_infofile None c1) _ [_; _; _; _; _]); auto.
      intros evs res S.
      apply (scan_no_stream _ _ i rest r1 fr ru _ evs res); auto. }
    apply negb_false_iff in O2. wsimpl. cproj. wstep. wstep. intros r2.
    apply wp_if; intros O3.
    { apply Z.eqb_eq in O3. repeat wstep. intros ru. repeat wstep.
      apply wp_if; intros L1; wstep.
      - apply (K (set_infofile None (set_infofile (Some (fst r1)) c1)) _
                 [_; _; _; _; _; _]); auto.
        intros evs res S.
        apply (scan_core_taken _ _ i rest r1 fr r2 ru [_] evs res); auto.
      - apply (K (set_infofile None (set_infofile (Some (fst r1)) c1)) _
                 [_; _; _; _; _]); auto.
        intros evs res S.
        apply (scan_core_taken _ _ i rest r1 fr r2 ru [] evs res); auto. }
    apply Z.eqb_neq in O3. wstep.
    eexists _, _, (Some (i, fst r1, fst r2)).
    split; [reflexivity|]. split; [reflexivity|]. split; [reflexivity|].
    split; [repeat split|]. split; [now apply scan_found|].
    split; [repeat split; auto|]. split; [repeat split|]. discriminate.
Qed.

Lemma wp_error_out c cl ch gs now lc en bk tr Q :
  (forall evs, existsb is_openat evs = false ->
     Q (Done None) (mkWorld cl ch gs now lc en bk (tr ++ evs))) ->
  wp (error_out c) (mkWorld cl ch gs now lc en bk tr) Q.
Proof.
  intros H. unfold error_out.
  assert (K3 : forall evs, existsb is_openat evs = false ->
    wp ((if negb (sock c =? -1) then sys (Close (sock c)) else ret tt) ;;; ret None)
       (mkWorld cl ch gs now lc en bk (tr ++ evs)) Q).
  { intros evs He. wstep. apply wp_if; intros _; repeat wstep; apply H.
    - rewrite existsb_app, He. reflexivity.
    - exact He. }
  assert (K2 : forall evs, existsb is_openat evs = false ->
    wp ((if negb (corefd c =? -1) then sys (Close (corefd c)) else ret tt) ;;;
        (if negb (sock c =? -1) then sys (Close (sock c)) else ret tt) ;;; ret None)
       (mkWorld cl ch gs now lc en bk (tr ++ evs)) Q).
  { intros evs He. wstep. apply wp_if; intros _; wstep; apply K3.
    - rewrite existsb_app, He. reflexivity.
    - exact He. }
  wstep. destruct (infofile c); cbv iota; wstep.
  - apply (K2 [_]). reflexivity.
  - rewrite <- (app_nil_r tr). apply (K2 []). reflexivity.
Qed.

Lemma alloc_client_run sd saddr dir w r w' :
  alloc_client sd saddr dir w = (r, w') ->
  exists evs res,
    r = Done res /\ trace w' = trace w ++ evs /\ alloc_globals w w' /\
    alloc_run sd saddr dir (g_now w) (brk w) (g_clients w) evs res (g_clients w').
Proof.
  intros E. pattern r, w'. eapply wp_run; [|exact E]. clear E r w'.
  destruct w as [cl ch gs now lc en bk tr].
  cbn [g_clients g_caphandler trace errno brk g_now] in *.
  unfold alloc_client. wstep. wstep. intros ok. destruct ok; cbn [negb].
  2:{ repeat wstep. eexists _, None. split; [reflexivity|]. split; [reflexivity|].
      split; [repeat split|]. cbn [g_clients]. now apply alloc_no_memory. }
  repeat wstep.
  set (c0 := set_ip saddr (set_last_msg now (set_sock sd (set_corefd (-1) zero_client)))).
  (* after the name is known *)
  assert (K : forall host en1 pre,
    existsb is_openat pre = false ->
    wp (rc <- sys_e (Setsockopt_rcvbuf (sock (set_hostname host c0)) 131072) ;;
        (if negb (rc =? 0) then
           LOGERR_PERROR "setsockopt()" ;;;
           LOGWARN "May drop packets from %s due to small receive buffer\n"
             [AStr (hostname (set_hostname host c0))]
         else ret tt) ;;;
        c <- alloc_files (seq 0 MAX_DUMPS)
               (set_path (snprintf MAXPATHLEN dir) (set_hostname host c0)) ;;
        if match infofile c with None => true | Some _ => false end || (corefd c =? -1) then
          LOGERR "Can't create output files for new client %s [%s]\n"
            [AStr (hostname c); AIp (ip c)] ;;;
          error_out c
        else
          rc <- sys_e (Kevent_add (sock c) bk) ;;
          if negb (rc =? 0) then LOGERR_PERROR "kevent(EV_ADD)" ;;; error_out c
          else
            modify (fun w => set_clients ((bk, c) :: g_clients w) w) ;;;
            ret (Some bk))
       (mkWorld cl ch gs now lc en1 (Pos.succ bk) (tr ++ Ev Calloc true :: pre))
       (fun r w' => exists evs res,
          r = Done res /\ trace w' = tr ++ evs /\
          alloc_globals (mkWorld cl ch gs now lc en bk tr) w' /\
          alloc_run sd saddr dir now bk cl evs res (g_clients w'))).
  { intros host en1 pre Hpre. wstep. wstep. intros rs. wstep.
    assert (K2 : forall en2 pre2,
      existsb is_openat pre2 = false ->
      wp (c <- alloc_files (seq 0 MAX_DUMPS)
                (set_path (snprintf MAXPATHLEN dir) (set_hostname host c0)) ;;
          if match infofile c with None => true | Some _ => false end || (corefd c =? -1) then
            LOGERR "Can't create output files for new client %s [%s]\n"
              [AStr (hostname c); AIp (ip c)] ;;;
            error_out c
          else
            rc <- sys_e (Kevent_add (sock c) bk) ;;
            if negb (rc =? 0) then LOGERR_PERROR "kevent(EV_ADD)" ;;; error_out c
            else
              modify (fun w => set_clients ((bk, c) :: g_clients w) w) ;;;
              ret (Some bk))
         (mkWorld cl ch gs now lc en2 (Pos.succ bk) (tr ++ Ev Calloc true :: pre2))
         (fun r w' => exists evs res,
            r = Done res /\ trace w' = tr ++ evs /\
            alloc_globals (mkWorld cl ch gs now lc en bk tr) w' /\
            alloc_run sd saddr dir now bk cl evs res (g_clients w'))).
    { intros en2 pre2 Hpre2. wstep. apply wp_of_run. intros r w' E.
      apply alloc_files_run in E; [|reflexivity].
      destruct E as (c' & scan & res & -> & Etr & Ecl & G & S & W & Hs & Hfd).
      cbn [path hostname set_path set_hostname] in S, W.
      destruct w' as [cl' ch' gs' now' lc' en' bk' tr'].
      destruct G as (G1 & G2 & G3 & G4 & G5).
      cbn [g_clients g_caphandler g_sock g_now g_last_timeout_check brk trace] in *.
      subst cl' ch' gs' now' lc' bk' tr'. tr_norm.
      destruct Hs as (P1 & P2 & P3 & P4 & P5 & P6 & P7 & P8 & P9). cproj.
      destruct res as [[[i fd] fd2]|]; cbn [with_files] in W.
      - destruct W as (W1 & W2 & W3 & W4 & W5). rewrite W3, W4.
        apply Z.eqb_neq in W5. rewrite W5. cbn [orb]. wstep. wstep. intros rk.
        apply wp_if; intros Hk.
        + repeat wstep. apply wp_error_out. intros evs He. tr_norm.
          eexists _, None. split; [reflexivity|]. split; [reflexivity|].
          split; [repeat split|]. cbn [g_clients].
          apply (alloc_not_watched sd saddr dir now bk cl host pre2 scan _ i fd fd2);
            auto.
        + apply negb_false_iff, Z.eqb_eq in Hk. repeat wstep.
          eexists _, (Some bk). split; [reflexivity|]. split; [reflexivity|].
          split; [repeat split|]. cbn [g_clients]. rewrite P5.
          apply (alloc_done sd saddr dir now bk cl host pre2 scan rk i fd fd2 c'); auto.
          unfold fresh_client. subst fd2. subst c0. cproj.
          repeat split; assumption.
      - rewrite W. cbn [orb]. repeat wstep. apply wp_error_out. intros evs He. tr_norm.
        eexists _, None. split; [reflexivity|]. split; [reflexivity|].
        split; [repeat split|]. cbn [g_clients].
        apply (alloc_no_files sd saddr dir now bk cl host pre2 scan _); auto. }
    apply wp_if; intros _.
    - do 3 wstep. apply (K2 _ (pre ++ [_; _; _])).
      rewrite existsb_app, Hpre. reflexivity.
    - wstep. apply (K2 _ (pre ++ [_])).
      rewrite existsb_app, Hpre. reflexivity. }
  intros r1. wstep.
  assert (F : forall en1 pre, existsb is_openat pre = false ->
            wp (error_out c0)
               (mkWorld cl ch gs now lc en1 (Pos.succ bk) (tr ++ Ev Calloc true :: pre))
               (fun r w' => exists evs res,
                  r = Done res /\ trace w' = tr ++ evs /\
                  alloc_globals (mkWorld cl ch gs now lc en bk tr) w' /\
                  alloc_run sd saddr dir now bk cl evs res (g_clients w'))).
  { intros en1 pre Hpre. apply wp_error_out. intros evs He. tr_norm.
    eexists _, None. split; [reflexivity|]. split; [reflexivity|].
    split; [repeat split|]. cbn [g_clients]. apply alloc_no_name.
    rewrite existsb_app, Hpre. exact He. }
  apply wp_if; intros N1.
  - do 2 wstep. intros r2. apply wp_if; intros N2.
    + do 3 wstep. apply (F _ [_; _; _]). reflexivity.
    + wstep. apply (K (snd r2) _ [_; _]). reflexivity.
  - wstep. apply (K (strip_domain (snd r1)) _ [_]). reflexivity.
Qed.

(** ** alloc_client, call by call *)

Lemma wp_error_out_exact c cl ch gs now lc en bk tr Q :
  Q (Done None) (mkWorld cl ch gs now lc en bk (tr ++ release_trace c)) ->
  wp (error_out c) (mkWorld cl ch gs now lc en bk tr) Q.
Proof.
  unfold error_out, release_trace. intros H.
  destruct (infofile c); destruct (corefd c =? -1); destruct (sock c =? -1);
    cbn [negb app] in *; repeat wstep; rewrite ?app_nil_r in H; exact H.
Qed.

Lemma alloc_client_exact sd saddr dir w r w' :
  alloc_client sd saddr dir w = (r, w') ->
  exists evs res,
    r = Done res /\ trace w' = trace w ++ evs /\
    alloc_exact sd saddr dir (g_now w) (brk w) (g_clients w) evs res (g_clients w').
Proof.
  intros E. pattern r, w'. eapply wp_run; [|exact E]. clear E r w'.
  destruct w as [cl ch gs now lc en bk tr].
  cbn [g_clients g_caphandler trace errno brk g_now] in *.
  unfold alloc_client. wstep. wstep. intros ok. destruct ok; cbn [negb].
  2:{ repeat wstep. eexists _, None. split; [reflexivity|]. split; [reflexivity|].
      cbn [g_clients]. now apply exact_no_memory. }
  repeat wstep.
  set (c0 := set_ip saddr (set_last_msg now (set_sock sd (set_corefd (-1) zero_client)))).
  assert (K : forall host en1 names,
    name_lookup saddr names (Some host) ->
    wp (rc <- sys_e (Setsockopt_rcvbuf (sock (set_hostname host c0)) 131072) ;;
        (if negb (rc =? 0) then
           LOGERR_PERROR "setsockopt()" ;;;
           LOGWARN "May drop packets from %s due to small receive buffer\n"
             [AStr (hostname (set_hostname host c0))]
         else ret tt) ;;;
        c <- alloc_files (seq 0 MAX_DUMPS)
               (set_path (snprintf MAXPATHLEN dir) (set_hostname host c0)) ;;
        if match infofile c with None => true | Some _ => false end || (corefd c =? -1) then
          LOGERR "Can't create output files for new client %s [%s]\n"
            [AStr (hostname c); AIp (ip c)] ;;;
          error_out c
        else
          rc <- sys_e (Kevent_add (sock c) bk) ;;
          if negb (rc =? 0) then LOGERR_PERROR "kevent(EV_ADD)" ;;; error_out c
          else
            modify (fun w => set_clients ((bk, c) :: g_clients w) w) ;;;
            ret (Some bk))
       (mkWorld cl ch gs now lc en1 (Pos.succ bk) (tr ++ Ev Calloc true :: names))
       (fun r w' => exists evs res,
          r = Done res /\ trace w' = tr ++ evs /\
          alloc_exact sd saddr dir now bk cl evs res (g_clients w'))).
  { intros host en1 names Hnames. wstep. wstep. intros rs. wstep.
    assert (K2 : forall en2 logs,
      forallb is_log logs = true ->
      wp (c <- alloc_files (seq 0 MAX_DUMPS)
                (set_path (snprintf MAXPATHLEN dir) (set_hostname host c0)) ;;
          if match infofile c with None => true | Some _ => false end || (corefd c =? -1) then
            LOGERR "Can't create output files for new client %s [%s]\n"
              [AStr (hostname c); AIp (ip c)] ;;;
            error_out c
          else
            rc <- sys_e (Kevent_add (sock c) bk) ;;
            if negb (rc =? 0) then LOGERR_PERROR "kevent(EV_ADD)" ;;; error_out c
            else
              modify (fun w => set_clients ((bk, c) :: g_clients w) w) ;;;
              ret (Some bk))
         (mkWorld cl ch gs now lc en2 (Pos.succ bk)
            (tr ++ Ev Calloc true :: names
             ++ Ev (Setsockopt_rcvbuf sd 131072) rs :: logs))
         (fun r w' => exists evs res,
            r = Done res /\ trace w' = tr ++ evs /\
            alloc_exact sd saddr dir now bk cl evs res (g_clients w'))).
    { intros en2 logs Hlogs. wstep. apply wp_of_run. intros r w' E.
      apply alloc_files_run in E; [|reflexivity].
      destruct E as (c' & scan & res & -> & Etr & Ecl & G & S & W & Hs & Hfd).
      cbn [path hostname set_path set_hostname] in S, W.
      destruct w' as [cl' ch' gs' now' lc' en' bk' tr'].
      destruct G as (G1 & G2 & G3 & G4 & G5).
      cbn [g_clients g_caphandler g_sock g_now g_last_timeout_check brk trace] in *.
      subst cl' ch' gs' now' lc' bk' tr'. tr_norm.
      destruct Hs as (P1 & P2 & P3 & P4 & P5 & P6 & P7 & P8 & P9). cproj.
      destruct res as [[[i fd] fd2]|]; cbn [with_files] in W.
      - destruct W as (W1 & W2 & W3 & W4 & W5). rewrite W3, W4.
        pose proof W5 as W5'. apply Z.eqb_neq in W5'. rewrite W5'. cbn [orb].
        wstep. wstep. intros rk.
        apply wp_if; intros Hk.
        + apply negb_true_iff, Z.eqb_neq in Hk. repeat wstep.
          apply wp_error_out_exact. unfold release_trace.
          rewrite W3, W4, W5', P5. cbn [app]. fold (close_sock sd). tr_norm.
          eexists _, None. split; [reflexivity|]. split; [reflexivity|].
          cbn [g_clients].
          apply (exact_not_watched sd saddr dir now bk cl names host rs logs scan
                   i fd fd2 rk _); auto.
        + apply negb_false_iff, Z.eqb_eq in Hk. repeat wstep.
          eexists _, (Some bk). split; [reflexivity|]. split; [reflexivity|].
          cbn [g_clients]. rewrite P5.
          apply (exact_done sd saddr dir now bk cl names host rs logs scan
                   i fd fd2 rk c'); auto.
          unfold fresh_client. subst fd2. subst c0. cproj.
          repeat split; assumption.
      - rewrite W. cbn [orb]. repeat wstep. apply wp_error_out_exact.
        unfold release_trace. rewrite W, (Hfd eq_refl), P5. subst c0. cproj.
        cbn [Z.eqb app]. fold (close_sock sd). tr_norm.
        eexists _, None. split; [reflexivity|]. split; [reflexivity|].
        cbn [g_clients].
        apply (exact_no_files sd saddr dir now bk cl names host rs logs scan _); auto. }
    subst c0. cproj. apply wp_if; intros _.
    - do 3 wstep. apply (K2 _ [_; _]). reflexivity.
    - wstep. rewrite <- (app_nil_r (tr ++ _)). tr_norm. apply (K2 _ []). reflexivity. }
  intros r1. wstep.
  apply wp_if; intros N1.
  - apply negb_true_iff, Z.eqb_neq in N1. do 2 wstep. intros r2. apply wp_if; intros N2.
    + apply negb_true_iff, Z.eqb_neq in N2. do 3 wstep.
      apply wp_error_out_exact. unfold release_trace. subst c0. cproj.
      cbn [Z.eqb app]. fold (close_sock sd). tr_norm.
      eexists _, None. split; [reflexivity|]. split; [reflexivity|].
      cbn [g_clients].
      apply (exact_no_name sd saddr dir now bk cl [_; _; _]).
      now apply name_unknown.
    + apply negb_false_iff, Z.eqb_eq in N2. wstep.
      apply (K (snd r2) _ [_; _]). now apply name_numeric.
  - apply negb_false_iff, Z.eqb_eq in N1. wstep.
    apply (K (strip_domain (snd r1)) _ [_]). now apply name_resolved.
Qed.

Lemma info_opens_app l1 l2 : info_opens (l1 ++ l2) = info_opens l1 ++ info_opens l2.
Proof. apply flat_map_app. Qed.

Lemma info_opens_logs logs : forallb is_log logs = true -> info_opens logs = [].
Proof.
  induction logs as [|e l IH]; [reflexivity|]. intros H. cbn [forallb] in H.
  apply andb_true_iff in H. destruct H as [He Hl].
  unfold info_opens. cbn [flat_map]. fold (info_opens l). rewrite (IH Hl).
  destruct e as [X k r]. destruct k; try discriminate. reflexivity.
Qed.

(** The scan tries the indices in the order given and stops at the one
    it finds. *)
Lemma scan_spec_order dir host idx scan found :
  scan_spec dir host idx scan found ->
  exists n, (n <= List.length idx)%nat /\
    info_opens scan = map (info_name dir host) (firstn n idx) /\
    (found = None -> n = List.length idx) /\
    (forall i fd fd2, found = Some (i, fd, fd2) -> nth_error idx (pred n) = Some i /\ n <> O).
Proof.
  assert (Step : forall (i : nat) rest evs (res : option (nat * Z * Z)) n,
    (n <= List.length rest)%nat /\
    info_opens evs = map (info_name dir host) (firstn n rest) /\
    (res = None -> n = List.length rest) /\
    (forall j fd fd2, res = Some (j, fd, fd2) ->
       nth_error rest (pred n) = Some j /\ n <> O) ->
    (S n <= List.length (i :: rest))%nat /\
    info_name dir host i :: info_opens evs
      = map (info_name dir host) (firstn (S n) (i :: rest)) /\
    (res = None -> S n = List.length (i :: rest)) /\
    (forall j fd fd2, res = Some (j, fd, fd2) ->
       nth_error (i :: rest) (pred (S n)) = Some j /\ S n <> O)).
  { intros i rest evs res n (Hn & Ho & Hnone & Hsome).
    cbn [List.length firstn map]. rewrite Ho.
    split; [lia|]. split; [reflexivity|]. split.
    - intros H. now rewrite (Hnone H).
    - intros j fd fd2 H. destruct (Hsome _ _ _ H) as [Hnth Hnz].
      split; [|discriminate]. destruct n; [contradiction|exact Hnth]. }
  induction 1 as [ | i rest r logs evs res Hr Hl HS IH
                   | i rest r fr ru log evs res Hr Hfr Hlog HS IH
                   | i rest r fr r2 ru logs evs res Hr Hfr Hr2 Hl HS IH
                   | i rest r fr r2 Hr Hfr Hr2 ].
  - exists O. split; [cbn; lia|]. split; [reflexivity|]. split; [reflexivity|].
    intros; discriminate.
  - destruct IH as (n & IH). exists (S n).
    replace (info_opens (Ev (Openat g_dumpdir_fd (info_name dir host i) excl_wronly) r :: logs ++ evs))
      with (info_name dir host i :: info_opens evs).
    + now apply Step.
    + change (info_name dir host i :: info_opens evs
              = info_name dir host i :: info_opens (logs ++ evs)).
      now rewrite info_opens_app, (info_opens_logs _ Hl).
  - destruct IH as (n & IH). exists (S n).
    replace (info_opens (Ev (Openat g_dumpdir_fd (info_name dir host i) excl_wronly) r
       :: Ev (Fdopen (fst r)) fr :: log :: Ev (Close (fst r)) tt
       :: Ev (Unlink (info_name dir host i)) ru :: evs))
      with (info_name dir host i :: info_opens evs).
    + now apply Step.
    + destruct log as [X k rl]. destruct k; try discriminate. reflexivity.
  - destruct IH as (n & IH). exists (S n).
    replace (info_opens (Ev (Openat g_dumpdir_fd (info_name dir host i) excl_wronly) r
       :: Ev (Fdopen (fst r)) fr
       :: Ev (Openat g_dumpdir_fd (core_name dir host i) excl_rdwr) r2
       :: Ev (Fclose (fst r)) tt
       :: Ev (Unlink (info_name dir host i)) ru :: logs ++ evs))
      with (info_name dir host i :: info_opens evs).
    + now apply Step.
    + change (info_name dir host i :: info_opens evs
              = info_name dir host i :: info_opens (logs ++ evs)).
      now rewrite info_opens_app, (info_opens_logs _ Hl).
  - exists 1%nat. split; [cbn; lia|]. split; [reflexivity|]. split; [discriminate|].
    intros j fd fd2 H. inversion H; subst. split; [reflexivity|discriminate].
Qed.

Lemma nth_error_seq0 n k i : nth_error (seq 0 n) k = Some i -> i = k /\ (k < n)%nat.
Proof.
  intros H. assert (Hk : (k < n)%nat).
  { assert (Hs : nth_error (seq 0 n) k <> None) by congruence.
    apply nth_error_Some in Hs. now rewrite length_seq in Hs. }
  split; [|exact Hk].
  pose proof (nth_error_nth _ _ 0%nat H) as Hn. rewrite seq_nth in Hn by exact Hk.
  cbn in Hn. now subst.
Qed.

Lemma firstn_seq0 n : forall s len, (n <= len)%nat -> firstn n (seq s len) = seq s n.
Proof.
  induction n as [|n IH]; intros s len H; [reflexivity|].
  destruct len as [|len]; [lia|]. cbn [seq firstn]. f_equal. apply IH. lia.
Qed.

Lemma dump_files_app evs1 : forall evs2 files,
  dump_files (evs1 ++ evs2) files = dump_files evs2 (dump_files evs1 files).
Proof.
  induction evs1 as [|e evs1 IH]; intros evs2 files; [reflexivity|].
  cbn [app dump_files]. apply IH.
Qed.

(** With every unlink refused and no unlinkat, what was in the dump
    directory stays and what is created there stays. *)
Lemma dump_files_stay evs : forall files,
  forallb unlink_refused evs = true -> existsb is_unlinkat evs = false ->
  (forall n, In n files -> In n (dump_files evs files)) /\
  (forall name flags r, In (Ev (Openat g_dumpdir_fd name flags) r) evs ->
     fst r <> -1 -> In name (dump_files evs files)).
Proof.
  induction evs as [|e evs IH]; intros files Hr Hu.
  - split; [auto|]. intros name flags r [].
  - cbn [forallb] in Hr. apply andb_true_iff in Hr. destruct Hr as [He Hr].
    cbn [existsb] in Hu. apply orb_false_iff in Hu. destruct Hu as [Hue Hu].
    cbn [dump_files].
    assert (Hkeep : forall n, In n files ->
      In n match e with
           | Ev (Openat d name _) r =>
             if (d =? g_dumpdir_fd) && negb (fst r =? -1) then name :: files else files
           | Ev (Unlinkat d name) r =>
             if (d =? g_dumpdir_fd) && (fst r =? 0) then drop_name name files else files
           | Ev (Unlink name) r =>
             if fst r =? 0 then drop_name name files else files
           | _ => files
           end).
    { intros n Hn. destruct e as [X c x]. destruct c; try exact Hn.
      - destruct ((dirfd =? g_dumpdir_fd) && negb (fst x =? -1)); [now right|exact Hn].
      - cbn in He. apply negb_true_iff in He. now rewrite He.
      - discriminate. }
    split.
    + intros n Hn. apply IH; auto.
    + intros name flags r [Hin|Hin] Hok.
      * subst e. apply IH; auto. rewrite Z.eqb_refl. cbn [andb].
        apply Z.eqb_neq in Hok. rewrite Hok. now left.
      * now apply (proj2 (IH _ Hr Hu)) with flags r.
Qed.

Lemma name_lookup_class g saddr names host :
  (forall a b r, g (Ev (Cap_getnameinfo a b) r) = false) ->
  (forall lvl fmt args r, g (Ev (Log lvl fmt args) r) = false) ->
  name_lookup saddr names host -> existsb g names = false.
Proof.
  intros H1 H2. inversion 1; subst; cbn; now rewrite ?H1, ?H2.
Qed.

Lemma scan_spec_class g dir host idx scan found :
  (forall lvl fmt args r, g (Ev (Log lvl fmt args) r) = false) ->
  (forall d n fl r, g (Ev (Openat d n fl) r) = false) ->
  (forall fd r, g (Ev (Fdopen fd) r) = false) ->
  (forall fd r, g (Ev (Close fd) r) = false) ->
  (forall f r, g (Ev (Fclose f) r) = false) ->
  (forall n r, g (Ev (Unlink n) r) = false) ->
  scan_spec dir host idx scan found -> existsb g scan = false.
Proof.
  intros Hlog Hop Hfd Hcl Hfc Hun.
  assert (L1 : forall e, is_log e = true -> g e = false).
  { intros [X c x]. destruct c; try discriminate. intros _. apply Hlog. }
  induction 1 as [ | i rest r logs evs res Hr Hl HS IH
                   | i rest r fr ru log evs res Hr Hfr Hlog' HS IH
                   | i rest r fr r2 ru logs evs res Hr Hfr Hr2 Hl HS IH
                   | i rest r fr r2 Hr Hfr Hr2 ];
    cbn [existsb]; rewrite ?existsb_app, ?Hop, ?Hfd, ?Hcl, ?Hfc, ?Hun, ?IH;
    rewrite ?(logs_blind g _ Hlog) by assumption; rewrite ?L1 by assumption;
    reflexivity.
Qed.

Lemma alloc_exact_no_unlinkat sd saddr dir now p cl evs res cl' :
  alloc_exact sd saddr dir now p cl evs res cl' -> existsb is_unlinkat evs = false.
Proof.
  assert (Hlog : forall lvl fmt args r, is_unlinkat (Ev (Log lvl fmt args) r) = false)
    by reflexivity.
  assert (L1 : forall e, is_log e = true -> is_unlinkat e = false).
  { intros [X c x]. destruct c; try discriminate. reflexivity. }
  assert (Hn : forall names host, name_lookup saddr names host ->
                                  existsb is_unlinkat names = false).
  { intros names host. now apply name_lookup_class. }
  assert (Hs : forall host scan found,
             scan_spec (snprintf MAXPATHLEN dir) host (seq 0 MAX_DUMPS) scan found ->
             existsb is_unlinkat scan = false).
  { intros host scan found. now apply scan_spec_class. }
  assert (Hc : forall s, existsb is_unlinkat (close_sock s) = false).
  { intros s0. unfold close_sock. now destruct (s0 =? -1). }
  inversion 1; subst; cbn [existsb is_unlinkat orb];
    rewrite ?existsb_app; cbn [existsb is_unlinkat orb];
    rewrite ?existsb_app; cbn [existsb is_unlinkat orb];
    repeat match goal with
           | H : name_lookup _ _ _ |- _ => rewrite (Hn _ _ H); clear H
           | H : scan_spec _ _ _ _ _ |- _ => rewrite (Hs _ _ _ H); clear H
           | H : forallb is_log _ = true |- _ => rewrite (logs_blind is_unlinkat _ Hlog H); clear H
           | H : is_log _ = true |- _ => rewrite (L1 _ H); clear H
           end;
    rewrite ?Hc; reflexivity.
Qed.

(** C7, as the code has it.  (1) The loop of alloc_client over the
    indices makes the calls of scan_spec and no other: at each index the
    info file is created first in the dump directory, write-only,
    create-new and exclusive; the core file is attempted only when that
    succeeded; when the core file cannot be created the info stream is
    closed and unlink is called on the name of the info file, and the
    next index is tried; the client it leaves holds the files of the
    index found.  (2) alloc_client runs this scan over 0, 1, ..., 255
    once calloc and the lookup of the donor's name have succeeded, and
    not otherwise; it registers a session only with the info and the
    core file of one index, and returns NULL with the list as it was
    when nothing was found.  It never calls unlinkat.  (3) In a scan
    over 0 .. 255 the info files attempted are exactly those of the
    indices 0 .. n-1, in this order: n = 256 when nothing was found and
    n = i + 1 when the pair of index i was created.  (4) The unlink of
    alloc_client does not name the dump directory: when every unlink of
    the run is refused, as the kernel does in capability mode, every
    info file the run created is still in the dump directory when
    alloc_client returns, those of the indices it gave up included. *)
Theorem alloc_client_scans_names :
  (forall idx c w r w',
     infofile c = None ->
     alloc_files idx c w = (r, w') ->
     exists c' evs res,
       r = Done c' /\ trace w' = trace w ++ evs /\ g_clients w' = g_clients w /\
       scan_spec (path c) (hostname c) idx evs res /\
       with_files (path c) (hostname c) res c') /\
  (forall sd saddr dir w r w',
     alloc_client sd saddr dir w = (r, w') ->
     exists evs res,
       r = Done res /\ trace w' = trace w ++ evs /\
       alloc_exact sd saddr dir (g_now w) (brk w) (g_clients w) evs res (g_clients w') /\
       existsb is_unlinkat evs = false) /\
  (forall dir host scan found,
     scan_spec dir host (seq 0 MAX_DUMPS) scan found ->
     exists n, (n <= MAX_DUMPS)%nat /\
       info_opens scan = map (info_name dir host) (seq 0 n) /\
       match found with
       | None => n = MAX_DUMPS
       | Some (i, fd, fd2) => n = S i /\ fd2 <> -1
       end) /\
  (forall sd saddr dir w r w',
     alloc_client sd saddr dir w = (r, w') ->
     exists evs,
       trace w' = trace w ++ evs /\
       (forallb unlink_refused evs = true ->
        forall name r0,
          In (Ev (Openat g_dumpdir_fd name excl_wronly) r0) evs -> fst r0 <> -1 ->
          In name (dump_files evs []))).
Proof.
  split; [|split; [|split]].
  - intros idx c w r w' Hnull E.
    destruct (alloc_files_run idx c w r w' Hnull E)
      as (c' & evs & res & Hr & Ht & Hcl & _ & HS & HW & _).
    exists c', evs, res. auto.
  - intros sd saddr dir w r w' E.
    destruct (alloc_client_exact _ _ _ _ _ _ E) as (evs & res & Hr & Ht & HX).
    exists evs, res. split; [exact Hr|]. split; [exact Ht|]. split; [exact HX|].
    exact (alloc_exact_no_unlinkat _ _ _ _ _ _ _ _ _ HX).
  - intros dir host scan found HS.
    destruct (scan_spec_order _ _ _ _ _ HS) as (n & Hn & Ho & Hnone & Hsome).
    rewrite length_seq in Hn, Hnone. exists n. split; [exact Hn|].
    split; [now rewrite Ho, firstn_seq0|].
    destruct found as [[[i fd] fd2]|]; [|now apply Hnone].
    destruct (Hsome _ _ _ eq_refl) as [Hnth Hnz].
    apply nth_error_seq0 in Hnth. split.
    + destruct n; [contradiction|]. cbn in Hnth. lia.
    + clear - HS. remember (Some (i, fd, fd2)) as found eqn:Ef.
      induction HS; try discriminate; auto. inversion Ef; subst. assumption.
  - intros sd saddr dir w r w' E.
    destruct (alloc_client_exact _ _ _ _ _ _ E) as (evs & res & Hr & Ht & HX).
    exists evs. split; [exact Ht|]. intros Href name r0 Hin Hok.
    pose proof (alloc_exact_no_unlinkat _ _ _ _ _ _ _ _ _ HX) as Hu.
    exact (proj2 (dump_files_stay evs [] Href Hu) name excl_wronly r0 Hin Hok).
Qed.

(** ** What no function but eventloop and timeout_clients writes *)

Lemma steady_refl w : steady w w.
Proof. repeat split. exists []. symmetry. apply app_nil_r. Qed.

Lemma steady_trans w1 w2 w3 : steady w1 w2 -> steady w2 w3 -> steady w1 w3.
Proof.
  intros (A1 & A2 & A3 & A4 & e1 & A5) (B1 & B2 & B3 & B4 & e2 & B5).
  repeat split; try congruence. exists (e1 ++ e2). rewrite B5, A5. now rewrite app_assoc.
Qed.

Lemma keeps_ret {A} (a : A) : keeps (ret a).
Proof. intros w. apply steady_refl. Qed.

Lemma keeps_crash {A} f : keeps (@crash A f).
Proof. intros w. apply steady_refl. Qed.

Lemma keeps_gets {A} (f : world -> A) : keeps (gets f).
Proof. intros w. apply steady_refl. Qed.

Lemma keeps_deref p : keeps (deref p).
Proof. intros w. unfold deref. destruct (lookup p (g_clients w)); apply steady_refl. Qed.

Lemma keeps_sys {X} (c : call X) : keeps (sys c).
Proof. intros [cl ch gs now lc en bk tr]. repeat split. cbn. eexists. reflexivity. Qed.

Lemma keeps_modify f : (forall w, steady w (f w)) -> keeps (modify f).
Proof. intros H w. apply H. Qed.

Lemma keeps_bind {A B} (m : M A) (k : A -> M B) :
  keeps m -> (forall a, keeps (k a)) -> keeps (bind m k).
Proof.
  intros Hm Hk w. unfold bind. specialize (Hm w).
  destruct (m w) as [[a|f] w1]; cbn [snd] in *; [|exact Hm].
  eapply steady_trans; [exact Hm|apply Hk].
Qed.

Create HintDb keeps.

Ltac keeps_step :=
  lazymatch goal with
  | |- keeps (bind _ _) => apply keeps_bind; [|intros ?]
  | |- keeps (ret _) => apply keeps_ret
  | |- keeps (crash _) => apply keeps_crash
  | |- keeps (gets _) => apply keeps_gets
  | |- keeps (deref _) => apply keeps_deref
  | |- keeps (sys _) => apply keeps_sys
  | |- keeps (modify _) =>
      apply keeps_modify; intros []; repeat split; exists []; symmetry; apply app_nil_r
  | |- keeps (if ?b then _ else _) => destruct b
  | |- keeps (match ?x with _ => _ end) => destruct x
  | |- keeps _ => solve [auto with keeps]
  end.

Ltac keeps_all f := unfold f; cbv zeta; repeat keeps_step.

Lemma keeps_assign p f : keeps (assign p f).
Proof. keeps_all assign. Qed.

#[local] Hint Resolve keeps_assign : keeps.

Lemma keeps_sys_e c : keeps (sys_e c).
Proof. keeps_all sys_e. Qed.

#[local] Hint Resolve keeps_sys_e : keeps.

Lemma keeps_log_err fmt args : keeps (LOGERR fmt args).
Proof. apply keeps_sys. Qed.

Lemma keeps_log_info fmt args : keeps (LOGINFO fmt args).
Proof. apply keeps_sys. Qed.

Lemma keeps_log_warn fmt args : keeps (LOGWARN fmt args).
Proof. apply keeps_sys. Qed.

Lemma keeps_perror m : keeps (LOGERR_PERROR m).
Proof. keeps_all LOGERR_PERROR. Qed.

#[local] Hint Resolve keeps_log_err keeps_log_info keeps_log_warn keeps_perror : keeps.

Lemma keeps_client_pinfo p fmt args : keeps (client_pinfo p fmt args).
Proof. keeps_all client_pinfo. Qed.

Lemma keeps_fclose f : keeps (fclose f).
Proof. keeps_all fclose. Qed.

Lemma keeps_fflush_info p : keeps (fflush_info p).
Proof. keeps_all fflush_info. Qed.

#[local] Hint Resolve keeps_client_pinfo keeps_fclose keeps_fflush_info : keeps.

Lemma keeps_cap_handler reason a h i c : keeps (netdump_cap_handler reason a h i c).
Proof. keeps_all netdump_cap_handler. Qed.

#[local] Hint Resolve keeps_cap_handler : keeps.

Lemma keeps_exec_handler p reason : keeps (exec_handler p reason).
Proof. keeps_all exec_handler. Qed.

Lemma keeps_free_client p : keeps (free_client p).
Proof. keeps_all free_client. Qed.

#[local] Hint Resolve keeps_exec_handler keeps_free_client : keeps.

Lemma keeps_handle_timeout p : keeps (handle_timeout p).
Proof. keeps_all handle_timeout. Qed.

Lemma keeps_send_ack p s : keeps (send_ack p s).
Proof. keeps_all send_ack. Qed.

#[local] Hint Resolve keeps_handle_timeout keeps_send_ack : keeps.

Lemma keeps_vmcore_flush p : keeps (vmcore_flush p).
Proof. keeps_all vmcore_flush. Qed.

#[local] Hint Resolve keeps_vmcore_flush : keeps.

Lemma keeps_handle_kdh p pkt : keeps (handle_kdh p pkt).
Proof. keeps_all handle_kdh. Qed.

Lemma keeps_handle_vmcore p pkt : keeps (handle_vmcore p pkt).
Proof. keeps_all handle_vmcore. Qed.

Lemma keeps_handle_finish p pkt : keeps (handle_finish p pkt).
Proof. keeps_all handle_finish. Qed.

#[local] Hint Resolve keeps_handle_kdh keeps_handle_vmcore keeps_handle_finish : keeps.

Lemma keeps_alloc_files idx : forall c, keeps (alloc_files idx c).
Proof.
  induction idx as [|i rest IH]; intros c; cbn [alloc_files]; cbv zeta;
    repeat keeps_step.
Qed.

Lemma keeps_error_out c : keeps (error_out c).
Proof. keeps_all error_out. Qed.

#[local] Hint Resolve keeps_alloc_files keeps_error_out : keeps.

Lemma keeps_alloc_client sd saddr dir : keeps (alloc_client sd saddr dir).
Proof. keeps_all alloc_client. Qed.

#[local] Hint Resolve keeps_alloc_client : keeps.

Lemma keeps_server_event : keeps server_event.
Proof. keeps_all server_event. Qed.

Lemma keeps_client_event p : keeps (client_event p).
Proof. keeps_all client_event. Qed.

#[local] Hint Resolve keeps_server_event keeps_client_event : keeps.

Lemma keeps_dispatch evs : keeps (dispatch evs).
Proof.
  induction evs as [|ev rest IH]; cbn [dispatch]; repeat keeps_step.
Qed.

(** ** server_event *)

Lemma lookup_in_nodup p c l : NoDup (map fst l) -> In (p, c) l -> lookup p l = Some c.
Proof.
  induction l as [|[q d] l IH]; cbn; [contradiction|]. intros Hn [H|H].
  - inversion H; subst. now rewrite Pos.eqb_refl.
  - inversion Hn as [|? ? Hq Hd]; subst.
    destruct (Pos.eqb p q) eqn:E; [|auto].
    apply Pos.eqb_eq in E. subst. exfalso. apply Hq.
    change q with (fst (q, c)). now apply in_map.
Qed.

Lemma find_client_some a l p :
  NoDup (map fst l) -> find_client a l = Some p ->
  exists c, lookup p l = Some c /\ ip c = a.
Proof.
  unfold find_client. intros Hn H.
  destruct (find (fun qc => ip (snd qc) =? a) l) as [[q c]|] eqn:E; [|discriminate].
  inversion H; subst. apply find_some in E. destruct E as [Hin Hip].
  exists c. split; [now apply lookup_in_nodup|]. cbn in Hip. lia.
Qed.

Lemma find_client_none a l p c :
  find_client a l = None -> lookup p l = Some c -> ip c <> a.
Proof.
  unfold find_client. intros H Hp.
  destruct (find (fun qc => ip (snd qc) =? a) l) as [[q d]|] eqn:E; [discriminate|].
  apply lookup_some_in in Hp. pose proof (find_none _ _ E _ Hp) as Hf. cbn in Hf. lia.
Qed.

Lemma server_event_run w r w' :
  clients_ok (g_clients w) ->
  server_event w = (r, w') ->
  exists h evs,
    trace w' = trace w ++ Ev Cap_herald h :: evs /\
    herald_run (g_caphandler w) (g_now w) (brk w) (g_clients w) h evs r (g_clients w').
Proof.
  intros [Hn Hi] E. pattern r, w'. eapply wp_run; [|exact E]. clear E r w'.
  destruct w as [cl ch gs now lc en bk tr].
  cbn [g_clients g_caphandler trace errno brk g_now] in *.
  unfold server_event. do 2 wstep. intros h.
  apply wp_if; intros Hh.
  { repeat wstep. exists h. eexists. split; [reflexivity|].
    cbn [g_clients]. apply herald_failed.
    apply negb_true_iff in Hh. lia. }
  apply negb_false_iff in Hh. apply Z.eqb_eq in Hh.
  do 2 wstep. wstep.
  destruct (find_client (h_saddr h) cl) as [p|] eqn:Ef.
  - destruct (find_client_some _ _ _ Hn Ef) as (c & Hp & Hip).
    assert (Hf : exists f, infofile c = Some f).
    { apply lookup_some_in in Hp. apply Hi in Hp.
      destruct (infofile c) as [f|]; [now exists f|contradiction]. }
    destruct Hf as [f Hf].
    wstep. eapply wp_deref; [exact Hp|].
    apply wp_if; intros Ha.
    + apply negb_true_iff in Ha. wstep.
      eapply wp_send_ack; [exact Hp|]. intros ra logs en' Hl. repeat wstep.
      exists h. eexists. split; [reflexivity|]. cbn [g_clients].
      now apply herald_retransmit with p.
    + apply negb_false_iff in Ha. wstep.
      eapply wp_handle_timeout; [exact Hp|exact Hf|]. intros evs en' Ht.
      repeat wstep. apply wp_deref_freed.
      * cbn [g_clients]. now apply lookup_remove_same.
      * exists h, evs. split; [reflexivity|]. cbn [g_clients].
        now apply herald_supersedes with c.
  - wstep. apply wp_of_run. intros r1 w1 E1.
    destruct (alloc_client_run _ _ _ _ _ _ E1) as (evs & res & -> & Ht & Hg & HR).
    destruct w1 as [cl1 ch1 gs1 now1 lc1 en1 bk1 tr1].
    destruct Hg as (G1 & G2 & G3 & G4).
    cbn [g_clients g_caphandler g_sock g_now g_last_timeout_check trace brk] in *.
    subst ch1 gs1 now1 lc1 tr1. tr_norm.
    destruct res as [p|].
    + wstep. wstep.
      assert (Hc : exists c f, lookup p cl1 = Some c /\ infofile c = Some f).
      { inversion HR; subst. match goal with H : fresh_client _ _ _ _ _ _ _ _ _ |- _ =>
          destruct H as (_ & _ & _ & _ & _ & _ & _ & Hfile & _) end.
        eexists _, _. split; [|eassumption]. cbn. now rewrite Pos.eqb_refl. }
      destruct Hc as (c & f & Hp & Hf).
      eapply wp_deref; [exact Hp|]. wstep.
      eapply wp_client_pinfo; [exact Hp|exact Hf|]. tr_norm. do 2 wstep. wstep.
      eapply wp_send_ack; [exact Hp|]. intros ra logs en' Hl. repeat wstep.
      exists h, (evs ++ welcome c f (h_seqno h) ra ++ logs).
      split; [unfold welcome; now tr_norm|]. cbn [g_clients].
      now apply herald_session with p.
    + repeat wstep. exists h. eexists. split; [reflexivity|]. cbn [g_clients].
      now apply herald_no_session.
Qed.

Lemma timeout_trace_blind g ch c evs :
  blind_to_teardown g ->
  (forall r, g (Ev (Cap_xfer_nvlist (handler_request "timeout" c)) r) = false) ->
  (forall s fmt args r, g (Ev (Fprintf s fmt args) r) = false) ->
  timeout_trace ch c evs -> existsb g evs = false.
Proof.
  intros Hg Hx Hp (f & hevs & fevs & _ & Hh & Hf & ->).
  cbn. rewrite existsb_app, (handler_trace_blind _ _ _ _ _ Hg Hx Hh),
    (free_trace_blind _ _ _ Hg Hf).
  destruct Hg as (Hl & _). now rewrite Hl, Hp.
Qed.

Lemma is_calloc_blind : blind_to_teardown is_calloc.
Proof. repeat split. Qed.

Lemma is_openat_blind : blind_to_teardown is_openat.
Proof. repeat split. Qed.

(** C1, as the code has it.  When the herald worker hands over a herald
    from an address whose registered session has any_data_rcvd set,
    server_event ends that session on the timeout path (the line 'Client
    timed out', the info line 'Dump incomplete: client timed out', the
    handler asked with reason 'timeout', the client freed) and then goes
    on with the pointer to the client it has just freed.  alloc_client is
    not called: nothing is allocated, no file is created, no session is
    registered for the herald, and no acknowledgement has been sent when
    the freed client is read. *)
Theorem server_event_herald_after_data w r w' :
  clients_ok (g_clients w) ->
  server_event w = (r, w') ->
  exists h evs,
    trace w' = trace w ++ Ev Cap_herald h :: evs /\
    forall p c,
      h_error h = 0 -> find_client (h_saddr h) (g_clients w) = Some p ->
      lookup p (g_clients w) = Some c -> any_data_rcvd c = true ->
      timeout_trace (g_caphandler w) c evs /\
      r = Crash (UseAfterFree p) /\
      g_clients w' = remove p (g_clients w) /\
      lookup p (g_clients w') = None /\
      existsb is_calloc evs = false /\ existsb is_openat evs = false /\
      existsb is_send evs = false.
Proof.
  intros Hok E. destruct (server_event_run _ _ _ Hok E) as (h & evs & Ht & HR).
  exists h, evs. split; [exact Ht|]. intros p c He Hf Hp Ha.
  inversion HR as [ Hne | evs0 cl' _ Hnone | evs0 q d f ra logs cl' _ Hnone
                  | q d ra logs _ Hq Hd Hflag | q d evs0 _ Hq Hd Hflag Htr ]; subst;
    try congruence.
  rewrite Hf in Hq. inversion Hq; subst q. rewrite Hp in Hd. inversion Hd; subst d.
  split; [exact Htr|]. split; [reflexivity|]. split; [reflexivity|].
  split; [apply lookup_remove_same, Hok|].
  split; [|split].
  - apply (timeout_trace_blind _ _ _ _ is_calloc_blind) in Htr; auto.
  - apply (timeout_trace_blind _ _ _ _ is_openat_blind) in Htr; auto.
  - apply (timeout_trace_blind _ _ _ _ is_send_blind) in Htr; auto.
Qed.

Lemma finish_run_list ch p c cl pkt en evs cl' :
  finish_run ch p c cl pkt en evs cl' ->
  cl' = remove p cl \/ cl' = update p (fun _ => set_vmcorebufoff 0 c) cl.
Proof. inversion 1; subst; auto. Qed.

(** ** timeout_clients *)

Lemma sweep_run_filter ch now rest evs kept :
  sweep_run ch now rest evs kept ->
  kept = List.filter (fun qc => negb (stale now (snd qc))) rest.
Proof.
  induction 1 as [|p c rest evs kept Hs _ IH|p c rest tevs evs kept Hs _ _ IH];
    cbn [List.filter snd]; [reflexivity| |]; rewrite Hs; cbn [negb]; congruence.
Qed.

Lemma remove_middle p c kept rest :
  ~ In p (map fst kept) -> remove p (kept ++ (p, c) :: rest) = kept ++ rest.
Proof.
  induction kept as [|[q d] kept IH]; cbn; intros H.
  - now rewrite Pos.eqb_refl.
  - destruct (Pos.eqb p q) eqn:E.
    + apply Pos.eqb_eq in E. subst. exfalso. auto.
    + f_equal. apply IH. auto.
Qed.

Lemma clients_ok_middle kept p c rest :
  clients_ok (kept ++ (p, c) :: rest) ->
  lookup p (kept ++ (p, c) :: rest) = Some c /\ ~ In p (map fst kept) /\
  (exists f, infofile c = Some f) /\
  clients_ok (kept ++ rest) /\ clients_ok ((kept ++ [(p, c)]) ++ rest).
Proof.
  intros [Hn Hi].
  assert (Hin : In (p, c) (kept ++ (p, c) :: rest)) by (apply in_elt).
  split; [now apply lookup_in_nodup|].
  rewrite map_app in Hn. cbn [map fst] in Hn.
  split; [|split; [|split]].
  - apply NoDup_remove_2 in Hn. intros H. apply Hn, in_or_app. now left.
  - specialize (Hi _ _ Hin). destruct (infofile c) as [f|]; [now exists f|contradiction].
  - split.
    + rewrite map_app. now apply NoDup_remove_1 in Hn.
    + intros q d H. apply (Hi q d). apply in_app_or in H. apply in_or_app.
      destruct H; [now left|right; now right].
  - rewrite <- app_assoc. cbn [app]. split; [rewrite map_app; exact Hn|exact Hi].
Qed.

Lemma wp_sweep ch gs now lc bk rest : forall kept en tr Q,
  clients_ok (kept ++ rest) ->
  (forall evs en' kept', sweep_run ch now rest evs kept' ->
     Q (Done tt) (mkWorld (kept ++ kept') ch gs now lc en' bk (tr ++ evs))) ->
  wp (foreach_safe (map fst rest) (fun p =>
        c <- deref p ;;
        now <- gets g_now ;;
        if signed64 (last_msg c + CLIENT_TIMEOUT) <? now then
          LOGINFO "Timingout with such values: %jd + %jd < %jd\n"
            [AInt (last_msg c); AInt CLIENT_TIMEOUT; AInt now] ;;;
          handle_timeout p
        else ret tt))
     (mkWorld (kept ++ rest) ch gs now lc en bk tr) Q.
Proof.
  induction rest as [|[p c] rest IH]; intros kept en tr Q Hok H; cbn [map fst foreach_safe].
  - wstep. specialize (H [] en [] (sweep_end ch now)). rewrite (app_nil_r tr) in H. exact H.
  - destruct (clients_ok_middle _ _ _ _ Hok) as (Hp & Hnot & [f Hf] & Hok1 & Hok2).
    do 2 wstep. eapply wp_deref; [exact Hp|]. do 2 wstep.
    destruct (signed64 (last_msg c + CLIENT_TIMEOUT) <? now) eqn:Hs.
    + do 2 wstep. eapply wp_handle_timeout; [exact Hp|exact Hf|].
      intros tevs en' Ht. rewrite remove_middle by exact Hnot. tr_norm.
      apply IH; [exact Hok1|]. intros evs en2 kept' HS.
      rewrite <- app_assoc. apply (H (_ :: tevs ++ evs)).
      now apply sweep_times_out.
    + wstep. change (kept ++ (p, c) :: rest) with (kept ++ [(p, c)] ++ rest).
      rewrite app_assoc. apply IH; [exact Hok2|]. intros evs en2 kept' HS.
      rewrite <- app_assoc. cbn [app]. apply H. now apply sweep_keeps.
Qed.

Lemma keeps_foreach_safe l body : (forall p, keeps (body p)) -> keeps (foreach_safe l body).
Proof.
  intros Hb. induction l as [|p l IH]; cbn [foreach_safe]; repeat keeps_step.
Qed.

Lemma wp_keeps {A} (m : M A) w (Q : outcome A -> world -> Prop) :
  keeps m -> (forall r w', steady w w' -> Q r w') -> wp m w Q.
Proof. intros Hk H. unfold wp. apply H, Hk. Qed.

Lemma signed64_time_t x : time_t_range x -> signed64 x = x.
Proof.
  unfold time_t_range, signed64, wrap64. intros H.
  destruct (Z.ltb_spec (x mod 2 ^ 64) (2 ^ 63)) as [Hl|Hl].
  - destruct (Z.lt_ge_cases x 0) as [Hn|Hp].
    + exfalso. assert (E : x mod 2 ^ 64 = x + 2 ^ 64).
      { symmetry. apply Z.mod_unique with (-1); lia. }
      lia.
    + apply Z.mod_small. lia.
  - destruct (Z.lt_ge_cases x 0) as [Hn|Hp].
    + assert (E : x mod 2 ^ 64 = x + 2 ^ 64).
      { symmetry. apply Z.mod_unique with (-1); lia. }
      lia.
    + exfalso. rewrite Z.mod_small in Hl by lia. lia.
Qed.

(** What one call of timeout_clients does to the time of the last sweep:
    it sweeps exactly when the test of the 10 seconds lets it, and then
    g_now becomes the time of the last sweep. *)
Lemma timeout_clients_floor w r w' :
  timeout_clients w = (r, w') ->
  g_now w' = g_now w /\
  (signed64 (g_now w - g_last_timeout_check w) < CLIENT_TPASS -> w' = w) /\
  (CLIENT_TPASS <= signed64 (g_now w - g_last_timeout_check w) ->
   g_last_timeout_check w' = g_now w).
Proof.
  intros E. pattern r, w'. eapply wp_run; [|exact E]. clear E r w'.
  destruct w as [cl ch gs now lc en bk tr].
  cbn [g_clients g_caphandler g_now g_last_timeout_check trace] in *.
  unfold timeout_clients. do 2 wstep. do 2 wstep.
  destruct (signed64 (now - lc) <? CLIENT_TPASS) eqn:Hgap.
  - wstep. apply Z.ltb_lt in Hgap. split; [reflexivity|]. split; [reflexivity|].
    intros Hge. exfalso. lia.
  - apply Z.ltb_ge in Hgap. do 2 wstep. do 2 wstep. apply wp_keeps.
    + apply keeps_foreach_safe. intros q. repeat keeps_step.
    + intros r2 w2 (_ & _ & Hn & Hl & _). wsimpl_in Hn. wsimpl_in Hl.
      split; [exact Hn|]. split; [intros; exfalso; lia|]. intros _. exact Hl.
Qed.

(** One wake of eventloop: when kevent fails nothing is swept; otherwise
    the events are dispatched, which leaves the time of the last sweep
    alone, and then, unless the dispatch ended the loop, timeout_clients
    is run once and the wake ends as it leaves the daemon. *)
Lemma eventloop_wake_sweeps_once w r w' :
  eventloop_wake w = (r, w') ->
  let k := env _ (trace w) (Kevent_wait 8 CLIENT_TPASS) in
  let wk := log_event (Ev (Kevent_wait 8 CLIENT_TPASS) k) w in
  (k_rc k < 0 -> g_last_timeout_check w' = g_last_timeout_check w) /\
  (0 <= k_rc k ->
   let t := env _ (trace wk) Clock_time in
   exists rd w1,
     dispatch (firstn (Z.to_nat (k_rc k)) (k_events k))
       (set_now t (log_event (Ev Clock_time t) wk)) = (rd, w1) /\
     g_now w1 = t /\ g_last_timeout_check w1 = g_last_timeout_check w /\
     (rd = Done Again ->
      exists rt, timeout_clients w1 = (rt, w') /\
                 r = match rt with Done _ => Done Again | Crash f => Crash f end) /\
     (rd <> Done Again -> r = rd /\ w' = w1)).
Proof.
  intros E. cbv zeta.
  destruct w as [cl ch gs now lc en bk tr].
  unfold eventloop_wake in E.
  unfold bind at 1 in E. unfold sys at 1 in E. cbv zeta in E. wsimpl_in E.
  wsimpl.
  set (k := env _ tr (Kevent_wait 8 CLIENT_TPASS)) in *.
  destruct (k_rc k <? 0) eqn:Hk.
  - apply Z.ltb_lt in Hk. split; [|intros; lia]. intros _.
    pattern r, w'. eapply wp_run; [|exact E]. repeat wstep.
    destruct (k_errno k =? EINTR); repeat wstep; reflexivity.
  - apply Z.ltb_ge in Hk. split; [intros; lia|]. intros _.
    unfold bind at 1 in E. unfold sys at 1 in E. cbv zeta in E. wsimpl_in E.
    set (t := env _ _ Clock_time) in *.
    unfold bind at 1 in E. unfold modify at 1 in E. wsimpl_in E.
    unfold bind at 1 in E.
    match type of E with context [dispatch ?l ?w0] =>
      pose proof (keeps_dispatch l w0) as Hd;
      destruct (dispatch l w0) as [rd w1] eqn:Ed end.
    destruct Hd as (_ & _ & Hnow & Hlast & _). cbn [snd] in *.
    wsimpl_in Hnow. wsimpl_in Hlast.
    exists rd, w1. split; [reflexivity|]. split; [exact Hnow|]. split; [exact Hlast|].
    destruct rd as [[| |]|flt].
    + split; [|intros H; contradiction]. intros _.
      unfold bind in E. destruct (timeout_clients w1) as [rt w2] eqn:Et.
      exists rt. destruct rt; inversion E; subst; split; reflexivity.
    + split; [intros H; discriminate|]. intros _. inversion E. now split.
    + split; [intros H; discriminate|]. intros _. inversion E. now split.
    + split; [intros H; discriminate|]. intros _. inversion E. now split.
Qed.

(** C6, as the code has it.  (1) timeout_clients does nothing when
    fewer than 10 seconds of g_now have passed since the sweep before;
    otherwise it notes g_now as the time of this sweep and visits every
    client: one whose last_msg + 600 is strictly less than g_now is
    ended on the timeout path, the others are kept as they are.  Either
    way fewer than 10 seconds separate g_now from the last sweep when it
    returns.  The times are values of time_t: the difference and the
    sums are taken to be in its range.  (2) A wake of eventloop in which
    kevent failed sweeps nothing.  In any other wake the events are
    dispatched, which leaves the time of the last sweep as it was, and
    then timeout_clients is run once, with g_now the clock reading of the
    wake, unless the dispatch ended the loop.  (3) So a wake changes the
    time of the last sweep only to its own clock reading, and only when
    that is at least 10 seconds after the sweep before: two sweeps are
    never less than 10 seconds apart.  How long after the last sweep the
    next wake comes is not in the hands of timeout_clients. *)
Theorem timeout_clients_sweeps :
  (forall w r w',
     clients_ok (g_clients w) ->
     time_t_range (g_now w - g_last_timeout_check w) ->
     (forall p c, In (p, c) (g_clients w) -> time_t_range (last_msg c + CLIENT_TIMEOUT)) ->
     timeout_clients w = (r, w') ->
     r = Done tt /\ g_now w' = g_now w /\
     g_now w' - g_last_timeout_check w' < CLIENT_TPASS /\
     (g_now w - g_last_timeout_check w < CLIENT_TPASS -> w' = w) /\
     (CLIENT_TPASS <= g_now w - g_last_timeout_check w ->
        g_last_timeout_check w' = g_now w /\
        (exists evs, trace w' = trace w ++ evs /\
           sweep_run (g_caphandler w) (g_now w) (g_clients w) evs (g_clients w')) /\
        g_clients w'
        = List.filter (fun qc => negb (last_msg (snd qc) + CLIENT_TIMEOUT <? g_now w))
            (g_clients w) /\
        (forall p c, In (p, c) (g_clients w) ->
           (last_msg c + CLIENT_TIMEOUT < g_now w -> ~ In (p, c) (g_clients w')) /\
           (g_now w <= last_msg c + CLIENT_TIMEOUT -> In (p, c) (g_clients w'))))) /\
  (forall w r w',
     eventloop_wake w = (r, w') ->
     let k := env _ (trace w) (Kevent_wait 8 CLIENT_TPASS) in
     let wk := log_event (Ev (Kevent_wait 8 CLIENT_TPASS) k) w in
     (k_rc k < 0 -> g_last_timeout_check w' = g_last_timeout_check w) /\
     (0 <= k_rc k ->
      let t := env _ (trace wk) Clock_time in
      exists rd w1,
        dispatch (firstn (Z.to_nat (k_rc k)) (k_events k))
          (set_now t (log_event (Ev Clock_time t) wk)) = (rd, w1) /\
        g_now w1 = t /\ g_last_timeout_check w1 = g_last_timeout_check w /\
        (rd = Done Again ->
         exists rt, timeout_clients w1 = (rt, w') /\
                    r = match rt with Done _ => Done Again | Crash f => Crash f end) /\
        (rd <> Done Again -> r = rd /\ w' = w1))) /\
  (forall w r w',
     eventloop_wake w = (r, w') ->
     g_last_timeout_check w' = g_last_timeout_check w \/
     (g_last_timeout_check w' = g_now w' /\
      CLIENT_TPASS <= signed64 (g_now w' - g_last_timeout_check w) /\
      (time_t_range (g_now w' - g_last_timeout_check w) ->
       CLIENT_TPASS <= g_now w' - g_last_timeout_check w))).
Proof.
  split; [|split].
  - intros w r w' Hok Hgapr Hcr E. pattern r, w'. eapply wp_run; [|exact E]. clear E r w'.
    destruct w as [cl ch gs now lc en bk tr].
    cbn [g_clients g_caphandler g_now g_last_timeout_check trace] in *.
    unfold timeout_clients. do 2 wstep. do 2 wstep.
    rewrite (signed64_time_t _ Hgapr).
    destruct (now - lc <? CLIENT_TPASS) eqn:Hgap.
    + wstep. apply Z.ltb_lt in Hgap.
      split; [reflexivity|]. split; [reflexivity|]. split; [exact Hgap|].
      split; [reflexivity|]. intros Hge. exfalso. lia.
    + apply Z.ltb_ge in Hgap. do 2 wstep. do 2 wstep.
      apply (wp_sweep ch gs now now bk cl []); [exact Hok|].
      intros evs en' kept' HS. cbn [app].
      pose proof (sweep_run_filter _ _ _ _ _ HS) as Hfil.
      assert (Hst : forall p c, In (p, c) cl ->
                stale now c = (last_msg c + CLIENT_TIMEOUT <? now)).
      { intros p c Hin. unfold stale. now rewrite (signed64_time_t _ (Hcr p c Hin)). }
      assert (Hfil' : kept' = List.filter
                (fun qc => negb (last_msg (snd qc) + CLIENT_TIMEOUT <? now)) cl).
      { rewrite Hfil. apply filter_ext_in. intros [p c] Hin. cbn [snd].
        now rewrite (Hst p c Hin). }
      split; [reflexivity|]. split; [reflexivity|].
      wsimpl. split; [unfold CLIENT_TPASS; lia|]. split; [intros; exfalso; lia|]. intros _.
      split; [reflexivity|]. split; [now exists evs|]. split; [exact Hfil'|].
      intros p c Hin. rewrite Hfil'. split; intros Hs.
      * intros Hk. apply filter_In in Hk. destruct Hk as [_ Hk]. cbn in Hk.
        apply Z.ltb_lt in Hs. rewrite Hs in Hk. discriminate.
      * apply filter_In. split; [exact Hin|]. cbn.
        apply Z.ltb_ge in Hs. now rewrite Hs.
  - intros w r w' E. exact (eventloop_wake_sweeps_once w r w' E).
  - intros w r w' E.
    destruct (eventloop_wake_sweeps_once w r w' E) as [Hneg Hpos]. cbv zeta in *.
    destruct (Z.lt_ge_cases (k_rc (env _ (trace w) (Kevent_wait 8 CLIENT_TPASS))) 0)
      as [Hk|Hk]; [left; exact (Hneg Hk)|].
    destruct (Hpos Hk) as (rd & w1 & _ & Hnow & Hlast & Hagain & Hother).
    assert (Hdec : rd = Done Again \/ rd <> Done Again).
    { destruct rd as [[| |]|]; [now left| | |]; right; discriminate. }
    destruct Hdec as [Hrd|Hrd].
    + destruct (Hagain Hrd) as (rt & Et & _).
      destruct (timeout_clients_floor _ _ _ Et) as (Hn & Hno & Hyes).
      destruct (Z.lt_ge_cases (signed64 (g_now w1 - g_last_timeout_check w1)) CLIENT_TPASS)
        as [Hlt|Hge].
      * left. rewrite (Hno Hlt). exact Hlast.
      * right. rewrite Hn, <- Hlast. split; [exact (Hyes Hge)|]. split; [exact Hge|].
        intros Hr. now rewrite <- (signed64_time_t _ Hr).
    + left. destruct (Hother Hrd) as [_ ->]. exact Hlast.
Qed.

(** ** Lists a run leaves *)

Lemma last_msg_stage c pkt : last_msg (stage c pkt) = last_msg c.
Proof. unfold stage. destruct (vmcorebufoff c =? 0); reflexivity. Qed.

Lemma vmcore_run_list ch p c cl pkt evs o cl' :
  vmcore_run ch p c cl pkt evs o cl' ->
  cl' = remove p cl \/
  exists c', cl' = update p (fun _ => c') cl /\ last_msg c' = last_msg c.
Proof.
  inversion 1; subst; auto; right; eexists; (split; [reflexivity|]);
    rewrite ?last_msg_stage; reflexivity.
Qed.

(** ** any_data_rcvd *)

Lemma client_run_others ch p c cl en rr evs o cl' q :
  client_run ch p c cl en rr evs o cl' -> p <> q -> lookup q cl' = lookup q cl.
Proof.
  intros HR Hq.
  inversion HR as [ | tevs | | | t evs0 ct Hacc Hty | t evs0 o0 cl0 ct Hacc _ Hty Hv
                  | t evs0 cl0 ct Hacc _ _ Hty Hfin | t ct Hacc ]; subst;
    try reflexivity.
  - now apply lookup_remove_other.
  - now apply lookup_update_other.
  - destruct (vmcore_run_list _ _ _ _ _ _ _ _ Hv) as [->|(c2 & -> & _)].
    + now rewrite lookup_remove_other, lookup_update_other.
    + now rewrite !lookup_update_other.
  - destruct (finish_run_list _ _ _ _ _ _ _ _ Hfin) as [->| ->].
    + now rewrite lookup_remove_other, lookup_update_other.
    + now rewrite !lookup_update_other.
  - now apply lookup_update_other.
Qed.

Lemma lookup_filter f l q c :
  NoDup (map fst l) -> lookup q (List.filter f l) = Some c -> lookup q l = Some c.
Proof.
  intros Hn H. apply lookup_some_in, filter_In in H. now apply lookup_in_nodup.
Qed.

Lemma lookup_removed p l q c :
  NoDup (map fst l) -> lookup q (remove p l) = Some c -> lookup q l = Some c.
Proof.
  intros Hn H. destruct (Pos.eq_dec p q) as [->|Hne].
  - rewrite lookup_remove_same in H by exact Hn. discriminate.
  - now rewrite lookup_remove_other in H.
Qed.

Lemma timeout_clients_list w r w' :
  clients_ok (g_clients w) -> timeout_clients w = (r, w') ->
  g_clients w' = g_clients w \/
  exists keep, g_clients w' = List.filter keep (g_clients w).
Proof.
  intros Hok E. pattern r, w'. eapply wp_run; [|exact E]. clear E r w'.
  destruct w as [cl ch gs now lc en bk tr]. cbn [g_clients] in *.
  unfold timeout_clients. do 2 wstep. do 2 wstep.
  destruct (signed64 (now - lc) <? CLIENT_TPASS).
  - wstep. now left.
  - do 2 wstep. do 2 wstep.
    apply (wp_sweep ch gs now now bk cl []); [exact Hok|].
    intros evs en' kept' HS. cbn [app g_clients]. right.
    eexists. exact (sweep_run_filter _ _ _ _ _ HS).
Qed.

Lemma herald_run_list ch now bk cl h evs o cl' :
  herald_run ch now bk cl h evs o cl' ->
  cl' = cl \/ (exists p c, cl' = (p, c) :: cl /\ any_data_rcvd c = false) \/
  (exists p, cl' = remove p cl).
Proof.
  assert (A : forall sd saddr dir evs0 res cl0,
    alloc_run sd saddr dir now bk cl evs0 res cl0 ->
    cl0 = cl \/ (exists p c, cl0 = (p, c) :: cl /\ any_data_rcvd c = false)).
  { intros sd saddr dir evs0 res cl0 HA. inversion HA; subst; auto.
    right. eexists _, _. split; [reflexivity|].
    match goal with H : fresh_client _ _ _ _ _ _ _ _ _ |- _ => apply H end. }
  inversion 1 as [ | evs0 cl0 _ _ HA | evs0 p c f ra logs cl0 _ _ HA | | p c evs0 ];
    subst; auto.
  - destruct (A _ _ _ _ _ _ HA) as [->|Hnew]; auto.
  - destruct (A _ _ _ _ _ _ HA) as [->|Hnew]; auto.
  - right. right. now exists p.
Qed.

(** C4, as the code has it.  (1) A session is registered with
    any_data_rcvd false.  (2) In client_event the flag of the session
    goes from false to true only for a datagram that passed the two size
    checks of client_event and is of type KDH or VMCORE, and (3) the
    other sessions are left as they are.  (4) server_event and (5)
    timeout_clients set the flag of no session.  (6) A herald from the
    address of a session whose any_data_rcvd is false leaves the list of
    clients as it was, allocates nothing, and is answered by one
    acknowledgement on the session's socket with the herald's sequence
    number.  (7) handle_kdh sets the flag before it looks at the length
    of the header: every datagram of type KDH that passed the size checks
    of client_event leaves the session registered with the flag true,
    also one whose payload is shorter than a kernel dump header, which
    is rejected: the 'Bad KDH' lines are written and nothing is sent. *)
Theorem herald_before_data_is_retransmit :
  (forall sd saddr dir w w' p,
     alloc_client sd saddr dir w = (Done (Some p), w') ->
     exists c, g_clients w' = (p, c) :: g_clients w /\ any_data_rcvd c = false) /\
  (forall p w c f r w' c',
     clients_ok (g_clients w) ->
     lookup p (g_clients w) = Some c -> infofile c = Some f ->
     any_data_rcvd c = false ->
     client_event p w = (r, w') ->
     lookup p (g_clients w') = Some c' -> any_data_rcvd c' = true ->
     exists rr evs,
       trace w' = trace w ++ Ev (Recv (sock c)) rr :: evs /\ accepted rr /\
       (mh_type (r_pkt rr) = NETDUMP_KDH \/ mh_type (r_pkt rr) = NETDUMP_VMCORE)) /\
  (forall p w c f r w' q,
     lookup p (g_clients w) = Some c -> infofile c = Some f ->
     client_event p w = (r, w') -> p <> q ->
     lookup q (g_clients w') = lookup q (g_clients w)) /\
  (forall w r w' q c c',
     clients_ok (g_clients w) ->
     server_event w = (r, w') ->
     lookup q (g_clients w) = Some c -> any_data_rcvd c = false ->
     lookup q (g_clients w') = Some c' -> any_data_rcvd c' = false) /\
  (forall w r w' q c c',
     clients_ok (g_clients w) ->
     timeout_clients w = (r, w') ->
     lookup q (g_clients w) = Some c -> any_data_rcvd c = false ->
     lookup q (g_clients w') = Some c' -> any_data_rcvd c' = false) /\
  (forall w r w',
     clients_ok (g_clients w) ->
     server_event w = (r, w') ->
     exists h evs,
       trace w' = trace w ++ Ev Cap_herald h :: evs /\
       forall p c,
         h_error h = 0 -> find_client (h_saddr h) (g_clients w) = Some p ->
         lookup p (g_clients w) = Some c -> any_data_rcvd c = false ->
         r = Done 0 /\ g_clients w' = g_clients w /\
         existsb is_calloc evs = false /\ existsb is_openat evs = false /\
         exists ra logs,
           evs = Ev (Send (sock c) (htonl (h_seqno h))) ra :: logs /\
           forallb is_log logs = true) /\
  (forall p w c f r w',
     lookup p (g_clients w) = Some c -> infofile c = Some f ->
     client_event p w = (r, w') ->
     exists rr evs,
       trace w' = trace w ++ Ev (Recv (sock c)) rr :: evs /\
       (accepted rr -> mh_type (r_pkt rr) = NETDUMP_KDH ->
        (exists c', lookup p (g_clients w') = Some c' /\ any_data_rcvd c' = true) /\
        (mh_len (r_pkt rr) < sizeof_kerneldumpheader ->
         r = Done tt /\ existsb is_send evs = false /\
         exists t,
           evs = [ Ev Clock_time t;
                   Ev (Log LOG_ERR "Bad KDH from %s [%s]: packet too small\n"
                         [AStr (hostname c); AIp (ip c)]) tt;
                   Ev (Fprintf f "Bad KDH: packet too small\n" []) tt;
                   Ev (Fflush f) tt ]))).
Proof.
  split; [|split; [|split; [|split; [|split; [|split]]]]].
  - intros sd saddr dir w w' p E.
    destruct (alloc_client_run _ _ _ _ _ _ E) as (evs & res & Hr & _ & _ & HR).
    inversion Hr; subst res. inversion HR; subst.
    match goal with H : fresh_client _ _ _ _ _ _ _ _ ?c |- _ =>
      exists c; split; [reflexivity|apply H] end.
  - intros p w c f r w' c' Hok Hp Hf Hflag E Hp' Hflag'.
    destruct (client_event_run _ _ _ _ _ _ Hp Hf E) as (rr & evs & Ht & _ & HR).
    exists rr, evs. split; [exact Ht|].
    destruct Hok as [Hn _].
    revert Hp' HR Hp Hn. generalize (g_clients w') (g_clients w) (g_caphandler w) (errno w).
    intros cl' cl ch en Hp' HR Hp Hn.
    inversion HR as [ | tevs | | | t evs0 ct Hacc Hty | t evs0 o cl0 ct Hacc _ Hty
                    | t evs0 cl0 ct Hacc _ _ Hty Hfin | t ct Hacc ]; subst.
    + exfalso. congruence.
    + exfalso. rewrite lookup_remove_same in Hp' by exact Hn. discriminate.
    + exfalso. congruence.
    + exfalso. congruence.
    + auto.
    + auto.
    + exfalso. assert (Hct : lookup p (update p (fun _ => ct) cl) = Some ct)
        by now apply lookup_update_const with c.
      destruct (finish_run_list _ _ _ _ _ _ _ _ Hfin) as [Hl|Hl]; rewrite Hl in Hp'.
      * rewrite lookup_remove_same in Hp'; [discriminate|].
        now rewrite map_fst_update.
      * rewrite (lookup_update_const _ _ _ _ Hct) in Hp'. inversion Hp'; subst c'.
        subst ct. cbn in Hflag'. congruence.
    + exfalso. rewrite (lookup_update_const _ _ _ _ Hp) in Hp'.
      inversion Hp'; subst c'. subst ct. cbn in Hflag'. congruence.
  - intros p w c f r w' q Hp Hf E Hq.
    destruct (client_event_run _ _ _ _ _ _ Hp Hf E) as (rr & evs & _ & _ & HR).
    now apply (client_run_others _ _ _ _ _ _ _ _ _ _ HR).
  - intros w r w' q c c' Hok E Hq Hflag Hq'.
    destruct (server_event_run _ _ _ Hok E) as (h & evs & _ & HR).
    destruct (herald_run_list _ _ _ _ _ _ _ _ HR) as [Hl|[(p & d & Hl & Hd)|[p Hl]]];
      rewrite Hl in Hq'.
    + congruence.
    + cbn [lookup] in Hq'. destruct (Pos.eqb q p); congruence.
    + apply lookup_removed in Hq'; [congruence|apply Hok].
  - intros w r w' q c c' Hok E Hq Hflag Hq'.
    destruct (timeout_clients_list _ _ _ Hok E) as [Hl|[keep Hl]]; rewrite Hl in Hq'.
    + congruence.
    + apply lookup_filter in Hq'; [congruence|apply Hok].
  - intros w r w' Hok E. destruct (server_event_run _ _ _ Hok E) as (h & evs & Ht & HR).
    exists h, evs. split; [exact Ht|]. intros p c He Hf Hp Ha.
    inversion HR as [ Hne | evs0 cl' _ Hnone | evs0 q d f ra logs cl' _ Hnone
                    | q d ra logs _ Hq Hd Hflag Hl | q d evs0 _ Hq Hd Hflag Htr ]; subst;
      try congruence.
    rewrite Hf in Hq. inversion Hq; subst q. rewrite Hp in Hd. inversion Hd; subst d.
    split; [reflexivity|]. split; [reflexivity|].
    split; [cbn; apply (logs_blind is_calloc); [reflexivity|exact Hl]|].
    split; [cbn; apply (logs_blind is_openat); [reflexivity|exact Hl]|].
    now exists ra, logs.
  - intros p w c f r w' Hp Hf E.
    destruct (client_event_run _ _ _ _ _ _ Hp Hf E) as (rr & evs & Ht & _ & HR).
    exists rr, evs. split; [exact Ht|]. intros Hacc Hty.
    assert (Hbad : forall X : Prop, r_len rr < 0 -> X).
    { intros X Hl. destruct Hacc as (_ & H0 & _). lia. }
    revert HR Hp. generalize (g_clients w') (g_clients w) (g_caphandler w) (errno w).
    intros cl' cl ch en HR Hp.
    inversion HR as [ Hl | tevs Hl | Hl | H0 Hl Hne | t evs0 ct _ _ Hk
                    | t evs0 o cl0 ct _ Hnk | t evs0 cl0 ct _ Hnk | t ct _ Hnk ]; subst;
      try (now apply Hbad); try contradiction.
    + destruct Hacc as (H1 & _). lia.
    + destruct Hacc as (_ & _ & H1). contradiction.
    + split.
      * eexists. split; [now apply lookup_update_const with c|reflexivity].
      * intros Hshort.
        inversion Hk as [f0 Hf0 _ | f0 ra logs Hf0 Hlong _]; subst; [|lia].
        subst ct. cproj. rewrite Hf in Hf0. inversion Hf0; subst f0.
        split; [reflexivity|]. split; [reflexivity|]. now exists t.
Qed.

(** ** The clock *)

(** C8, as the code has it.  (1) A wake in which kevent returned events
    or timed out reads the clock once, right after kevent, into g_now;
    the events are dispatched and the sweep is run from a world whose
    g_now is that reading, and g_now still is that reading when the wake
    ends.  (2) alloc_client stamps the session it registers with g_now.
    (3) client_event reads the clock again for every datagram that passes
    the size checks and stamps the session with that reading, not with
    g_now, which it leaves as it is. *)
Theorem wake_clock_readings :
  (forall w r w',
     eventloop_wake w = (r, w') ->
     exists k evs,
       trace w' = trace w ++ Ev (Kevent_wait 8 CLIENT_TPASS) k :: evs /\
       (0 <= k_rc k ->
        exists t evs' rd w1,
          evs = Ev Clock_time t :: evs' /\
          dispatch (firstn (Z.to_nat (k_rc k)) (k_events k))
            (set_now t (log_event (Ev Clock_time t)
               (log_event (Ev (Kevent_wait 8 CLIENT_TPASS) k) w))) = (rd, w1) /\
          g_now w1 = t /\
          (rd = Done Again -> exists rt, timeout_clients w1 = (rt, w')) /\
          g_now w' = t)) /\
  (forall sd saddr dir w w' p,
     alloc_client sd saddr dir w = (Done (Some p), w') ->
     exists c, g_clients w' = (p, c) :: g_clients w /\ last_msg c = g_now w) /\
  (forall p w c f r w',
     clients_ok (g_clients w) ->
     lookup p (g_clients w) = Some c -> infofile c = Some f ->
     client_event p w = (r, w') ->
     exists rr evs,
       trace w' = trace w ++ Ev (Recv (sock c)) rr :: evs /\
       g_now w' = g_now w /\
       (accepted rr ->
        exists t evs',
          evs = Ev Clock_time t :: evs' /\
          forall c', lookup p (g_clients w') = Some c' -> last_msg c' = t)).
Proof.
  split; [|split].
  - intros w r w' E.
    destruct w as [cl ch gs now lc en bk tr].
    unfold eventloop_wake in E.
    unfold bind at 1 in E. unfold sys at 1 in E. cbv zeta in E. wsimpl_in E.
    set (k := env _ tr (Kevent_wait 8 CLIENT_TPASS)) in *.
    exists k.
    destruct (k_rc k <? 0) eqn:Hk.
    + apply Z.ltb_lt in Hk.
      assert (Ht : exists evs, trace w' = tr ++ Ev (Kevent_wait 8 CLIENT_TPASS) k :: evs).
      { pattern r, w'. eapply wp_run; [|exact E]. repeat wstep.
        destruct (k_errno k =? EINTR); repeat wstep; eexists; reflexivity. }
      destruct Ht as [evs Ht]. exists evs. split; [exact Ht|]. intros; lia.
    + apply Z.ltb_ge in Hk.
      unfold bind at 1 in E. unfold sys at 1 in E. cbv zeta in E. wsimpl_in E.
      set (t := env _ _ Clock_time) in *.
      unfold bind at 1 in E. unfold modify at 1 in E. wsimpl_in E.
      unfold bind at 1 in E.
      match type of E with context [dispatch ?l ?w0] =>
        pose proof (keeps_dispatch l w0) as Hd;
        destruct (dispatch l w0) as [rd w1] eqn:Ed end.
      destruct Hd as (_ & _ & Hnow & _ & evs1 & Htr1). cbn [snd] in *.
      wsimpl_in Hnow. wsimpl_in Htr1.
      assert (Hend : g_now w' = t /\ (exists evs2, trace w' = trace w1 ++ evs2) /\
                     (rd = Done Again -> exists rt, timeout_clients w1 = (rt, w'))).
      { destruct rd as [[| |]|flt]; try (inversion E; subst; repeat split; auto;
          try (exists []; symmetry; apply app_nil_r); intros; discriminate).
        unfold bind in E. destruct (timeout_clients w1) as [rt w2] eqn:Et.
        assert (Hw : w2 = w') by (destruct rt; inversion E; reflexivity). subst w2.
        assert (Hs : g_now w' = g_now w1 /\ exists evs2, trace w' = trace w1 ++ evs2).
        { pattern rt, w'. eapply wp_run; [|exact Et].
          destruct w1 as [cl1 ch1 gs1 now1 lc1 en1 bk1 tr1].
          unfold timeout_clients. do 2 wstep. do 2 wstep.
          destruct (_ <? _).
          - wstep. split; [reflexivity|]. exists []. symmetry. apply app_nil_r.
          - do 2 wstep. do 2 wstep. apply wp_keeps.
            + apply keeps_foreach_safe. intros q. repeat keeps_step.
            + intros r2 w2 (_ & _ & Hn & _ & He). auto. }
        destruct Hs as [Hn He]. split; [congruence|]. split; [exact He|].
        intros _. now exists rt. }
      destruct Hend as (Hn' & [evs2 Htr2] & Hrun).
      exists (Ev Clock_time t :: evs1 ++ evs2). split.
      * rewrite Htr2, Htr1. cbn [trace]. now tr_norm.
      * intros _. exists t, (evs1 ++ evs2), rd, w1. repeat split; auto.
  - intros sd saddr dir w w' p E.
    destruct (alloc_client_run _ _ _ _ _ _ E) as (evs & res & Hr & _ & _ & HR).
    inversion Hr; subst res. inversion HR; subst.
    match goal with H : fresh_client _ _ _ _ _ _ _ _ ?c |- _ =>
      exists c; split; [reflexivity|apply H] end.
  - intros p w c f r w' Hok Hp Hf E.
    destruct (client_event_run _ _ _ _ _ _ Hp Hf E) as (rr & evs & Ht & Hg & HR).
    exists rr, evs. split; [exact Ht|]. split; [apply Hg|].
    destruct Hok as [Hn _]. intros Hacc.
    assert (Hbad : forall X : Prop, r_len rr < 0 -> X).
    { intros X Hl. destruct Hacc as (_ & H0 & _). lia. }
    revert HR Hp Hn. generalize (g_clients w') (g_clients w) (g_caphandler w) (errno w).
    intros cl' cl ch en HR Hp Hn.
    assert (Hfin : forall t ct c1,
      last_msg ct = t -> lookup p (update p (fun _ => ct) cl) = Some ct ->
      cl' = remove p (update p (fun _ => ct) cl) \/
      (exists c2, cl' = update p (fun _ => c2) (update p (fun _ => ct) cl)
                  /\ last_msg c2 = last_msg ct) ->
      lookup p cl' = Some c1 -> last_msg c1 = t).
    { intros t ct c1 Hl Hct [->|(c2 & -> & Hl2)] Hc1.
      - rewrite lookup_remove_same in Hc1; [discriminate|now rewrite map_fst_update].
      - rewrite (lookup_update_const _ _ _ _ Hct) in Hc1. inversion Hc1; subst. congruence. }
    inversion HR as [ Hl | tevs Hl | Hl | H0 Hl Hne | t evs0 ct _ Hty Hk
                    | t evs0 o cl0 ct _ _ Hty Hv
                    | t evs0 cl0 ct _ _ _ Hty Hfi | t ct _ ]; subst.
    + now apply Hbad.
    + now apply Hbad.
    + destruct Hacc as (H1 & _). lia.
    + destruct Hacc as (_ & _ & H1). contradiction.
    + exists t, evs0. split; [reflexivity|]. intros c1 Hc1.
      rewrite (lookup_update_const _ _ _ _ Hp) in Hc1. now inversion Hc1.
    + exists t, evs0. split; [reflexivity|]. intros c1.
      apply (Hfin t ct c1); [reflexivity|now apply lookup_update_const with c|].
      apply (vmcore_run_list _ _ _ _ _ _ _ _ Hv).
    + exists t, evs0. split; [reflexivity|]. intros c1.
      apply (Hfin t ct c1); [reflexivity|now apply lookup_update_const with c|].
      destruct (finish_run_list _ _ _ _ _ _ _ _ Hfi) as [Hl|Hl]; [now left|right].
      eexists. split; [exact Hl|reflexivity].
    + exists t. eexists. split; [reflexivity|]. intros c1 Hc1.
      rewrite (lookup_update_const _ _ _ _ Hp) in Hc1. now inversion Hc1.
Qed.

(** * More of the code *)

(** ** What eventloop returns *)

Lemma returns_ret {A} (R : A -> Prop) a : R a -> returns R (ret a).
Proof. intros H w b E. cbn in E. now inversion E; subst. Qed.

Lemma returns_bind {A B} (R1 : A -> Prop) (R : B -> Prop) (m : M A) (k : A -> M B) :
  returns R1 m -> (forall a, R1 a -> returns R (k a)) -> returns R (bind m k).
Proof.
  intros Hm Hk w b E. unfold bind in E. specialize (Hm w).
  destruct (m w) as [[a|f] w1]; cbn in *; [|discriminate].
  exact (Hk a (Hm a eq_refl) w1 b E).
Qed.

Lemma returns_any {A} (m : M A) : returns (fun _ => True) m.
Proof. intros w a _. exact I. Qed.

Lemma returns_bind_any {A B} (R : B -> Prop) (m : M A) (k : A -> M B) :
  (forall a, returns R (k a)) -> returns R (bind m k).
Proof. intros Hk. apply returns_bind with (R1 := fun _ => True); [apply returns_any|auto]. Qed.

Lemma server_event_returns_zero : returns (fun rc => rc = 0) server_event.
Proof.
  unfold server_event. apply returns_bind_any. intros h.
  destruct (negb (h_error h =? 0)).
  - apply returns_bind_any. intros _. now apply returns_ret.
  - apply returns_bind_any. intros found. apply returns_bind_any. intros [p|].
    + do 4 (apply returns_bind_any; intros ?). now apply returns_ret.
    + now apply returns_ret.
Qed.

Lemma dispatch_never_returns evs :
  returns (fun r => r = Again \/ r = Goto_out) (dispatch evs).
Proof.
  induction evs as [|ev rest IH]; cbn [dispatch].
  - apply returns_ret. now left.
  - destruct (filter ev).
    + apply returns_bind_any. intros gs. destruct (signed32 (ident ev) =? gs).
      * apply returns_bind with (R1 := fun rc => rc = 0);
          [apply server_event_returns_zero|]. intros rc ->. cbn. exact IH.
      * apply returns_bind_any. intros _. exact IH.
    + apply returns_ret. now right.
    + apply returns_bind_any. intros _. apply returns_ret. now left.
Qed.

(** The three ways a wake can go, by what kevent replied. *)
Lemma eventloop_wake_cases w :
  let k := env _ (trace w) (Kevent_wait 8 CLIENT_TPASS) in
  let w1 := set_errno (k_errno k) (log_event (Ev (Kevent_wait 8 CLIENT_TPASS) k) w) in
  (k_rc k < 0 -> k_errno k = EINTR -> eventloop_wake w = (Done Again, w1)) /\
  (k_rc k < 0 -> k_errno k <> EINTR ->
   eventloop_wake w
   = (Done (Return_ 1), log_event (perror_event "kevent()" (k_errno k)) w1)) /\
  (0 <= k_rc k -> forall rc, fst (eventloop_wake w) <> Done (Return_ rc)).
Proof.
  cbv zeta. set (k := env _ (trace w) (Kevent_wait 8 CLIENT_TPASS)).
  unfold eventloop_wake.
  split; [|split]; unfold bind at 1; unfold sys at 1; cbv beta zeta; fold k.
  - intros Hk He. apply Z.ltb_lt in Hk. rewrite Hk.
    apply Z.eqb_eq in He. unfold bind, modify. cbn. now rewrite He.
  - intros Hk He. apply Z.ltb_lt in Hk. rewrite Hk.
    apply Z.eqb_neq in He. unfold bind, modify, LOGERR_PERROR, gets, sys, ret. cbn.
    rewrite He. destruct w. cbn.
    match goal with |- context [env unit ?t ?c] => destruct (env unit t c) end.
    reflexivity.
  - intros Hk. apply Z.ltb_ge in Hk. rewrite Hk. cbv iota.
    match goal with |- context [bind ?m ?c ?w1] => set (tail := bind m c); set (w2 := w1) end.
    assert (Hret : returns (fun r => r = Again \/ r = Goto_out) tail).
    { unfold tail. do 2 (apply returns_bind_any; intros ?).
      apply returns_bind with (R1 := fun r => r = Again \/ r = Goto_out);
        [apply dispatch_never_returns|].
      intros r [-> | ->].
      - apply returns_bind_any. intros _. apply returns_ret. now left.
      - apply returns_ret. now right. }
    intros rc E. destruct (Hret w2 _ E); discriminate.
Qed.

(** ** Shutdown *)

Lemma wp_shutdown l : forall n en tr ch gs now lc bk Q,
  (List.length l <= n)%nat ->
  (forall evs en', shutdown_trace ch l evs ->
     Q (Done tt) (mkWorld [] ch gs now lc en' bk (tr ++ evs))) ->
  (forall w', (exists p c, In (p, c) l /\ infofile c = None) -> Q (Crash NullStream) w') ->
  wp (shutdown n) (mkWorld l ch gs now lc en bk tr) Q.
Proof.
  induction l as [|[p c] l IH]; intros n en tr ch gs now lc bk Q Hn H Hc.
  - assert (E : Q (Done tt) (mkWorld [] ch gs now lc en bk tr)).
    { specialize (H [] en (shutdown_none ch)). now rewrite app_nil_r in H. }
    destruct n; cbn [shutdown]; repeat wstep; exact E.
  - destruct n as [|n]; [cbn in Hn; lia|]. cbn [shutdown]. do 2 wstep. wstep.
    assert (Hp : lookup p ((p, c) :: l) = Some c) by (cbn; now rewrite Pos.eqb_refl).
    destruct (infofile c) as [f|] eqn:Hf.
    + eapply wp_handle_timeout; [exact Hp|exact Hf|]. intros tevs en' Ht.
      cbn [remove]. rewrite Pos.eqb_refl.
      apply IH; [cbn in Hn; lia| |].
      * intros evs en2 HS. rewrite <- app_assoc. apply H. now apply shutdown_next.
      * intros w' (q & d & Hin & Hd). apply Hc. exists q, d. split; [now right|exact Hd].
    + unfold handle_timeout. wstep. eapply wp_deref; [exact Hp|]. do 3 wstep.
      unfold client_pinfo. wstep. eapply wp_deref; [exact Hp|]. rewrite Hf.
      wstep. apply Hc. exists p, c. split; [now left|exact Hf].
Qed.

(** What eventloop does once a wake has met a signal event. *)
Lemma wp_out cl ch gs now lc en bk tr Q :
  (forall evs en', shutdown_trace ch cl evs ->
     Q (Done (Some 0))
       (mkWorld [] ch gs now lc en' bk
          (tr ++ Ev (Log LOG_INFO "Shutting down..." []) tt :: evs))) ->
  (forall w', (exists p c, In (p, c) cl /\ infofile c = None) -> Q (Crash NullStream) w') ->
  wp (LOGINFO "Shutting down..." [] ;;;
      l <- gets g_clients ;;
      shutdown (List.length l) ;;;
      ret (Some 0))
     (mkWorld cl ch gs now lc en bk tr) Q.
Proof.
  intros H Hc. do 2 wstep. do 2 wstep. wstep.
  apply wp_shutdown; [lia| |exact Hc].
  intros evs en' HS. tr_norm. wstep. now apply H.
Qed.

Lemma eventloop_from_step n w :
  eventloop_from (S n) w
  = match eventloop_wake w with
    | (Done Again, w1) => eventloop_from n w1
    | (Done (Return_ rc), w1) => (Done (Some rc), w1)
    | (Done Goto_out, w1) =>
      (LOGINFO "Shutting down..." [] ;;;
       l <- gets g_clients ;;
       shutdown (List.length l) ;;;
       ret (Some 0)) w1
    | (Crash f, w1) => (Crash f, w1)
    end.
Proof.
  cbn [eventloop_from]. unfold bind at 1.
  destruct (eventloop_wake w) as [[[| |]|f] w1]; reflexivity.
Qed.

(** X1.  eventloop returns 1 only when kevent failed with an errno other
    than EINTR, the wake ending with the error line and nothing else; and
    it returns 0 only after the loop at the label out has emptied the
    list of clients.  It returns nothing else. *)
Theorem eventloop_exit_code n w rc w' :
  eventloop n w = (Done (Some rc), w') ->
  (rc = 1 /\
   exists tr k,
     trace w' = tr ++ [Ev (Kevent_wait 8 CLIENT_TPASS) k;
                       perror_event "kevent()" (k_errno k)] /\
     k_rc k < 0 /\ k_errno k <> EINTR) \/
  (rc = 0 /\ g_clients w' = [] /\
   In (Ev (Log LOG_INFO "Shutting down..." []) tt) (trace w')).
Proof.
  unfold eventloop, bind at 1, LOGINFO, sys. cbv zeta.
  generalize (log_event
                (Ev (Log LOG_INFO "Waiting for clients.\n" [])
                   (env unit (trace w) (Log LOG_INFO "Waiting for clients.\n" []))) w).
  clear w. revert rc w'.
  induction n as [|n IH]; intros rc w' w E; [discriminate|].
  rewrite eventloop_from_step in E.
  destruct (eventloop_wake w) as [[[|rc0|]|f] w1] eqn:Ew.
  - now apply IH with w1.
  - inversion E; subst rc0 w1. left.
    destruct (eventloop_wake_cases w) as (H1 & H2 & H3). cbv zeta in H1, H2, H3.
    set (k := env _ (trace w) (Kevent_wait 8 CLIENT_TPASS)) in *.
    destruct (Z.ltb_spec (k_rc k) 0) as [Hk|Hk].
    + destruct (Z.eq_dec (k_errno k) EINTR) as [He|He].
      * rewrite (H1 Hk He) in Ew. discriminate.
      * rewrite (H2 Hk He) in Ew. inversion Ew; subst. split; [reflexivity|].
        exists (trace w), k. destruct w. cbn [trace log_event set_errno].
        rewrite <- app_assoc. auto.
    + exfalso. apply (H3 Hk rc). now rewrite Ew.
  - right.
    assert (G : wp (LOGINFO "Shutting down..." [] ;;;
                    l <- gets g_clients ;;
                    shutdown (List.length l) ;;;
                    ret (Some 0)) w1
                  (fun r w2 => forall rc0, r = Done (Some rc0) ->
                     rc0 = 0 /\ g_clients w2 = [] /\
                     In (Ev (Log LOG_INFO "Shutting down..." []) tt) (trace w2))).
    { destruct w1 as [cl ch gs now lc en bk tr]. apply wp_out.
      - intros evs en' _ rc0 Hr. inversion Hr. split; [reflexivity|].
        split; [reflexivity|]. cbn [trace]. apply in_or_app. right. now left.
      - intros w2 _ rc0 Hr. discriminate. }
    exact (wp_run _ _ _ _ _ G E _ eq_refl).
  - discriminate.
Qed.

(** X2.  When a wake has met a signal event, eventloop logs that it shuts
    down, ends every client still on the list on the timeout path, first
    to last, and returns 0 with the list empty: the loop at the label out
    runs once for each client and then finds the list empty. *)
Theorem signal_ends_every_session n w w1 r w' :
  eventloop_wake w = (Done Goto_out, w1) ->
  (forall p c, In (p, c) (g_clients w1) -> infofile c <> None) ->
  eventloop_from (S n) w = (r, w') ->
  r = Done (Some 0) /\ g_clients w' = [] /\
  exists evs,
    trace w' = trace w1 ++ Ev (Log LOG_INFO "Shutting down..." []) tt :: evs /\
    shutdown_trace (g_caphandler w1) (g_clients w1) evs.
Proof.
  intros Ew Hi E. rewrite eventloop_from_step, Ew in E.
  pattern r, w'. eapply wp_run; [|exact E].
  destruct w1 as [cl ch gs now lc en bk tr]. cbn [g_clients g_caphandler trace] in *.
  apply wp_out.
  - intros evs en' HS. split; [reflexivity|]. split; [reflexivity|]. now exists evs.
  - intros w2 (p & c & Hin & Hn). exfalso. exact (Hi p c Hin Hn).
Qed.

(** ** Calls the daemon makes *)

Section Frame.

(** A relation between the world before and the world after, kept by
    every step the program is made of. *)
Variable R : world -> world -> Prop.

Variable okc : forall X, call X -> Prop.

Hypothesis R_refl : forall w, R w w.

Hypothesis R_trans : forall w1 w2 w3, R w1 w2 -> R w2 w3 -> R w1 w3.

Hypothesis R_sys : forall X (c : call X) x w, okc X c -> R w (log_event (Ev c x) w).

Hypothesis ok_made :
  forall X (c : call X),
    made_call c -> is_xfer c = false -> is_send_call c = false -> okc X c.

Hypothesis R_errno : forall e w, R w (set_errno e w).

Hypothesis R_clients : forall l w, R w (set_clients l w).

Lemma frames_ret {A} (a : A) : frames R (ret a).
Proof. intros w. apply R_refl. Qed.

Lemma frames_crash {A} f : frames R (@crash A f).
Proof. intros w. apply R_refl. Qed.

Lemma frames_gets {A} (f : world -> A) : frames R (gets f).
Proof. intros w. apply R_refl. Qed.

Lemma frames_deref p : frames R (deref p).
Proof. intros w. unfold deref. destruct (lookup p (g_clients w)); apply R_refl. Qed.

Lemma frames_sys {X} (c : call X) : okc X c -> frames R (sys c).
Proof. intros H w. unfold sys. cbn [snd]. now apply R_sys. Qed.

Lemma frames_modify f : (forall w, R w (f w)) -> frames R (modify f).
Proof. intros H w. apply H. Qed.

Lemma frames_bind {A B} (m : M A) (k : A -> M B) :
  frames R m -> (forall a, frames R (k a)) -> frames R (bind m k).
Proof.
  intros Hm Hk w. unfold bind. specialize (Hm w).
  destruct (m w) as [[a|f] w1]; cbn [snd] in *; [|exact Hm].
  eapply R_trans; [exact Hm|apply Hk].
Qed.

Ltac made_ok :=
  apply ok_made; [|reflexivity|reflexivity];
  cbn [made_call path infofilename corefilename hostname last_msg ip infofile corefd
       sock any_data_rcvd vmcorebufoff vmcoreoff vmcorebuf
       set_infofilename set_corefilename set_path set_hostname set_ip set_sock
       set_last_msg set_infofile set_corefd set_any_data_rcvd set_vmcorebufoff
       set_vmcoreoff set_vmcorebuf];
  eauto 8.

Ltac frames_step :=
  lazymatch goal with
  | |- frames R (bind _ _) => apply frames_bind; [|intros ?]
  | |- frames R (ret _) => apply frames_ret
  | |- frames R (crash _) => apply frames_crash
  | |- frames R (gets _) => apply frames_gets
  | |- frames R (deref _) => apply frames_deref
  | |- frames R (sys _) => apply frames_sys; made_ok
  | |- frames R (modify _) =>
      apply frames_modify; intros ?; first [apply R_errno | apply R_clients]
  | |- frames R (if ?b then _ else _) => destruct b
  | |- frames R (match ?x with _ => _ end) => destruct x
  | |- frames R _ => solve [auto]
  end.

Ltac frames_all f := unfold f; cbv zeta; repeat frames_step.

Lemma frames_assign p f : frames R (assign p f).
Proof. frames_all assign. Qed.

Lemma frames_sys_e c : okc _ c -> frames R (sys_e c).
Proof. intros H. unfold sys_e. apply frames_bind; [now apply frames_sys|]. intros r. repeat frames_step. Qed.

Lemma frames_log_err fmt args : frames R (LOGERR fmt args).
Proof. frames_all LOGERR. Qed.

Lemma frames_log_info fmt args : frames R (LOGINFO fmt args).
Proof. frames_all LOGINFO. Qed.

Lemma frames_log_warn fmt args : frames R (LOGWARN fmt args).
Proof. frames_all LOGWARN. Qed.

Lemma frames_perror m : frames R (LOGERR_PERROR m).
Proof. frames_all LOGERR_PERROR. Qed.

#[local] Hint Resolve frames_assign frames_log_err frames_log_info frames_log_warn
  frames_perror : core.

Lemma frames_client_pinfo p fmt args : frames R (client_pinfo p fmt args).
Proof. frames_all client_pinfo. Qed.

Lemma frames_fclose f : frames R (fclose f).
Proof. frames_all fclose. Qed.

Lemma frames_fflush_info p : frames R (fflush_info p).
Proof. frames_all fflush_info. Qed.

#[local] Hint Resolve frames_client_pinfo frames_fclose frames_fflush_info : core.

(** exec_handler, when the relation allows the request to the handler. *)
Lemma frames_exec_handler_open p reason :
  (forall l, okc _ (Cap_xfer_nvlist l)) -> frames R (exec_handler p reason).
Proof.
  intros Hx. unfold exec_handler, netdump_cap_handler.
  apply frames_bind; [apply frames_gets|]. intros h. destruct (negb h); [apply frames_ret|].
  apply frames_bind; [apply frames_deref|]. intros c.
  apply frames_bind.
  - apply frames_bind; [apply frames_sys, Hx|]. intros x. repeat frames_step.
  - intros e. repeat frames_step.
Qed.

Hypothesis R_exec : forall p reason, frames R (exec_handler p reason).

#[local] Hint Resolve R_exec : core.

Ltac frames_sys_e := apply frames_sys_e; made_ok.

Lemma frames_free_client p : frames R (free_client p).
Proof.
  unfold free_client. apply frames_bind; [apply frames_deref|]. intros c.
  apply frames_bind; [frames_sys_e|]. intros rc. repeat frames_step.
Qed.

#[local] Hint Resolve frames_free_client : core.

Lemma frames_handle_timeout p : frames R (handle_timeout p).
Proof. frames_all handle_timeout. Qed.

(** send_ack, when the relation allows the acknowledgement. *)
Lemma frames_send_ack_open p s :
  (forall sd x, okc _ (Send sd (htonl x))) -> frames R (send_ack p s).
Proof.
  intros Hs. unfold send_ack. apply frames_bind; [apply frames_deref|]. intros c.
  apply frames_bind; [apply frames_sys_e, Hs|]. intros n. repeat frames_step.
Qed.

Hypothesis R_send : forall p s, frames R (send_ack p s).

#[local] Hint Resolve frames_handle_timeout R_send : core.

Lemma frames_vmcore_flush p : frames R (vmcore_flush p).
Proof.
  unfold vmcore_flush. apply frames_bind; [apply frames_deref|]. intros c.
  apply frames_bind; [frames_sys_e|]. intros n. repeat frames_step.
Qed.

#[local] Hint Resolve frames_vmcore_flush : core.

Lemma frames_handle_kdh p pkt : frames R (handle_kdh p pkt).
Proof. frames_all handle_kdh. Qed.

Lemma frames_handle_vmcore p pkt : frames R (handle_vmcore p pkt).
Proof. frames_all handle_vmcore. Qed.

Lemma frames_handle_finish p pkt : frames R (handle_finish p pkt).
Proof.
  unfold handle_finish. cbv zeta.
  apply frames_bind; [auto|]. intros rc. destruct (negb (rc =? 0)); [apply frames_ret|].
  apply frames_bind; [apply frames_deref|]. intros c.
  apply frames_bind; [frames_step|]. intros _.
  apply frames_bind; [frames_sys_e|]. intros r1.
  apply frames_bind; [apply frames_gets|]. intros e1.
  destruct (negb (r1 =? 0) && negb (e1 =? ENOENT)); [auto|].
  apply frames_bind; [frames_sys_e|]. intros r2.
  destruct (negb (r2 =? 0)); [auto|].
  apply frames_bind; [frames_sys_e|]. intros r3.
  apply frames_bind; [apply frames_gets|]. intros e3.
  destruct (negb (r3 =? 0) && negb (e3 =? ENOENT)); [auto|].
  apply frames_bind; [frames_sys_e|]. intros r4.
  destruct (negb (r4 =? 0)); [auto|].
  repeat frames_step.
Qed.

#[local] Hint Resolve frames_handle_kdh frames_handle_vmcore frames_handle_finish : core.

Lemma frames_client_event p : frames R (client_event p).
Proof. frames_all client_event. Qed.

#[local] Hint Resolve frames_client_event : core.

Lemma frames_foreach_safe l body :
  (forall p, frames R (body p)) -> frames R (foreach_safe l body).
Proof. intros Hb. induction l as [|p l IH]; cbn [foreach_safe]; repeat frames_step. Qed.

Lemma frames_error_out c : frames R (error_out c).
Proof. frames_all error_out. Qed.

#[local] Hint Resolve frames_error_out : core.

Lemma frames_alloc_files idx : forall c, frames R (alloc_files idx c).
Proof.
  induction idx as [|i rest IH]; intros c; cbn [alloc_files]; cbv zeta; [apply frames_ret|].
  apply frames_bind; [frames_sys_e|]. intros fd. destruct (fd =? -1).
  { apply frames_bind; [apply frames_gets|]. intros e.
    apply frames_bind; [destruct (negb (e =? EEXIST)); auto using frames_ret|].
    intros _. apply IH. }
  apply frames_bind; [frames_step|]. intros f. destruct (negb (fst f)).
  { apply frames_bind; [frames_step|]. intros _.
    apply frames_bind; [auto|]. intros _.
    apply frames_bind; [frames_step|]. intros _.
    apply frames_bind; [frames_sys_e|]. intros _. apply IH. }
  apply frames_bind; [frames_sys_e|]. intros fd2. destruct (fd2 =? -1); [|apply frames_ret].
  apply frames_bind; [auto|]. intros _.
  apply frames_bind; [frames_sys_e|]. intros _.
  apply frames_bind; [apply frames_gets|]. intros e.
  apply frames_bind; [destruct (negb (e =? EEXIST)); auto using frames_ret|].
  intros _. apply IH.
Qed.

#[local] Hint Resolve frames_alloc_files : core.

(** alloc_client once calloc has succeeded and the address is taken. *)
Lemma alloc_client_tail sd saddr dir :
  exists k : ptr -> M (option ptr),
    alloc_client sd saddr dir
    = (ok <- sys Calloc ;;
       if negb ok then LOGERR_PERROR "calloc()" ;;; ret None
       else p <- gets brk ;; modify (set_brk (Pos.succ p)) ;;; k p) /\
    forall p, frames R (k p).
Proof.
  unfold alloc_client. eexists. split; [reflexivity|]. intros p. cbv beta zeta.
  apply frames_bind; [apply frames_gets|]. intros now.
  apply frames_bind; [frames_step|]. intros r.
  apply frames_bind.
  { destruct (negb (fst r =? 0)); [|apply frames_ret].
    apply frames_bind; [frames_step|]. intros r2. repeat frames_step. }
  intros [h|]; [|auto].
  apply frames_bind; [frames_sys_e|]. intros rc.
  apply frames_bind; [destruct (negb (rc =? 0)); repeat frames_step|]. intros _.
  apply frames_bind; [auto|]. intros c.
  match goal with |- frames R (if ?b then _ else _) => destruct b end; [repeat frames_step|].
  apply frames_bind; [frames_sys_e|]. intros rk. repeat frames_step.
Qed.

Hypothesis R_brk : forall w, R w (set_brk (Pos.succ (brk w)) w).

Hypothesis R_now : forall t w, R w (set_now t w).

Hypothesis R_last : forall t w, R w (set_last_timeout_check t w).

Lemma frames_fresh_address {A} (k : ptr -> M A) :
  (forall p, frames R (k p)) ->
  frames R (p <- gets brk ;; modify (set_brk (Pos.succ p)) ;;; k p).
Proof.
  intros Hk w. unfold bind, gets, modify. cbn [snd].
  eapply R_trans; [apply R_brk|apply Hk].
Qed.

Lemma frames_alloc_client sd saddr dir : frames R (alloc_client sd saddr dir).
Proof.
  unfold alloc_client. cbv zeta.
  apply frames_bind; [frames_step|]. intros ok. destruct (negb ok); [repeat frames_step|].
  apply frames_fresh_address. intros p.
  apply frames_bind; [apply frames_gets|]. intros now.
  apply frames_bind; [frames_step|]. intros r.
  apply frames_bind.
  { destruct (negb (fst r =? 0)); [|apply frames_ret].
    apply frames_bind; [frames_step|]. intros r2. repeat frames_step. }
  intros [h|]; [|auto].
  apply frames_bind; [frames_sys_e|]. intros rc.
  apply frames_bind; [destruct (negb (rc =? 0)); repeat frames_step|]. intros _.
  apply frames_bind; [auto|]. intros c.
  match goal with |- frames R (if ?b then _ else _) => destruct b end; [repeat frames_step|].
  apply frames_bind; [frames_sys_e|]. intros rk. repeat frames_step.
Qed.

#[local] Hint Resolve frames_alloc_client : core.

Lemma frames_server_event : frames R server_event.
Proof. frames_all server_event. Qed.

#[local] Hint Resolve frames_server_event : core.

Lemma frames_dispatch evs : frames R (dispatch evs).
Proof. induction evs as [|ev rest IH]; cbn [dispatch]; repeat frames_step. Qed.

Lemma frames_timeout_clients : frames R timeout_clients.
Proof.
  unfold timeout_clients.
  apply frames_bind; [apply frames_gets|]. intros now.
  apply frames_bind; [apply frames_gets|]. intros last.
  destruct (signed64 (now - last) <? CLIENT_TPASS); [apply frames_ret|].
  apply frames_bind; [apply frames_modify; intros w; apply R_last|]. intros _.
  apply frames_bind; [apply frames_gets|]. intros l.
  apply frames_foreach_safe. intros p. repeat frames_step.
Qed.

#[local] Hint Resolve frames_dispatch frames_timeout_clients : core.

Lemma frames_eventloop_wake : frames R eventloop_wake.
Proof.
  unfold eventloop_wake.
  apply frames_bind; [frames_step|]. intros k. destruct (k_rc k <? 0).
  { repeat frames_step. }
  apply frames_bind; [frames_step|]. intros t.
  apply frames_bind; [apply frames_modify; intros w; apply R_now|]. intros _.
  repeat frames_step.
Qed.

#[local] Hint Resolve frames_eventloop_wake : core.

Lemma frames_shutdown n : frames R (shutdown n).
Proof. induction n as [|n IH]; cbn [shutdown]; repeat frames_step. Qed.

#[local] Hint Resolve frames_shutdown : core.

Lemma frames_eventloop_from n : frames R (eventloop_from n).
Proof. induction n as [|n IH]; cbn [eventloop_from]; repeat frames_step. Qed.

#[local] Hint Resolve frames_eventloop_from : core.

Lemma frames_eventloop n : frames R (eventloop n).
Proof. frames_all eventloop. Qed.

End Frame.

Lemma only_made_refl w : only_made w w.
Proof. exists []. split; [symmetry; apply app_nil_r|constructor]. Qed.

Lemma only_made_trans w1 w2 w3 : only_made w1 w2 -> only_made w2 w3 -> only_made w1 w3.
Proof.
  intros (e1 & H1 & F1) (e2 & H2 & F2). exists (e1 ++ e2). split.
  - rewrite H2, H1. now rewrite app_assoc.
  - apply Forall_app. now split.
Qed.

Lemma only_made_state f w : trace (f w) = trace w -> only_made w (f w).
Proof. intros H. exists []. split; [rewrite H; symmetry; apply app_nil_r|constructor]. Qed.

Lemma only_made_eventloop n w : only_made w (snd (eventloop n w)).
Proof.
  assert (R_sys : forall X (c : call X) x w, made_call c -> only_made w (log_event (Ev c x) w)).
  { intros X c x [? ? ? ? ? ? ? tr] H. exists [Ev c x]. split; [reflexivity|].
    constructor; [exact H|constructor]. }
  apply (frames_eventloop only_made (fun X c => made_call c)); auto;
    try (intros; apply only_made_state; now destruct w0).
  - apply only_made_refl.
  - apply only_made_trans.
  - intros p reason.
    apply (frames_exec_handler_open only_made (fun X c => made_call c)); auto;
      try (intros; apply only_made_state; now destruct w0).
    + apply only_made_refl.
    + apply only_made_trans.
    + intros l. exact I.
  - intros p s.
    apply (frames_send_ack_open only_made (fun X c => made_call c)); auto;
      try (intros; apply only_made_state; now destruct w0).
    + apply only_made_refl.
    + apply only_made_trans.
    + intros sd x. cbn. now exists x.
Qed.

(** X3.  Whatever happens in a run of eventloop, every file the daemon
    opens is opened with O_CREAT and O_EXCL: it creates files and never
    opens one that exists. *)
Theorem files_are_created_exclusively n w :
  exists evs,
    trace (snd (eventloop n w)) = trace w ++ evs /\
    forall dirfd name flags r,
      In (Ev (Openat dirfd name flags) r) evs -> In O_CREAT flags /\ In O_EXCL flags.
Proof.
  destruct (only_made_eventloop n w) as (evs & Ht & Hm). exists evs. split; [exact Ht|].
  intros dirfd name flags r Hin. rewrite Forall_forall in Hm. specialize (Hm _ Hin).
  cbn in Hm. destruct Hm as [_ [-> | ->]]; cbn; auto.
Qed.

(** X4.  Whatever happens in a run of eventloop, the only names the
    daemon removes are info file names of the scan of alloc_client, with
    unlink, and the two links info.host.last and vmcore.host.last, with
    unlinkat; and the only names it links are those two. *)
Theorem only_candidates_and_links_are_removed n w :
  exists evs,
    trace (snd (eventloop n w)) = trace w ++ evs /\
    (forall name r, In (Ev (Unlink name) r) evs ->
       exists d h i, name = info_name d h i) /\
    (forall dirfd name r, In (Ev (Unlinkat dirfd name) r) evs ->
       exists d h, name = core_last d h \/ name = info_last d h) /\
    (forall target dirfd name r, In (Ev (Symlinkat target dirfd name) r) evs ->
       exists d h, name = core_last d h \/ name = info_last d h).
Proof.
  destruct (only_made_eventloop n w) as (evs & Ht & Hm). exists evs. split; [exact Ht|].
  rewrite Forall_forall in Hm.
  split; [|split]; intros;
    match goal with H : In _ evs |- _ => first [exact (Hm _ H) | exact (proj2 (Hm _ H))] end.
Qed.

(** X23.  Whatever happens in a run of eventloop, every openat, unlinkat
    and symlinkat of the daemon names the descriptor of the dump
    directory, g_dumpdir_fd. *)
Theorem at_calls_name_the_dump_directory n w :
  exists evs,
    trace (snd (eventloop n w)) = trace w ++ evs /\
    (forall dirfd name flags r, In (Ev (Openat dirfd name flags) r) evs ->
       dirfd = g_dumpdir_fd) /\
    (forall dirfd name r, In (Ev (Unlinkat dirfd name) r) evs -> dirfd = g_dumpdir_fd) /\
    (forall target dirfd name r, In (Ev (Symlinkat target dirfd name) r) evs ->
       dirfd = g_dumpdir_fd).
Proof.
  destruct (only_made_eventloop n w) as (evs & Ht & Hm). exists evs. split; [exact Ht|].
  rewrite Forall_forall in Hm.
  split; [|split]; intros;
    match goal with H : In _ evs |- _ => exact (proj1 (Hm _ H)) end.
Qed.

Lemma htonl_bytes s : List.length (htonl s) = 4%nat /\ Forall (fun b => 0 <= b < 256) (htonl s).
Proof.
  split; [reflexivity|]. unfold htonl.
  repeat constructor; apply Z.mod_pos_bound; lia.
Qed.

(** X5.  Whatever happens in a run of eventloop, every datagram the
    daemon sends is one acknowledgement: four bytes, a sequence number in
    network order. *)
Theorem only_acknowledgements_are_sent n w :
  exists evs,
    trace (snd (eventloop n w)) = trace w ++ evs /\
    forall sd dgram r,
      In (Ev (Send sd dgram) r) evs ->
      List.length dgram = 4%nat /\ Forall (fun b => 0 <= b < 256) dgram /\
      exists s, dgram = htonl s.
Proof.
  destruct (only_made_eventloop n w) as (evs & Ht & Hm). exists evs. split; [exact Ht|].
  intros sd dgram r Hin. rewrite Forall_forall in Hm. destruct (Hm _ Hin) as [s ->].
  destruct (htonl_bytes s) as [Hl Hb]. split; [exact Hl|]. split; [exact Hb|].
  now exists s.
Qed.

Lemma no_handler_state f w :
  trace (f w) = trace w -> g_caphandler (f w) = g_caphandler w -> no_handler w (f w).
Proof.
  intros Ht Hc H. split; [congruence|]. exists []. split; [|reflexivity].
  rewrite Ht. symmetry. apply app_nil_r.
Qed.

Lemma no_handler_trans w1 w2 w3 : no_handler w1 w2 -> no_handler w2 w3 -> no_handler w1 w3.
Proof.
  intros H1 H2 H. destruct (H1 H) as (C1 & e1 & T1 & X1).
  destruct (H2 C1) as (C2 & e2 & T2 & X2). split; [exact C2|].
  exists (e1 ++ e2). split; [rewrite T2, T1; now rewrite app_assoc|].
  rewrite existsb_app, X1, X2. reflexivity.
Qed.

Lemma no_handler_eventloop n w : no_handler w (snd (eventloop n w)).
Proof.
  assert (St : forall f : world -> world,
    (forall w, trace (f w) = trace w) -> (forall w, g_caphandler (f w) = g_caphandler w) ->
    forall w, no_handler w (f w)).
  { intros f Ht Hc w0. now apply no_handler_state. }
  apply (frames_eventloop no_handler (fun X c => is_xfer c = false)).
  - intros w0. apply (St (fun w => w)); reflexivity.
  - apply no_handler_trans.
  - intros X c x [? ? ? ? ? ? ? tr] Hx H. split; [exact H|]. exists [Ev c x].
    split; [reflexivity|]. cbn. destruct c; try reflexivity; discriminate.
  - intros X c _ H _. exact H.
  - intros e. apply St; now intros [].
  - intros l. apply St; now intros [].
  - intros p reason w0 H. unfold exec_handler, bind, gets. rewrite H. cbn.
    split; [exact H|]. exists []. split; [symmetry; apply app_nil_r|reflexivity].
  - intros p s.
    apply (frames_send_ack_open no_handler (fun X c => is_xfer c = false)).
    + intros w0. apply (St (fun w => w)); reflexivity.
    + apply no_handler_trans.
    + intros X c x [? ? ? ? ? ? ? tr] Hx H. split; [exact H|]. exists [Ev c x].
      split; [reflexivity|]. cbn. destruct c; try reflexivity; discriminate.
    + intros X c _ H _. exact H.
    + intros e. apply St; now intros [].
    + reflexivity.
  - intros w0. apply (St (fun w => set_brk (Pos.succ (brk w0)) w)); now intros [].
  - intros t. apply St; now intros [].
  - intros t. apply St; now intros [].
Qed.

(** X6.  When the daemon was started without a handler script
    (g_caphandler is NULL), no run of eventloop ever sends a request to
    the handler service, whatever sessions come and go. *)
Theorem without_script_no_handler_request n w :
  g_caphandler w = false ->
  exists evs,
    trace (snd (eventloop n w)) = trace w ++ evs /\
    existsb is_handler_request evs = false.
Proof. intros H. now destruct (no_handler_eventloop n w H). Qed.

(** ** The list of clients as the event loop keeps it *)

Lemma alloc_client_brk sd saddr dir w r w' :
  alloc_client sd saddr dir w = (r, w') ->
  (r = Done None /\ brk w' = brk w) \/ brk w' = Pos.succ (brk w).
Proof.
  destruct (alloc_client_tail (fun w w' => brk w' = brk w) (fun _ _ => True))
    with (sd := sd) (saddr := saddr) (dir := dir) as (k & -> & Hk);
    try (intros; now destruct w0); try congruence; auto.
  intros E. unfold bind at 1 in E. unfold sys at 1 in E. cbv zeta in E.
  destruct (env bool (trace w) Calloc); cbn [negb] in E.
  - right. unfold bind, gets, modify in E. cbn [fst snd] in E.
    match type of E with context [k ?p ?w1] =>
      pose proof (Hk p w1) as Hb; destruct (k p w1) as [[a|f] w2] end;
      inversion E; subst; cbn [snd] in Hb; rewrite Hb; now destruct w.
  - left. pattern r, w'. eapply wp_run; [|exact E].
    destruct w as [cl ch gs now lc en bk tr]. repeat wstep. now split.
Qed.

Lemma in_remove p q c l : In (q, c) (remove p l) -> In (q, c) l.
Proof.
  induction l as [|[q' d] l IH]; cbn; [auto|].
  destruct (Pos.eqb p q'); [now right|]. intros [H|H]; [now left|right; auto].
Qed.

Lemma nodup_map_remove {B} (f : ptr * netdump_client -> B) p l :
  NoDup (map f l) -> NoDup (map f (remove p l)).
Proof.
  induction l as [|[q d] l IH]; cbn; [auto|]. intros H.
  inversion H as [|? ? Hn Hd]; subst.
  destruct (Pos.eqb p q); [exact Hd|]. cbn. constructor; [|auto].
  intros Hin. apply Hn. apply in_map_iff in Hin. destruct Hin as ([q2 d2] & E & Hin).
  apply in_map_iff. exists (q2, d2). split; [exact E|]. now apply in_remove in Hin.
Qed.

Lemma sessions_ok_remove bk p l : sessions_ok bk l -> sessions_ok bk (remove p l).
Proof.
  intros ((Hn & Hi) & Hip & Hb). split; [split|split].
  - now apply nodup_map_remove.
  - intros q c H. apply (Hi q c). now apply in_remove in H.
  - now apply nodup_map_remove.
  - intros q c H. apply (Hb q c). now apply in_remove in H.
Qed.

Lemma in_update p f q c l :
  In (q, c) (update p f l) -> In (q, c) l \/ (q = p /\ exists d, lookup p l = Some d /\ c = f d).
Proof.
  induction l as [|[q' d] l IH]; cbn; [auto|].
  destruct (Pos.eqb p q') eqn:E.
  - apply Pos.eqb_eq in E. subst q'. intros [H|H]; [|now left; right].
    inversion H; subst. right. split; [reflexivity|]. now exists d.
  - intros [H|H]; [now left; left|]. destruct (IH H) as [H1|H1]; [left; now right|now right].
Qed.

Lemma map_ip_update p c c' l :
  lookup p l = Some c -> ip c' = ip c ->
  map (fun qc => ip (snd qc)) (update p (fun _ => c') l) = map (fun qc => ip (snd qc)) l.
Proof.
  intros Hp Hip. induction l as [|[q d] l IH]; cbn in *; [reflexivity|].
  destruct (Pos.eqb p q); cbn.
  - inversion Hp; subst. now rewrite Hip.
  - now rewrite IH.
Qed.

Lemma sessions_ok_update bk p c c' l :
  lookup p l = Some c -> infofile c' <> None -> ip c' = ip c ->
  sessions_ok bk l -> sessions_ok bk (update p (fun _ => c') l).
Proof.
  intros Hp Hf Hip ((Hn & Hi) & Hips & Hb). split; [split|split].
  - now rewrite map_fst_update.
  - intros q d H. apply in_update in H. destruct H as [H|(-> & d0 & _ & ->)]; [eauto|exact Hf].
  - now rewrite (map_ip_update _ _ _ _ Hp Hip).
  - intros q d H. apply in_update in H. destruct H as [H|(-> & d0 & _ & ->)]; [eauto|].
    apply lookup_some_in in Hp. eauto.
Qed.

Lemma nodup_map_filter {B} (f : ptr * netdump_client -> B) keep l :
  NoDup (map f l) -> NoDup (map f (List.filter keep l)).
Proof.
  induction l as [|x l IH]; cbn; [auto|]. intros H.
  inversion H as [|? ? Hn Hd]; subst.
  destruct (keep x); [|auto]. cbn. constructor; [|auto].
  intros Hin. apply Hn. apply in_map_iff in Hin. destruct Hin as (y & E & Hin).
  apply in_map_iff. exists y. split; [exact E|]. now apply filter_In in Hin.
Qed.

Lemma sessions_ok_filter bk keep l : sessions_ok bk l -> sessions_ok bk (List.filter keep l).
Proof.
  intros ((Hn & Hi) & Hip & Hb). split; [split|split].
  - now apply nodup_map_filter.
  - intros q c H. apply filter_In in H. apply (Hi q c), H.
  - now apply nodup_map_filter.
  - intros q c H. apply filter_In in H. apply (Hb q c), H.
Qed.

Lemma find_client_none_ip a l :
  find_client a l = None -> ~ In a (map (fun qc => ip (snd qc)) l).
Proof.
  unfold find_client. intros H Hin.
  destruct (find (fun qc => ip (snd qc) =? a) l) as [[q d]|] eqn:E; [discriminate|].
  apply in_map_iff in Hin. destruct Hin as (x & Hx & Hin).
  pose proof (find_none _ _ E _ Hin) as Hf. cbn in Hf. lia.
Qed.

Lemma sessions_ok_cons bk c l :
  sessions_ok bk l -> infofile c <> None -> find_client (ip c) l = None ->
  sessions_ok (Pos.succ bk) ((bk, c) :: l).
Proof.
  intros ((Hn & Hi) & Hip & Hb) Hf Hfind. split; [split|split].
  - cbn. constructor; [|exact Hn]. intros Hin. apply in_map_iff in Hin.
    destruct Hin as ([q d] & E & Hin). cbn in E. subst q. specialize (Hb _ _ Hin). lia.
  - intros q d [H|H]; [inversion H; now subst|eauto].
  - cbn. constructor; [now apply find_client_none_ip|exact Hip].
  - intros q d [H|H]; [inversion H; lia|]. specialize (Hb _ _ H). lia.
Qed.

Lemma sessions_ok_later bk bk' l :
  (bk <= bk')%positive -> sessions_ok bk l -> sessions_ok bk' l.
Proof.
  intros Hle (Hok & Hip & Hb). split; [exact Hok|]. split; [exact Hip|].
  intros q c H. specialize (Hb _ _ H). lia.
Qed.

Lemma stage_same c pkt : infofile (stage c pkt) = infofile c /\ ip (stage c pkt) = ip c.
Proof. unfold stage. destruct (vmcorebufoff c =? 0); split; reflexivity. Qed.

Lemma vmcore_run_same ch p c cl pkt evs o cl' :
  vmcore_run ch p c cl pkt evs o cl' ->
  cl' = remove p cl \/
  exists c', cl' = update p (fun _ => c') cl /\ infofile c' = infofile c /\ ip c' = ip c.
Proof.
  inversion 1; subst; auto; right; eexists; (split; [reflexivity|]);
    repeat match goal with c1 := _ |- _ => subst c1 end;
    try (match goal with |- context [stage ?x pkt] =>
           destruct (stage_same x pkt) as [-> ->] end);
    split; reflexivity.
Qed.

Lemma client_run_same ch p c cl en rr evs o cl' :
  client_run ch p c cl en rr evs o cl' ->
  cl' = cl \/ cl' = remove p cl \/
  exists c', cl' = update p (fun _ => c') cl /\ infofile c' = infofile c /\ ip c' = ip c.
Proof.
  intros HR.
  inversion HR as [ | tevs | | | t evs0 ct Hacc Hty | t evs0 o0 cl0 ct Hacc _ Hty Hv
                  | t evs0 cl0 ct Hacc _ _ Hty Hfin | t ct Hacc ]; subst; auto.
  - right. right. eexists. split; [reflexivity|]. split; reflexivity.
  - right. destruct (vmcore_run_same _ _ _ _ _ _ _ _ Hv) as [->|(c2 & -> & Hf & Hi)].
    + left. apply remove_update.
    + right. exists c2. rewrite update_update_const. split; [reflexivity|].
      split; [exact Hf|exact Hi].
  - right. destruct (finish_run_list _ _ _ _ _ _ _ _ Hfin) as [->| ->].
    + left. apply remove_update.
    + right. eexists. rewrite update_update_const. split; [reflexivity|].
      split; reflexivity.
  - right. right. eexists. split; [reflexivity|]. split; reflexivity.
Qed.

Lemma client_event_ok p w : daemon_ok w -> daemon_ok (snd (client_event p w)).
Proof.
  intros Hok. destruct (lookup p (g_clients w)) as [c|] eqn:Hp.
  - assert (Hf : exists f, infofile c = Some f).
    { destruct Hok as ((_ & Hi) & _). apply lookup_some_in in Hp. apply Hi in Hp.
      destruct (infofile c) as [f|]; [now exists f|contradiction]. }
    destruct Hf as [f Hf]. destruct (client_event p w) as [r w'] eqn:E. cbn [snd].
    destruct (client_event_run _ _ _ _ _ _ Hp Hf E) as (rr & evs & _ & Hg & HR).
    destruct Hg as (_ & _ & _ & _ & Hb). unfold daemon_ok. rewrite Hb.
    destruct (client_run_same _ _ _ _ _ _ _ _ _ HR) as [->|[->|(c' & -> & Hf' & Hi')]].
    + exact Hok.
    + now apply sessions_ok_remove.
    + apply sessions_ok_update with c; [exact Hp|congruence|exact Hi'|exact Hok].
  - unfold client_event, bind, deref. rewrite Hp. exact Hok.
Qed.

Lemma timeout_clients_ok w : daemon_ok w -> daemon_ok (snd (timeout_clients w)).
Proof.
  intros Hok. unfold wp. change (wp timeout_clients w (fun _ w' => daemon_ok w')).
  destruct w as [cl ch gs now lc en bk tr]. unfold daemon_ok in *.
  cbn [g_clients brk] in *.
  unfold timeout_clients. do 2 wstep. do 2 wstep.
  destruct (signed64 (now - lc) <? CLIENT_TPASS).
  - wstep. exact Hok.
  - do 2 wstep. do 2 wstep.
    apply (wp_sweep ch gs now now bk cl []); [apply Hok|].
    intros evs en' kept' HS. cbn [app g_clients brk].
    rewrite (sweep_run_filter _ _ _ _ _ HS). now apply sessions_ok_filter.
Qed.

Lemma server_event_ok w : daemon_ok w -> daemon_ok (snd (server_event w)).
Proof.
  intros Hok. change (wp server_event w (fun _ w' => daemon_ok w')).
  destruct w as [cl ch gs now lc en bk tr]. unfold daemon_ok in *.
  cbn [g_clients brk] in *. destruct Hok as (Hcl & Hips & Hb).
  assert (Hok : sessions_ok bk cl) by (split; [exact Hcl|split; assumption]).
  destruct Hcl as [Hn Hi].
  unfold server_event. do 2 wstep. intros h.
  apply wp_if; intros Hh; [repeat wstep; exact Hok|].
  do 2 wstep. wstep.
  destruct (find_client (h_saddr h) cl) as [p|] eqn:Ef.
  - destruct (find_client_some _ _ _ Hn Ef) as (c & Hp & Hip).
    assert (Hf : exists f, infofile c = Some f).
    { apply lookup_some_in in Hp. apply Hi in Hp.
      destruct (infofile c) as [f|]; [now exists f|contradiction]. }
    destruct Hf as [f Hf].
    wstep. eapply wp_deref; [exact Hp|].
    apply wp_if; intros Ha.
    + wstep. eapply wp_send_ack; [exact Hp|]. intros ra logs en' Hl. repeat wstep.
      exact Hok.
    + wstep. eapply wp_handle_timeout; [exact Hp|exact Hf|]. intros evs en' Ht.
      repeat wstep. apply wp_deref_freed.
      * cbn [g_clients]. now apply lookup_remove_same.
      * cbn [g_clients brk]. now apply sessions_ok_remove.
  - wstep. apply wp_of_run. intros r1 w1 E1.
    destruct (alloc_client_run _ _ _ _ _ _ E1) as (evs & res & -> & Ht & Hg & HR).
    pose proof (alloc_client_brk _ _ _ _ _ _ E1) as Hbrk.
    destruct w1 as [cl1 ch1 gs1 now1 lc1 en1 bk1 tr1].
    cbn [g_clients g_caphandler g_sock g_now g_last_timeout_check trace brk] in *.
    assert (Hok1 : sessions_ok bk1 cl1).
    { inversion HR as [ | | | | host pre scan rk i fd fd2 c Hpre HS HF Hrk ]; subst;
        try (destruct Hbrk as [[_ ->]| ->]; [exact Hok|];
             apply sessions_ok_later with bk; [lia|exact Hok]).
      destruct Hbrk as [[Hr _]| ->]; [discriminate|].
      destruct HF as (_ & Hipc & _ & _ & _ & _ & _ & Hfile & _).
      apply sessions_ok_cons; [exact Hok|congruence|now rewrite Hipc]. }
    destruct res as [p|].
    + wstep. wstep.
      assert (Hc : exists c f, lookup p cl1 = Some c /\ infofile c = Some f).
      { inversion HR; subst. match goal with H : fresh_client _ _ _ _ _ _ _ _ _ |- _ =>
          destruct H as (_ & _ & _ & _ & _ & _ & _ & Hfile & _) end.
        eexists _, _. split; [|eassumption]. cbn. now rewrite Pos.eqb_refl. }
      destruct Hc as (c & f & Hp & Hf).
      eapply wp_deref; [exact Hp|]. wstep.
      eapply wp_client_pinfo; [exact Hp|exact Hf|]. do 2 wstep. wstep.
      eapply wp_send_ack; [exact Hp|]. intros ra logs en' Hl. repeat wstep. exact Hok1.
    + repeat wstep. exact Hok1.
Qed.

Lemma wp_ok {A} (m : M A) w :
  daemon_ok (snd (m w)) -> wp m w (fun _ w' => daemon_ok w').
Proof. exact (fun H => H). Qed.

Lemma dispatch_ok evs : forall w, daemon_ok w -> daemon_ok (snd (dispatch evs w)).
Proof.
  induction evs as [|ev rest IH]; intros w Hok; cbn [dispatch]; [exact Hok|].
  change (wp (match filter ev with
              | EVFILT_READ =>
                gs <- gets g_sock ;;
                if signed32 (ident ev) =? gs then
                  rc <- server_event ;;
                  if negb (rc =? 0) then ret (Return_ 1) else dispatch rest
                else client_event (udata ev) ;;; dispatch rest
              | EVFILT_SIGNAL => ret Goto_out
              | EVFILT_other n => LOGERR "unexpected event %d" [AInt n] ;;; ret Again
              end) w (fun _ w' => daemon_ok w')).
  destruct (filter ev).
  - apply wp_bind, wp_gets. apply wp_if; intros _.
    + apply wp_bind. apply wp_conseq with (Q := fun _ w' => daemon_ok w');
        [apply wp_ok, server_event_ok, Hok|].
      intros [rc|f] w1 H1; [|exact H1].
      apply wp_if; intros _; [exact H1|apply wp_ok, IH, H1].
    + apply wp_bind. apply wp_conseq with (Q := fun _ w' => daemon_ok w');
        [apply wp_ok, client_event_ok, Hok|].
      intros [[]|f] w1 H1; [|exact H1]. apply wp_ok, IH, H1.
  - exact Hok.
  - destruct w. repeat wstep. exact Hok.
Qed.

Lemma eventloop_wake_ok w : daemon_ok w -> daemon_ok (snd (eventloop_wake w)).
Proof.
  intros Hok. change (wp eventloop_wake w (fun _ w' => daemon_ok w')).
  destruct w as [cl ch gs now lc en bk tr]. unfold eventloop_wake.
  do 2 wstep. intros k. apply wp_if; intros _.
  - do 2 wstep. apply wp_if; intros _; repeat wstep; exact Hok.
  - do 2 wstep. intros t. do 2 wstep. apply wp_bind.
    apply wp_conseq with (Q := fun _ w' => daemon_ok w');
      [apply wp_ok, dispatch_ok, Hok|].
    intros [[| |]|f] w1 H1; try exact H1.
    apply wp_bind. apply wp_conseq with (Q := fun _ w' => daemon_ok w');
      [apply wp_ok, timeout_clients_ok, H1|].
    intros [[]|f] w2 H2; exact H2.
Qed.

Lemma shutdown_ok n : forall w, daemon_ok w -> daemon_ok (snd (shutdown n w)).
Proof.
  induction n as [|n IH]; intros w Hok; [exact Hok|].
  change (wp (shutdown (S n)) w (fun _ w' => daemon_ok w')). cbn [shutdown].
  apply wp_bind, wp_gets. destruct (g_clients w) as [|[p c] l] eqn:El; [exact Hok|].
  destruct w as [cl ch gs now lc en bk tr]. cbn [g_clients] in El. subst cl.
  assert (Hp : lookup p ((p, c) :: l) = Some c) by (cbn; now rewrite Pos.eqb_refl).
  destruct (infofile c) as [f|] eqn:Hf.
  - wstep. eapply wp_handle_timeout; [exact Hp|exact Hf|]. intros evs en' _.
    apply wp_ok, IH. unfold daemon_ok. cbn [g_clients brk].
    now apply sessions_ok_remove.
  - exfalso. destruct Hok as ((_ & Hi) & _). apply (Hi p c); [now left|exact Hf].
Qed.

Lemma eventloop_from_ok n : forall w, daemon_ok w -> daemon_ok (snd (eventloop_from n w)).
Proof.
  induction n as [|n IH]; intros w Hok; [exact Hok|].
  rewrite eventloop_from_step. pose proof (eventloop_wake_ok w Hok) as H1.
  destruct (eventloop_wake w) as [[[|rc|]|f] w1]; cbn [snd] in *.
  - now apply IH.
  - exact H1.
  - change (wp (LOGINFO "Shutting down..." [] ;;;
                l <- gets g_clients ;;
                shutdown (List.length l) ;;;
                ret (Some 0)) w1 (fun _ w' => daemon_ok w')).
    destruct w1 as [cl ch gs now lc en bk tr]. do 2 wstep. do 2 wstep. wstep.
    apply wp_conseq with (Q := fun _ w' => daemon_ok w');
      [apply wp_ok, shutdown_ok, H1|].
    intros [[]|f] w2 H2; exact H2.
  - exact H1.
Qed.

(** X7.  The event loop keeps its list of clients in order.  From a
    list in which no address occurs twice, every client has its info
    stream open, no two clients have the same donor address and every
    address is below the next one calloc hands out, any number of wakes
    leads to such a list again, whatever arrives and whatever fails, also
    when the run ends in a fault.  The list is empty, and so in order,
    when eventloop is entered. *)
Theorem eventloop_keeps_sessions_ok n w :
  daemon_ok w -> daemon_ok (snd (eventloop n w)).
Proof.
  intros Hok. unfold eventloop, bind, LOGINFO, sys. cbv zeta.
  apply eventloop_from_ok. now destruct w.
Qed.

(** ** client_event when it does not dispatch *)

(** X8.  A datagram that fails one of the two size checks of
    client_event (shorter than the header, or of a length other than the
    header announces) is logged and dropped: the list of clients is left
    as it was, so the session's last_msg is not refreshed, and nothing is
    sent.  When recv fails with EAGAIN or EINTR, nothing is done at all. *)
Theorem client_event_drops_bad_datagrams p w c f r w' :
  lookup p (g_clients w) = Some c -> infofile c = Some f ->
  client_event p w = (r, w') ->
  exists rr evs,
    trace w' = trace w ++ Ev (Recv (sock c)) rr :: evs /\
    (r_len rr < 0 -> r_errno rr = EAGAIN \/ r_errno rr = EINTR ->
     r = Done tt /\ evs = [] /\ g_clients w' = g_clients w) /\
    (0 <= r_len rr -> ~ accepted rr ->
     r = Done tt /\ g_clients w' = g_clients w /\
     exists line, evs = [line] /\ is_log line = true).
Proof.
  intros Hp Hf E.
  destruct (client_event_run _ _ _ _ _ _ Hp Hf E) as (rr & evs & Ht & _ & HR).
  exists rr, evs. split; [exact Ht|].
  revert HR. generalize (g_clients w') (g_clients w) (g_caphandler w) (errno w).
  intros cl' cl ch en HR. split.
  - intros Hl He.
    assert (Htr : transient (r_errno rr) = true).
    { unfold transient. destruct He as [-> | ->]; [reflexivity|].
      rewrite Z.eqb_refl. apply orb_true_r. }
    inversion HR as [ | tevs ? Hnt | ? | ? | t evs0 ct Hacc | t evs0 o cl0 ct Hacc
                    | t evs0 cl0 ct Hacc | t ct Hacc ]; subst;
      try (destruct Hacc as (_ & Hnn & _); lia); try lia; try congruence.
    now repeat split.
  - intros Hl Hna.
    inversion HR as [ | tevs | ? | ? | t evs0 ct Hacc | t evs0 o cl0 ct Hacc
                    | t evs0 cl0 ct Hacc | t ct Hacc ]; subst;
      try contradiction; try lia.
    + split; [reflexivity|]. split; [reflexivity|]. eexists. split; reflexivity.
    + split; [reflexivity|]. split; [reflexivity|]. eexists. split; reflexivity.
Qed.

(** X9.  A datagram of the right size whose type is neither KDH, VMCORE
    nor FINISHED is logged and not acknowledged; it still counts as
    activity: the one thing that changes is the session's last_msg, set
    to the reading of the clock. *)
Theorem client_event_unknown_type p w c f r w' :
  lookup p (g_clients w) = Some c -> infofile c = Some f ->
  client_event p w = (r, w') ->
  exists rr evs,
    trace w' = trace w ++ Ev (Recv (sock c)) rr :: evs /\
    (accepted rr ->
     mh_type (r_pkt rr) <> NETDUMP_KDH -> mh_type (r_pkt rr) <> NETDUMP_VMCORE ->
     mh_type (r_pkt rr) <> NETDUMP_FINISHED ->
     r = Done tt /\ existsb is_send evs = false /\
     exists t line,
       evs = [Ev Clock_time t; line] /\ is_log line = true /\
       g_clients w' = update p (set_last_msg t) (g_clients w)).
Proof.
  intros Hp Hf E.
  destruct (client_event_run _ _ _ _ _ _ Hp Hf E) as (rr & evs & Ht & _ & HR).
  exists rr, evs. split; [exact Ht|].
  revert HR Hp. generalize (g_clients w') (g_clients w) (g_caphandler w) (errno w).
  intros cl' cl ch en HR Hp Hacc H1 H2 H3.
  assert (Hl : 0 <= r_len rr) by apply Hacc.
  inversion HR as [ | tevs | ? | ? ? Hne | t evs0 ct ? Hty | t evs0 o cl0 ct ? ? Hty
                  | t evs0 cl0 ct ? ? ? Hty | t ct ? ]; subst;
    try contradiction; try lia;
    try (destruct Hacc as (Ha & _ & Hb); first [lia|contradiction]).
  split; [reflexivity|]. split; [reflexivity|].
  exists t. eexists. split; [reflexivity|]. split; [reflexivity|].
  symmetry. now apply update_const.
Qed.

(** X10.  When recv fails with an errno other than EAGAIN and EINTR, the
    session is ended there and then on the timeout path: the error line,
    then the lines, the handler request and the release of handle_timeout,
    and the client is off the list. *)
Theorem client_event_recv_failure p w c f r w' :
  NoDup (map fst (g_clients w)) ->
  lookup p (g_clients w) = Some c -> infofile c = Some f ->
  client_event p w = (r, w') ->
  exists rr evs,
    trace w' = trace w ++ Ev (Recv (sock c)) rr :: evs /\
    (r_len rr < 0 -> r_errno rr <> EAGAIN -> r_errno rr <> EINTR ->
     r = Done tt /\
     (exists tevs, evs = perror_event "recv()" (r_errno rr) :: tevs /\
                   timeout_trace (g_caphandler w) c tevs) /\
     g_clients w' = remove p (g_clients w) /\
     lookup p (g_clients w') = None).
Proof.
  intros Hn Hp Hf E.
  destruct (client_event_run _ _ _ _ _ _ Hp Hf E) as (rr & evs & Ht & _ & HR).
  exists rr, evs. split; [exact Ht|].
  revert HR Hn. generalize (g_clients w') (g_clients w) (g_caphandler w) (errno w).
  intros cl' cl ch en HR Hn Hl H1 H2.
  assert (Htr : transient (r_errno rr) = false).
  { unfold transient. apply orb_false_iff. split; now apply Z.eqb_neq. }
  inversion HR as [ | tevs ? ? Htt | ? | ? | t evs0 ct Hacc | t evs0 o cl0 ct Hacc
                  | t evs0 cl0 ct Hacc | t ct Hacc ]; subst;
    try (destruct Hacc as (_ & Hnn & _); lia); try lia; try congruence.
  split; [reflexivity|]. split; [now exists tevs|]. split; [reflexivity|].
  now apply lookup_remove_same.
Qed.

(** ** handle_kdh *)

Lemma filter_logs g logs :
  (forall lvl fmt args r, g (Ev (Log lvl fmt args) r) = false) ->
  forallb is_log logs = true -> List.filter g logs = [].
Proof. intros Hg Hl. apply filter_none. now apply logs_blind. Qed.

(** X11.  handle_kdh sets any_data_rcvd and changes nothing else of the
    client, whatever the size of the header it was sent: the staging
    buffer and last_msg are as before.  What it writes to the info file
    it flushes before it sends the acknowledgement.  For a payload
    shorter than the kernel dump header the info file gets the one line
    'Bad KDH: packet too small'; otherwise it gets the nine lines of the
    header, in the order of the source, and one acknowledgement follows. *)
Theorem handle_kdh_flushes_before_ack p pkt w c f r w' :
  lookup p (g_clients w) = Some c -> infofile c = Some f ->
  handle_kdh p pkt w = (r, w') ->
  r = Done tt /\
  g_clients w' = update p (set_any_data_rcvd true) (g_clients w) /\
  exists evs,
    trace w' = trace w ++ evs /\
    precedes (is_fflush f) is_send evs /\
    (mh_len pkt < sizeof_kerneldumpheader ->
     List.filter is_info_line evs = [Ev (Fprintf f "Bad KDH: packet too small\n" []) tt] /\
     existsb is_send evs = false) /\
    (sizeof_kerneldumpheader <= mh_len pkt ->
     List.filter is_info_line evs = kdh_lines f (data pkt) /\
     exists ra, List.filter is_send evs = [Ev (Send (sock c) (htonl (mh_seqno pkt))) ra]).
Proof.
  intros Hp Hf E.
  destruct (handle_kdh_run _ _ _ _ _ _ _ Hp Hf E) as (Hr & evs & Ht & _ & Hl & HR).
  split; [exact Hr|]. split; [now rewrite (update_const _ _ _ _ Hp)|].
  exists evs. split; [exact Ht|].
  inversion HR as [f0 Hf0 Hs | f0 ra logs Hf0 Hs Hlogs]; subst;
    (assert (f0 = f) by congruence); subst f0.
  - split; [now apply precedes_none|]. split; [|intros; lia].
    intros _. split; reflexivity.
  - split.
    + unfold kdh_lines. cbn [app]. do 9 (apply precedes_cons; [reflexivity|]).
      apply precedes_head; [cbn; apply Z.eqb_refl|reflexivity].
    + split; [intros; lia|]. intros _. rewrite !filter_app.
      rewrite (filter_logs is_info_line logs), (filter_logs is_send logs);
        try exact Hlogs; try (intros; reflexivity).
      split; [reflexivity|]. now exists ra.
Qed.

(** ** The timeout path *)

(** X12.  handle_timeout on a registered client lets go of everything
    the client held, once each and in this order: the kevent
    registration of its socket, the info stream, the core file
    descriptor, the socket; this also when the handler or the kevent
    removal fails.  The info line and the request to the handler come
    before the release.  The client is off the list and the other
    clients are as they were. *)
Theorem handle_timeout_releases p w c f r w' :
  NoDup (map fst (g_clients w)) ->
  lookup p (g_clients w) = Some c -> infofile c = Some f ->
  handle_timeout p w = (r, w') ->
  r = Done tt /\
  lookup p (g_clients w') = None /\
  (forall q, p <> q -> lookup q (g_clients w') = lookup q (g_clients w)) /\
  exists evs,
    trace w' = trace w ++ evs /\
    (exists rk, List.filter is_release evs
       = [ Ev (Kevent_delete (sock c)) rk; Ev (Fclose f) tt;
           Ev (Close (corefd c)) tt; Ev (Close (sock c)) tt ]) /\
    precedes is_info_line is_release evs /\
    (g_caphandler w = true ->
     precedes is_handler_request is_release evs /\
     exists rh, List.filter is_handler_request evs
                = [Ev (Cap_xfer_nvlist (handler_request "timeout" c)) rh]).
Proof.
  intros Hn Hp Hf E. pattern r, w'. eapply wp_run; [|exact E]. clear E r w'.
  destruct w as [cl ch gs now lc en bk tr]. cbn [g_clients g_caphandler trace] in *.
  eapply wp_handle_timeout; [exact Hp|exact Hf|].
  intros evs en' (f0 & hevs & fevs & Hf0 & Hh & (rk & logs & f1 & Hf1 & Hl & ->) & ->).
  assert (f0 = f) by congruence. assert (f1 = f) by congruence. subst f0 f1.
  cbn [g_clients trace]. split; [reflexivity|].
  split; [now apply lookup_remove_same|].
  split; [intros q Hq; now apply lookup_remove_other|].
  eexists. split; [reflexivity|].
  assert (Hh0 : List.filter is_release hevs = []).
  { unfold handler_trace in Hh. destruct ch; [|now subst].
    destruct Hh as (rh & hl & -> & Hhl). cbn.
    apply (filter_logs is_release); [intros; reflexivity|exact Hhl]. }
  split; [|split].
  - exists rk. cbn. rewrite !filter_app, Hh0. cbn. rewrite filter_app.
    rewrite (filter_logs is_release logs); [reflexivity|intros; reflexivity|exact Hl].
  - apply precedes_cons; [reflexivity|]. apply precedes_head; reflexivity.
  - intros ->. unfold handler_trace in Hh. destruct Hh as (rh & hl & -> & Hhl). split.
    + do 2 (apply precedes_cons; [reflexivity|]). apply precedes_head; reflexivity.
    + exists rh. cbn. rewrite !filter_app.
      rewrite (filter_logs is_handler_request hl); [|intros; reflexivity|exact Hhl].
      cbn. rewrite filter_app.
      rewrite (filter_logs is_handler_request logs); [reflexivity|intros; reflexivity|exact Hl].
Qed.

(** ** A herald from a new donor *)

Lemma sends_nothing_state (f : world -> world) w :
  trace (f w) = trace w -> sends_nothing w (f w).
Proof. intros H. exists []. split; [rewrite H; symmetry; apply app_nil_r|reflexivity]. Qed.

Lemma sends_nothing_trans w1 w2 w3 :
  sends_nothing w1 w2 -> sends_nothing w2 w3 -> sends_nothing w1 w3.
Proof.
  intros (e1 & T1 & X1) (e2 & T2 & X2). exists (e1 ++ e2).
  split; [rewrite T2, T1; now rewrite app_assoc|]. now rewrite existsb_app, X1, X2.
Qed.

Lemma alloc_client_sends_nothing sd saddr dir w :
  sends_nothing w (snd (alloc_client sd saddr dir w)).
Proof.
  assert (R_sys : forall X (c : call X) x w, is_send_call c = false ->
                  sends_nothing w (log_event (Ev c x) w)).
  { intros X c x [? ? ? ? ? ? ? tr] H. exists [Ev c x]. split; [reflexivity|].
    cbn. destruct c; try reflexivity; discriminate. }
  assert (St : forall f : world -> world, (forall w, trace (f w) = trace w) ->
               forall w, sends_nothing w (f w)).
  { intros f Hf w0. now apply sends_nothing_state. }
  apply (frames_alloc_client sends_nothing (fun X c => is_send_call c = false)).
  - intros w0. apply (St (fun w => w)). reflexivity.
  - apply sends_nothing_trans.
  - exact R_sys.
  - intros X c _ _ Hs. exact Hs.
  - intros e. apply St. now intros [].
  - intros l. apply St. now intros [].
  - intros w0. apply (St (fun w => set_brk (Pos.succ (brk w0)) w)). now intros [].
Qed.

(** X13.  A herald the herald worker could not deliver is logged and
    changes nothing.  For a herald from an address with no session on the
    list, server_event calls alloc_client with the socket, the address
    and the path of the herald, right after the herald, and goes by what
    it returns.  When it returns NULL, the failure is logged, the list is
    as before and nothing is sent, so the herald is not acknowledged.
    When it returns a client, that client is at the head of the list, at
    the address calloc gave, with the donor's address, the socket of the
    herald, last_msg at g_now, any_data_rcvd false and an empty buffer;
    then the line 'Dump from' goes to its info file, and last the herald
    is acknowledged on its socket with the herald's sequence number. *)
Theorem server_event_new_donor w r w' :
  clients_ok (g_clients w) ->
  server_event w = (r, w') ->
  exists h evs,
    trace w' = trace w ++ Ev Cap_herald h :: evs /\
    (h_error h <> 0 ->
     r = Done 0 /\ g_clients w' = g_clients w /\
     exists line, evs = [line] /\ is_log line = true) /\
    (h_error h = 0 -> find_client (h_saddr h) (g_clients w) = None ->
     r = Done 0 /\
     exists res wa pre,
       alloc_client (h_sd h) (h_saddr h) (h_path h) (log_event (Ev Cap_herald h) w)
       = (Done res, wa) /\
       trace wa = trace w ++ Ev Cap_herald h :: pre /\
       existsb is_send pre = false /\
       g_clients w' = g_clients wa /\
       match res with
       | None =>
         g_clients w' = g_clients w /\ existsb is_send evs = false /\
         evs = pre ++ [Ev (Log LOG_ERR "server_event(): new client allocation failure\n" [])
                         tt]
       | Some p =>
         p = brk w /\
         exists c f ra logs,
           g_clients w' = (p, c) :: g_clients w /\
           ip c = h_saddr h /\ sock c = h_sd h /\ last_msg c = g_now w /\
           any_data_rcvd c = false /\ vmcorebufoff c = 0 /\ infofile c = Some f /\
           evs = pre ++ welcome c f (h_seqno h) ra ++ logs /\
           forallb is_log logs = true
       end).
Proof.
  intros [Hn Hi] E. pattern r, w'. eapply wp_run; [|exact E]. clear E r w'.
  destruct w as [cl ch gs now lc en bk tr].
  cbn [g_clients g_caphandler trace errno brk g_now] in *.
  unfold server_event. do 2 wstep. intros h.
  apply wp_if; intros Hh.
  { repeat wstep. exists h. eexists. split; [reflexivity|].
    apply negb_true_iff, Z.eqb_neq in Hh. cbn [g_clients]. split.
    - intros _. split; [reflexivity|]. split; [reflexivity|].
      eexists. split; reflexivity.
    - intros He. contradiction. }
  apply negb_false_iff in Hh. apply Z.eqb_eq in Hh.
  do 2 wstep. wstep.
  destruct (find_client (h_saddr h) cl) as [p|] eqn:Ef.
  - (* a session of this donor is on the list: nothing is stated *)
    assert (Any : forall (o : outcome Z) (cl' : list (ptr * netdump_client)) tr',
      (exists evs, tr' = tr ++ Ev Cap_herald h :: evs) ->
      exists h0 evs,
        tr' = tr ++ Ev Cap_herald h0 :: evs /\
        (h_error h0 <> 0 ->
         o = Done 0 /\ cl' = cl /\ exists line, evs = [line] /\ is_log line = true) /\
        (h_error h0 = 0 -> find_client (h_saddr h0) cl = None ->
         o = Done 0 /\
         exists res wa pre,
           alloc_client (h_sd h0) (h_saddr h0) (h_path h0)
             (log_event (Ev Cap_herald h0) (mkWorld cl ch gs now lc en bk tr))
           = (Done res, wa) /\
           trace wa = tr ++ Ev Cap_herald h0 :: pre /\
           existsb is_send pre = false /\
           cl' = g_clients wa /\
           match res with
           | None =>
             cl' = cl /\ existsb is_send evs = false /\
             evs = pre ++ [Ev (Log LOG_ERR
                                 "server_event(): new client allocation failure\n" []) tt]
           | Some p =>
             p = bk /\
             exists c f ra logs,
               cl' = (p, c) :: cl /\
               ip c = h_saddr h0 /\ sock c = h_sd h0 /\ last_msg c = now /\
               any_data_rcvd c = false /\ vmcorebufoff c = 0 /\ infofile c = Some f /\
               evs = pre ++ welcome c f (h_seqno h0) ra ++ logs /\
               forallb is_log logs = true
           end)).
    { intros o cl' tr' [evs Ht]. exists h, evs. split; [exact Ht|].
      split; [intros; contradiction|intros; congruence]. }
    destruct (find_client_some _ _ _ Hn Ef) as (c & Hp & Hip).
    assert (Hf : exists f, infofile c = Some f).
    { apply lookup_some_in in Hp. apply Hi in Hp.
      destruct (infofile c) as [f|]; [now exists f|contradiction]. }
    destruct Hf as [f Hf].
    wstep. eapply wp_deref; [exact Hp|].
    apply wp_if; intros Ha.
    + wstep. eapply wp_send_ack; [exact Hp|]. intros ra logs en' Hl. repeat wstep.
      wsimpl. apply Any. eexists. reflexivity.
    + wstep. eapply wp_handle_timeout; [exact Hp|exact Hf|]. intros evs en' Ht.
      repeat wstep. apply wp_deref_freed.
      * cbn [g_clients]. now apply lookup_remove_same.
      * wsimpl. apply Any. eexists. reflexivity.
  - wstep. apply wp_of_run. intros r1 w1 E1.
    destruct (alloc_client_run _ _ _ _ _ _ E1) as (evs & res & -> & Ht & Hg & HR).
    destruct (alloc_client_sends_nothing (h_sd h) (h_saddr h) (h_path h)
                (mkWorld cl ch gs now lc en bk (tr ++ [Ev Cap_herald h])))
      as (evs2 & Ht2 & Hq).
    rewrite E1 in Ht2. cbn [snd] in Ht2. rewrite Ht in Ht2.
    apply app_inv_head in Ht2. subst evs2.
    destruct w1 as [cl1 ch1 gs1 now1 lc1 en1 bk1 tr1].
    destruct Hg as (G1 & G2 & G3 & G4).
    cbn [g_clients g_caphandler g_sock g_now g_last_timeout_check trace brk] in *.
    subst ch1 gs1 now1 lc1 tr1. tr_norm.
    destruct res as [p|].
    + wstep. wstep.
      inversion HR as [ | | | | host pre scan rk i fd fd2 c Hpre HS HF Hrk ]; subst.
      destruct HF as (Hsock & Hipc & Hlast & _ & _ & _ & _ & Hfile & _ & Hflag & Hfill & _).
      assert (Hp : lookup p ((p, c) :: cl) = Some c) by (cbn; now rewrite Pos.eqb_refl).
      eapply wp_deref; [exact Hp|]. wstep.
      eapply wp_client_pinfo; [exact Hp|exact Hfile|]. tr_norm. do 2 wstep. wstep.
      eapply wp_send_ack; [exact Hp|]. intros ra logs en' Hl. repeat wstep.
      exists h. eexists. split; [reflexivity|]. cbn [g_clients].
      split; [intros; contradiction|]. intros _ _. split; [reflexivity|].
      eexists (Some p), _,
        (Ev Calloc true :: pre ++ scan ++ [Ev (Kevent_add (h_sd h) p) rk]).
      split; [exact E1|]. cbn [trace g_clients].
      split; [now tr_norm|]. split; [exact Hq|]. split; [reflexivity|].
      split; [reflexivity|]. exists c, fd, ra, logs.
      repeat split; try assumption.
      unfold welcome. cbn [app]. now rewrite <- !app_assoc.
    + repeat wstep. exists h. eexists. split; [reflexivity|]. cbn [g_clients].
      split; [intros; contradiction|]. intros _ _. split; [reflexivity|].
      eexists None, _, evs.
      split; [exact E1|]. cbn [trace g_clients].
      split; [now tr_norm|]. split; [exact Hq|]. split; [reflexivity|].
      split; [inversion HR; reflexivity|].
      split; [|reflexivity].
      rewrite existsb_app, Hq. reflexivity.
Qed.

(** ** The staging buffer is never overrun *)

Lemma wp_sys_env {X} (c : call X) cl ch gs now lc en bk tr Q :
  Q (Done (env X tr c)) (mkWorld cl ch gs now lc en bk (tr ++ [Ev c (env X tr c)])) ->
  wp (sys c) (mkWorld cl ch gs now lc en bk tr) Q.
Proof. exact (fun H => H). Qed.

Lemma buf_ok_remove p cl : buf_ok cl -> buf_ok (remove p cl).
Proof. intros H q c Hin. apply (H q c). eapply in_remove. exact Hin. Qed.

Lemma buf_ok_update p c' cl :
  0 <= vmcorebufoff c' <= VMCORE_BUFSZ -> buf_ok cl ->
  buf_ok (update p (fun _ => c') cl).
Proof.
  intros Hc H q c Hin. apply in_update in Hin.
  destruct Hin as [Hin|(_ & d & _ & ->)]; [exact (H q c Hin)|exact Hc].
Qed.

Lemma buf_ok_filter keep cl : buf_ok cl -> buf_ok (List.filter keep cl).
Proof. intros H q c Hin. apply filter_In in Hin. apply (H q c), Hin. Qed.

Lemma buf_ok_lookup p c cl :
  buf_ok cl -> lookup p cl = Some c -> 0 <= vmcorebufoff c <= VMCORE_BUFSZ.
Proof. intros H Hp. apply (H p c). now apply lookup_some_in. Qed.

Lemma no_overrun_done {A} (a : A) : no_overrun (Done a).
Proof. intros f. discriminate. Qed.

Lemma no_overrun_freed {A} q : no_overrun (@Crash A (UseAfterFree q)).
Proof. intros f H. inversion H. now exists q. Qed.

Lemma no_overrun_crash {A B} f : no_overrun (@Crash A f) -> no_overrun (@Crash B f).
Proof. intros H g Hg. inversion Hg; subst. now apply H. Qed.

Lemma vmcorebufoff_stage c pkt :
  vmcorebufoff (stage c pkt) = wrap64 (vmcorebufoff c + mh_len pkt).
Proof. unfold stage. destruct (vmcorebufoff c =? 0); reflexivity. Qed.

#[local] Hint Resolve no_overrun_done no_overrun_freed buf_ok_remove buf_ok_filter : core.

Section Safety.

Ltac tidy_now :=
  split; [cbn [fst snd ret g_clients]; auto
        |first [apply no_overrun_done|apply no_overrun_freed]].

(** The payload of a datagram fits in the staging buffer, and recv
    returns no more than the size of the packet it is given. *)
Hypothesis datasize_fits : 0 <= NETDUMP_DATASIZE <= VMCORE_BUFSZ.

Hypothesis recv_fits :
  forall h sd, r_len (env _ h (Recv sd)) <= sizeof_netdump_msg_hdr + NETDUMP_DATASIZE.

Lemma vmcore_run_tidy ch p c cl pkt evs o cl' :
  0 <= vmcorebufoff c <= VMCORE_BUFSZ -> 0 <= mh_len pkt <= NETDUMP_DATASIZE ->
  buf_ok cl ->
  vmcore_run ch p c cl pkt evs o cl' ->
  buf_ok cl' /\ no_overrun o.
Proof.
  intros Hc Hl Hok HR. pose proof datasize_fits as Hd.
  inversion HR as [ r logs c1 Hn Hfit | c1 Hn Hover | rw r logs c1 Hn Hw Hfit
                  | rw c1 Hn Hw Hover | rw tevs c1 Hn Hw ]; subst; subst c1.
  - split; [|first [apply no_overrun_done|apply no_overrun_freed]]. apply buf_ok_update; [|exact Hok].
    rewrite vmcorebufoff_stage. cproj. unfold VMCORE_BUFSZ in *.
    rewrite wrap64_small; lia.
  - exfalso. unfold need_flush in Hn. apply orb_false_iff in Hn. destruct Hn as [Hn _].
    cproj. unfold VMCORE_BUFSZ in *. rewrite wrap64_small in Hn by lia. lia.
  - split; [|first [apply no_overrun_done|apply no_overrun_freed]]. apply buf_ok_update; [|exact Hok].
    rewrite vmcorebufoff_stage. cproj. unfold VMCORE_BUFSZ in *.
    rewrite wrap64_small; lia.
  - exfalso. unfold VMCORE_BUFSZ in *. lia.
  - tidy_now.
Qed.

Lemma client_event_tidy p w :
  daemon_ok w -> buf_ok (g_clients w) -> tidy (client_event p) w.
Proof.
  intros Hd Hok. destruct (lookup p (g_clients w)) as [c|] eqn:Hp.
  2:{ unfold tidy, client_event, bind, deref. rewrite Hp. cbn. tidy_now. }
  assert (Hf : exists f, infofile c = Some f).
  { destruct Hd as ((_ & Hi) & _). apply lookup_some_in in Hp. apply Hi in Hp.
    destruct (infofile c) as [f|]; [now exists f|contradiction]. }
  destruct Hf as [f Hf]. pose proof (buf_ok_lookup _ _ _ Hok Hp) as Hc.
  change (wp (client_event p) w (fun r w' => buf_ok (g_clients w') /\ no_overrun r)).
  destruct w as [cl ch gs now lc en bk tr]. cbn [g_clients] in *.
  unfold client_event. wstep. eapply wp_deref; [exact Hp|].
  apply wp_bind, wp_sys_env. wsimpl.
  pose proof (recv_fits tr (sock c)) as Hfit.
  set (rr := env recv_reply tr (Recv (sock c))) in *.
  apply wp_if; intros H0.
  { repeat wstep. apply wp_if; intros _.
    - repeat wstep. eapply wp_handle_timeout; [exact Hp|exact Hf|]. intros tevs en' _.
      cbn [g_clients]. tidy_now.
    - wstep. tidy_now. }
  apply Z.ltb_ge in H0.
  apply wp_if; intros H1; [repeat wstep; tidy_now|].
  apply Z.ltb_ge in H1. wsimpl.
  apply wp_if; intros H2; [repeat wstep; tidy_now|].
  apply negb_false_iff, Z.eqb_eq in H2.
  repeat wstep. intros t. wstep.
  eapply wp_assign; [exact Hp|]. rewrite (update_const p _ c cl Hp).
  set (ct := set_last_msg t c).
  assert (Hpt : lookup p (update p (fun _ => ct) cl) = Some ct)
    by (eapply lookup_update_const; eauto).
  assert (Hft : infofile ct = Some f) by exact Hf.
  assert (Hokt : buf_ok (update p (fun _ => ct) cl)) by (now apply buf_ok_update).
  apply wp_if; intros T1.
  { apply wp_of_run. intros r w' E.
    match type of E with _ ?w0 = _ =>
      pose proof (handle_kdh_run p _ w0 ct f r w' Hpt Hft E) as HR end.
    destruct HR as (-> & evs & _ & _ & Ecl & _).
    cbn [g_clients] in Ecl. rewrite Ecl. split; [|first [apply no_overrun_done|apply no_overrun_freed]].
    apply buf_ok_update; [exact Hc|exact Hokt]. }
  apply wp_if; intros T2.
  { apply wp_of_run. intros r w' E.
    match type of E with _ ?w0 = _ =>
      pose proof (handle_vmcore_run p _ w0 ct f r w' Hpt Hft E) as HR end.
    destruct HR as (evs & _ & _ & R). cbn [g_clients g_caphandler] in R.
    apply (vmcore_run_tidy _ _ ct _ _ _ _ _ Hc) in R; [exact R| |exact Hokt]. lia. }
  apply wp_if; intros T3.
  { apply wp_of_run. intros r w' E.
    match type of E with _ ?w0 = _ =>
      pose proof (handle_finish_run p _ w0 ct f r w' Hpt Hft E) as HR end.
    destruct HR as (-> & evs & _ & _ & R). cbn [g_clients g_caphandler errno] in R.
    split; [|first [apply no_overrun_done|apply no_overrun_freed]].
    destruct (finish_run_list _ _ _ _ _ _ _ _ R) as [->| ->]; [auto|].
    apply buf_ok_update; [|exact Hokt]. cproj. unfold VMCORE_BUFSZ. lia. }
  repeat wstep. tidy_now.
Qed.

Lemma server_event_tidy w :
  daemon_ok w -> buf_ok (g_clients w) -> tidy server_event w.
Proof.
  intros (Hcl & _) Hok. unfold tidy.
  destruct (server_event w) as [r w'] eqn:E. cbn [fst snd].
  destruct (server_event_run _ _ _ Hcl E) as (h & evs & _ & HR).
  inversion HR as [ | aevs cl' _ _ HA | aevs p c f ra logs cl' _ _ HA | | ]; subst;
    try (tidy_now; fail).
  - inversion HA; subst; tidy_now.
  - inversion HA as [ | | | | host pre scan rk i fd fd2 c0 _ _ HF _ ]; subst.
    split; [|first [apply no_overrun_done|apply no_overrun_freed]]. intros q d [Hin|Hin]; [|exact (Hok q d Hin)].
    inversion Hin; subst.
    destruct HF as (_ & _ & _ & _ & _ & _ & _ & _ & _ & _ & Hz & _).
    rewrite Hz. unfold VMCORE_BUFSZ. lia.
Qed.

Lemma timeout_clients_tidy w :
  daemon_ok w -> buf_ok (g_clients w) -> tidy timeout_clients w.
Proof.
  intros Hd Hok.
  change (wp timeout_clients w (fun r w' => buf_ok (g_clients w') /\ no_overrun r)).
  destruct w as [cl ch gs now lc en bk tr]. cbn [g_clients] in *.
  unfold timeout_clients. do 2 wstep. do 2 wstep.
  destruct (signed64 (now - lc) <? CLIENT_TPASS).
  - wstep. tidy_now.
  - do 2 wstep. do 2 wstep.
    apply (wp_sweep ch gs now now bk cl []); [apply Hd|].
    intros evs en' kept' HS. cbn [app g_clients].
    rewrite (sweep_run_filter _ _ _ _ _ HS). tidy_now.
Qed.

Lemma tidy_wp {A} (m : M A) w :
  tidy m w -> wp m w (fun r w' => buf_ok (g_clients w') /\ no_overrun r).
Proof. exact (fun H => H). Qed.

Lemma wp_tidy {A} (m : M A) w :
  wp m w (fun r w' => buf_ok (g_clients w') /\ no_overrun r) -> tidy m w.
Proof. exact (fun H => H). Qed.

Lemma wp_both {A} (m : M A) w (P Q : outcome A -> world -> Prop) :
  wp m w P -> wp m w Q -> wp m w (fun r w' => P r w' /\ Q r w').
Proof. unfold wp. auto. Qed.

Lemma dispatch_tidy evs : forall w,
  daemon_ok w -> buf_ok (g_clients w) -> tidy (dispatch evs) w.
Proof.
  induction evs as [|ev rest IH]; intros w Hd Hok; cbn [dispatch];
    [split; [exact Hok|apply no_overrun_done]|].
  apply wp_tidy.
  change (wp (match filter ev with
              | EVFILT_READ =>
                gs <- gets g_sock ;;
                if signed32 (ident ev) =? gs then
                  rc <- server_event ;;
                  if negb (rc =? 0) then ret (Return_ 1) else dispatch rest
                else client_event (udata ev) ;;; dispatch rest
              | EVFILT_SIGNAL => ret Goto_out
              | EVFILT_other n => LOGERR "unexpected event %d" [AInt n] ;;; ret Again
              end) w (fun r w' => buf_ok (g_clients w') /\ no_overrun r)).
  destruct (filter ev).
  - apply wp_bind, wp_gets. apply wp_if; intros _.
    + apply wp_bind.
      apply wp_conseq with
        (Q := fun r w' => daemon_ok w' /\ buf_ok (g_clients w') /\ no_overrun r).
      { apply wp_both; [apply wp_ok, server_event_ok, Hd|].
        apply tidy_wp, server_event_tidy; assumption. }
      intros [rc|f] w1 (H1 & H2 & H3).
      * apply wp_if; intros _; [tidy_now|]. apply tidy_wp, IH; assumption.
      * split; [exact H2|]. exact (no_overrun_crash _ H3).
    + apply wp_bind.
      apply wp_conseq with
        (Q := fun r w' => daemon_ok w' /\ buf_ok (g_clients w') /\ no_overrun r).
      { apply wp_both; [apply wp_ok, client_event_ok, Hd|].
        apply tidy_wp, client_event_tidy; assumption. }
      intros [[]|f] w1 (H1 & H2 & H3).
      * apply tidy_wp, IH; assumption.
      * split; [exact H2|]. exact (no_overrun_crash _ H3).
  - split; [exact Hok|apply no_overrun_done].
  - destruct w. repeat wstep. split; [exact Hok|apply no_overrun_done].
Qed.

Lemma eventloop_wake_tidy w :
  daemon_ok w -> buf_ok (g_clients w) -> tidy eventloop_wake w.
Proof.
  intros Hd Hok. apply wp_tidy.
  destruct w as [cl ch gs now lc en bk tr]. unfold eventloop_wake.
  do 2 wstep. intros k. apply wp_if; intros _.
  - do 2 wstep. apply wp_if; intros _; repeat wstep; tidy_now.
  - do 2 wstep. intros t. do 2 wstep. apply wp_bind.
    apply wp_conseq with
      (Q := fun r w' => daemon_ok w' /\ buf_ok (g_clients w') /\ no_overrun r).
    { apply wp_both; [apply wp_ok, dispatch_ok, Hd|].
      apply tidy_wp, dispatch_tidy; assumption. }
    intros [[| |]|f] w1 (H1 & H2 & H3); try (tidy_now; fail).
    + apply wp_bind.
      apply wp_conseq with (Q := fun r w' => buf_ok (g_clients w') /\ no_overrun r);
        [apply tidy_wp, timeout_clients_tidy; assumption|].
      intros [[]|f] w2 (H4 & H5); [tidy_now|].
      split; [exact H4|]. exact (no_overrun_crash _ H5).
    + split; [exact H2|]. exact (no_overrun_crash _ H3).
Qed.

Lemma shutdown_tidy n : forall w,
  daemon_ok w -> buf_ok (g_clients w) -> tidy (shutdown n) w.
Proof.
  induction n as [|n IH]; intros w Hd Hok; [split; [exact Hok|apply no_overrun_done]|].
  apply wp_tidy. cbn [shutdown].
  apply wp_bind, wp_gets. destruct (g_clients w) as [|[p c] l] eqn:El;
    [split; [cbn [snd ret]; rewrite El; exact Hok|apply no_overrun_done]|].
  destruct w as [cl ch gs now lc en bk tr]. cbn [g_clients] in El, Hok. subst cl.
  assert (Hp : lookup p ((p, c) :: l) = Some c) by (cbn; now rewrite Pos.eqb_refl).
  destruct (infofile c) as [f|] eqn:Hf.
  - wstep. eapply wp_handle_timeout; [exact Hp|exact Hf|]. intros evs en' _.
    apply tidy_wp, IH.
    + unfold daemon_ok. cbn [g_clients brk]. now apply sessions_ok_remove.
    + cbn [g_clients]. auto.
  - exfalso. destruct Hd as ((_ & Hi) & _). apply (Hi p c); [now left|exact Hf].
Qed.

Lemma eventloop_from_tidy n : forall w,
  daemon_ok w -> buf_ok (g_clients w) -> tidy (eventloop_from n) w.
Proof.
  induction n as [|n IH]; intros w Hd Hok; [split; [exact Hok|apply no_overrun_done]|].
  unfold tidy. rewrite eventloop_from_step.
  pose proof (eventloop_wake_ok w Hd) as H1.
  destruct (eventloop_wake_tidy w Hd Hok) as [H2 H3].
  destruct (eventloop_wake w) as [[[|rc|]|f] w1]; cbn [fst snd] in *.
  - now apply IH.
  - tidy_now.
  - apply wp_tidy.
    destruct w1 as [cl ch gs now lc en bk tr]. do 2 wstep. do 2 wstep. wstep.
    apply wp_conseq with (Q := fun r w' => buf_ok (g_clients w') /\ no_overrun r);
      [apply tidy_wp, shutdown_tidy; assumption|].
    intros [[]|f] w2 (H4 & H5); [tidy_now|].
    split; [exact H4|]. exact (no_overrun_crash _ H5).
  - split; [exact H2|]. exact (no_overrun_crash _ H3).
Qed.

(** X14.  The staging buffer is never overrun.  When the payload size
    of a datagram is at most the size of the buffer and recv returns no
    more bytes than the packet it fills can hold, no run of eventloop
    copies past the end of a client's vmcorebuf, whatever the donors send
    and whatever fails: the run never ends in that fault, and every
    client's vmcorebufoff stays between 0 and VMCORE_BUFSZ.  The bound
    comes from the size check of client_event, which leaves mh_len at
    most NETDUMP_DATASIZE, and from the test before the flush in
    handle_vmcore.  Nor does a run ever hand a NULL stream to stdio: the
    info stream of a client on the list is open. *)
Theorem eventloop_never_overruns n w :
  daemon_ok w -> buf_ok (g_clients w) ->
  buf_ok (g_clients (snd (eventloop n w))) /\
  (forall p, fst (eventloop n w) <> Crash (BufferOverrun p)) /\
  fst (eventloop n w) <> Crash NullStream.
Proof.
  intros Hd Hok.
  assert (H : tidy (eventloop n) w).
  { apply wp_tidy.
    unfold eventloop. destruct w as [cl ch gs now lc en bk tr]. do 2 wstep.
    apply tidy_wp, eventloop_from_tidy; assumption. }
  destruct H as [H1 H2]. split; [exact H1|]. split.
  - intros p Hp. destruct (H2 _ Hp) as [q Hq]. discriminate.
  - intros Hp. destruct (H2 _ Hp) as [q Hq]. discriminate.
Qed.

End Safety.

(** ** The handler service *)

Lemma handler_limits_loop_zero l : forall hasfd hasscript,
  handler_limits_loop l hasfd hasscript = 0 <->
  Forall limit_allowed l /\
  (hasfd = true \/ exists fd, In ("handlerfd"%string, NvDescriptor fd) l) /\
  (hasscript = true \/ exists s, In ("handler_script"%string, NvString s) l).
Proof.
  induction l as [|[name v] rest IH]; intros hasfd hasscript; cbn [handler_limits_loop].
  - destruct hasfd, hasscript; cbn; unfold EINVAL; split.
    all: try (intros _; split; [constructor|split; now left]).
    all: try discriminate.
    all: intros (_ & [H|[? []]] & [H'|[? []]]); try discriminate; reflexivity.
  - destruct (is_nv_descriptor v && String.eqb name "handlerfd") eqn:E1.
    { apply andb_true_iff in E1. destruct E1 as [Ev En].
      apply String.eqb_eq in En. subst name.
      destruct v as [s|fd|n|t]; try discriminate.
      rewrite IH. split.
      - intros (HF & _ & Hs). split; [constructor; [left; cbn; eauto|exact HF]|].
        split; [right; exists fd; now left|].
        destruct Hs as [Hs|[s Hs]]; [now left|right; exists s; now right].
      - intros (HF & _ & Hs). split; [now inversion HF|]. split; [now left|].
        destruct Hs as [Hs|[s [Hs|Hs]]]; [now left|discriminate|right; now exists s]. }
    destruct (is_nv_string v && String.eqb name "handler_script") eqn:E2.
    { apply andb_true_iff in E2. destruct E2 as [Ev En].
      apply String.eqb_eq in En. subst name.
      destruct v as [s|fd|n|t]; try discriminate.
      rewrite IH. split.
      - intros (HF & Hd & _). split; [constructor; [right; cbn; eauto|exact HF]|].
        split; [|right; exists s; now left].
        destruct Hd as [Hd|[fd Hd]]; [now left|right; exists fd; now right].
      - intros (HF & Hd & _). split; [now inversion HF|]. split; [|now left].
        destruct Hd as [Hd|[fd [Hd|Hd]]]; [now left|discriminate|right; now exists fd]. }
    split; [unfold EINVAL; discriminate|].
    intros (HF & _). exfalso. inversion HF as [|x l0 Ha _]; subst.
    destruct Ha as [(Hn & fd & Hv)|(Hn & s & Hv)]; cbn [fst snd] in Hn, Hv; subst.
    + cbn in E1. discriminate.
    + cbn in E2. discriminate.
Qed.

Lemma handler_limits_loop_rc l : forall hasfd hasscript,
  handler_limits_loop l hasfd hasscript = 0 \/
  handler_limits_loop l hasfd hasscript = EINVAL.
Proof.
  induction l as [|[name v] rest IH]; intros hasfd hasscript; cbn [handler_limits_loop].
  - destruct (negb hasfd || negb hasscript); auto.
  - destruct (is_nv_descriptor v && String.eqb name "handlerfd"); [apply IH|].
    destruct (is_nv_string v && String.eqb name "handler_script"); [apply IH|now right].
Qed.

(** X15.  handler_limits accepts a set of limits exactly when none was
    set before, every element is the descriptor handlerfd or the string
    handler_script, and both are there; an element of either name with
    another type, or any other element, makes it fail.  Once limits are
    set every further attempt is refused with ENOTCAPABLE, whatever it
    asks for; a first attempt that is not accepted fails with EINVAL. *)
Theorem handler_limits_accepts old new :
  (handler_limits old new = 0 <->
   old = None /\ Forall limit_allowed new /\
   (exists fd, In ("handlerfd"%string, NvDescriptor fd) new) /\
   (exists s, In ("handler_script"%string, NvString s) new)) /\
  (old <> None -> handler_limits old new = ENOTCAPABLE) /\
  (old = None -> handler_limits old new = 0 \/ handler_limits old new = EINVAL).
Proof.
  split; [|split].
  - destruct old as [o|]; cbn [handler_limits].
    + split; [unfold ENOTCAPABLE; discriminate|intros [H _]; discriminate].
    + rewrite handler_limits_loop_zero. split.
      * intros (HF & [Hd|Hd] & [Hs|Hs]); try discriminate. auto.
      * intros (_ & HF & Hd & Hs). auto.
  - destruct old; [reflexivity|congruence].
  - intros ->. apply handler_limits_loop_rc.
Qed.

Lemma get_descriptor_in l name fd :
  In (name, NvDescriptor fd) l -> exists fd', nvlist_get_descriptor l name = Some fd'.
Proof.
  induction l as [|[k v] rest IH]; intros Hin; [destruct Hin|].
  destruct Hin as [E|Hin].
  - inversion E; subst. cbn. rewrite String.eqb_refl. eauto.
  - destruct (IH Hin) as [fd' H]. cbn [nvlist_get_descriptor].
    destruct v; eauto. destruct (String.eqb k name); eauto.
Qed.

Lemma get_string_in l name s :
  In (name, NvString s) l -> exists s', nvlist_get_string l name = Some s'.
Proof.
  induction l as [|[k v] rest IH]; intros Hin; [destruct Hin|].
  destruct Hin as [E|Hin].
  - inversion E; subst. cbn. rewrite String.eqb_refl. eauto.
  - destruct (IH Hin) as [s' H]. cbn [nvlist_get_string].
    destruct v; eauto. destruct (String.eqb k name); eauto.
Qed.

(** X16.  Limits that handler_limits has accepted and a request as
    exec_handler sends it always let handler_command through: no element
    it asks for is missing, so the service never aborts.  It returns the
    errno of lseek or of fork when one of them fails, without going
    further; in the parent it returns 0; and in the child it hands
    fexecve the descriptor of the limits and the arguments script,
    reason, ip, hostname, infofile, corefile, in this order, and exits
    with status 1 when fexecve comes back. *)
Theorem accepted_limits_run_the_script wenv lim reason c :
  handler_limits None lim = 0 ->
  exists fd script,
    nvlist_get_descriptor lim "handlerfd" = Some fd /\
    nvlist_get_string lim "handler_script" = Some script /\
    let X := handler_command wenv "exec_handler" (Some lim)
               (as_nvlist (handler_request reason c)) in
    let argv := [script; NvStr reason; NvIp (ip c); NvStr (hostname c);
                 NvStr (infofilename c); NvStr (corefilename c)] in
    let r := wenv _ [] (Lseek fd 0) in
    let pid := wenv _ [WEv (Lseek fd 0) r] Fork in
    let x := wenv _ [WEv (Lseek fd 0) r; WEv Fork pid] (Fexecve fd argv) in
    fst X <> Aborted /\
    (fst r <> 0 -> X = (Returned (snd r), [WEv (Lseek fd 0) r])) /\
    (fst r = 0 -> fst pid < 0 ->
     X = (Returned (snd pid), [WEv (Lseek fd 0) r; WEv Fork pid])) /\
    (fst r = 0 -> 0 < fst pid ->
     X = (Returned 0, [WEv (Lseek fd 0) r; WEv Fork pid])) /\
    (fst r = 0 -> fst pid = 0 ->
     X = (if x then Replaced fd argv else Exited 1,
          [WEv (Lseek fd 0) r; WEv Fork pid; WEv (Fexecve fd argv) x])).
Proof.
  intros Hacc. cbn [handler_limits] in Hacc.
  apply handler_limits_loop_zero in Hacc.
  destruct Hacc as (_ & [Hd|[fd0 Hd]] & [Hs|[s0 Hs]]); try discriminate.
  destruct (get_descriptor_in _ _ _ Hd) as [fd Hfd].
  destruct (get_string_in _ _ _ Hs) as [script Hsc].
  exists fd, script. split; [exact Hfd|]. split; [exact Hsc|].
  cbv zeta. unfold handler_command. rewrite Hfd, Hsc.
  cbn [String.eqb Ascii.eqb Bool.eqb negb as_nvlist handler_request map fst snd
       nvlist_get_string app].
  set (r := wenv _ [] (Lseek fd 0)).
  set (pid := wenv _ [WEv (Lseek fd 0) r] Fork).
  destruct (Z.eqb_spec (fst r) 0) as [Hr|Hr]; cbn [negb].
  2:{ split; [discriminate|]. repeat split; intros; try contradiction; reflexivity. }
  destruct (Z.ltb_spec (fst pid) 0) as [Hp|Hp].
  { split; [discriminate|]. repeat split; intros; try lia; reflexivity. }
  destruct (Z.eqb_spec (fst pid) 0) as [Hz|Hz].
  - split; [destruct (wenv _ _ (Fexecve _ _)); discriminate|].
    repeat split; intros; try lia; try contradiction; reflexivity.
  - split; [discriminate|]. repeat split; intros; try lia; try contradiction; reflexivity.
Qed.

(** X17.  handler_command at its edges, for any request and any limits.
    A command other than exec_handler gets EINVAL and no call is made.
    With no limits set the service aborts before any call.  It forks
    only after lseek returned 0.  Whenever it returns to the service
    loop it has not called fexecve: what the daemon is told is at most
    that a child was started, never that the script ran.  And once it
    has called fexecve it does not return: the process is the script, or
    it exits with status 1. *)
Theorem handler_command_edges wenv cmd limits nvlin :
  let X := handler_command wenv cmd limits nvlin in
  (cmd <> "exec_handler"%string -> X = (Returned EINVAL, [])) /\
  (cmd = "exec_handler"%string -> limits = None -> X = (Aborted, [])) /\
  (existsb is_fork (snd X) = true ->
   exists fd r rest, snd X = WEv (Lseek fd 0) r :: rest /\ fst r = 0) /\
  (forall rc, fst X = Returned rc -> existsb is_fexecve (snd X) = false) /\
  (existsb is_fexecve (snd X) = true ->
   exists fd argv pid,
     existsb is_fork (snd X) = true /\ In (WEv Fork pid) (snd X) /\ fst pid = 0 /\
     (fst X = Replaced fd argv \/ fst X = Exited 1)).
Proof.
  cbv zeta. unfold handler_command.
  destruct (String.eqb_spec cmd "exec_handler") as [Hc|Hc]; cbn [negb].
  2:{ repeat split; intros; try contradiction; try discriminate. }
  destruct (match limits with
            | Some l => nvlist_get_descriptor l "handlerfd"
            | None => None
            end) as [fd|] eqn:Hfd.
  2:{ repeat split; intros; try contradiction; try discriminate; reflexivity. }
  assert (Hl : limits <> None) by (intros ->; discriminate).
  set (r := wenv _ [] (Lseek fd 0)).
  set (pid := wenv _ [WEv (Lseek fd 0) r] Fork).
  destruct (Z.eqb_spec (fst r) 0) as [Hr|Hr]; cbn [negb].
  2:{ repeat split; intros; try contradiction; try discriminate. }
  destruct (Z.ltb_spec (fst pid) 0) as [Hp|Hp].
  { repeat split; intros; try contradiction; try discriminate.
    eexists _, _, _. split; [reflexivity|exact Hr]. }
  destruct (Z.eqb_spec (fst pid) 0) as [Hz|Hz].
  2:{ repeat split; intros; try contradiction; try discriminate.
      eexists _, _, _. split; [reflexivity|exact Hr]. }
  destruct (match limits with
            | Some l => nvlist_get_string l "handler_script"
            | None => None
            end) as [a0|];
    [|repeat split; intros; try contradiction; try discriminate;
      eexists _, _, _; split; [reflexivity|exact Hr]].
  destruct (nvlist_get_string nvlin "reason") as [a1|];
    [|repeat split; intros; try contradiction; try discriminate;
      eexists _, _, _; split; [reflexivity|exact Hr]].
  destruct (nvlist_get_string nvlin "ip") as [a2|];
    [|repeat split; intros; try contradiction; try discriminate;
      eexists _, _, _; split; [reflexivity|exact Hr]].
  destruct (nvlist_get_string nvlin "hostname") as [a3|];
    [|repeat split; intros; try contradiction; try discriminate;
      eexists _, _, _; split; [reflexivity|exact Hr]].
  destruct (nvlist_get_string nvlin "infofile") as [a4|];
    [|repeat split; intros; try contradiction; try discriminate;
      eexists _, _, _; split; [reflexivity|exact Hr]].
  destruct (nvlist_get_string nvlin "corefile") as [a5|];
    [|repeat split; intros; try contradiction; try discriminate;
      eexists _, _, _; split; [reflexivity|exact Hr]].
  cbv zeta. cbn [fst snd].
  split; [intros; contradiction|]. split; [intros; contradiction|].
  split; [intros _; eexists _, _, _; split; [reflexivity|exact Hr]|].
  split.
  - intros rc H. destruct (wenv _ _ (Fexecve _ _)); discriminate.
  - intros _. exists fd, [a0; a1; a2; a3; a4; a5], pid.
    split; [reflexivity|]. split; [right; now left|]. split; [exact Hz|].
    destruct (wenv _ _ (Fexecve _ _)); auto.
Qed.

(** ** The descriptors alloc_client leaves open *)

Lemma ledger_app a b S : ledger (a ++ b) S = ledger b (ledger a S).
Proof. apply fold_left_app. Qed.

Lemma ledger_logs logs : forall S, forallb is_log logs = true -> ledger logs S = S.
Proof.
  induction logs as [|e logs IH]; intros S H; [reflexivity|].
  cbn in H. apply andb_true_iff in H. destruct H as [He Hl].
  destruct e as [X c x]. destruct c; try discriminate. cbn. now apply IH.
Qed.

Lemma ledger_log line S : is_log line = true -> ledger [line] S = S.
Proof. intros H. apply ledger_logs. cbn. now rewrite H. Qed.

Lemma remove_one_head x l : remove_one x (x :: l) = l.
Proof. cbn. now rewrite Z.eqb_refl. Qed.

Lemma ledger_scan dir host idx scan res :
  scan_spec dir host idx scan res ->
  forall S,
    ledger scan S = match res with
                    | Some (_, fd, fd2) => fd2 :: fd :: S
                    | None => S
                    end.
Proof.
  induction 1 as [ | i rest r logs evs res Hr Hl _ IH
                 | i rest r fr ru log evs res Hr Hf Hl _ IH
                 | i rest r fr r2 ru logs evs res Hr Hf Hr2 Hl _ IH
                 | i rest r fr r2 Hr Hf Hr2 ]; intros S.
  - reflexivity.
  - change (ledger (_ :: logs ++ evs) S)
      with (ledger (logs ++ evs) (still_open S (Ev (Openat g_dumpdir_fd (info_name dir host i) excl_wronly) r))).
    apply Z.eqb_eq in Hr. cbn [still_open]. rewrite Hr.
    rewrite ledger_app, (ledger_logs logs) by exact Hl. apply IH.
  - apply Z.eqb_neq in Hr.
    destruct log as [X c x]; destruct c; try discriminate.
    cbn [ledger fold_left still_open]. rewrite Hr, remove_one_head. apply IH.
  - apply Z.eqb_neq in Hr. apply Z.eqb_eq in Hr2.
    change (ledger (_ :: _ :: _ :: _ :: _ :: logs ++ evs) S)
      with (ledger (logs ++ evs)
              (remove_one (fst r)
                 (still_open (still_open S (Ev (Openat g_dumpdir_fd (info_name dir host i) excl_wronly) r))
                    (Ev (Openat g_dumpdir_fd (core_name dir host i) excl_rdwr) r2)))).
    cbn [still_open]. rewrite Hr, Hr2, remove_one_head.
    rewrite ledger_app, (ledger_logs logs) by exact Hl. apply IH.
  - apply Z.eqb_neq in Hr. apply Z.eqb_neq in Hr2.
    cbn [ledger fold_left still_open]. now rewrite Hr, Hr2.
Qed.

Lemma ledger_names saddr names host S : name_lookup saddr names host -> ledger names S = S.
Proof. inversion 1; reflexivity. Qed.

Lemma ledger_close_sock sd S :
  ledger (close_sock sd) (S ++ [sd]) = if sd =? -1 then S ++ [sd] else remove_one sd (S ++ [sd]).
Proof. unfold close_sock. destruct (sd =? -1); reflexivity. Qed.

(** X18.  The descriptors alloc_client leaves open, counting what openat
    returned and what close and fclose were given.  When it returns a
    client, the socket it was handed, the client's info stream and its
    core file are open and nothing else.  When it returns NULL after
    calloc failed, the socket it was handed is still open: nothing closes
    it.  When it returns NULL for any other reason (no name, no free
    index, kevent refusing the socket), everything it opened is closed
    again and so is the socket, unless that is -1. *)
Theorem alloc_client_descriptors sd saddr dir w r w' :
  alloc_client sd saddr dir w = (r, w') ->
  exists evs res ok rest,
    r = Done res /\ trace w' = trace w ++ Ev Calloc ok :: rest /\
    evs = Ev Calloc ok :: rest /\
    match res with
    | Some p =>
      exists c f,
        lookup p (g_clients w') = Some c /\ infofile c = Some f /\ sock c = sd /\
        ledger evs [sd] = [corefd c; f; sd]
    | None =>
      g_clients w' = g_clients w /\
      ledger evs [sd] = if ok then (if sd =? -1 then [sd] else []) else [sd]
    end.
Proof.
  intros E. destruct (alloc_client_exact _ _ _ _ _ _ E) as (evs & res & -> & Ht & HR).
  inversion HR as [ line Hl
                  | names Hn
                  | names host rs logs scan line Hn Hlogs Hl HS
                  | names host rs logs scan i fd fd2 rk line Hn Hlogs Hl HS Hfd2 Hrk
                  | names host rs logs scan i fd fd2 rk c Hn Hlogs HS Hfd2 Hrk HF ];
    subst; eexists _, _, _, _; (split; [reflexivity|]); (split; [exact Ht|]);
    (split; [reflexivity|]).
  - split; [congruence|].
    destruct line as [X c x]; destruct c; try discriminate. reflexivity.
  - split; [congruence|].
    change (ledger (Ev Calloc true :: names ++ close_sock sd) [sd])
      with (ledger (names ++ close_sock sd) [sd]).
    rewrite ledger_app, (ledger_names _ _ _ _ Hn).
    unfold close_sock. destruct (sd =? -1) eqn:Es; [reflexivity|].
    cbn. now rewrite Z.eqb_refl.
  - split; [congruence|].
    change (ledger (Ev Calloc true :: ?l) [sd]) with (ledger l [sd]).
    rewrite ledger_app, (ledger_names _ _ _ _ Hn).
    change (ledger (Ev (Setsockopt_rcvbuf sd 131072) rs :: ?l) [sd]) with (ledger l [sd]).
    rewrite ledger_app, (ledger_logs logs) by exact Hlogs.
    rewrite ledger_app, (ledger_scan _ _ _ _ _ HS).
    change (ledger (line :: close_sock sd) [sd])
      with (ledger (close_sock sd) (ledger [line] [sd])).
    rewrite (ledger_log _ _ Hl).
    unfold close_sock. destruct (sd =? -1) eqn:Es; [reflexivity|].
    cbn. now rewrite Z.eqb_refl.
  - split; [congruence|].
    change (ledger (Ev Calloc true :: ?l) [sd]) with (ledger l [sd]).
    rewrite ledger_app, (ledger_names _ _ _ _ Hn).
    change (ledger (Ev (Setsockopt_rcvbuf sd 131072) rs :: ?l) [sd]) with (ledger l [sd]).
    rewrite ledger_app, (ledger_logs logs) by exact Hlogs.
    rewrite ledger_app, (ledger_scan _ _ _ _ _ HS).
    change (ledger (Ev (Kevent_add sd (brk w)) rk :: line :: ?l) [fd2; fd; sd])
      with (ledger l (ledger [line] [fd2; fd; sd])).
    rewrite (ledger_log _ _ Hl).
    change (ledger (Ev (Fclose fd) tt :: Ev (Close fd2) tt :: close_sock sd) [fd2; fd; sd])
      with (ledger (close_sock sd) (remove_one fd2 (remove_one fd [fd2; fd; sd]))).
    assert (Hrm : remove_one fd2 (remove_one fd [fd2; fd; sd]) = [sd]).
    { cbn [remove_one]. destruct (Z.eqb_spec fd fd2) as [->|Hne].
      - now rewrite remove_one_head.
      - rewrite Z.eqb_refl. now rewrite remove_one_head. }
    rewrite Hrm. unfold close_sock. destruct (sd =? -1) eqn:Es; [reflexivity|].
    cbn. now rewrite Z.eqb_refl.
  - destruct HF as (Hsock & _ & _ & _ & _ & _ & _ & Hfile & Hcore & _).
    exists c, fd. cbn [lookup]. rewrite Pos.eqb_refl.
    split; [reflexivity|]. split; [exact Hfile|]. split; [exact Hsock|].
    change (ledger (Ev Calloc true :: ?l) [sd]) with (ledger l [sd]).
    rewrite ledger_app, (ledger_names _ _ _ _ Hn).
    change (ledger (Ev (Setsockopt_rcvbuf sd 131072) rs :: ?l) [sd]) with (ledger l [sd]).
    rewrite ledger_app, (ledger_logs logs) by exact Hlogs.
    rewrite ledger_app, (ledger_scan _ _ _ _ _ HS). rewrite Hcore. reflexivity.
Qed.

(** ** The names of a new client *)

Lemma strip_domain_no_dot s : has_dot (strip_domain s) = false.
Proof.
  induction s as [|a s IH]; [reflexivity|]. cbn [strip_domain].
  destruct (Ascii.eqb a ".") eqn:E; [reflexivity|].
  unfold has_dot in *. cbn [list_ascii_of_string existsb].
  rewrite Ascii.eqb_sym, E. exact IH.
Qed.

Lemma strip_domain_cut s :
  (has_dot s = false /\ strip_domain s = s) \/
  (has_dot s = true /\ exists rest, s = (strip_domain s ++ String "." rest)%string).
Proof.
  induction s as [|a s IH]; [now left|]. cbn [strip_domain].
  destruct (Ascii.eqb a ".") eqn:E.
  - right. apply Ascii.eqb_eq in E. subst a. split; [reflexivity|]. now exists s.
  - unfold has_dot in *. cbn [list_ascii_of_string existsb].
    rewrite Ascii.eqb_sym, E. cbn [orb].
    destruct IH as [[H1 H2]|[H1 [rest H2]]].
    + left. split; [exact H1|]. now rewrite H2.
    + right. split; [exact H1|]. exists rest. cbn [String.append]. now rewrite <- H2.
Qed.

Lemma scan_spec_index dir host idx scan i fd fd2 :
  scan_spec dir host idx scan (Some (i, fd, fd2)) -> In i idx.
Proof.
  intros H. remember (Some (i, fd, fd2)) as res eqn:Er.
  induction H; try discriminate; try (right; auto; fail).
  inversion Er; subst. now left.
Qed.

(** X19.  The names alloc_client gives a new client.  When the reverse
    lookup succeeds the host name is the name it returned cut at its
    first dot, so it holds no dot; when it fails, the numeric name of the
    second lookup is taken as it is, dots and all.  The directory is the
    herald's path cut to MAXPATHLEN - 1 characters, and the two file
    names are the candidates info.host.i and vmcore.host.i of the same
    index i, below MAX_DUMPS. *)
Theorem alloc_client_names sd saddr dir w p w' :
  alloc_client sd saddr dir w = (Done (Some p), w') ->
  exists c r rest i,
    lookup p (g_clients w') = Some c /\
    trace w' = trace w ++ Ev Calloc true :: Ev (Cap_getnameinfo saddr true) r :: rest /\
    (fst r = 0 ->
     hostname c = strip_domain (snd r) /\ has_dot (hostname c) = false /\
     (has_dot (snd r) = false -> hostname c = snd r) /\
     (has_dot (snd r) = true ->
      exists domain, snd r = (hostname c ++ String "." domain)%string)) /\
    (fst r <> 0 ->
     exists r2 rest',
       rest = Ev (Cap_getnameinfo saddr false) r2 :: rest' /\ fst r2 = 0 /\
       hostname c = snd r2) /\
    path c = snprintf MAXPATHLEN dir /\
    (i < MAX_DUMPS)%nat /\
    infofilename c = info_name (path c) (hostname c) i /\
    corefilename c = core_name (path c) (hostname c) i.
Proof.
  intros E. destruct (alloc_client_exact _ _ _ _ _ _ E) as (evs & res & Hres & Ht & HR).
  inversion Hres; subst res. clear Hres E.
  destruct w' as [cl' ch' gs' now' lc' en' bk' tr']. cbn [g_clients trace] in *.
  inversion HR as [ | | | | names host rs logs scan i fd fd2 rk c Hn Hlogs HS Hfd2 Hrk HF ];
    subst.
  destruct HF as (_ & _ & _ & Hpath & Hhost & Hinfo & Hcore & _).
  assert (Hi : (i < MAX_DUMPS)%nat).
  { apply scan_spec_index in HS. apply in_seq in HS. lia. }
  assert (Hp : lookup (brk w) ((brk w, c) :: g_clients w) = Some c)
    by (cbn; now rewrite Pos.eqb_refl).
  rewrite <- Hpath in Hinfo, Hcore. rewrite <- Hhost in Hinfo, Hcore.
  inversion Hn as [ r Hr Hnames Hname | r r2 Hr Hr2 Hnames Hname | ];
    subst names; rewrite <- Hname in Hhost; clear Hname.
  - exists c, r, (Ev (Setsockopt_rcvbuf sd 131072) rs :: logs ++ scan
                    ++ [Ev (Kevent_add sd (brk w)) rk]), i.
    split; [exact Hp|]. split; [reflexivity|]. split; [|split; [intros; contradiction|]].
    + intros _. split; [exact Hhost|]. split; [rewrite Hhost; apply strip_domain_no_dot|].
      rewrite Hhost.
      destruct (strip_domain_cut (snd r)) as [[H1 H2]|[H1 [rest H2]]]; split; intros H3;
        try congruence. now exists rest.
    + repeat split; assumption.
  - exists c, r, (Ev (Cap_getnameinfo saddr false) r2
                    :: Ev (Setsockopt_rcvbuf sd 131072) rs :: logs ++ scan
                    ++ [Ev (Kevent_add sd (brk w)) rk]), i.
    split; [exact Hp|]. split; [reflexivity|]. split; [intros; contradiction|]. split.
    + intros _. eexists _, _. split; [reflexivity|]. split; [exact Hr2|exact Hhost].
    + repeat split; assumption.
Qed.

(** ** The candidate names *)

Lemma append_assoc a b c : ((a ++ b) ++ c)%string = (a ++ b ++ c)%string.
Proof. induction a as [|x a IH]; cbn; [reflexivity|now rewrite IH]. Qed.

Lemma substring_all s : forall n, (String.length s <= n)%nat -> substring 0 n s = s.
Proof.
  induction s as [|a s IH]; intros [|n] H; cbn in *; try reflexivity; try lia.
  now rewrite IH by lia.
Qed.

Lemma substring_cut a b : forall n,
  (n <= String.length a)%nat -> substring 0 n (a ++ b) = substring 0 n a.
Proof.
  induction a as [|x a IH]; intros [|n] H; cbn in *; try reflexivity; try lia.
  - now destruct b.
  - now rewrite IH by lia.
Qed.

Lemma append_cancel a b c : (a ++ b)%string = (a ++ c)%string -> b = c.
Proof. induction a as [|x a IH]; cbn; intros H; [exact H|]. inversion H. auto. Qed.

Lemma snprintf_fits s : (String.length s < MAXPATHLEN)%nat -> snprintf MAXPATHLEN s = s.
Proof. intros H. unfold snprintf. apply substring_all. lia. Qed.

Lemma snprintf_cut a b :
  (MAXPATHLEN - 1 <= String.length a)%nat ->
  snprintf MAXPATHLEN (a ++ b) = snprintf MAXPATHLEN a.
Proof. intros H. unfold snprintf. now apply substring_cut. Qed.

Lemma to_uint_nonnil n : Nat.to_uint n <> Decimal.Nil.
Proof.
  assert (H : Nat.to_uint n = Decimal.unorm (Nat.to_uint n))
    by (rewrite <- DecimalNat.Unsigned.to_of, DecimalNat.Unsigned.of_to; reflexivity).
  rewrite H. apply DecimalFacts.unorm_nonnil.
Qed.

Lemma decimal_inj i j : decimal i = decimal j -> i = j.
Proof.
  unfold decimal. intros H. apply (f_equal NilZero.uint_of_string) in H.
  rewrite !NilZero.usu in H by apply to_uint_nonnil.
  inversion H as [H1]. now apply DecimalNat.Unsigned.to_uint_inj.
Qed.

(** X20.  The candidate names of the scan.  As long as the full name
    path/info.host.i fits in MAXPATHLEN - 1 characters, distinct indices
    give distinct names.  Once path/info.host alone fills the buffer,
    snprintf cuts every candidate to the same name: all MAX_DUMPS rounds
    of the scan ask for one and the same file. *)
Theorem candidate_names dir host i j :
  ((String.length (dir ++ "/info." ++ host ++ "." ++ decimal i) < MAXPATHLEN)%nat ->
   (String.length (dir ++ "/info." ++ host ++ "." ++ decimal j) < MAXPATHLEN)%nat ->
   info_name dir host i = info_name dir host j -> i = j) /\
  ((MAXPATHLEN - 1 <= String.length (dir ++ "/info." ++ host))%nat ->
   info_name dir host i = info_name dir host j).
Proof.
  unfold info_name. split.
  - intros Hi Hj H. rewrite (snprintf_fits _ Hi), (snprintf_fits _ Hj) in H.
    do 4 apply append_cancel in H. now apply decimal_inj.
  - intros H.
    assert (A : forall k, (dir ++ "/info." ++ host ++ "." ++ decimal k)%string
                          = ((dir ++ "/info." ++ host) ++ "." ++ decimal k)%string).
    { intros k. rewrite !append_assoc. reflexivity. }
    rewrite (A i), (A j), (snprintf_cut _ ("." ++ decimal i) H),
      (snprintf_cut _ ("." ++ decimal j) H). reflexivity.
Qed.

(** ** What the core file holds *)

Lemma image_app fd a b img : image fd (a ++ b) img = image fd b (image fd a img).
Proof. apply fold_left_app. Qed.

Lemma image_logs fd logs : forall img, forallb is_log logs = true -> image fd logs img = img.
Proof.
  induction logs as [|e logs IH]; intros img H; [reflexivity|].
  cbn in H. apply andb_true_iff in H. destruct H as [He Hl].
  destruct e as [X c x]. destruct c; try discriminate. cbn. now apply IH.
Qed.

Lemma write_at_nil img off o : write_at img off [] o = img o.
Proof.
  unfold write_at. cbn [List.length Z.of_nat].
  destruct (Z.leb_spec off o); destruct (Z.ltb_spec o (off + 0)); cbn; try reflexivity; lia.
Qed.

Lemma write_at_ext img1 img2 off bytes o :
  img1 o = img2 o -> write_at img1 off bytes o = write_at img2 off bytes o.
Proof. intros H. unfold write_at. now rewrite H. Qed.

Lemma write_at_app img off a b o :
  write_at (write_at img off a) (off + Z.of_nat (List.length a)) b o
  = write_at img off (a ++ b) o.
Proof.
  unfold write_at. rewrite length_app, Nat2Z.inj_add.
  destruct (Z.leb_spec (off + Z.of_nat (List.length a)) o);
    destruct (Z.ltb_spec o (off + Z.of_nat (List.length a) + Z.of_nat (List.length b)));
    destruct (Z.leb_spec off o);
    destruct (Z.ltb_spec o (off + (Z.of_nat (List.length a) + Z.of_nat (List.length b))));
    destruct (Z.ltb_spec o (off + Z.of_nat (List.length a)));
    cbn [andb]; try lia; try reflexivity.
  - rewrite nth_error_app2 by lia. f_equal. lia.
  - rewrite nth_error_app1 by lia. reflexivity.
Qed.

Lemma memcpy_at_length buf off src len :
  0 <= off -> 0 <= len -> off + len <= Z.of_nat (List.length buf) ->
  len <= Z.of_nat (List.length src) ->
  List.length (memcpy_at buf off src len) = List.length buf.
Proof.
  intros Ho Hl Hb Hs. unfold memcpy_at.
  rewrite !length_app, !firstn_length_le, length_skipn by lia. lia.
Qed.

Lemma length_stage c pkt :
  0 <= vmcorebufoff c -> 0 <= mh_len pkt ->
  vmcorebufoff c + mh_len pkt <= Z.of_nat (List.length (vmcorebuf c)) ->
  mh_len pkt <= Z.of_nat (List.length (data pkt)) ->
  List.length (vmcorebuf (stage c pkt)) = List.length (vmcorebuf c).
Proof.
  intros. unfold stage. destruct (vmcorebufoff c =? 0); cproj;
    now apply memcpy_at_length.
Qed.

Lemma corefd_stage c pkt : corefd (stage c pkt) = corefd c.
Proof. unfold stage. destruct (vmcorebufoff c =? 0); reflexivity. Qed.

Lemma length_buffered c :
  0 <= vmcorebufoff c <= Z.of_nat (List.length (vmcorebuf c)) ->
  Z.of_nat (List.length (buffered c)) = vmcorebufoff c.
Proof. intros H. unfold buffered. rewrite firstn_length_le; lia. Qed.

(** X21.  handle_vmcore keeps the data.  Take the core file with the
    staged bytes laid down at their offset as what the file is going to
    hold.  After a VMCORE packet was handled and the client is still on
    the list, that is what it was before with the payload of the packet
    laid down at the offset of the packet: whether the packet was staged
    behind the bytes already there, or the buffer was written out first
    and the packet staged afresh, no byte is lost, moved or invented.
    The bounds on the buffer and the offsets hold again afterwards, so
    the statement applies packet after packet. *)
Theorem handle_vmcore_keeps_the_data p pkt w c f w' c' img :
  NoDup (map fst (g_clients w)) ->
  lookup p (g_clients w) = Some c -> infofile c = Some f ->
  0 <= vmcorebufoff c <= VMCORE_BUFSZ ->
  Z.of_nat (List.length (vmcorebuf c)) = VMCORE_BUFSZ ->
  0 <= vmcoreoff c < 2 ^ 62 ->
  0 <= mh_len pkt <= NETDUMP_DATASIZE -> NETDUMP_DATASIZE <= VMCORE_BUFSZ ->
  mh_len pkt <= Z.of_nat (List.length (data pkt)) ->
  0 <= mh_offset pkt < 2 ^ 62 ->
  handle_vmcore p pkt w = (Done tt, w') ->
  lookup p (g_clients w') = Some c' ->
  exists evs,
    trace w' = trace w ++ evs /\
    (forall o, pending c' (image (corefd c) evs img) o
               = write_at (pending c img) (mh_offset pkt) (payload pkt) o) /\
    corefd c' = corefd c /\
    0 <= vmcorebufoff c' <= VMCORE_BUFSZ /\
    Z.of_nat (List.length (vmcorebuf c')) = VMCORE_BUFSZ /\
    0 <= vmcoreoff c' < 2 ^ 62.
Proof.
  intros Hnd Hp Hf Hfill Hbuf Hoff Hlen HD Hdata Hpo E Hp'.
  destruct (handle_vmcore_run _ _ _ _ _ _ _ Hp Hf E) as (evs & Etr & _ & R).
  exists evs. split; [exact Etr|].
  assert (Hs : signed64 (vmcorebufoff c) = vmcorebufoff c)
    by (apply signed64_small; unfold VMCORE_BUFSZ in *; lia).
  assert (Hso : signed64 (mh_offset pkt) = mh_offset pkt) by (apply signed64_small; lia).
  assert (Hlb : Z.of_nat (List.length (buffered c)) = vmcorebufoff c)
    by (apply length_buffered; lia).
  inversion R as [ra logs c1 Hnf Hfit Hl | | rw ra logs c1 Hnf Hrw Hfit Hl
                   | | rw evs' c1 Hnf Hrw Hft ]; subst evs; subst c1.
  - (* staged, no flush *)
    match goal with H : update _ _ _ = g_clients w' |- _ => rewrite <- H in Hp' end.
    rewrite (lookup_update_const _ _ _ _ Hp) in Hp'. inversion Hp'; subst c'. clear Hp'.
    apply need_flush_false in Hnf; [|exact Hfill|lia].
    cbn [vmcorebufoff vmcoreoff set_any_data_rcvd] in Hnf. destruct Hnf as [Hroom Hcont].
    assert (Him : image (corefd c)
                    (progress_dot pkt ++ ack_event c (mh_seqno pkt) ra :: logs) img = img).
    { rewrite image_app, (image_logs _ _ _ (progress_dot_logs pkt)).
      change (image (corefd c) (ack_event c (mh_seqno pkt) ra :: logs) img)
        with (image (corefd c) logs img). now apply image_logs. }
    rewrite Him. rewrite corefd_stage.
    split; [|split; [reflexivity|split; [|split]]].
    + intros o. unfold pending at 1.
      destruct (Z.eq_dec (vmcorebufoff c) 0) as [Hz|Hz].
      * destruct (stage_fresh (set_any_data_rcvd true c) pkt) as (S1 & _ & S3);
          [exact Hz|unfold VMCORE_BUFSZ in *; lia|exact Hdata|].
        rewrite S1, S3, Hso. apply write_at_ext. unfold pending.
        assert (Hb : buffered c = []) by (unfold buffered; now rewrite Hz).
        rewrite Hb. symmetry. apply write_at_nil.
      * destruct Hcont as [Hc|Hc]; [contradiction|].
        rewrite wrap64_small in Hc by (unfold VMCORE_BUFSZ in *; lia).
        destruct (stage_behind (set_any_data_rcvd true c) pkt) as (S1 & _ & S3);
          [cproj; lia|cproj; lia|exact Hbuf|lia|].
        rewrite S1, S3. cproj. unfold pending.
        change (buffered (set_any_data_rcvd true c)) with (buffered c).
        rewrite <- write_at_app. rewrite Hlb, Hc. reflexivity.
    + rewrite vmcorebufoff_stage. cproj. unfold VMCORE_BUFSZ in *.
      rewrite wrap64_small; lia.
    + rewrite length_stage; cproj; lia.
    + unfold stage. cproj. destruct (vmcorebufoff c =? 0); cproj; lia.
  - (* written out, then staged *)
    match goal with H : update _ _ _ = g_clients w' |- _ => rewrite <- H in Hp' end.
    rewrite (lookup_update_const _ _ _ _ Hp) in Hp'. inversion Hp'; subst c'. clear Hp'.
    assert (Him : image (corefd c)
                    (progress_dot pkt ++ Ev (flush_call c) rw
                       :: ack_event c (mh_seqno pkt) ra :: logs) img
                  = pending c img).
    { rewrite image_app, (image_logs _ _ _ (progress_dot_logs pkt)).
      change (image (corefd c) (Ev (flush_call c) rw :: ack_event c (mh_seqno pkt) ra :: logs)
                img)
        with (image (corefd c) logs (written (corefd c) img (Ev (flush_call c) rw))).
      rewrite image_logs by exact Hl. unfold written, flush_call.
      fold (buffered c). rewrite Z.eqb_refl, Hlb, Hrw, Hs, Z.eqb_refl. reflexivity. }
    rewrite Him. rewrite corefd_stage.
    destruct (stage_fresh (set_vmcorebufoff 0 (set_any_data_rcvd true c)) pkt)
      as (S1 & S2 & S3); [reflexivity|unfold VMCORE_BUFSZ in *; lia|exact Hdata|].
    split; [|split; [reflexivity|split; [|split]]].
    + intros o. unfold pending at 1. rewrite S1, S3, Hso. reflexivity.
    + rewrite S2. lia.
    + rewrite length_stage; cproj; lia.
    + rewrite S1, Hso. exact Hpo.
  - (* the write failed: the client is gone *)
    exfalso.
    match goal with H : remove _ _ = g_clients w' |- _ => rewrite <- H in Hp' end.
    rewrite lookup_remove_same in Hp' by exact Hnd. discriminate.
Qed.

Lemma image_blind fd evs : forall img, existsb is_pwrite evs = false -> image fd evs img = img.
Proof.
  induction evs as [|e evs IH]; intros img H; [reflexivity|].
  cbn in H. apply orb_false_iff in H. destruct H as [He Hl].
  destruct e as [X c x]. destruct c; try discriminate; cbn; now apply IH.
Qed.

Lemma is_symlink_blind : blind_to_teardown is_symlink.
Proof. repeat split. Qed.

Lemma is_handler_request_blind : blind_to_teardown is_handler_request.
Proof. repeat split. Qed.

(** X22.  What an acknowledged FINISHED means.  When handle_finish has
    sent the acknowledgement, the core file holds everything the client
    had staged, written in one piece at its offset; vmcore.host.last and
    info.host.last have been made, in this order, and point to the core
    and the info file of this dump; one acknowledgement was sent, with
    the sequence number of the packet; and only then was the handler
    asked, with reason success, and the client released and taken off
    the list. *)
Theorem handle_finish_acknowledged p pkt w c f r w' img :
  lookup p (g_clients w) = Some c -> infofile c = Some f ->
  0 <= vmcorebufoff c <= VMCORE_BUFSZ ->
  vmcorebufoff c <= Z.of_nat (List.length (vmcorebuf c)) ->
  handle_finish p pkt w = (r, w') ->
  exists evs,
    trace w' = trace w ++ evs /\
    (existsb is_send evs = true ->
     image (corefd c) evs img = pending c img /\
     (exists r2 r4,
        List.filter is_symlink evs
        = [ Ev (Symlinkat (corefilename c) g_dumpdir_fd (core_last (path c) (hostname c))) r2;
            Ev (Symlinkat (infofilename c) g_dumpdir_fd (info_last (path c) (hostname c))) r4 ] /\
        fst r2 = 0 /\ fst r4 = 0) /\
     (exists ra, List.filter is_send evs = [ack_event c (mh_seqno pkt) ra]) /\
     precedes is_send is_handler_request evs /\
     precedes is_send is_release evs /\
     (g_caphandler w = true ->
      exists rh, List.filter is_handler_request evs
                 = [Ev (Cap_xfer_nvlist (handler_request "success" c)) rh]) /\
     g_clients w' = remove p (g_clients w)).
Proof.
  intros Hp Hf Hfill Hbuf E.
  destruct (handle_finish_run _ _ _ _ _ _ _ Hp Hf E) as (_ & evs & Etr & _ & R).
  exists evs. split; [exact Etr|]. intros Hsent.
  assert (Hs : signed64 (vmcorebufoff c) = vmcorebufoff c)
    by (apply signed64_small; unfold VMCORE_BUFSZ in *; lia).
  assert (Hlb : Z.of_nat (List.length (buffered c)) = vmcorebufoff c)
    by (apply length_buffered; lia).
  inversion R as [ rw fevs Hrw Hft | | | |
                 | rw r1 r2 r3 r4 f0 ra logs hevs fevs e0 e1 e2 Hrw H1 H2 H3 H4 Hf0 Hl Hh Hfr ];
    subst evs; try (cbn in Hsent; discriminate).
  { exfalso. cbn [existsb is_send orb] in Hsent.
    rewrite (flush_fail_blind is_send _ _ _ is_send_blind (fun _ => eq_refl)
               (fun _ _ _ _ => eq_refl) Hft) in Hsent. discriminate. }
  assert (f0 = f) by congruence. subst f0.
  assert (Bl : forall g, blind_to_teardown g ->
                 (forall r, g (Ev (Cap_xfer_nvlist (handler_request "success" c)) r) = false) ->
                 existsb g (logs ++ hevs ++ fevs) = false).
  { intros g Hg Hreq. rewrite !existsb_app.
    rewrite (logs_blind g logs (proj1 Hg) Hl).
    rewrite (handler_trace_blind g _ _ _ _ Hg Hreq Hh).
    now rewrite (free_trace_blind g _ _ Hg Hfr). }
  split; [|split; [|split; [|split; [|split; [|split]]]]].
  - rewrite image_app.
    rewrite (image_blind _ (logs ++ hevs ++ fevs))
      by (apply Bl; [apply is_pwrite_blind|reflexivity]).
    cbn [image fold_left written ack_event]. unfold flush_call.
    fold (buffered c). rewrite Z.eqb_refl, Hlb, Hrw, Hs, Z.eqb_refl. reflexivity.
  - exists r2, r4. rewrite filter_app.
    rewrite (filter_none is_symlink (logs ++ hevs ++ fevs))
      by (apply Bl; [apply is_symlink_blind|reflexivity]).
    split; [reflexivity|]. split; assumption.
  - exists ra. rewrite filter_app.
    rewrite (filter_none is_send (logs ++ hevs ++ fevs))
      by (apply Bl; [apply is_send_blind|reflexivity]).
    reflexivity.
  - cbn [app]. do 8 (apply precedes_cons; [reflexivity|]).
    apply precedes_head; reflexivity.
  - cbn [app]. do 8 (apply precedes_cons; [reflexivity|]).
    apply precedes_head; reflexivity.
  - match goal with H : _ = g_clients w' |- _ => clear H end.
    intros Hch. rewrite Hch in Hh. unfold handler_trace in Hh.
    destruct Hh as (rh & hl & -> & Hhl). exists rh. rewrite !filter_app.
    rewrite (filter_logs is_handler_request logs); [|intros; reflexivity|exact Hl].
    rewrite (filter_none is_handler_request fevs)
      by (apply (free_trace_blind _ c); [apply is_handler_request_blind|exact Hfr]).
    cbn. rewrite (filter_logs is_handler_request hl); [reflexivity|intros; reflexivity|exact Hhl].
  - congruence.
Qed.

(** * Start-up *)

Section StartupFacts.

Variable ienv : forall X, list Startup.ievent -> Startup.icall X -> X.

Variable NETDUMP_PORT : Z.

Lemma iwp_bind {A B} (m : Startup.I A) (k : A -> Startup.I B) g Q :
  iwp m g (fun r g1 => match r with
                       | Startup.Ret a => iwp (k a) g1 Q
                       | Startup.Exit s => Q (Startup.Exit s) g1
                       end) ->
  iwp (Startup.bind m k) g Q.
Proof. unfold iwp, Startup.bind. destruct (m g) as [[a|s] g1]; cbn; auto. Qed.

Lemma iwp_sys {X} (c : Startup.icall X) g Q :
  (forall x, Q (Startup.Ret x) (Startup.record (Startup.IEv c x) g)) ->
  iwp (Startup.sys ienv c) g Q.
Proof. intros H. apply H. Qed.

Lemma iwp_ret {A} (a : A) g Q : Q (Startup.Ret a) g -> iwp (Startup.ret a) g Q.
Proof. exact (fun H => H). Qed.

Lemma iwp_exit {A} s g (Q : Startup.result A -> Startup.globals -> Prop) :
  Q (Startup.Exit s) g -> iwp (Startup.exit s) g Q.
Proof. exact (fun H => H). Qed.

Lemma iwp_gets {A} (f : Startup.globals -> A) g Q :
  Q (Startup.Ret (f g)) g -> iwp (Startup.gets f) g Q.
Proof. exact (fun H => H). Qed.

Lemma iwp_modify f g Q : Q (Startup.Ret tt) (f g) -> iwp (Startup.modify f) g Q.
Proof. exact (fun H => H). Qed.

Lemma iwp_if {A} (b : bool) (m1 m2 : Startup.I A) g Q :
  (b = true -> iwp m1 g Q) -> (b = false -> iwp m2 g Q) ->
  iwp (if b then m1 else m2) g Q.
Proof. destruct b; auto. Qed.

Ltac icbn :=
  cbn beta iota zeta delta
    [Startup.g_bindip Startup.g_debug Startup.g_dumpdir Startup.g_dumpdir_fd
     Startup.g_handler_script Startup.g_handler_fd Startup.g_pfh Startup.g_phook
     Startup.g_sock Startup.g_kq Startup.g_capdns Startup.g_capherald
     Startup.g_caphandler Startup.trace
     Startup.set_bindip Startup.set_debug Startup.set_dumpdir Startup.set_dumpdir_fd
     Startup.set_handler_script Startup.set_handler_fd Startup.set_pfh Startup.set_phook
     Startup.set_sock Startup.set_kq Startup.set_capdns Startup.set_capherald
     Startup.set_caphandler Startup.record add_events fst snd negb].

Ltac icbn_in H :=
  cbn beta iota zeta delta
    [Startup.g_bindip Startup.g_debug Startup.g_dumpdir Startup.g_dumpdir_fd
     Startup.g_handler_script Startup.g_handler_fd Startup.g_pfh Startup.g_phook
     Startup.g_sock Startup.g_kq Startup.g_capdns Startup.g_capherald
     Startup.g_caphandler Startup.trace
     Startup.set_bindip Startup.set_debug Startup.set_dumpdir Startup.set_dumpdir_fd
     Startup.set_handler_script Startup.set_handler_fd Startup.set_pfh Startup.set_phook
     Startup.set_sock Startup.set_kq Startup.set_capdns Startup.set_capherald
     Startup.set_caphandler Startup.record add_events fst snd negb] in H.

Ltac isimpl := icbn; repeat (progress (repeat rewrite <- app_assoc; cbn [app])).

Ltac istep :=
  lazymatch goal with
  | |- iwp (Startup.bind _ _) _ _ => apply iwp_bind
  | |- iwp (Startup.ret _) _ _ => apply iwp_ret
  | |- iwp (Startup.exit _) _ _ => apply iwp_exit
  | |- iwp (Startup.gets _) _ _ => apply iwp_gets
  | |- iwp (Startup.modify _) _ _ => apply iwp_modify
  | |- iwp (Startup.LOGERR_PERROR _ _) _ _ => unfold Startup.LOGERR_PERROR; apply iwp_sys; intros []
  | |- iwp (Startup.err _ _ _) _ _ => unfold Startup.err
  | |- iwp (Startup.errx _ _ _) _ _ => unfold Startup.errx
  | |- iwp (Startup.usage _ _) _ _ => unfold Startup.usage
  | |- iwp (Startup.get_script_option _ _) _ _ => unfold Startup.get_script_option
  | |- iwp (Startup.init_server_socket _ _) _ _ => unfold Startup.init_server_socket
  | |- iwp (Startup.init_kqueue _) _ _ => unfold Startup.init_kqueue
  | |- iwp (Startup.init_cap_mode _) _ _ => unfold Startup.init_cap_mode
  | |- iwp (Startup.cleanup _) _ _ => unfold Startup.cleanup
  | |- iwp (Startup.main_body _ _ _) _ _ => unfold Startup.main_body
  | |- iwp (@Startup.sys _ unit _) _ _ => apply iwp_sys; intros []
  | |- iwp (Startup.sys _ _) _ _ => apply iwp_sys; intros ?
  | |- iwp (if negb ?b then _ else _) _ _ =>
      first [ match goal with H : b = _ |- _ => rewrite H end
            | let E := fresh "E" in destruct b eqn:E ];
      cbn [negb]
  | |- iwp (if ?b then _ else _) _ _ =>
      first [ match goal with H : b = _ |- _ => rewrite H end
            | let E := fresh "E" in destruct b eqn:E ]
  | |- iwp (match ?x with _ => _ end) _ _ =>
      let E := fresh "E" in destruct x eqn:E
  end;
  isimpl.

(** The globals of a branch as one record. *)
Ltac iflat :=
  cbv beta iota delta
    [Startup.g_bindip Startup.g_debug Startup.g_dumpdir Startup.g_dumpdir_fd
     Startup.g_handler_script Startup.g_handler_fd Startup.g_pfh Startup.g_phook
     Startup.g_sock Startup.g_kq Startup.g_capdns Startup.g_capherald
     Startup.g_caphandler Startup.trace
     Startup.set_bindip Startup.set_debug Startup.set_dumpdir Startup.set_dumpdir_fd
     Startup.set_handler_script Startup.set_handler_fd Startup.set_pfh Startup.set_phook
     Startup.set_sock Startup.set_kq Startup.set_capdns Startup.set_capherald
     Startup.set_caphandler Startup.record add_events];
  isimpl.

(** Bring the tests of a branch to the form the predicates on events
    compute with. *)
Ltac inegb :=
  repeat match goal with
         | H : negb _ = true |- _ => apply negb_true_iff in H
         | H : negb _ = false |- _ => apply negb_false_iff in H
         end.

Ltac itests :=
  inegb;
  repeat match goal with
         | H : ?b = true |- context [?b] => rewrite H
         | H : ?b = false |- context [?b] => rewrite H
         end.

(** X24.  init_cap_mode and the channel to Casper.  It returns 0 or 1
    and never ends the process.  The channel that cap_init opened is
    closed once, as the last thing init_cap_mode does, on every path,
    and when cap_init failed nothing is closed.  It returns 0 exactly
    when cap_init, cap_enter, every cap_service_open and every
    cap_limit_set succeeded; what cap_rights_limit replied on the dump
    directory plays no part, the run goes on to open system.dns whatever
    it was.  The handler service is asked for limits only when a script
    was given, and the limits asked are such as handler_limits accepts. *)
Theorem init_cap_mode_closes_casper g :
  let X := Startup.init_cap_mode ienv g in
  exists evs,
    Startup.trace (snd X) = Startup.trace g ++ evs /\
    (fst X = Startup.Ret 0 \/ fst X = Startup.Ret 1) /\
    (fst X = Startup.Ret 0 <-> existsb cap_failure evs = false) /\
    List.filter is_casper_close evs
    = (if existsb cap_failure (List.filter is_cap_init evs) then []
       else [Startup.IEv (Startup.Cap_close "casper") tt]) /\
    (existsb is_casper_close evs = true ->
     exists pre, evs = pre ++ [Startup.IEv (Startup.Cap_close "casper") tt]) /\
    (existsb is_rights_limit evs = true -> existsb is_dns_open evs = true) /\
    (forall lim, handler_limits_asked evs = Some lim ->
       handler_limits None lim = 0 /\ Startup.g_handler_script g <> None) /\
    (Startup.g_caphandler g = false -> Startup.g_caphandler (snd X) = true ->
     Startup.g_handler_script g <> None).
Proof.
  cbv zeta.
  change (iwp (Startup.init_cap_mode ienv) g (fun r g' =>
    exists evs,
      Startup.trace g' = Startup.trace g ++ evs /\
      (r = Startup.Ret 0 \/ r = Startup.Ret 1) /\
      (r = Startup.Ret 0 <-> existsb cap_failure evs = false) /\
      List.filter is_casper_close evs
      = (if existsb cap_failure (List.filter is_cap_init evs) then []
         else [Startup.IEv (Startup.Cap_close "casper") tt]) /\
      (existsb is_casper_close evs = true ->
       exists pre, evs = pre ++ [Startup.IEv (Startup.Cap_close "casper") tt]) /\
      (existsb is_rights_limit evs = true -> existsb is_dns_open evs = true) /\
      (forall lim, handler_limits_asked evs = Some lim ->
         handler_limits None lim = 0 /\ Startup.g_handler_script g <> None) /\
      (Startup.g_caphandler g = false -> Startup.g_caphandler g' = true ->
       Startup.g_handler_script g <> None))).
  destruct g as [bindip debug dumpdir dumpdir_fd script hfd pfh ph sock kq dns her han tr].
  unfold Startup.init_cap_mode. isimpl.
  repeat istep.
  all: eexists; (split; [reflexivity|]).
  all: cbn [existsb List.filter cap_failure is_casper_close is_cap_init is_rights_limit
            is_dns_open handler_limits_asked String.eqb Ascii.eqb Bool.eqb orb negb app].
  all: itests.
  all: cbn [orb negb andb].
  all: repeat split; auto; try discriminate; try congruence.
  all: try (intros; discriminate).
  all: try (intros _; match goal with
                      | |- exists pre, ?l = pre ++ [_] => exists (removelast l); reflexivity
                      end).
  all: match goal with H : Some _ = Some _ |- _ => inversion H; reflexivity end.
Qed.

Lemma iwp_conseq {A} (m : Startup.I A) g (Q Q' : Startup.result A -> Startup.globals -> Prop) :
  iwp m g Q -> (forall r g', Q r g' -> Q' r g') -> iwp m g Q'.
Proof. unfold iwp. auto. Qed.

Lemma loop_code_skip p s : existsb is_eventloop p = false -> loop_code (p ++ s) = loop_code s.
Proof.
  induction p as [|e p IH]; intros H; [reflexivity|]. cbn in H.
  apply orb_false_iff in H. destruct H as [He Hp].
  destruct e as [X c x]. destruct c; try discriminate; cbn; now apply IH.
Qed.

Lemma existsb_class (P Q : Startup.ievent -> bool) l :
  (forall e, P e = true -> Q e = false) -> forallb P l = true -> existsb Q l = false.
Proof.
  intros H. induction l as [|e l IH]; [reflexivity|]. cbn. intros Hl.
  apply andb_true_iff in Hl. destruct Hl as [He Hl]. now rewrite (H e He), IH.
Qed.

Lemma parse_options_spec argv0 opts : forall pidfile g,
  iwp (Startup.parse_options ienv argv0 opts pidfile) g (fun r g' =>
    exists evs,
      Startup.trace g' = Startup.trace g ++ evs /\ forallb option_call evs = true /\
      options_keep g g' /\
      (r = Startup.Ret None \/ (exists pf, r = Startup.Ret (Some pf)) \/ r = Startup.Exit 1)).
Proof.
  induction opts as [|[ch optarg] rest IH]; intros pidfile g.
  - cbn. exists []. rewrite app_nil_r. repeat split. right. left. now exists pidfile.
  - destruct g as [bindip debug dumpdir dumpdir_fd script hfd pfh ph sock kq dns her han tr].
    cbn [Startup.parse_options].
    assert (K : forall pf g1 pre,
      Startup.trace g1 = tr ++ pre -> forallb option_call pre = true ->
      options_keep (Startup.mkGlobals bindip debug dumpdir dumpdir_fd script hfd pfh ph
                      sock kq dns her han tr) g1 ->
      iwp (Startup.parse_options ienv argv0 rest pf) g1 (fun r g' =>
        exists evs,
          Startup.trace g' = tr ++ evs /\ forallb option_call evs = true /\
          options_keep (Startup.mkGlobals bindip debug dumpdir dumpdir_fd script hfd pfh ph
                          sock kq dns her han tr) g' /\
          (r = Startup.Ret None \/ (exists pf, r = Startup.Ret (Some pf))
           \/ r = Startup.Exit 1))).
    { intros pf g1 pre Ht Hpre Hk. eapply iwp_conseq; [apply IH|].
      intros r g' (evs & Ht' & He & Hk' & Hr). exists (pre ++ evs).
      rewrite Ht', Ht, app_assoc. split; [reflexivity|].
      split; [rewrite forallb_app, Hpre, He; reflexivity|]. split; [|exact Hr].
      unfold options_keep in *. intuition congruence. }
    repeat istep.
    all: try (eapply K; isimpl; [reflexivity|reflexivity|repeat split]; fail).
    all: try (eapply (K _ _ []); isimpl;
              [symmetry; apply app_nil_r|reflexivity|repeat split]; fail).
    all: eexists; (split; [reflexivity|]); (split; [reflexivity|]);
      (split; [repeat split|]); auto.
Qed.

Lemma option_call_not_loop evs : forallb option_call evs = true -> existsb is_eventloop evs = false.
Proof. apply existsb_class. intros [X c x]. destruct c; try discriminate; reflexivity. Qed.

Lemma option_call_not_pidfile evs :
  forallb option_call evs = true ->
  existsb pidfile_opened evs = false /\ existsb is_pidfile_remove evs = false.
Proof.
  intros H. split; revert H; apply existsb_class; intros [X c x];
    destruct c; try discriminate; reflexivity.
Qed.

Lemma init_server_socket_spec g :
  iwp (Startup.init_server_socket ienv NETDUMP_PORT) g (fun r g' =>
    exists evs sd,
      g' = Startup.set_sock sd (add_events evs g) /\
      forallb (in_stage 9) evs = true /\
      (r = Startup.Ret 1 \/
       (r = Startup.Ret 0 /\ existsb bound evs = true /\
        existsb (bound_to sd (Startup.g_bindip g) NETDUMP_PORT) evs = true /\
        existsb nonblocking evs = true))).
Proof.
  destruct g as [bindip debug dumpdir dumpdir_fd script hfd pfh ph sock kq dns her han tr].
  unfold Startup.init_server_socket. repeat istep.
  all: iflat; eexists _, _; (split; [reflexivity|]); (split; [reflexivity|]).
  all: cbn; rewrite ?Z.eqb_refl; itests; cbn; auto 10.
Qed.

Lemma init_kqueue_spec g :
  iwp (Startup.init_kqueue ienv) g (fun r g' =>
    exists evs kq,
      g' = Startup.set_kq kq (add_events evs g) /\
      forallb (in_stage 10) evs = true /\
      (r = Startup.Ret 1 \/
       (r = Startup.Ret 0 /\ existsb socket_watched evs = true /\
        existsb signals_blocked evs = true /\ existsb signals_watched evs = true))).
Proof.
  destruct g as [bindip debug dumpdir dumpdir_fd script hfd pfh ph sock kq dns her han tr].
  unfold Startup.init_kqueue. repeat istep.
  all: iflat; eexists _, _; (split; [reflexivity|]); (split; [reflexivity|]).
  all: cbn; itests; cbn; auto 10.
Qed.

Lemma init_cap_mode_spec g :
  iwp (Startup.init_cap_mode ienv) g (fun r g' =>
    exists evs dns her han,
      g' = Startup.set_caphandler han
             (Startup.set_capherald her (Startup.set_capdns dns (add_events evs g))) /\
      forallb (in_stage 11) evs = true /\
      (r = Startup.Ret 1 \/
       (r = Startup.Ret 0 /\ existsb cap_entered evs = true /\
        existsb (service_limited "system.dns") evs = true /\
        existsb (service_limited "netdumpd.herald") evs = true /\
        match Startup.g_handler_script g with
        | Some _ => han = true /\ existsb (service_limited "netdumpd.handler") evs = true
        | None => han = Startup.g_caphandler g
        end))).
Proof.
  destruct g as [bindip debug dumpdir dumpdir_fd script hfd pfh ph sock kq dns her han tr].
  unfold Startup.init_cap_mode. isimpl. repeat istep.
  all: iflat; eexists _, _, _, _; (split; [reflexivity|]); (split; [reflexivity|]).
  all: cbn; itests; cbn; rewrite ?orb_true_r; auto 10.
Qed.

Lemma cleanup_spec g :
  iwp (Startup.cleanup ienv) g (fun r g' =>
    r = Startup.Ret tt /\
    exists evs,
      g' = add_events evs g /\ forallb (in_stage 13) evs = true /\
      List.filter is_pidfile_remove evs
      = if Startup.g_pfh g then [Startup.IEv Startup.Pidfile_remove tt] else []).
Proof.
  destruct g as [bindip debug dumpdir dumpdir_fd script hfd pfh ph sock kq dns her han tr].
  unfold Startup.cleanup. isimpl. repeat istep.
  all: iflat; split; [reflexivity|]; eexists; (split; [reflexivity|]); split; reflexivity.
Qed.

(** ** The order of the calls *)

Lemma stage_le_13 e n : stage_of e = Some n -> (n <= 13)%nat.
Proof.
  destruct e as [X c x]. destruct c; cbn; try discriminate;
    repeat match goal with |- context [if ?b then _ else _] => destruct b end;
    intros H; inversion H; lia.
Qed.

Lemma in_order_weaken t : forall c c',
  (c <= c')%nat -> in_order c' t = true -> in_order c t = true.
Proof.
  induction t as [|e t IH]; intros c c' Hc; [reflexivity|]. cbn.
  destruct (stage_of e) as [n|]; [|now apply IH].
  intros H. apply andb_true_iff in H. destruct H as [H1 H2].
  apply Nat.leb_le in H1. rewrite H2, andb_true_r. apply Nat.leb_le. lia.
Qed.

Lemma in_order_seg k seg rest : forall c,
  (c <=? k)%nat = true -> forallb (in_stage k) seg = true -> in_order k rest = true ->
  in_order c (seg ++ rest) = true.
Proof.
  induction seg as [|e seg IH]; intros c Hc Hs Hr.
  - apply Nat.leb_le in Hc. now apply (in_order_weaken rest c k).
  - cbn in Hs. apply andb_true_iff in Hs. destruct Hs as [He Hs]. cbn.
    unfold in_stage in He. destruct (stage_of e) as [n|].
    + apply Nat.eqb_eq in He. subst n. rewrite Hc. cbn.
      apply IH; auto. apply Nat.leb_refl.
    + now apply IH.
Qed.

Lemma in_order_seg_end k seg c :
  (c <=? k)%nat = true -> forallb (in_stage k) seg = true -> in_order c seg = true.
Proof.
  intros Hc Hs. rewrite <- (app_nil_r seg). now apply (in_order_seg k).
Qed.

Lemma in_order_then_cleanup a b : forall c,
  (c <= 13)%nat -> in_order c a = true -> forallb (in_stage 13) b = true ->
  in_order c (a ++ b) = true.
Proof.
  induction a as [|e a IH]; intros c Hc Ha Hb.
  - cbn. apply (in_order_seg_end 13); auto. now apply Nat.leb_le.
  - cbn in *. destruct (stage_of e) as [n|] eqn:E; [|now apply IH].
    apply andb_true_iff in Ha. destruct Ha as [H1 H2]. rewrite H1. cbn.
    apply IH; auto. now apply (stage_le_13 e).
Qed.

(** ** The event loop in a trace *)

Lemma loop_code_none t : existsb is_eventloop t = false -> loop_code t = None.
Proof.
  induction t as [|e t IH]; intros H; [reflexivity|]. cbn in H.
  apply orb_false_iff in H. destruct H as [He Ht].
  destruct e as [X c x]. destruct c; try discriminate; cbn; now apply IH.
Qed.

Lemma loop_args_none t : existsb is_eventloop t = false -> loop_args t = None.
Proof.
  induction t as [|e t IH]; intros H; [reflexivity|]. cbn in H.
  apply orb_false_iff in H. destruct H as [He Ht].
  destruct e as [X c x]. destruct c; try discriminate; cbn; now apply IH.
Qed.

Lemma loop_args_skip p s : existsb is_eventloop p = false -> loop_args (p ++ s) = loop_args s.
Proof.
  induction p as [|e p IH]; intros H; [reflexivity|]. cbn in H.
  apply orb_false_iff in H. destruct H as [He Hp].
  destruct e as [X c x]. destruct c; try discriminate; cbn; now apply IH.
Qed.

Lemma before_loop_skip p s :
  existsb is_eventloop p = false -> before_loop (p ++ s) = p ++ before_loop s.
Proof.
  induction p as [|e p IH]; intros H; [reflexivity|]. cbn in H.
  apply orb_false_iff in H. destruct H as [He Hp].
  destruct e as [X c x]. destruct c; try discriminate; cbn; now rewrite IH.
Qed.

Lemma loop_code_app a b rc : loop_code a = Some rc -> loop_code (a ++ b) = Some rc.
Proof.
  induction a as [|e a IH]; [discriminate|].
  destruct e as [X c x]. destruct c; cbn; auto.
Qed.

Lemma loop_args_app a b x : loop_args a = Some x -> loop_args (a ++ b) = Some x.
Proof.
  induction a as [|e a IH]; [discriminate|].
  destruct e as [X c r]. destruct c; cbn; auto.
Qed.

Lemma before_loop_app a b x : loop_args a = Some x -> before_loop (a ++ b) = before_loop a.
Proof.
  induction a as [|e a IH]; [discriminate|].
  destruct e as [X c r]. destruct c; cbn; auto; intros H; now rewrite IH.
Qed.

Lemma filter_no_match {A} (P : A -> bool) l : existsb P l = false -> List.filter P l = [].
Proof.
  induction l as [|a l IH]; [reflexivity|]. cbn. intros H.
  apply orb_false_iff in H. destruct H as [Ha Hl]. rewrite Ha. now apply IH.
Qed.

Lemma ready_after (L : list (Startup.ievent -> bool)) p a :
  forallb (fun ok => existsb ok a) L = true ->
  forallb (fun ok => existsb ok (p ++ a)) L = true.
Proof.
  intros H. apply forallb_forall. intros ok Hin.
  rewrite existsb_app. rewrite forallb_forall in H. rewrite (H ok Hin). apply orb_true_r.
Qed.

(** What the calls of one place are not. *)
Lemma stage_facts k l :
  forallb (in_stage k) l = true -> (k = 1 \/ k = 9 \/ k = 10 \/ k = 11)%nat ->
  existsb is_eventloop l = false /\ existsb is_pidfile_remove l = false /\
  existsb pidfile_opened l = false.
Proof.
  intros H Hk.
  repeat split; revert H; apply existsb_class; intros [X c x];
    unfold in_stage; destruct c; cbn; try reflexivity;
    destruct Hk as [->|[->|[->| ->]]]; cbn; discriminate.
Qed.

Lemma cleanup_facts l :
  forallb (in_stage 13) l = true ->
  existsb is_eventloop l = false /\ existsb pidfile_opened l = false.
Proof.
  intros H.
  repeat split; revert H; apply existsb_class; intros [X c x];
    unfold in_stage; destruct c; cbn; try reflexivity; discriminate.
Qed.

(** ** main *)

Ltac icall :=
  lazymatch goal with
  | |- iwp (Startup.init_server_socket _ _) _ _ =>
      eapply iwp_conseq; [apply init_server_socket_spec|];
      let evs := fresh "evs" in
      let Hst := fresh "Hst" in
      let Hb := fresh "Hb" in
      intros ? ? (evs & ? & -> & Hst & [-> | (-> & ? & Hb & ?)]);
      destruct (stage_facts 9 evs Hst ltac:(auto)) as (? & ? & ?);
      try icbn_in Hb
  | |- iwp (Startup.init_kqueue _) _ _ =>
      eapply iwp_conseq; [apply init_kqueue_spec|];
      let evs := fresh "evs" in
      let Hst := fresh "Hst" in
      intros ? ? (evs & ? & -> & Hst & [-> | (-> & ? & ? & ?)]);
      destruct (stage_facts 10 evs Hst ltac:(auto)) as (? & ? & ?)
  | |- iwp (Startup.init_cap_mode _) _ _ =>
      eapply iwp_conseq; [apply init_cap_mode_spec|];
      let evs := fresh "evs" in
      let Hst := fresh "Hst" in
      let Hh := fresh "Hh" in
      intros ? ? (evs & ? & ? & ? & -> & Hst & [-> | (-> & ? & ? & ? & Hh)]);
      destruct (stage_facts 11 evs Hst ltac:(auto)) as (? & ? & ?);
      try (icbn_in Hh;
           lazymatch type of Hh with
           | _ /\ _ => destruct Hh as [-> ?]
           | _ = _ => rewrite Hh
           end)
  end;
  isimpl; change (1 =? 0) with false; change (0 =? 0) with true; isimpl.

Ltac iorder :=
  repeat first
    [ reflexivity
    | match goal with
      | H : forallb (in_stage ?k) ?seg = true |- in_order _ (?seg ++ _) = true =>
          apply (in_order_seg k); [reflexivity | exact H | ]
      | H : forallb (in_stage ?k) ?seg = true |- in_order _ ?seg = true =>
          apply (in_order_seg_end k); [reflexivity | exact H]
      end
    | progress cbn [in_order stage_of has_flag existsb String.eqb Ascii.eqb Bool.eqb
                    orb andb Nat.leb app] ].

Ltac ibool :=
  cbn [existsb forallb needed app pidfile_opened is_pidfile_remove is_eventloop
       dumpdir_opened script_opened pidfile_written detached bound bound_to nonblocking
       socket_watched signals_blocked signals_watched cap_entered service_limited
       has_flag String.eqb Ascii.eqb Bool.eqb fst snd negb andb orb
       loop_code loop_args before_loop];
  rewrite ?loop_code_skip, ?loop_args_skip, ?before_loop_skip by assumption;
  cbn [existsb forallb app loop_code loop_args before_loop];
  rewrite ?existsb_app, ?app_nil_r;
  repeat match goal with
         | H : _ = true |- _ => rewrite H
         | H : _ = false |- _ => rewrite H
         end;
  cbn [negb andb orb];
  rewrite ?orb_true_r;
  cbn [negb andb orb].

Lemma main_body_spec pidfile g :
  iwp (Startup.main_body ienv NETDUMP_PORT pidfile) g (fun r g' =>
    exists evs, body_post NETDUMP_PORT g r g' evs).
Proof.
  destruct g as [bindip debug dumpdir dumpdir_fd script hfd pfh ph sock kq dns her han tr].
  unfold Startup.main_body. isimpl.
  repeat first [icall | istep].
  all: unfold body_post; iflat; eexists; (split; [reflexivity|]).
  all: inegb.
  all: do 3 (split; [reflexivity|]).
  all: split; [ibool; reflexivity|].
  all: split; [ibool; reflexivity|].
  all: split; [iorder|].
  all: try (left; split; [ibool; reflexivity | auto; fail]).
  all: right; eexists; split; [ibool; reflexivity|].
  all: split; [reflexivity|]; split; [ibool; reflexivity|].
  all: split; [ibool; reflexivity|]; split; [ibool; rewrite ?Z.eqb_refl; reflexivity|].
  all: intros; subst; reflexivity.
Qed.

(** What the loop over the options leaves in g_debug and
    g_handler_script when it runs to the end of the options. *)
Lemma parse_options_sets argv0 opts : forall pidfile g,
  iwp (Startup.parse_options ienv argv0 opts pidfile) g (fun r g' =>
    forall pf, r = Startup.Ret (Some pf) ->
      Startup.g_debug g' = Startup.g_debug g || debug_option opts /\
      Startup.g_handler_script g' = script_option opts (Startup.g_handler_script g)).
Proof.
  induction opts as [|[ch optarg] rest IH]; intros pidfile g.
  - cbn. intros pf _. now rewrite orb_false_r.
  - destruct g as [bindip debug dumpdir dumpdir_fd script hfd pfh ph sock kq dns her han tr].
    cbn [Startup.parse_options].
    repeat istep.
    all: try (intros pf H; discriminate).
    all: (eapply iwp_conseq; [apply IH|]); isimpl; intros r g' H pf Hr;
      destruct (H pf Hr) as [H1 H2]; rewrite H1, H2;
      unfold debug_option; cbn [existsb fst script_option];
      repeat match goal with
             | H : Ascii.eqb ?x _ = true |- _ => apply Ascii.eqb_eq in H; subst x
             end;
      cbn [Ascii.eqb Bool.eqb orb];
      (split; [destruct debug; reflexivity|reflexivity]).
Qed.

Lemma iwp_both {A} (m : Startup.I A) g (Q1 Q2 : Startup.result A -> Startup.globals -> Prop) :
  iwp m g Q1 -> iwp m g Q2 -> iwp m g (fun r g' => Q1 r g' /\ Q2 r g').
Proof. unfold iwp. auto. Qed.

(** The trace of main is the call of openlog, the calls of the options,
    those of the body and those of the cleanup; what holds of the parts
    gives what holds of the whole. *)
Lemma trace_post port (r : Startup.result Z) debug script bindip evs1 evsB evsC :
  forallb (in_stage 1) evs1 = true ->
  existsb is_pidfile_remove evsB = false ->
  in_order 2 evsB = true ->
  forallb (in_stage 13) evsC = true ->
  List.filter is_pidfile_remove evsC
  = (if existsb pidfile_opened evsB then [Startup.IEv Startup.Pidfile_remove tt] else []) ->
  ((existsb is_eventloop evsB = false /\ (r = Startup.Ret 1 \/ r = Startup.Exit 1)) \/
   (exists rc sd h,
      loop_code evsB = Some rc /\ r = Startup.Ret rc /\ loop_args evsB = Some (sd, h) /\
      forallb (fun ok => existsb ok (before_loop evsB)) (needed debug script) = true /\
      existsb (bound_to sd bindip port) (before_loop evsB) = true /\
      h = match script with Some _ => true | None => false end)) ->
  let t := Startup.IEv Startup.Openlog tt :: evs1 ++ evsB ++ evsC in
  match loop_code t with
  | Some rc => r = Startup.Ret rc
  | None => r = Startup.Ret 1 \/ r = Startup.Exit 1
  end /\
  List.filter is_pidfile_remove t
  = (if existsb pidfile_opened t then [Startup.IEv Startup.Pidfile_remove tt] else []) /\
  in_order 0 t = true /\
  (forall sd h, loop_args t = Some (sd, h) ->
   forallb (fun ok => existsb ok (before_loop t)) (needed debug script) = true /\
   existsb (bound_to sd bindip port) (before_loop t) = true /\
   h = match script with Some _ => true | None => false end).
Proof.
  intros H1 HrmB HoB HC HrmC Hloop. cbv zeta.
  destruct (stage_facts 1 evs1 H1 ltac:(auto)) as (L1 & R1 & P1).
  destruct (cleanup_facts evsC HC) as (LC & PC).
  cbn [loop_code loop_args before_loop List.filter is_pidfile_remove existsb pidfile_opened
       in_order stage_of Nat.leb andb orb].
  rewrite (loop_code_skip evs1), (loop_args_skip evs1), (before_loop_skip evs1) by exact L1.
  rewrite !filter_app, (filter_no_match _ _ R1), (filter_no_match _ _ HrmB), HrmC.
  rewrite !existsb_app, P1, PC, orb_false_r. cbn [app orb].
  split; [|split; [|split]].
  - destruct Hloop as [[LB Hr]|(rc & sd & h & Hc & Hr & _)].
    + rewrite (loop_code_skip evsB) by exact LB.
      now rewrite (loop_code_none evsC LC).
    + now rewrite (loop_code_app evsB evsC rc Hc).
  - reflexivity.
  - apply (in_order_seg 1); [reflexivity|exact H1|].
    apply (in_order_weaken _ 1 2); [lia|].
    apply in_order_then_cleanup; [lia|exact HoB|exact HC].
  - intros sd h Ha.
    destruct Hloop as [[LB Hr]|(rc & sd' & h' & Hc & Hr & Hargs & Hneed & Hb & Hh)].
    + rewrite (loop_args_skip evsB) in Ha by exact LB.
      rewrite (loop_args_none evsC LC) in Ha. discriminate.
    + rewrite (loop_args_app evsB evsC _ Hargs) in Ha. injection Ha as -> ->.
      rewrite (before_loop_app evsB evsC _ Hargs).
      split; [|split; [|exact Hh]].
      * apply (ready_after _ (Startup.IEv Startup.Openlog tt :: evs1)). exact Hneed.
      * change (existsb (bound_to sd bindip port)
                  ((Startup.IEv Startup.Openlog tt :: evs1) ++ before_loop evsB) = true).
        rewrite existsb_app, Hb. apply orb_true_r.
Qed.

(** main, from the globals as the loader leaves them. *)
Lemma main_runs argv0 opts :
  iwp (Startup.main ienv NETDUMP_PORT argv0 opts) Startup.at_start
    (main_post NETDUMP_PORT opts).
Proof.
  unfold Startup.main.
  apply iwp_bind, iwp_sys. intros [].
  apply iwp_bind, iwp_modify. apply iwp_bind.
  eapply iwp_conseq;
    [apply iwp_both; [apply parse_options_spec|apply parse_options_sets]|].
  intros r g1 [(evs1 & Ht1 & Ho1 & Hk1 & Hr1) Hset].
  cbn in Ht1, Hset.
  destruct Hk1 as (_ & _ & Kpfh & _ & _ & _ & _ & Khan). cbn in Kpfh, Khan.
  assert (Hnil : forall evsB : list Startup.ievent, evsB = [] ->
            existsb is_pidfile_remove evsB = false /\ in_order 2 evsB = true /\
            existsb is_eventloop evsB = false /\ existsb pidfile_opened evsB = false).
  { intros evsB ->. repeat split. }
  destruct Hr1 as [-> | [[pf ->] | ->]].
  - (* an option was refused: exit_code 1, and the cleanup *)
    apply iwp_bind, iwp_ret. apply iwp_bind.
    eapply iwp_conseq; [apply cleanup_spec|].
    intros r g3 (-> & evsC & -> & HC & Hf). apply iwp_ret.
    unfold main_post. cbn [Startup.trace add_events Startup.g_bindip].
    rewrite Ht1, Kpfh in *. cbn [app].
    pose proof (trace_post NETDUMP_PORT (Startup.Ret 1) (debug_option opts)
                  (script_option opts None) (Startup.g_bindip g1) evs1 [] evsC
                  Ho1 eq_refl eq_refl HC Hf (or_introl (conj eq_refl (or_introl eq_refl))))
      as HT.
    exact HT.
  - (* the options are read *)
    destruct (Hset pf eq_refl) as [Hdebug Hscript].
    apply iwp_bind.
    eapply iwp_conseq; [apply main_body_spec|].
    intros r g2 (evsB & HtB & HdB & HsB & HbB & HpB & HrmB & HoB & Hloop).
    assert (Hl : (existsb is_eventloop evsB = false /\
                  (r = Startup.Ret 1 \/ r = Startup.Exit 1)) \/
                 (exists rc sd h,
                    loop_code evsB = Some rc /\ r = Startup.Ret rc /\
                    loop_args evsB = Some (sd, h) /\
                    forallb (fun ok => existsb ok (before_loop evsB))
                      (needed (debug_option opts) (script_option opts None)) = true /\
                    existsb (bound_to sd (Startup.g_bindip g2) NETDUMP_PORT)
                      (before_loop evsB) = true /\
                    h = match script_option opts None with
                        | Some _ => true
                        | None => false
                        end)).
    { destruct Hloop as [[LB Hr]|(rc & Hc & Hr & Hargs & Hneed & Hb & Hh)].
      - left. split; [exact LB|]. destruct Hr as [Hr|[Hr _]]; auto.
      - right. exists rc, (Startup.g_sock g2), (Startup.g_caphandler g2).
        rewrite Hdebug, Hscript in Hneed. rewrite <- HbB in Hb.
        pose proof (Hh Khan) as Hh'. rewrite Hscript in Hh'.
        rewrite Hh' in Hargs |- *.
        repeat split; try assumption; reflexivity. }
    destruct r as [code|st].
    + apply iwp_bind.
      eapply iwp_conseq; [apply cleanup_spec|].
      intros r g3 (-> & evsC & -> & HC & Hf). apply iwp_ret.
      unfold main_post. cbn [Startup.trace add_events Startup.g_bindip].
      rewrite HtB, Ht1. rewrite HpB in Hf. rewrite <- app_assoc. cbn [app].
      exact (trace_post NETDUMP_PORT (Startup.Ret code) (debug_option opts)
               (script_option opts None) (Startup.g_bindip g2) evs1 evsB evsC
               Ho1 HrmB HoB HC Hf Hl).
    + unfold main_post. cbn [Startup.trace].
      rewrite HtB, Ht1. cbn [app].
      assert (HpF : existsb pidfile_opened evsB = false).
      { destruct Hloop as [[_ [Hr|[_ Hr]]]|(rc & _ & Hr & _)]; try discriminate.
        now rewrite <- HpB. }
      pose proof (trace_post NETDUMP_PORT (Startup.Exit st) (debug_option opts)
                    (script_option opts None) (Startup.g_bindip g2) evs1 evsB []
                    Ho1 HrmB HoB eq_refl) as HT.
      rewrite HpF in HT. specialize (HT eq_refl Hl).
      rewrite app_nil_r in HT. exact HT.
  - (* strdup failed: err ends the process, nothing is cleaned up *)
    unfold main_post. cbn [Startup.trace]. rewrite Ht1. cbn [app].
    pose proof (trace_post NETDUMP_PORT (Startup.Exit 1) (debug_option opts)
                  (script_option opts None) (Startup.g_bindip g1) evs1 [] []
                  Ho1 eq_refl eq_refl eq_refl eq_refl
                  (or_introl (conj eq_refl (or_intror eq_refl)))) as HT.
    cbn [app] in HT. rewrite app_nil_r in HT. exact HT.
Qed.

(** X25.  The value of main.  When main entered the event loop it
    returns what eventloop returned.  Otherwise it returns 1, or the
    process has ended with status 1 inside err or errx (strdup or
    pidfile_open failed).  The pid file is removed exactly when
    pidfile_open had succeeded, and then once: the runs that end in err
    are those in which it was not opened. *)
Theorem main_exit_code argv0 opts :
  let X := Startup.main ienv NETDUMP_PORT argv0 opts Startup.at_start in
  let t := Startup.trace (snd X) in
  match loop_code t with
  | Some rc => fst X = Startup.Ret rc
  | None => fst X = Startup.Ret 1 \/ fst X = Startup.Exit 1
  end /\
  List.filter is_pidfile_remove t
  = (if existsb pidfile_opened t then [Startup.IEv Startup.Pidfile_remove tt] else []).
Proof.
  cbv zeta. destruct (main_runs argv0 opts) as (H1 & H2 & _). split; assumption.
Qed.

(** X26.  The calls of main come in the order of its text, whatever
    fails: openlog; the calls of the options; pidfile_open; stat and
    access of the dump directory; its open; daemon; pidfile_write; the
    open of the script; socket, setsockopt, bind and fcntl; kqueue,
    kevent and sigprocmask; cap_enter and the Casper calls; eventloop;
    and last the calls of the cleanup.  No call of an earlier place
    follows a call of a later one. *)
Theorem main_calls_in_order argv0 opts :
  in_order 0
    (Startup.trace (snd (Startup.main ienv NETDUMP_PORT argv0 opts Startup.at_start)))
  = true.
Proof. destruct (main_runs argv0 opts) as (_ & _ & H & _). exact H. Qed.

(** X27.  main enters the event loop only when everything before it went
    well: the pid file was opened and written, the dump directory
    opened, the socket bound to g_bindip and the netdump port and made
    non-blocking, the socket and the signals registered with the kqueue
    and the signals blocked, capability mode entered and the DNS and
    herald services limited; the process has detached with daemon unless
    the option -D was given; and when a script was given with -i, the
    script was opened and the handler service limited.  The event loop
    is entered with a handler channel exactly when a script was given. *)
Theorem main_enters_loop_when_ready argv0 opts :
  let X := Startup.main ienv NETDUMP_PORT argv0 opts Startup.at_start in
  let t := Startup.trace (snd X) in
  forall sd h,
    loop_args t = Some (sd, h) ->
    forallb (fun ok => existsb ok (before_loop t))
      (needed (debug_option opts) (script_option opts None)) = true /\
    existsb (bound_to sd (Startup.g_bindip (snd X)) NETDUMP_PORT) (before_loop t) = true /\
    h = match script_option opts None with Some _ => true | None => false end.
Proof.
  cbv zeta. destruct (main_runs argv0 opts) as (_ & _ & _ & H). exact H.
Qed.

End StartupFacts.

End Netdumpd.

(** * The theorems at concrete inputs *)

Import Sample.

Lemma one_client_ok c : infofile c <> None -> clients_ok [(1%positive, c)].
Proof.
  intros Hc. split.
  - cbn. constructor; [intros []|constructor].
  - intros p d [H|[]]. inversion H; subst. exact Hc.
Defined.

(** A first packet of four bytes is staged within the buffer. *)
Lemma handle_vmcore_within_buffer_witness :
  let w := daemon [(1%positive, donor 1000 true 0 0)] 1000 1000 in
  let pkt := mkPkt NETDUMP_VMCORE 7 0 4 [1; 2; 3; 4] in
  let X := handle_vmcore (play quiet) NETDUMP_DATASIZE 1%positive pkt w in
  fst X = Done tt /\
  (g_clients (snd X) = remove 1%positive (g_clients w) \/
   exists c', g_clients (snd X) = update 1%positive (fun _ => c') (g_clients w) /\
              0 <= vmcorebufoff c' <= VMCORE_BUFSZ).
Proof.
  cbv zeta.
  apply (handle_vmcore_within_buffer (play quiet) NETDUMP_DATASIZE 1%positive
           (mkPkt NETDUMP_VMCORE 7 0 4 [1; 2; 3; 4])
           (daemon [(1%positive, donor 1000 true 0 0)] 1000 1000)
           (donor 1000 true 0 0) 11).
  - reflexivity.
  - reflexivity.
  - vm_compute. split; discriminate.
  - vm_compute. split; discriminate.
  - vm_compute. discriminate.
  - apply surjective_pairing.
Defined.

(** A first packet: nothing is written and the packet is staged as into
    an empty buffer. *)
Lemma handle_vmcore_staging_witness :
  let c := donor 1000 true 0 0 in
  let w := daemon [(1%positive, c)] 1000 1000 in
  let pkt := mkPkt NETDUMP_VMCORE 7 0 4 [1; 2; 3; 4] in
  let X := handle_vmcore (play quiet) NETDUMP_DATASIZE 1%positive pkt w in
  exists evs,
    trace (snd X) = trace w ++ evs /\ existsb is_pwrite evs = false /\
    exists c', lookup 1%positive (g_clients (snd X)) = Some c' /\ staged_fresh pkt c'.
Proof.
  cbv zeta.
  destruct (handle_vmcore_staging (play quiet) NETDUMP_DATASIZE 1%positive
              (mkPkt NETDUMP_VMCORE 7 0 4 [1; 2; 3; 4])
              (daemon [(1%positive, donor 1000 true 0 0)] 1000 1000)
              (donor 1000 true 0 0) 11 _ _
              eq_refl eq_refl
              ltac:(vm_compute; split; discriminate)
              ltac:(vm_compute; reflexivity)
              ltac:(vm_compute; split; discriminate)
              ltac:(vm_compute; discriminate)
              ltac:(vm_compute; discriminate)
              (surjective_pairing _)) as (evs & Ht & R1 & _).
  exists evs. split; [exact Ht|]. exact (R1 eq_refl).
Defined.

(** A VMCORE datagram of four bytes for the session of 10.0.0.1. *)
Lemma client_event_acks_witness :
  let c := donor 1000 true 0 0 in
  let w := daemon [(1%positive, c)] 1000 1000 in
  let s := mkScript [] [mkRecv 28 0 (mkPkt NETDUMP_VMCORE 7 0 4 [1; 2; 3; 4])] [1001] [] [] in
  let X := client_event (play s) g_dumpdir_fd NETDUMP_DATASIZE NETDUMP_KDH NETDUMP_VMCORE
             NETDUMP_FINISHED sizeof_netdump_msg_hdr sizeof_kerneldumpheader
             1%positive w in
  exists rr evs, trace (snd X) = trace w ++ Ev (Recv (sock c)) rr :: evs.
Proof.
  cbv zeta.
  destruct (client_event_acks
              (play (mkScript [] [mkRecv 28 0 (mkPkt NETDUMP_VMCORE 7 0 4 [1; 2; 3; 4])]
                       [1001] [] [])) g_dumpdir_fd
              NETDUMP_DATASIZE NETDUMP_KDH NETDUMP_VMCORE
              NETDUMP_FINISHED sizeof_netdump_msg_hdr sizeof_kerneldumpheader
              1%positive (daemon [(1%positive, donor 1000 true 0 0)] 1000 1000)
              (donor 1000 true 0 0) 11 _ _
              eq_refl eq_refl
              ltac:(vm_compute; split; discriminate)
              ltac:(vm_compute; discriminate)
              (surjective_pairing _)) as (rr & evs & Ht & _).
  exists rr, evs. exact Ht.
Defined.


(** A FINISHED packet when symlinkat fails for vmcore.donor.last: no
    acknowledgement, and the session stays on the list. *)
Lemma handle_finish_link_failure_witness :
  let c := donor 1000 true 0 0 in
  let w := daemon [(1%positive, c)] 1000 1000 in
  let s := mkScript [] [] [] [] [(3%nat, 13)] in
  let X := handle_finish (play s) g_dumpdir_fd 1%positive (mkPkt NETDUMP_FINISHED 9 0 0 []) w in
  existsb link_failure (trace (snd X)) = true /\
  fst X = Done tt /\
  existsb is_send (trace (snd X)) = false /\
  existsb is_handler_request (trace (snd X)) = false /\
  lookup 1%positive (g_clients (snd X)) = Some (set_vmcorebufoff 0 c).
Proof.
  cbv zeta.
  destruct (handle_finish_link_failure (play (mkScript [] [] [] [] [(3%nat, 13)])) g_dumpdir_fd
              1%positive (mkPkt NETDUMP_FINISHED 9 0 0 [])
              (daemon [(1%positive, donor 1000 true 0 0)] 1000 1000)
              (donor 1000 true 0 0) 11 _ _ eq_refl eq_refl (surjective_pairing _))
    as (evs & Ht & H).
  change (trace (daemon [(1%positive, donor 1000 true 0 0)] 1000 1000) ++ evs)
    with evs in Ht.
  rewrite <- Ht in H.
  assert (HL : existsb link_failure
                 (trace (snd (handle_finish (play (mkScript [] [] [] [] [(3%nat, 13)])) g_dumpdir_fd
                                1%positive (mkPkt NETDUMP_FINISHED 9 0 0 [])
                                (daemon [(1%positive, donor 1000 true 0 0)] 1000 1000))))
               = true) by (vm_compute; reflexivity).
  destruct (H HL) as (Hr & _ & Hs & Hh & _ & _ & _ & Hl).
  repeat split; assumption.
Defined.

(** The sweep at time 1000700 with one session last heard of at 1000000:
    it runs and ends the session. *)
Lemma timeout_clients_sweeps_witness :
  let w := daemon [(1%positive, donor 1000000 true 0 0)] 1000700 1000690 in
  let X := timeout_clients (play quiet) w in
  clients_ok (g_clients w) /\
  time_t_range (g_now w - g_last_timeout_check w) /\
  (forall p c, In (p, c) (g_clients w) -> time_t_range (last_msg c + CLIENT_TIMEOUT)) /\
  CLIENT_TPASS <= g_now w - g_last_timeout_check w /\
  fst X = Done tt /\ g_now (snd X) = g_now w /\
  g_last_timeout_check (snd X) = 1000700 /\ g_clients (snd X) = [] /\
  ~ In (1%positive, donor 1000000 true 0 0) (g_clients (snd X)).
Proof.
  cbv zeta.
  assert (Hok : clients_ok
                  (g_clients (daemon [(1%positive, donor 1000000 true 0 0)] 1000700 1000690)))
    by (apply one_client_ok; discriminate).
  assert (Hgap : time_t_range
                   (g_now (daemon [(1%positive, donor 1000000 true 0 0)] 1000700 1000690)
                    - g_last_timeout_check
                        (daemon [(1%positive, donor 1000000 true 0 0)] 1000700 1000690)))
    by (vm_compute; split; [discriminate|reflexivity]).
  assert (Hcl : forall p c,
            In (p, c) (g_clients (daemon [(1%positive, donor 1000000 true 0 0)]
                                    1000700 1000690)) ->
            time_t_range (last_msg c + CLIENT_TIMEOUT)).
  { intros p c [E|[]]. apply (f_equal snd) in E. cbn [snd] in E. subst c.
    vm_compute. split; [discriminate|reflexivity]. }
  split; [exact Hok|]. split; [exact Hgap|]. split; [exact Hcl|].
  split; [vm_compute; discriminate|].
  destruct (proj1 (timeout_clients_sweeps (play quiet) g_dumpdir_fd NETDUMP_DATASIZE
                     NETDUMP_KDH NETDUMP_VMCORE NETDUMP_FINISHED
                     sizeof_netdump_msg_hdr sizeof_kerneldumpheader)
              (daemon [(1%positive, donor 1000000 true 0 0)] 1000700 1000690)
              _ _ Hok Hgap Hcl (surjective_pairing _)) as (Hr & Hn & _ & _ & Hsweep).
  split; [exact Hr|]. split; [exact Hn|].
  destruct (Hsweep ltac:(vm_compute; discriminate)) as (Hl & _ & Hc & Hin).
  split; [exact Hl|]. split; [exact Hc|].
  apply (Hin 1%positive (donor 1000000 true 0 0)); [now left|].
  vm_compute. reflexivity.
Defined.

(** The first herald the daemon receives: calloc and the lookup of the
    name succeed, the scan runs, and nothing is unlinked by descriptor. *)
Lemma alloc_client_scans_names_witness :
  let X := alloc_client (play quiet) g_dumpdir_fd 20 167772161 "/var/crash" w0 in
  exists evs res,
    fst X = Done res /\ trace (snd X) = trace w0 ++ evs /\
    alloc_exact g_dumpdir_fd 20 167772161 "/var/crash" (g_now w0) (brk w0) (g_clients w0)
      evs res (g_clients (snd X)) /\
    existsb is_unlinkat evs = false.
Proof.
  cbv zeta.
  exact (proj1 (proj2 (alloc_client_scans_names (play quiet) g_dumpdir_fd))
           20 167772161 "/var/crash"%string w0 _ _ (surjective_pairing _)).
Defined.

(** A herald from 10.0.0.1 while the session of 10.0.0.1 has received
    data. *)
Lemma server_event_herald_after_data_witness :
  let s := mkScript [mkHerald 0 21 167772161 1 "/var/crash"] [] [] [] [] in
  let w := daemon [(1%positive, donor 1000 true 0 0)] 1002 1000 in
  let X := server_event (play s) g_dumpdir_fd w in
  clients_ok (g_clients w) /\
  exists h evs,
    trace (snd X) = trace w ++ Ev Cap_herald h :: evs /\
    forall p c,
      h_error h = 0 -> find_client (h_saddr h) (g_clients w) = Some p ->
      lookup p (g_clients w) = Some c -> any_data_rcvd c = true ->
      timeout_trace (g_caphandler w) c evs /\
      fst X = Crash (UseAfterFree p) /\
      g_clients (snd X) = remove p (g_clients w) /\
      lookup p (g_clients (snd X)) = None /\
      existsb is_calloc evs = false /\ existsb is_openat evs = false /\
      existsb is_send evs = false.
Proof.
  cbv zeta.
  assert (Hok : clients_ok
                  (g_clients (daemon [(1%positive, donor 1000 true 0 0)] 1002 1000)))
    by (apply one_client_ok; discriminate).
  split; [exact Hok|].
  exact (server_event_herald_after_data
           (play (mkScript [mkHerald 0 21 167772161 1 "/var/crash"] [] [] [] [])) g_dumpdir_fd
           (daemon [(1%positive, donor 1000 true 0 0)] 1002 1000)
           _ _ Hok (surjective_pairing _)).
Defined.

(** A herald from 10.0.0.1 while the session of 10.0.0.1 has received
    nothing yet. *)
Lemma herald_before_data_is_retransmit_witness :
  let s := mkScript [mkHerald 0 21 167772161 1 "/var/crash"] [] [] [] [] in
  let w := daemon [(1%positive, donor 1000 false 0 0)] 1002 1000 in
  let X := server_event (play s) g_dumpdir_fd w in
  clients_ok (g_clients w) /\
  exists h evs,
    trace (snd X) = trace w ++ Ev Cap_herald h :: evs /\
    forall p c,
      h_error h = 0 -> find_client (h_saddr h) (g_clients w) = Some p ->
      lookup p (g_clients w) = Some c -> any_data_rcvd c = false ->
      fst X = Done 0 /\ g_clients (snd X) = g_clients w /\
      existsb is_calloc evs = false /\ existsb is_openat evs = false /\
      exists ra logs,
        evs = Ev (Send (sock c) (htonl (h_seqno h))) ra :: logs /\
        forallb is_log logs = true.
Proof.
  cbv zeta.
  assert (Hok : clients_ok
                  (g_clients (daemon [(1%positive, donor 1000 false 0 0)] 1002 1000)))
    by (apply one_client_ok; discriminate).
  split; [exact Hok|].
  exact (proj1 (proj2 (proj2 (proj2 (proj2 (proj2 (herald_before_data_is_retransmit
           (play (mkScript [mkHerald 0 21 167772161 1 "/var/crash"] [] [] [] [])) g_dumpdir_fd
           NETDUMP_DATASIZE NETDUMP_KDH NETDUMP_VMCORE NETDUMP_FINISHED
           sizeof_netdump_msg_hdr sizeof_kerneldumpheader))))))
           (daemon [(1%positive, donor 1000 false 0 0)] 1002 1000)
           _ _ Hok (surjective_pairing _)).
Defined.

(** A VMCORE datagram received while g_now is 1000 and the clock reads
    1001. *)
Lemma wake_clock_readings_witness :
  let c := donor 990 true 0 0 in
  let w := daemon [(1%positive, c)] 1000 995 in
  let s := mkScript [] [mkRecv 28 0 (mkPkt NETDUMP_VMCORE 7 0 4 [1; 2; 3; 4])] [1001] [] [] in
  let X := client_event (play s) g_dumpdir_fd NETDUMP_DATASIZE NETDUMP_KDH NETDUMP_VMCORE
             NETDUMP_FINISHED sizeof_netdump_msg_hdr sizeof_kerneldumpheader
             1%positive w in
  clients_ok (g_clients w) /\
  exists rr evs,
    trace (snd X) = trace w ++ Ev (Recv (sock c)) rr :: evs /\
    g_now (snd X) = g_now w /\
    (accepted sizeof_netdump_msg_hdr rr ->
     exists t evs',
       evs = Ev Clock_time t :: evs' /\
       forall c', lookup 1%positive (g_clients (snd X)) = Some c' -> last_msg c' = t).
Proof.
  cbv zeta.
  assert (Hok : clients_ok
                  (g_clients (daemon [(1%positive, donor 990 true 0 0)] 1000 995)))
    by (apply one_client_ok; discriminate).
  split; [exact Hok|].
  exact (proj2 (proj2 (wake_clock_readings
           (play (mkScript [] [mkRecv 28 0 (mkPkt NETDUMP_VMCORE 7 0 4 [1; 2; 3; 4])]
                    [1001] [] [])) g_dumpdir_fd
           NETDUMP_DATASIZE NETDUMP_KDH NETDUMP_VMCORE NETDUMP_FINISHED
           sizeof_netdump_msg_hdr sizeof_kerneldumpheader))
           1%positive (daemon [(1%positive, donor 990 true 0 0)] 1000 995)
           (donor 990 true 0 0) 11 _ _ Hok eq_refl eq_refl (surjective_pairing _)).
Defined.

(** * Runs on which the specification and the program part *)

(** C1.  A herald, a VMCORE datagram and a second herald from 10.0.0.1,
    one per wake, from the start of eventloop: the second herald ends
    the session and then the daemon reads the client it freed.  One
    client was ever allocated, none is registered, and the two
    acknowledgements sent are those of the first herald and of the
    datagram. *)
Lemma second_herald_after_data_reads_freed_client :
  let s := mkScript
             [mkHerald 0 20 167772161 1 "/var/crash";
              mkHerald 0 21 167772161 2 "/var/crash"]
             [mkRecv 28 0 (mkPkt NETDUMP_VMCORE 7 0 4 [1; 2; 3; 4])]
             [1000; 1001; 1002; 1003]
             [mkKq 1 0 [mkKev EVFILT_READ 3 1%positive];
              mkKq 1 0 [mkKev EVFILT_READ 20 1%positive];
              mkKq 1 0 [mkKev EVFILT_READ 3 1%positive]] [] in
  let X := eventloop (play s) g_dumpdir_fd NETDUMP_DATASIZE NETDUMP_KDH NETDUMP_VMCORE
             NETDUMP_FINISHED sizeof_netdump_msg_hdr sizeof_kerneldumpheader
             3 w0 in
  fst X = Crash (UseAfterFree 1%positive) /\
  g_clients (snd X) = [] /\
  count_ev is_herald (trace (snd X)) = 2%nat /\
  count_ev is_calloc (trace (snd X)) = 1%nat /\
  List.filter is_send (trace (snd X))
  = [Ev (Send 20 [0; 0; 0; 1]) (4, 0); Ev (Send 20 [0; 0; 0; 7]) (4, 0)].
Proof. vm_compute. repeat split; reflexivity. Qed.

(** C2.  The buffer holds 127076 bytes for offset 0 and a packet of 100
    bytes arrives for offset 127076: it is contiguous and fits in the
    128 KiB, yet the buffer is written out first and the packet staged as
    into an empty buffer, because 127076 + NETDUMP_DATASIZE does not
    fit. *)
Lemma handle_vmcore_flushes_what_fits :
  let c := donor 990 true 127076 0 in
  let pkt := mkPkt NETDUMP_VMCORE 40 127076 100 (repeat 7 100%nat) in
  let X := handle_vmcore (play quiet) NETDUMP_DATASIZE 1%positive pkt
             (daemon [(1%positive, c)] 1000 1000) in
  (0 <? vmcorebufoff c) = true /\
  vmcoreoff c + vmcorebufoff c = mh_offset pkt /\
  (vmcorebufoff c + mh_len pkt <=? VMCORE_BUFSZ) = true /\
  existsb is_pwrite (trace (snd X)) = true /\
  option_map vmcoreoff (lookup 1%positive (g_clients (snd X))) = Some 127076 /\
  option_map vmcorebufoff (lookup 1%positive (g_clients (snd X))) = Some 100.
Proof. vm_compute. repeat split; reflexivity. Qed.

(** C3.  A FINISHED datagram of the right size is received and goes to
    handle_finish; symlinkat fails for vmcore.donor.last; nothing is
    sent. *)
Lemma finished_without_acknowledgement :
  let pkt := mkPkt NETDUMP_FINISHED 9 0 0 [] in
  let s := mkScript [] [mkRecv 24 0 pkt] [1000] [] [(5%nat, 13)] in
  let X := client_event (play s) g_dumpdir_fd NETDUMP_DATASIZE NETDUMP_KDH NETDUMP_VMCORE
             NETDUMP_FINISHED sizeof_netdump_msg_hdr sizeof_kerneldumpheader
             1%positive (daemon [(1%positive, donor 990 true 0 0)] 1000 1000) in
  24 - sizeof_netdump_msg_hdr = mh_len pkt /\
  fst X = Done tt /\
  nth_error (trace (snd X)) 0 = Some (Ev (Recv 13) (mkRecv 24 0 pkt)) /\
  existsb link_failure (trace (snd X)) = true /\
  count_ev is_send (trace (snd X)) = 0%nat.
Proof. vm_compute. repeat split; reflexivity. Qed.

(** C4.  The session of 10.0.0.1 has received nothing yet.  A datagram
    of type KDH arrives whose size matches its header but whose payload
    of 4 bytes is shorter than a kernel dump header: handle_kdh rejects
    it and nothing is sent, yet any_data_rcvd is now true.  The herald
    the donor sends again is then not answered as a retransmit: the
    session is ended and the freed client is read. *)
Lemma rejected_kdh_sets_any_data_rcvd :
  let pkt := mkPkt NETDUMP_KDH 5 0 4 [1; 2; 3; 4] in
  let s := mkScript [mkHerald 0 21 167772161 2 "/var/crash"] [mkRecv 28 0 pkt]
             [1001] [] [] in
  let w := daemon [(1%positive, donor 1000 false 0 0)] 1000 1000 in
  let X := client_event (play s) g_dumpdir_fd NETDUMP_DATASIZE NETDUMP_KDH NETDUMP_VMCORE
             NETDUMP_FINISHED sizeof_netdump_msg_hdr sizeof_kerneldumpheader
             1%positive w in
  let Y := server_event (play s) g_dumpdir_fd (snd X) in
  28 - sizeof_netdump_msg_hdr = mh_len pkt /\
  (mh_len pkt <? sizeof_kerneldumpheader) = true /\
  option_map any_data_rcvd (lookup 1%positive (g_clients w)) = Some false /\
  fst X = Done tt /\
  count_ev is_send (trace (snd X)) = 0%nat /\
  option_map any_data_rcvd (lookup 1%positive (g_clients (snd X))) = Some true /\
  fst Y = Crash (UseAfterFree 1%positive) /\
  g_clients (snd Y) = [] /\
  count_ev is_send (trace (snd Y)) = 0%nat.
Proof. vm_compute. repeat split; reflexivity. Qed.

(** C7.  The first herald the daemon receives.  The info file of index 0
    is created in the dump directory, the core file of index 0 exists
    already, and the unlink of the info file is refused, as it is in
    capability mode.  The session gets the files of index 1, and
    info.donor.0 is still in the dump directory.  The one line logged
    for the failed openat carries the errno of the unlink. *)
Lemma unlink_leaves_the_info_file :
  let s := mkScript [] [] [] [] [(5%nat, EEXIST); (7%nat, ECAPMODE)] in
  let X := alloc_client (play s) g_dumpdir_fd 20 167772161 "/var/crash" w0 in
  fst X = Done (Some 1%positive) /\
  map (fun qc => infofilename (snd qc)) (g_clients (snd X))
  = ["/var/crash/info.donor.1"%string] /\
  List.filter names_a_file (trace (snd X))
  = [ Ev (Openat 5 "/var/crash/info.donor.0" excl_wronly) (103, 0);
      Ev (Openat 5 "/var/crash/vmcore.donor.0" excl_rdwr) (-1, EEXIST);
      Ev (Unlink "/var/crash/info.donor.0") (-1, ECAPMODE);
      Ev (Openat 5 "/var/crash/info.donor.1" excl_wronly) (109, 0);
      Ev (Openat 5 "/var/crash/vmcore.donor.1" excl_rdwr) (111, 0) ] /\
  dump_files g_dumpdir_fd (trace (snd X)) []
  = [ "/var/crash/vmcore.donor.1"; "/var/crash/info.donor.1";
      "/var/crash/info.donor.0" ]%string /\
  In (Ev (Log LOG_ERR openat_fmt [AStr "/var/crash/vmcore.donor.0"; AErr ECAPMODE]) tt)
    (trace (snd X)).
Proof.
  vm_compute. repeat split; try reflexivity.
  do 8 right. left. reflexivity.
Qed.

(** C6.  The session of 10.0.0.1 was last heard of at 1000000 and the
    last sweep was at 1000590.  kevent times out at 1000600: the sweep
    runs and keeps the session, which is not yet stale.  A herald from
    10.0.0.2 wakes the daemon at 1000609: no sweep, 9 seconds after the
    last.  kevent times out at 1000619: the sweep runs, 19 seconds after
    the last, and ends the session, stale since 1000601. *)
Lemma stale_session_outlives_ten_seconds :
  let s := mkScript [mkHerald 0 20 167772162 1 "/var/crash"] []
             [1000600; 1000609; 1000619]
             [mkKq 0 0 []; mkKq 1 0 [mkKev EVFILT_READ 3 1%positive]; mkKq 0 0 []] [] in
  let wake := fun w =>
    snd (eventloop_wake (play s) g_dumpdir_fd NETDUMP_DATASIZE NETDUMP_KDH NETDUMP_VMCORE
           NETDUMP_FINISHED sizeof_netdump_msg_hdr sizeof_kerneldumpheader w) in
  let seen := fun w =>
    (g_now w, g_last_timeout_check w,
     option_map last_msg (lookup 1%positive (g_clients w))) in
  let wA := wake (daemon [(1%positive, donor 1000000 true 0 0)] 1000590 1000590) in
  let wB := wake wA in
  let wC := wake wB in
  seen wA = (1000600, 1000600, Some 1000000) /\
  seen wB = (1000609, 1000600, Some 1000000) /\
  seen wC = (1000619, 1000619, None).
Proof. vm_compute. repeat split; reflexivity. Qed.

(** C8.  One wake: kevent returns a read event for the session of
    10.0.0.1, the clock reads 1000, and 1001 when client_event asks
    again.  The wake ends with g_now 1000 and the session's last_msg
    1001. *)
Lemma last_msg_is_not_g_now :
  let s := mkScript [] [mkRecv 28 0 (mkPkt NETDUMP_VMCORE 7 0 4 [1; 2; 3; 4])]
             [1000; 1001] [mkKq 1 0 [mkKev EVFILT_READ 13 1%positive]] [] in
  let X := eventloop_wake (play s) g_dumpdir_fd NETDUMP_DATASIZE NETDUMP_KDH NETDUMP_VMCORE
             NETDUMP_FINISHED sizeof_netdump_msg_hdr sizeof_kerneldumpheader
             (daemon [(1%positive, donor 990 true 0 0)] 990 995) in
  fst X = Done Again /\
  count_ev is_clock (trace (snd X)) = 2%nat /\
  g_now (snd X) = 1000 /\
  option_map last_msg (lookup 1%positive (g_clients (snd X))) = Some 1001.
Proof. vm_compute. repeat split; reflexivity. Qed.


(** * The further properties at concrete inputs *)

Lemma pair_of_fst {A B : Type} (x : A * B) (a : A) : fst x = a -> x = (a, snd x).
Proof. destruct x. cbn. intros ->. reflexivity. Defined.

Lemma one_session_ok c : infofile c <> None -> sessions_ok 2%positive [(1%positive, c)].
Proof.
  intros Hc. split; [now apply one_client_ok|]. split.
  - cbn. constructor; [intros []|constructor].
  - intros p d [H|[]]. inversion H; subst. reflexivity.
Defined.

(** eventloop when the first kevent fails with EBADF. *)
Lemma eventloop_exit_code_witness :
  let s := mkScript [] [] [] [mkKq (-1) 9 []] [] in
  let X := eventloop (play s) g_dumpdir_fd NETDUMP_DATASIZE NETDUMP_KDH NETDUMP_VMCORE
             NETDUMP_FINISHED sizeof_netdump_msg_hdr sizeof_kerneldumpheader
             1 w0 in
  fst X = Done (Some 1) /\
  ((1 = 1 /\
    exists tr k,
      trace (snd X) = tr ++ [Ev (Kevent_wait 8 CLIENT_TPASS) k;
                             perror_event "kevent()" (k_errno k)] /\
      k_rc k < 0 /\ k_errno k <> EINTR) \/
   (1 = 0 /\ g_clients (snd X) = [] /\
    In (Ev (Log LOG_INFO "Shutting down..." []) tt) (trace (snd X)))).
Proof.
  cbv zeta.
  match goal with |- fst ?X = ?a /\ _ =>
    assert (H : fst X = a) by (vm_compute; reflexivity);
    split; [exact H|];
    exact (eventloop_exit_code _ _ _ _ _ _ _ _ _ _ _ _ (pair_of_fst X a H))
  end.
Defined.

(** A signal wakes the daemon while the session of 10.0.0.1 is open. *)
Lemma signal_ends_every_session_witness :
  let s := mkScript [] [] [1001] [mkKq 1 0 [mkKev EVFILT_SIGNAL 15 1%positive]] [] in
  let w := daemon [(1%positive, donor 1000 true 0 0)] 1000 1000 in
  let W := eventloop_wake (play s) g_dumpdir_fd NETDUMP_DATASIZE NETDUMP_KDH NETDUMP_VMCORE
             NETDUMP_FINISHED sizeof_netdump_msg_hdr sizeof_kerneldumpheader w in
  let X := eventloop_from (play s) g_dumpdir_fd NETDUMP_DATASIZE NETDUMP_KDH NETDUMP_VMCORE
             NETDUMP_FINISHED sizeof_netdump_msg_hdr sizeof_kerneldumpheader 1 w in
  fst W = Done Goto_out /\ fst X = Done (Some 0) /\ g_clients (snd X) = [].
Proof.
  cbv zeta.
  match goal with |- fst ?W = ?a /\ fst ?X = _ /\ _ =>
    assert (HW : fst W = a) by (vm_compute; reflexivity);
    assert (Hcl : map (fun qc => infofile (snd qc)) (g_clients (snd W)) = [Some 11])
      by (vm_compute; reflexivity);
    assert (Hinf : forall p c, In (p, c) (g_clients (snd W)) -> infofile c <> None)
      by (intros p c Hin;
          apply (in_map (fun qc => infofile (snd qc))) in Hin;
          rewrite Hcl in Hin; destruct Hin as [E|[]]; cbn [snd] in E;
          rewrite <- E; discriminate);
    split; [exact HW|];
    destruct (signal_ends_every_session _ _ _ _ _ _ _ _ 0 _ _ _ _
                (pair_of_fst W a HW) Hinf (surjective_pairing X)) as (Hr & Hc & _)
  end.
  split; [exact Hr|exact Hc].
Defined.

(** Started without a script, the daemon ends a stale session and asks
    the handler worker for nothing. *)
Lemma without_script_no_handler_request_witness :
  let s := mkScript [] [] [2000] [mkKq 0 0 []] [] in
  let w := mkWorld [(1%positive, donor 1000 true 0 0)] false 3 1000 1000 0 2%positive [] in
  let X := eventloop (play s) g_dumpdir_fd NETDUMP_DATASIZE NETDUMP_KDH NETDUMP_VMCORE
             NETDUMP_FINISHED sizeof_netdump_msg_hdr sizeof_kerneldumpheader 1 w in
  g_clients (snd X) = [] /\
  exists evs, trace (snd X) = trace w ++ evs /\ existsb is_handler_request evs = false.
Proof.
  cbv zeta. split; [vm_compute; reflexivity|].
  exact (without_script_no_handler_request (play (mkScript [] [] [2000] [mkKq 0 0 []] [])) g_dumpdir_fd
           NETDUMP_DATASIZE NETDUMP_KDH NETDUMP_VMCORE
           NETDUMP_FINISHED sizeof_netdump_msg_hdr sizeof_kerneldumpheader 1
           (mkWorld [(1%positive, donor 1000 true 0 0)] false 3 1000 1000 0 2%positive [])
           eq_refl).
Defined.

(** A herald from 10.0.0.2 while the session of 10.0.0.1 is open. *)
Lemma eventloop_keeps_sessions_ok_witness :
  let s := mkScript [mkHerald 0 20 167772162 1 "/var/crash"] [] [1001]
             [mkKq 1 0 [mkKev EVFILT_READ 3 1%positive]] [] in
  let w := daemon [(1%positive, donor 1000 true 0 0)] 1000 1000 in
  let X := eventloop (play s) g_dumpdir_fd NETDUMP_DATASIZE NETDUMP_KDH NETDUMP_VMCORE
             NETDUMP_FINISHED sizeof_netdump_msg_hdr sizeof_kerneldumpheader 1 w in
  daemon_ok w /\ List.length (g_clients (snd X)) = 2%nat /\ daemon_ok (snd X).
Proof.
  cbv zeta.
  assert (Hok : daemon_ok (daemon [(1%positive, donor 1000 true 0 0)] 1000 1000))
    by (apply one_session_ok; discriminate).
  split; [exact Hok|]. split; [vm_compute; reflexivity|].
  exact (eventloop_keeps_sessions_ok _ _ _ _ _ _ _ _ 1 _ Hok).
Defined.

(** A datagram of ten bytes, shorter than the header. *)
Lemma client_event_drops_bad_datagrams_witness :
  let c := donor 1000 true 0 0 in
  let w := daemon [(1%positive, c)] 1000 1000 in
  let s := mkScript [] [mkRecv 10 0 no_pkt] [] [] [] in
  let X := client_event (play s) g_dumpdir_fd NETDUMP_DATASIZE NETDUMP_KDH NETDUMP_VMCORE
             NETDUMP_FINISHED sizeof_netdump_msg_hdr sizeof_kerneldumpheader
             1%positive w in
  exists rr evs,
    trace (snd X) = trace w ++ Ev (Recv (sock c)) rr :: evs /\
    (r_len rr < 0 -> r_errno rr = EAGAIN \/ r_errno rr = EINTR ->
     fst X = Done tt /\ evs = [] /\ g_clients (snd X) = g_clients w) /\
    (0 <= r_len rr -> ~ accepted sizeof_netdump_msg_hdr rr ->
     fst X = Done tt /\ g_clients (snd X) = g_clients w /\
     exists line, evs = [line] /\ is_log line = true).
Proof.
  cbv zeta.
  exact (client_event_drops_bad_datagrams
           (play (mkScript [] [mkRecv 10 0 no_pkt] [] [] [])) g_dumpdir_fd
           NETDUMP_DATASIZE NETDUMP_KDH NETDUMP_VMCORE
           NETDUMP_FINISHED sizeof_netdump_msg_hdr sizeof_kerneldumpheader
           1%positive (daemon [(1%positive, donor 1000 true 0 0)] 1000 1000)
           (donor 1000 true 0 0) 11 _ _ eq_refl eq_refl (surjective_pairing _)).
Defined.

(** A datagram of type 9, header only. *)
Lemma client_event_unknown_type_witness :
  let c := donor 1000 true 0 0 in
  let w := daemon [(1%positive, c)] 1000 1000 in
  let s := mkScript [] [mkRecv 24 0 (mkPkt 9 1 0 0 [])] [1001] [] [] in
  let X := client_event (play s) g_dumpdir_fd NETDUMP_DATASIZE NETDUMP_KDH NETDUMP_VMCORE
             NETDUMP_FINISHED sizeof_netdump_msg_hdr sizeof_kerneldumpheader
             1%positive w in
  exists rr evs, trace (snd X) = trace w ++ Ev (Recv (sock c)) rr :: evs.
Proof.
  cbv zeta.
  destruct (client_event_unknown_type
              (play (mkScript [] [mkRecv 24 0 (mkPkt 9 1 0 0 [])] [1001] [] [])) g_dumpdir_fd
              NETDUMP_DATASIZE NETDUMP_KDH NETDUMP_VMCORE
              NETDUMP_FINISHED sizeof_netdump_msg_hdr sizeof_kerneldumpheader
              1%positive (daemon [(1%positive, donor 1000 true 0 0)] 1000 1000)
              (donor 1000 true 0 0) 11 _ _ eq_refl eq_refl (surjective_pairing _))
    as (rr & evs & Ht & _).
  exists rr, evs. exact Ht.
Defined.

(** recv fails with ECONNRESET. *)
Lemma client_event_recv_failure_witness :
  let c := donor 1000 true 0 0 in
  let w := daemon [(1%positive, c)] 1000 1000 in
  let s := mkScript [] [mkRecv (-1) 54 no_pkt] [] [] [] in
  let X := client_event (play s) g_dumpdir_fd NETDUMP_DATASIZE NETDUMP_KDH NETDUMP_VMCORE
             NETDUMP_FINISHED sizeof_netdump_msg_hdr sizeof_kerneldumpheader
             1%positive w in
  exists rr evs, trace (snd X) = trace w ++ Ev (Recv (sock c)) rr :: evs.
Proof.
  cbv zeta.
  destruct (client_event_recv_failure
              (play (mkScript [] [mkRecv (-1) 54 no_pkt] [] [] [])) g_dumpdir_fd
              NETDUMP_DATASIZE NETDUMP_KDH NETDUMP_VMCORE
              NETDUMP_FINISHED sizeof_netdump_msg_hdr sizeof_kerneldumpheader
              1%positive (daemon [(1%positive, donor 1000 true 0 0)] 1000 1000)
              (donor 1000 true 0 0) 11 _ _
              ltac:(cbn; constructor; [intros []|constructor])
              eq_refl eq_refl (surjective_pairing _))
    as (rr & evs & Ht & _).
  exists rr, evs. exact Ht.
Defined.

(** A KDH packet of four bytes, too small for a header. *)
Lemma handle_kdh_flushes_before_ack_witness :
  let c := donor 1000 false 0 0 in
  let w := daemon [(1%positive, c)] 1000 1000 in
  let pkt := mkPkt NETDUMP_KDH 2 0 4 [1; 2; 3; 4] in
  let X := handle_kdh (play quiet) sizeof_kerneldumpheader 1%positive pkt w in
  fst X = Done tt /\
  g_clients (snd X) = update 1%positive (set_any_data_rcvd true) (g_clients w).
Proof.
  cbv zeta.
  destruct (handle_kdh_flushes_before_ack (play quiet) sizeof_kerneldumpheader
              1%positive (mkPkt NETDUMP_KDH 2 0 4 [1; 2; 3; 4])
              (daemon [(1%positive, donor 1000 false 0 0)] 1000 1000)
              (donor 1000 false 0 0) 11 _ _ eq_refl eq_refl (surjective_pairing _))
    as (Hr & Hc & _).
  split; [exact Hr|exact Hc].
Defined.

(** The session of 10.0.0.1 is ended. *)
Lemma handle_timeout_releases_witness :
  let c := donor 1000 true 0 0 in
  let w := daemon [(1%positive, c)] 1000 1000 in
  let X := handle_timeout (play quiet) 1%positive w in
  fst X = Done tt /\ lookup 1%positive (g_clients (snd X)) = None.
Proof.
  cbv zeta.
  destruct (handle_timeout_releases (play quiet) 1%positive
              (daemon [(1%positive, donor 1000 true 0 0)] 1000 1000)
              (donor 1000 true 0 0) 11 _ _
              ltac:(cbn; constructor; [intros []|constructor])
              eq_refl eq_refl (surjective_pairing _))
    as (Hr & Hl & _).
  split; [exact Hr|exact Hl].
Defined.

(** The first herald the daemon receives, from 10.0.0.2. *)
Lemma server_event_new_donor_witness :
  let s := mkScript [mkHerald 0 20 167772162 1 "/var/crash"] [] [] [] [] in
  let X := server_event (play s) g_dumpdir_fd w0 in
  clients_ok (g_clients w0) /\
  exists h evs,
    trace (snd X) = trace w0 ++ Ev Cap_herald h :: evs /\
    (h_error h <> 0 ->
     fst X = Done 0 /\ g_clients (snd X) = g_clients w0 /\
     exists line, evs = [line] /\ is_log line = true) /\
    (h_error h = 0 -> find_client (h_saddr h) (g_clients w0) = None ->
     fst X = Done 0 /\
     exists res wa pre,
       alloc_client (play s) g_dumpdir_fd (h_sd h) (h_saddr h) (h_path h)
         (log_event (Ev Cap_herald h) w0)
       = (Done res, wa) /\
       trace wa = trace w0 ++ Ev Cap_herald h :: pre /\
       existsb is_send pre = false /\
       g_clients (snd X) = g_clients wa /\
       match res with
       | None =>
         g_clients (snd X) = g_clients w0 /\ existsb is_send evs = false /\
         evs = pre ++ [Ev (Log LOG_ERR "server_event(): new client allocation failure\n" [])
                         tt]
       | Some p =>
         p = brk w0 /\
         exists c f ra logs,
           g_clients (snd X) = (p, c) :: g_clients w0 /\
           ip c = h_saddr h /\ sock c = h_sd h /\ last_msg c = g_now w0 /\
           any_data_rcvd c = false /\ vmcorebufoff c = 0 /\ infofile c = Some f /\
           evs = pre ++ welcome c f (h_seqno h) ra ++ logs /\
           forallb is_log logs = true
       end).
Proof.
  cbv zeta.
  assert (Hok : clients_ok (g_clients w0)).
  { split; [constructor|intros p c []]. }
  split; [exact Hok|].
  exact (server_event_new_donor
           (play (mkScript [mkHerald 0 20 167772162 1 "/var/crash"] [] [] [] []))
           g_dumpdir_fd w0 _ _ Hok (surjective_pairing _)).
Defined.

(** A VMCORE datagram of four bytes for the session of 10.0.0.1. *)
Lemma eventloop_never_overruns_witness :
  let s := mkScript [] [mkRecv 28 0 (mkPkt NETDUMP_VMCORE 7 0 4 [1; 2; 3; 4])]
             [1001; 1002] [mkKq 1 0 [mkKev EVFILT_READ 13 1%positive]] [] in
  let w := daemon [(1%positive, donor 1000 true 0 0)] 1000 1000 in
  let X := eventloop (play s) g_dumpdir_fd NETDUMP_DATASIZE NETDUMP_KDH NETDUMP_VMCORE
             NETDUMP_FINISHED sizeof_netdump_msg_hdr sizeof_kerneldumpheader 1 w in
  option_map vmcorebufoff (lookup 1%positive (g_clients (snd X))) = Some 4 /\
  buf_ok (g_clients (snd X)) /\
  (forall p, fst X <> Crash (BufferOverrun p)) /\ fst X <> Crash NullStream.
Proof.
  cbv zeta. split; [vm_compute; reflexivity|].
  apply eventloop_never_overruns.
  - vm_compute. split; discriminate.
  - intros h sd. unfold play. cbn [sc_packets].
    destruct (count_ev is_recv h) as [|[|k]]; vm_compute; discriminate.
  - apply one_session_ok; discriminate.
  - intros p c [E|[]]. apply (f_equal snd) in E. cbn [snd] in E. subst c.
    unfold donor. cbn [vmcorebufoff]. unfold VMCORE_BUFSZ. lia.
Defined.

(** The limits init_cap_mode sets, and the request for a session that
    timed out. *)
Lemma accepted_limits_run_the_script_witness :
  let lim := [("handlerfd", NvDescriptor 7);
              ("handler_script", NvString (NvStr "/usr/local/sbin/dumped"))]%string in
  let X := handler_command in_child "exec_handler" (Some lim)
             (as_nvlist (handler_request "timeout" (donor 1000 true 0 0))) in
  handler_limits None lim = 0 /\ fst X <> Aborted.
Proof.
  cbv zeta. split; [reflexivity|].
  destruct (accepted_limits_run_the_script in_child
              [("handlerfd", NvDescriptor 7);
               ("handler_script", NvString (NvStr "/usr/local/sbin/dumped"))]%string
              "timeout" (donor 1000 true 0 0) eq_refl)
    as (fd & script & _ & _ & H).
  cbv zeta in H. exact (proj1 H).
Defined.

(** calloc fails for the first herald: the socket 20 stays open. *)
Lemma alloc_client_descriptors_witness :
  let s := mkScript [] [] [] [] [(0%nat, 12)] in
  let X := alloc_client (play s) g_dumpdir_fd 20 167772161 "/var/crash" w0 in
  fst X = Done None /\
  exists evs res ok rest,
    fst X = Done res /\ trace (snd X) = trace w0 ++ Ev Calloc ok :: rest /\
    evs = Ev Calloc ok :: rest /\
    match res with
    | Some p =>
      exists c f,
        lookup p (g_clients (snd X)) = Some c /\ infofile c = Some f /\ sock c = 20 /\
        ledger evs [20] = [corefd c; f; 20]
    | None =>
      g_clients (snd X) = g_clients w0 /\
      ledger evs [20] = if ok then (if 20 =? -1 then [20] else []) else [20]
    end.
Proof.
  cbv zeta. split; [vm_compute; reflexivity|].
  exact (alloc_client_descriptors (play (mkScript [] [] [] [] [(0%nat, 12)])) g_dumpdir_fd
           20 167772161 "/var/crash" w0 _ _ (surjective_pairing _)).
Defined.

(** The first herald, from 10.0.0.1, whose name resolves to
    donor.example.org. *)
Lemma alloc_client_names_witness :
  let X := alloc_client (play quiet) g_dumpdir_fd 20 167772161 "/var/crash" w0 in
  fst X = Done (Some 1%positive) /\
  option_map hostname (lookup 1%positive (g_clients (snd X))) = Some "donor"%string /\
  exists c r rest i,
    lookup 1%positive (g_clients (snd X)) = Some c /\
    trace (snd X)
    = trace w0 ++ Ev Calloc true :: Ev (Cap_getnameinfo 167772161 true) r :: rest /\
    path c = snprintf MAXPATHLEN "/var/crash" /\
    (i < MAX_DUMPS)%nat /\
    infofilename c = info_name (path c) (hostname c) i /\
    corefilename c = core_name (path c) (hostname c) i.
Proof.
  cbv zeta.
  match goal with |- fst ?X = ?a /\ _ =>
    assert (H : fst X = a) by (vm_compute; reflexivity);
    split; [exact H|]; split; [vm_compute; reflexivity|];
    destruct (alloc_client_names _ _ _ _ _ _ _ _ (pair_of_fst X a H))
      as (c & r & rest & i & H1 & H2 & _ & _ & H3)
  end.
  exists c, r, rest, i. split; [exact H1|]. split; [exact H2|exact H3].
Defined.

(** A first packet of four bytes for offset 0. *)
Lemma handle_vmcore_keeps_the_data_witness :
  let c := donor 1000 true 0 0 in
  let w := daemon [(1%positive, c)] 1000 1000 in
  let pkt := mkPkt NETDUMP_VMCORE 7 0 4 [1; 2; 3; 4] in
  let X := handle_vmcore (play quiet) NETDUMP_DATASIZE 1%positive pkt w in
  fst X = Done tt /\
  exists c' evs,
    lookup 1%positive (g_clients (snd X)) = Some c' /\
    trace (snd X) = trace w ++ evs /\
    forall o, pending c' (image (corefd c) evs (fun _ => None)) o
              = write_at (pending c (fun _ => None)) (mh_offset pkt) (payload pkt) o.
Proof.
  cbv zeta.
  match goal with |- fst ?X = ?a /\ _ =>
    assert (H : fst X = a) by (vm_compute; reflexivity);
    assert (Hl : option_map vmcorebufoff (lookup 1%positive (g_clients (snd X))) = Some 4)
      by (vm_compute; reflexivity);
    split; [exact H|];
    destruct (lookup 1%positive (g_clients (snd X))) as [c'|] eqn:Hc; [|discriminate];
    destruct (handle_vmcore_keeps_the_data (play quiet) NETDUMP_DATASIZE 1%positive
                (mkPkt NETDUMP_VMCORE 7 0 4 [1; 2; 3; 4])
                (daemon [(1%positive, donor 1000 true 0 0)] 1000 1000)
                (donor 1000 true 0 0) 11 (snd X) c' (fun _ => None)
                ltac:(cbn; constructor; [intros []|constructor])
                eq_refl eq_refl
                ltac:(vm_compute; split; discriminate)
                ltac:(vm_compute; reflexivity)
                ltac:(vm_compute; split; [discriminate|reflexivity])
                ltac:(vm_compute; split; discriminate)
                ltac:(vm_compute; discriminate)
                ltac:(vm_compute; discriminate)
                ltac:(vm_compute; split; [discriminate|reflexivity])
                (pair_of_fst X a H) Hc) as (evs & Ht & Hi & _)
  end.
  exists c', evs. split; [reflexivity|]. split; [exact Ht|exact Hi].
Defined.

(** A FINISHED packet that goes through. *)
Lemma handle_finish_acknowledged_witness :
  let c := donor 1000 true 0 0 in
  let w := daemon [(1%positive, c)] 1000 1000 in
  let X := handle_finish (play quiet) g_dumpdir_fd 1%positive (mkPkt NETDUMP_FINISHED 9 0 0 []) w in
  existsb is_send (trace (snd X)) = true /\
  exists evs,
    trace (snd X) = trace w ++ evs /\
    (existsb is_send evs = true -> g_clients (snd X) = remove 1%positive (g_clients w)).
Proof.
  cbv zeta. split; [vm_compute; reflexivity|].
  destruct (handle_finish_acknowledged (play quiet) g_dumpdir_fd 1%positive
              (mkPkt NETDUMP_FINISHED 9 0 0 [])
              (daemon [(1%positive, donor 1000 true 0 0)] 1000 1000)
              (donor 1000 true 0 0) 11 _ _ (fun _ => None)
              eq_refl eq_refl
              ltac:(vm_compute; split; discriminate)
              ltac:(vm_compute; discriminate)
              (surjective_pairing _)) as (evs & Ht & H).
  exists evs. split; [exact Ht|]. intros Hs.
  exact (proj2 (proj2 (proj2 (proj2 (proj2 (proj2 (H Hs))))))).
Defined.


(** A start in which every call goes well, with a handler script and
    without -D. *)
Lemma main_enters_loop_when_ready_witness :
  let opts := [("a"%char, "10.0.0.1"%string); ("i"%char, "/usr/local/sbin/dumped"%string)] in
  let X := Startup.main Startup.all_well 20023 "netdumpd" opts Startup.at_start in
  let t := Startup.trace (snd X) in
  loop_args t = Some (3, true) /\
  fst X = Startup.Ret 0 /\
  forallb (fun ok => existsb ok (before_loop t))
    (needed (debug_option opts) (script_option opts None)) = true /\
  existsb (bound_to 3 (Startup.g_bindip (snd X)) 20023) (before_loop t) = true /\
  true = match script_option opts None with Some _ => true | None => false end.
Proof.
  cbv zeta.
  assert (H : loop_args
                (Startup.trace
                   (snd (Startup.main Startup.all_well 20023 "netdumpd"
                           [("a"%char, "10.0.0.1"%string);
                            ("i"%char, "/usr/local/sbin/dumped"%string)]
                           Startup.at_start)))
              = Some (3, true)) by (vm_compute; reflexivity).
  split; [exact H|]. split; [vm_compute; reflexivity|].
  exact (main_enters_loop_when_ready Startup.all_well 20023 "netdumpd"
           [("a"%char, "10.0.0.1"%string); ("i"%char, "/usr/local/sbin/dumped"%string)]
           3 true H).
Defined.
